(* ===== verification/_CoqProject ===== *)
-Q . S2P
Prelude.v
Binary64.v
Shortest.v
PyCore.v
PyDict.v
Number.v
FloatArith.v
Xstrtod.v
NumpySum.v
Extract.v
CsvWriter.v
Ingest.v
PyLiteral.v
Service.v
Calculator.v
App.v
Scenario.v
Conformance.v
