(* ===== verification/Prelude.v ===== *)
(** * Saving_Plan: a verification development of the expense adjuster

    The repository is a small Flask service (src/app.py) that takes a
    CSV of monthly expenses, a savings goal in percent and one category
    to leave untouched, asks a hosted language model for the adjusted
    expenses (src/expensecalculator.py), cuts the first brace span out of
    the model's free-text reply, evaluates it with Python's [eval], and
    returns the result as a two-column CSV (src/utils.py).

    ** Parts of the program and how they interact

    One request runs, strictly in sequence:
    [app.calculate_expenses] (validation of the form)
      -> [ExpenseCalculator.extract_adjusted_expenses]
           -> [Utils.parse_csv_to_expenses]      (pandas: read_csv, sum, to_dict)
           -> [ExpenseCalculator.calculate_expenses]
                 -> prompt | hub_llm              (the completion service)
                 -> [Utils.extract_expenses_string]
           -> [eval]                              (Python literal evaluation)
           -> [Utils.save_expenses_to_csv]        (csv.writer, BytesIO)
    No state survives a request; the only shared state is the
    [expense_calculator] object built once at start-up from two
    environment variables.

    ** Files of the development (in dependency order)

    - [Prelude] (this file): strings as [list ascii] ([pystr]), the
      [py_scope] notations, the hint databases [pylib] and [pyrw], the
      tactics [py_simpl], [list_lia] and [py_decide], and generic lemmas
      on lists and first occurrences ([index_of], [split_at_char]).
    - [Binary64]: Python's [float]: finite IEEE binary64 values
      ([float64], sign, integer mantissa and binary exponent, canonical
      by a boolean proof), the correctly rounded conversion of a
      fraction and of a decimal [c * 10^q] ([f64_of_frac],
      [f64_of_decimal], round half to even, as [_Py_dg_strtod] does).
    - [Shortest]: the digits of [repr(float)]: the shortest decimal
      that converts back, and the nearest of those ([shortest], a search
      over the precision as [_Py_dg_dtoa] mode 0 specifies it).
    - [PyCore]: the fragment of the Python runtime the code relies on:
      values ([pyval]: [int], [str], [float]), exceptions ([pyexc], [exc_str] for [str(e)]) and
      the error monad [pyres] with [x <- c ;; k]; [str.find] with its index
      normalisation, slicing [s[i:j]] with Python's clamping, [str(int)]
      and [int(str)] (strip, sign, underscores) with CPython 3.11's limit
      of 4300 digits on both ([int_max_str_digits], [py_str_limited],
      [py_int]), [repr(float)] in CPython's 'r' format ([repr_float]).
    - [PyDict]: [dict] as an insertion-ordered association list with
      in-place overwrite ([dict_set]), keys compared by Python's equality
      ([key_norm]: [1 == 1.0], [0.0 == -0.0]), [dict(pairs)], the key
      invariant [dict_wf] and its laws.
    - [Number], Module [Number]: the number literals of [eval]: integer
      and float literals (digit parts with underscores, point and
      exponent forms) and [float(str)]; the proofs that they read back
      what [str] prints for an [int] or a [float].
    - [FloatArith], Module [FloatArith]: IEEE double arithmetic rounded
      to nearest even: [f64_add], [f64_mul], [f64_div] and [f64_of_int]
      on the significand and exponent, each with its specification in
      units of [2^-1074] ([f64_add_spec], ...), and when they are exact.
    - [Xstrtod], Module [Xstrtod]: [precise_xstrtod], pandas' default
      float converter (pandas/_libs/src/parser/tokenizer.c), as
      [pd.read_csv] (utils.py 43) applies it to a cell: stage by stage
      ([sign_of], [int_part], [fraction_part], [exponent_stage],
      [scale]), every step a rounded double operation.
    - [NumpySum], Module [NumpySum]: numpy's [pairwise_sum] (eight
      accumulators, blocks of 128, halves cut at a multiple of 8), in a
      Section over any addition, and its float64 instance: [np_add_reduce]
      and pandas' [nansum] of a float64 column, what [df.sum(axis=0)]
      (utils.py 45) computes on a float64 block.
    - [Extract], Module [Extractor]: [Utils.extract_expenses_string]
      (utils.py 11-28) with the source's index arithmetic, and a
      structural reference.
    - [CsvWriter], Module [CsvWriter]: [csv.writer] with the default
      dialect and [Utils.save_expenses_to_csv] (utils.py 48-80) down to
      the UTF-8 bytes in a [BytesIO] at position 0; a CSV reader and a
      UTF-8 decoder serve as the oracle of the round trip.
    - [Ingest], Module [Ingest]: [Utils.parse_csv_to_expenses] (utils.py
      31-46): a DataFrame of int64, float64 and object columns,
      [df.sum(axis=0)] block by block (numpy's int64 wrap-around
      [wrap64], [NumpySum.nansum], string concatenation) interleaved to
      the common dtype ([series_values]), [to_dict]; and [read_table],
      the behaviour of [pd.read_csv] with its defaults: the records of
      the text (quoted fields included, empty and whitespace-only
      lines skipped), the header
      as labels, and each column typed int64, float64 (empty fields as
      NaN, other cells through [Xstrtod.double_cell]) or object
      (strings) as pandas infers it.
    - [PyLiteral], Module [PyLiteral]: [repr] of a dict of [str]/[int]/[float]
      (what [{expenses}] puts in the prompt) and [py_eval], the fragment
      of [eval] (expensecalculator.py 110) on flat dict and set displays.
    - [Service]: the request monad [io] (a log of the prompts sent, and
      exceptions), [io_try] for [try/except], and the three interfaces of
      the libraries the code only calls, as [Class]es with laws:
      [CompletionService] ([hub_llm.invoke]), [PandasReader]
      ([pd.read_csv], agreeing with [read_table]) and [PythonEval]
      ([eval], agreeing with [py_eval]).
    - [Calculator], Module [Calculator]: [ExpenseCalculator]: the
      endpoint and the prompt template of [__init__] (10-58),
      [calculate_expenses] (60-83) and [extract_adjusted_expenses]
      (85-115), in a Section over the three interfaces.
    - [App], Module [App]: app.py: the start-up ([startup], lines 8-14)
      and the view [calculate_expenses] (19-46) with its validation, its
      [try/except] and both kinds of response.
    - [Scenario]: concrete instances of the interfaces and, on the
      spec's example request and variants of it, the witnesses of the
      pipeline theorems.
    - [Conformance]: examples that pin the definitions to CPython 3.11
      (the interpreter whose messages and formats are modelled): the
      extractor, [repr] of strings and floats, [int], [csv.writer], [eval]
      (float literals included) and the prompt, each
      right-hand side printed by CPython on the same input.

    ** What the theorems show

    - Extractor: the span theorem (first '{' to first '}' after it), the
      equivalence of the index arithmetic with the reference, every other
      branch (no '{'; no closing '}'; a stray final '}' kept), that the
      result is always a contiguous piece of the reply, and idempotence.
    - Emitter: for every dict whose [int] keys and amounts have at
      most 4300 digits, the bytes decode and read back as the header and
      one row per item in order (quoting of commas, quotes, CR and LF
      included), and on any other dict [str] raises CPython's
      [ValueError]; for [str] keys and [int] or [float] amounts, [int],
      else [float], of the cells gives the dict back ([repr(float)] is
      the shortest decimal that round-trips).
    - Floats: a decimal literal becomes the double nearest to its
      exact value (distances counted exactly, in units of [2^-1074]);
      the conversion overflows exactly from the halfway point above the
      largest double, is monotone, and the decimals that convert to one
      double form an interval; the digits [repr] prints convert back,
      no decimal with fewer significant digits does, and none with as
      many is nearer; [float(repr(x)) = x] and [int(repr(x))] fails,
      for every double.
    - Float columns: pandas' converter reads a decimal of at most 15
      digits with exponent within 22 as Python's [float] does, the
      correctly rounded double (every intermediate double is exact),
      but keeps only 17 digits of longer cells ([XstrtodWitness]);
      numpy's sum of a column of at most [2^k * 113 + 15] values is
      within [(1 + 2^-53)^(25 + k) - 1] times the sum of the magnitudes
      of the exact sum (the depth of the pairwise tree, [pairwise_depth],
      times the unit roundoff of one addition, [f64_add_error]); a sum of
      [n] values of magnitude at most [2^k] is finite
      and at most [n * 2^k], and a sum of whole amounts below [2^53] in
      total is exact, whatever tree the pairwise order builds
      ([pairwise_tree]: the result is the rounded evaluation of a binary
      tree whose leaves are the inputs).
    - Literals: [eval(str(d)) = d] for every well-formed dict of [str],
      [int] and [float] keys and values; a dict display with a repeated key
      keeps the last value at the first position ([PyDict]).
    - Ingestor: from the text of a CSV file of int64 columns, the
      column sums in column order, each wrapped to int64; with one
      empty field anywhere, every total a float, still the exact sum
      (missing amounts count as 0); [0.1] and [0.2] sum to
      [0.30000000000000004];
      the wrap-around bounds; object columns concatenate; and the file
      the emitter writes, uploaded again, is read as the two columns
      [Category] and [Amount], so the service answers the names
      concatenated and the total, not the dict (the output format is
      not the input format).
    - Calculator: the reply-is-a-dict case (one prompt, the CSV of the
      dict in the reply); the NameError of
      JSON's [null], [true], [false]; the [AttributeError] of a reply
      that is a set of amounts; the '}' inside a category name;
      and, for a fixed excluded category, that the prompt determines the
      expense dict and the goal it was built from.
    - App: the two 400 answers with no outbound call; the 500 answers
      on an upstream failure and on a malformed reply (the [SyntaxError]
      of a reply without braces); the unchecked range of the savings
      goal, up to the 4300-digit limit of [int], above which the goal is
      refused with 400.

    ** Fuel and bounds

    [CsvWriter.read_rows] and [read_record] take fuel: each is given
    the length of the text still to read plus one; a record consumes at
    least one character and a record has at most one more field than
    it has characters, so the fuel never runs out on text the writer
    produced ([read_csv_text_write] proves the read succeeds).
    [PyLiteral.parse_entries] and [parse_elems] take fuel bounded by the
    number of entries; any fuel above the text's length gives the same
    answer ([py_eval_fuel_enough]), so a [None] never comes from fuel;
    [py_eval] gives it the length of the text after the '{' plus one, more than the number of items of any [repr_dict]
    ([length_repr_items]).
    [Shortest.shortest] tries 1, 2, ... significant digits with fuel
    [max 17 (k + 1075)] for a value of decimal exponent [k]: at
    [k + 1074] digits the candidate is the exact value of the double
    (every double is a multiple of [2^-1074], hence of [10^-1074]), so
    the search stops by then ([shortest_spec] proves it returns).
    [NumpySum.pairwise_sum] takes fuel for the depth of its halving:
    [pairwise] gives it the length of the row, and each halving
    shortens the row ([split_point_lt]), so any fuel at least the
    length gives the same sum ([pairwise_sum_fuel]).  The accuracy
    theorem [np_add_reduce_error] counts the depth of the tree: at most
    24 additions in a block of 128 (the worst block has 127 values),
    one more per halving, one for the [-0.0] the reduction starts from;
    a row of at most [2^k * 113 + 15] values has depth at most [25 + k],
    so the 8192 rows the ingestor keeps ([k = 7]) sum within [2^-47] of
    the magnitudes ([accuracy_k7]).  The ingestor
    keeps float64 columns to [float_rows_max] = 8192 rows, the size of
    numpy's reduction buffer: a longer row is summed buffer by buffer,
    not modelled.  The missing-amounts theorem bounds amounts by
    [2^40]: 8192 of them total less than [2^53], where doubles hold
    every integer, and [str] of them has at most 13 digits, within the
    15 the converter reads exactly.
    Integers are [Z]; int64 arithmetic is [wrap64] written out, the
    C [int] of the exponent in [precise_xstrtod] is [wrap32].

    ** What is not modelled, and why

    - The Flask framework, dotenv and [send_file]'s HTTP encoding: I/O;
      the environment enters as a record, a response as a value.
    - The completion service: an interface whose replies may depend on
      the prompt and the call count, or raise; no property of its
      arithmetic is assumed.  The call always returns in the model: the
      code sets no timeout, and a call that hangs is not modelled.
    - [eval] as the execution of code: CPython evaluates the reply as
      an arbitrary expression with the method's locals ([self]) and the
      builtins in scope, so [exit()] raises [SystemExit], which
      [except Exception] does not catch, [self.calculate_expenses(...)]
      sends more prompts, and [setattr(self, ...)] changes the
      calculator shared by later requests.  The model's [PythonEval] is
      a function from the text to a value or an exception of [pyexc],
      all of which [io_try] catches (there is no [BaseException] in the
      model): it is fixed on the literal fragment only, and these
      behaviours are outside the model (a finding of the manifest).
    - CPython's 4300-digit limit is modelled where the code converts
      between [int] and [str] on data: [str] of the amounts in
      [writerow] and [int] of the savings goal.  [repr] of the prompt's
      dict (int64 sums, at most 20 digits) never reaches it.  [eval] of
      an integer literal of more than 4300 digits, which CPython
      refuses, is accepted by the model's literal fragment; such an
      amount then makes [str] raise in [save_expenses_to_csv], so the
      request answers 500 in both, with another message.
    - pandas' [read_csv] beyond tables of int64, float64 and string
      columns (bool and NaN-word columns, float cells with white space,
      integers beyond int64 that pandas reads as uint64, float columns
      longer than 8192 rows or with an infinite sum, ragged rows,
      renamed labels, a header without rows, whose sum depends on the
      pandas version, a line holding a single empty quoted field, which
      the model's reader cannot tell from a blank line, bare CR line
      ends: [None]; the words pandas may read as missing, boolean or
      infinite are matched case-insensitively, a superset of its lists,
      so the model never guesses a string where pandas converts) and
      [eval] beyond flat dict and set displays of [str], [int] and
      [float] (nested containers, calls): both are interfaces whose
      laws fix them on the fragments.
    - The floating-point environment of the compiled libraries:
      [precise_xstrtod] is modelled with each operation rounded to
      nearest double, as on x86-64 with SSE2; a build that contracts
      [number * 10. + d] into a fused multiply-add may differ in the
      last bit on cells of more than 15 digits.  The sign of a sum of
      zeros follows numpy 1.25 and later (identity [-0.0]).
    - Infinities and NaN: a float literal too large for a double
      evaluates to [inf] in CPython; [f64_of_decimal] returns [None]
      there, outside the fragment, and [float64] has only finite values.
    - Concurrency: requests are modelled one at a time against the
      calculator built at start-up, which the model never changes.
    - Validation that the libraries do when objects are built (for
      instance [HuggingFaceEndpoint] without a repo id when [MODEL_NAME]
      is unset): [startup] always succeeds in the model.
    - Strings are sequences of code points below 256 ([ascii]); UTF-8
      encodes them in one or two bytes, as CPython does for them.

    ** Plan for the next extensions

    A deterministic reference calculator in [Q] for the spec's
    proportional reduction, with the theorem that a reply computed by it
    is saved exactly; the prompt's content (each field appears where the
    template puts it); float columns of [read_csv]. *)

From stdpp Require Export base list decidable strings sets.
From Stdlib Require Export Ascii ZArith Lia.

(** Python strings are sequences of code points; the development uses
    [list ascii] so that list lemmas apply. *)
Abbreviation pystr := (list ascii).

(** A string literal of the source, as a [pystr]. *)
Definition lit (s : string) : pystr := String.list_ascii_of_string s.

Declare Scope py_scope.
Delimit Scope py_scope with py.
Open Scope py_scope.

Notation "'CH_LBRACE'" := "{"%char (only parsing) : py_scope.
Notation "'CH_RBRACE'" := "}"%char (only parsing) : py_scope.
Notation "'CH_COMMA'" := ","%char (only parsing) : py_scope.
Notation "'CH_DQUOTE'" := (Ascii.ascii_of_nat 34) (only parsing) : py_scope.
Notation "'CH_CR'" := "013"%char (only parsing) : py_scope.
Notation "'CH_LF'" := "010"%char (only parsing) : py_scope.

Create HintDb pylib discriminated.
Create Rewrite HintDb pyrw.

(** ** First occurrence of a character *)

(** Index of the first occurrence of [c] in [l]. *)
Fixpoint index_of (c : ascii) (l : pystr) : option nat :=
  match l with
  | [] => None
  | x :: l' => if decide (x = c) then Some 0 else S <$> index_of c l'
  end.

(** The longest prefix of [l] free of [c], and what follows [c]. *)
Fixpoint split_at_char (c : ascii) (l : pystr) : option (pystr * pystr) :=
  match l with
  | [] => None
  | x :: l' =>
      if decide (x = c) then Some ([], l')
      else (fun '(p, s) => (x :: p, s)) <$> split_at_char c l'
  end.

Lemma index_of_None c l : index_of c l = None <-> c ∉ l.
Proof.
  induction l as [|x l IH]; simpl; [set_solver|].
  case_decide; subst; [split; [done|set_solver]|].
  rewrite fmap_None, IH. set_solver.
Qed.

Lemma index_of_app_notin c pre post :
  c ∉ pre -> index_of c (pre ++ c :: post) = Some (length pre).
Proof.
  induction pre as [|x pre IH]; intros Hn; simpl.
  - by rewrite decide_True.
  - rewrite decide_False by set_solver. rewrite IH by set_solver. done.
Qed.

Lemma index_of_Some c l i :
  index_of c l = Some i ->
  exists pre post, l = pre ++ c :: post /\ length pre = i /\ c ∉ pre.
Proof.
  revert i. induction l as [|x l IH]; intros i; simpl; [done|].
  case_decide; subst.
  - intros [= <-]. exists [], l. split_and!; [done|done|set_solver].
  - intros (j & Hj & ->)%fmap_Some.
    destruct (IH j Hj) as (pre & post & -> & <- & Hn).
    exists (x :: pre), post. split_and!; [done|done|set_solver].
Qed.

Lemma split_at_char_app c pre post :
  c ∉ pre -> split_at_char c (pre ++ c :: post) = Some (pre, post).
Proof.
  induction pre as [|x pre IH]; intros Hn; simpl.
  - by rewrite decide_True.
  - rewrite decide_False by set_solver. rewrite IH by set_solver. done.
Qed.

Lemma split_at_char_None c l : split_at_char c l = None <-> c ∉ l.
Proof.
  induction l as [|x l IH]; simpl; [set_solver|].
  case_decide; subst; [split; [done|set_solver]|].
  rewrite fmap_None, IH. set_solver.
Qed.

Lemma split_at_char_Some c l p s :
  split_at_char c l = Some (p, s) -> l = p ++ c :: s /\ c ∉ p.
Proof.
  revert p. induction l as [|x l IH]; intros p; simpl; [done|].
  case_decide; subst.
  - intros [= <- <-]. split; [done|set_solver].
  - intros ([p' s'] & Hrec & Hps)%fmap_Some. injection Hps as Hp Hs; subst p s.
    destruct (IH p' Hrec) as [-> Hn]. split; [done|set_solver].
Qed.

(** Cutting at the first [c] determines both sides. *)
Lemma split_at_char_unique (c : ascii) (p1 p2 s1 s2 : pystr) :
  c ∉ p1 -> c ∉ p2 -> p1 ++ c :: s1 = p2 ++ c :: s2 -> p1 = p2 /\ s1 = s2.
Proof.
  intros H1 H2 Heq. pose proof (split_at_char_app c p1 s1 H1) as E1.
  rewrite Heq, split_at_char_app in E1 by done. by injection E1 as -> ->.
Qed.

#[export] Hint Resolve index_of_app_notin split_at_char_app : pylib.
#[export] Hint Rewrite index_of_app_notin split_at_char_app using set_solver : pyrw.

(** ** Generic list facts used by several components *)

Lemma take_drop_middle_app {A} (pre mid post : list A) :
  take (length mid) (drop (length pre) (pre ++ mid ++ post)) = mid.
Proof. rewrite drop_app_length. apply take_app_length. Qed.

#[export] Hint Resolve take_drop_middle_app : pylib.

(** [py_simpl] unfolds the small lemma set the components share. *)
Ltac py_simpl :=
  repeat first
    [ progress simpl
    | rewrite length_app
    | rewrite drop_app_length
    | rewrite take_app_length ].

(** Arithmetic on lengths of concatenations. *)
Ltac list_lia :=
  repeat first
    [ progress simpl | rewrite !length_app | rewrite !length_rev | rewrite !length_map ];
  lia.

(** Closes a decidable proposition on concrete data by evaluation. *)
Ltac py_decide :=
  match goal with |- ?P => apply (bool_decide_unpack P); vm_compute; exact I end.

Lemma existsb_false_Forall {A} (p : A -> bool) (l : list A) :
  existsb p l = false -> Forall (fun x => p x = false) l.
Proof.
  induction l as [|x l IH]; simpl; [constructor|].
  intros [H1 H2]%orb_false_iff. constructor; auto.
Qed.
