(* ===== verification/Binary64.v ===== *)
(** * Binary64: CPython's [float] on the values a reply can hold

    A finite IEEE 754 double as its sign, integer mantissa and binary
    exponent in canonical form ([float64]), and the correctly rounded
    conversion of a fraction and of a decimal literal, what [eval] does
    with [859.99] (CPython's [_Py_dg_strtod], round half to even).  The
    theorems: the conversion gives a nearest double (C25), it is
    monotone, and the decimals that convert to one double form an
    interval.  The shortest decimal that converts back, which [repr]
    prints, is in Shortest.v.

    Infinities and NaN are not values of this type: no literal of the
    [eval] fragment produces one, since a literal too large for a double
    is outside the fragment ([f64_of_decimal] says [None]). *)

From S2P Require Import Prelude.
From Stdlib Require Import DecimalPos.
Local Open Scope Z_scope.

(** ** The format *)

(** A normal double has a 53-bit mantissa with its top bit set and an
    exponent from -1074 to 971 (of the last mantissa bit); a subnormal
    or zero one has a smaller mantissa and the least exponent. *)
Definition canonical (m e : Z) : bool :=
  (0 <=? m) && (m <? 2 ^ 53) && (-1074 <=? e) && (e <=? 971)
  && ((2 ^ 52 <=? m) || (e =? -1074)).

(** The value is [(-1)^f_neg * f_man * 2^f_exp]. *)
Record float64 : Type := F64 {
  f_neg : bool;
  f_man : Z;
  f_exp : Z;
  f_canon : canonical f_man f_exp = true
}.

Lemma float64_eq (x y : float64) :
  f_neg x = f_neg y -> f_man x = f_man y -> f_exp x = f_exp y -> x = y.
Proof. destruct x, y; simpl; intros -> -> ->. f_equal. apply proof_irrel. Qed.

#[export] Instance float64_eq_dec : EqDecision float64.
Proof.
  intros x y.
  destruct (decide ((f_neg x, f_man x, f_exp x) = (f_neg y, f_man y, f_exp y))) as [E|E].
  - left. injection E as E1 E2 E3. by apply float64_eq.
  - right. intros ->. done.
Defined.

(** The double with these fields, if they are canonical. *)
Definition mk_f64 (neg : bool) (m e : Z) : option float64 :=
  match decide (canonical m e = true) with
  | left H => Some (F64 neg m e H)
  | right _ => None
  end.

Definition f64_zero (neg : bool) : float64 := F64 neg 0 (-1074) eq_refl.

(** Unary minus flips the sign, also of zero: [-0.0]. *)
Definition f64_opp (x : float64) : float64 :=
  F64 (negb (f_neg x)) (f_man x) (f_exp x) (f_canon x).

Definition f64_abs (x : float64) : float64 :=
  F64 false (f_man x) (f_exp x) (f_canon x).

(** The magnitude [m * 2^e] as a fraction [n / d]. *)
Definition frac_of (m e : Z) : Z * Z := (m * 2 ^ Z.max 0 e, 2 ^ Z.max 0 (- e)).

(** The integer a float is equal to, if its value is an integer: what
    [==] and [hash] compare a float with an [int] by. *)
Definition f64_int_value (x : float64) : option Z :=
  let v := if 0 <=? f_exp x then Some (f_man x * 2 ^ f_exp x)
           else if f_man x mod 2 ^ (- f_exp x) =? 0 then Some (f_man x / 2 ^ (- f_exp x))
           else None in
  (fun z => if f_neg x then - z else z) <$> v.

(** ** Correctly rounded conversion of a positive fraction *)

(** [n / d >= 2^k], for positive [n] and [d]. *)
Definition ge_pow2 (n d k : Z) : bool := d * 2 ^ Z.max 0 k <=? n * 2 ^ Z.max 0 (- k).

(** [floor (log2 (n / d))]: the difference of the bit lengths is that
    or one more. *)
Definition ilog2 (n d : Z) : Z :=
  let l := Z.log2 n - Z.log2 d in if ge_pow2 n d l then l else l - 1.

(** The quotient [q] with remainder [r] over [den], rounded half to even. *)
Definition round_half_even (q r den : Z) : Z :=
  if (den <? 2 * r) || ((2 * r =? den) && Z.odd q) then q + 1 else q.

(** The double nearest to [n / d] as mantissa and exponent (ties to an
    even mantissa); [None] when it overflows to infinity.  The exponent
    of the last mantissa bit is [floor (log2 (n/d)) - 52], or -1074 for
    a subnormal result; rounding up to [2^53] moves to the next binade. *)
Definition round_pos (n d : Z) : option (Z * Z) :=
  let e := Z.max (-1074) (ilog2 n d - 52) in
  let num := n * 2 ^ Z.max 0 (- e) in
  let den := d * 2 ^ Z.max 0 e in
  let m := round_half_even (num / den) (num mod den) den in
  let '(m', e') := if m =? 2 ^ 53 then (2 ^ 52, e + 1) else (m, e) in
  if 971 <? e' then None else Some (m', e').

(** ** Decimal literals *)

(** [c * 10^q] as a fraction. *)
Definition dec_frac (c q : Z) : Z * Z := (c * 10 ^ Z.max 0 q, 10 ^ Z.max 0 (- q)).

(** The double nearest to the fraction [n / d] ([n >= 0], [d > 0]):
    [None] when it overflows. *)
Definition f64_of_frac (n d : Z) : option float64 :=
  if n =? 0 then Some (f64_zero false)
  else match round_pos n d with
       | Some (m, e) => mk_f64 false m e
       | None => None
       end.

(** The double a literal with digits [c] and decimal exponent [q]
    denotes, as [float] parses it: [None] when it overflows. *)
Definition f64_of_decimal (c q : Z) : option float64 :=
  f64_of_frac (dec_frac c q).1 (dec_frac c q).2.

(** The value of a double in units of the least subnormal, [2^-1074]:
    every double is a whole number of them. *)
Definition f64_units (x : float64) : Z :=
  let u := f_man x * 2 ^ (f_exp x + 1074) in if f_neg x then - u else u.

(** The least value that overflows: halfway between the largest double,
    [(2^53 - 1) * 2^971], and [2^1024]. *)
Definition overflow_bound : Z := (2 ^ 54 - 1) * 2 ^ 970.

(** ** Laws of the rounding *)

Section Rounding.
Implicit Types (n d k s t : Z).

Lemma leb_mul_pos a b c : 0 < c -> (a * c <=? b * c) = (a <=? b).
Proof. intros Hc. apply eq_true_iff_eq. rewrite !Z.leb_le. nia. Qed.

Lemma ltb_mul_pos a b c : 0 < c -> (a * c <? b * c) = (a <? b).
Proof. intros Hc. apply eq_true_iff_eq. rewrite !Z.ltb_lt. nia. Qed.

Lemma eqb_mul_pos a b c : 0 < c -> (a * c =? b * c) = (a =? b).
Proof. intros Hc. apply eq_true_iff_eq. rewrite !Z.eqb_eq. nia. Qed.

(** [ge_pow2] with both sides multiplied by [2^t]. *)
Lemma ge_pow2_shift n d k t :
  0 <= t -> 0 <= k + t -> ge_pow2 n d k = (d * 2 ^ (k + t) <=? n * 2 ^ t).
Proof.
  intros Ht Hkt. unfold ge_pow2.
  destruct (Z.leb_spec 0 k) as [Hk|Hk].
  - rewrite (Z.max_r 0 k), (Z.max_l 0 (- k)) by lia. rewrite Z.pow_add_r by lia.
    rewrite Z.pow_0_r, Z.mul_1_r, Z.mul_assoc. symmetry. apply leb_mul_pos. lia.
  - rewrite (Z.max_l 0 k), (Z.max_r 0 (- k)) by lia. rewrite Z.pow_0_r, Z.mul_1_r.
    replace (2 ^ t) with (2 ^ (k + t) * 2 ^ (- k)) by (rewrite <- Z.pow_add_r by lia; f_equal; lia).
    replace (n * (2 ^ (k + t) * 2 ^ (- k))) with (n * 2 ^ (- k) * 2 ^ (k + t)) by ring.
    symmetry. apply leb_mul_pos. lia.
Qed.

Lemma ge_pow2_mono n d k k' :
  0 < d -> k' <= k -> ge_pow2 n d k = true -> ge_pow2 n d k' = true.
Proof.
  intros Hd Hk. set (t := Z.max 0 (- k')).
  rewrite (ge_pow2_shift n d k t), (ge_pow2_shift n d k' t) by lia.
  rewrite !Z.leb_le. intros H. etransitivity; [|exact H].
  apply Z.mul_le_mono_nonneg_l; [lia|]. apply Z.pow_le_mono_r; lia.
Qed.

Lemma ge_pow2_scale n d k s : 0 < s -> ge_pow2 (n * s) (d * s) k = ge_pow2 n d k.
Proof.
  intros Hs. unfold ge_pow2.
  rewrite <- !Z.mul_assoc, (Z.mul_comm s (2 ^ _)), (Z.mul_comm s (2 ^ Z.max 0 (- k))).
  rewrite !Z.mul_assoc. apply leb_mul_pos. lia.
Qed.

Lemma ilog2_spec n d :
  0 < n -> 0 < d -> ge_pow2 n d (ilog2 n d) = true /\ ge_pow2 n d (ilog2 n d + 1) = false.
Proof.
  intros Hn Hd. pose proof (Z.log2_spec n Hn) as [Hn1 Hn2].
  pose proof (Z.log2_spec d Hd) as [Hd1 Hd2].
  pose proof (Z.log2_nonneg n). pose proof (Z.log2_nonneg d).
  set (a := Z.log2 n) in *. set (b := Z.log2 d) in *.
  rewrite Z.pow_succ_r in Hn2, Hd2 by lia.
  assert (Ha : 0 < 2 ^ a) by (apply Z.pow_pos_nonneg; lia).
  assert (Hb : 0 < 2 ^ b) by (apply Z.pow_pos_nonneg; lia).
  set (t := b + 2).
  assert (Hlo : ge_pow2 n d (a - b - 1) = true).
  { rewrite (ge_pow2_shift n d _ t) by lia. apply Z.leb_le.
    replace (a - b - 1 + t) with (a + 1) by lia. unfold t.
    rewrite !Z.pow_add_r by lia. nia. }
  assert (Hhi : ge_pow2 n d (a - b + 1) = false).
  { rewrite (ge_pow2_shift n d _ t) by lia. apply Z.leb_gt.
    replace (a - b + 1 + t) with (a + 3) by lia. unfold t.
    rewrite !Z.pow_add_r by lia. nia. }
  unfold ilog2. fold a b. destruct (ge_pow2 n d (a - b)) eqn:E.
  - split; [done|]. by replace (a - b + 1) with (a - b + 1) by lia.
  - split; [done|]. by replace (a - b - 1 + 1) with (a - b) by lia.
Qed.

Lemma ilog2_unique n d k :
  0 < n -> 0 < d -> ge_pow2 n d k = true -> ge_pow2 n d (k + 1) = false -> ilog2 n d = k.
Proof.
  intros Hn Hd Hk Hk1. destruct (ilog2_spec n d Hn Hd) as [H1 H2].
  destruct (Z.lt_trichotomy (ilog2 n d) k) as [Hlt|[Heq|Hgt]]; [|done|].
  - rewrite (ge_pow2_mono n d k (ilog2 n d + 1)) in H2 by (done || lia). done.
  - rewrite (ge_pow2_mono n d (ilog2 n d) (k + 1)) in Hk1 by (done || lia). done.
Qed.

Lemma ilog2_scale n d s : 0 < n -> 0 < d -> 0 < s -> ilog2 (n * s) (d * s) = ilog2 n d.
Proof.
  intros Hn Hd Hs. destruct (ilog2_spec n d Hn Hd) as [H1 H2].
  apply ilog2_unique; [lia|lia|..]; by rewrite ge_pow2_scale.
Qed.

Lemma round_half_even_scale q r den s :
  0 < s -> round_half_even q (r * s) (den * s) = round_half_even q r den.
Proof.
  intros Hs. unfold round_half_even.
  rewrite Z.mul_assoc, ltb_mul_pos, eqb_mul_pos by done. done.
Qed.

(** The rounding depends on the fraction only through its value. *)
Lemma round_pos_scale n d s :
  0 < n -> 0 < d -> 0 < s -> round_pos (n * s) (d * s) = round_pos n d.
Proof.
  intros Hn Hd Hs. unfold round_pos. rewrite ilog2_scale by done.
  set (e := Z.max (-1074) (ilog2 n d - 52)).
  assert (Hp : 0 < d * 2 ^ Z.max 0 e) by (apply Z.mul_pos_pos; [lia|apply Z.pow_pos_nonneg; lia]).
  replace (n * s * 2 ^ Z.max 0 (- e)) with (n * 2 ^ Z.max 0 (- e) * s) by ring.
  replace (d * s * 2 ^ Z.max 0 e) with (d * 2 ^ Z.max 0 e * s) by ring.
  rewrite Z.div_mul_cancel_r, Z.mul_mod_distr_r, round_half_even_scale by lia. done.
Qed.

Lemma round_pos_cross n1 d1 n2 d2 :
  0 < n1 -> 0 < d1 -> 0 < n2 -> 0 < d2 -> n1 * d2 = n2 * d1 ->
  round_pos n1 d1 = round_pos n2 d2.
Proof.
  intros H1 H2 H3 H4 Heq.
  rewrite <- (round_pos_scale n1 d1 d2), <- (round_pos_scale n2 d2 d1) by done.
  by rewrite Heq, (Z.mul_comm d1 d2).
Qed.

End Rounding.

Lemma canonical_spec m e :
  canonical m e = true <->
  0 <= m < 2 ^ 53 /\ -1074 <= e <= 971 /\ (2 ^ 52 <= m \/ e = -1074).
Proof.
  unfold canonical. rewrite !andb_true_iff, orb_true_iff, !Z.leb_le, !Z.ltb_lt, Z.eqb_eq.
  tauto.
Qed.

Lemma mk_f64_fields x : mk_f64 (f_neg x) (f_man x) (f_exp x) = Some x.
Proof.
  unfold mk_f64. destruct (decide _) as [H|H]; [|by destruct (H (f_canon x))].
  f_equal. by apply float64_eq.
Qed.

(** A fraction that is a double rounds to itself. *)
Lemma round_pos_exact m e :
  canonical m e = true -> 0 < m -> round_pos (frac_of m e).1 (frac_of m e).2 = Some (m, e).
Proof.
  intros Hc Hm. apply canonical_spec in Hc as (Hm53 & He & Hnorm). unfold frac_of; simpl.
  set (E := Z.max 0 e). set (t := Z.max 0 (- e)).
  assert (HE : 0 < 2 ^ E) by (apply Z.pow_pos_nonneg; lia).
  assert (Ht : 0 < 2 ^ t) by (apply Z.pow_pos_nonneg; lia).
  pose proof (Z.log2_spec m Hm) as [HL1 HL2]. pose proof (Z.log2_nonneg m).
  set (L := Z.log2 m) in *.
  assert (HL : L <= 52) by (apply Z.lt_succ_r, Z.log2_lt_pow2; lia).
  rewrite Z.pow_succ_r in HL2 by lia.
  assert (Hlog : ilog2 (m * 2 ^ E) (2 ^ t) = L + e).
  { apply ilog2_unique; [lia|lia|..];
      rewrite (ge_pow2_shift _ _ _ t) by lia.
    - replace (L + e + t) with (L + E) by lia. rewrite Z.pow_add_r by lia.
      apply Z.leb_le. nia.
    - replace (L + e + 1 + t) with (L + 1 + E) by lia. rewrite !Z.pow_add_r by lia.
      apply Z.leb_gt. rewrite Z.pow_1_r. nia. }
  assert (He' : Z.max (-1074) (L + e - 52) = e).
  { destruct Hnorm as [Hn| ->]; [|lia].
    assert (52 <= L) by (apply Z.log2_le_pow2; lia). lia. }
  unfold round_pos. rewrite Hlog, He'. fold E t.
  replace (m * 2 ^ E * 2 ^ t) with (m * (2 ^ t * 2 ^ E)) by ring.
  rewrite Z.div_mul, Z_mod_mult by lia.
  unfold round_half_even. rewrite Z.mul_0_r.
  replace ((2 ^ t * 2 ^ E <? 0) || ((0 =? 2 ^ t * 2 ^ E) && Z.odd m)) with false
    by (symmetry; apply orb_false_iff; split; [apply Z.ltb_ge; lia|
        apply andb_false_iff; left; apply Z.eqb_neq; lia]).
  replace (m =? 2 ^ 53) with false by (symmetry; apply Z.eqb_neq; lia).
  replace (971 <? e) with false by (symmetry; apply Z.ltb_ge; lia). done.
Qed.

(** Equal fractions convert to the same double. *)
Lemma f64_of_frac_cross n1 d1 n2 d2 :
  0 <= n1 -> 0 < d1 -> 0 <= n2 -> 0 < d2 -> n1 * d2 = n2 * d1 ->
  f64_of_frac n1 d1 = f64_of_frac n2 d2.
Proof.
  intros Hn1 Hd1 Hn2 Hd2 Hx. unfold f64_of_frac.
  destruct (Z.eqb_spec n1 0) as [->|H1], (Z.eqb_spec n2 0) as [->|H2]; [done|nia|nia|].
  by rewrite (round_pos_cross n1 d1 n2 d2) by lia.
Qed.

Lemma frac_of_pos m e : 0 < m -> 0 < (frac_of m e).1 /\ 0 < (frac_of m e).2.
Proof.
  intros Hm. unfold frac_of; simpl.
  split; [apply Z.mul_pos_pos; [done|]|]; apply Z.pow_pos_nonneg; lia.
Qed.

Lemma dec_frac_pos c q : 0 <= c -> 0 <= (dec_frac c q).1 /\ 0 < (dec_frac c q).2.
Proof.
  intros Hc. unfold dec_frac; simpl.
  split; [apply Z.mul_nonneg_nonneg; [done|]|]; apply Z.pow_nonneg || apply Z.pow_pos_nonneg; lia.
Qed.

(** The exact value of a double that is not zero converts to itself. *)
Lemma f64_of_frac_exact x :
  0 < f_man x ->
  f64_of_frac (frac_of (f_man x) (f_exp x)).1 (frac_of (f_man x) (f_exp x)).2 = Some (f64_abs x).
Proof.
  intros Hm. destruct (frac_of_pos _ (f_exp x) Hm) as [Hn _]. unfold f64_of_frac.
  replace (_ =? 0) with false by (symmetry; apply Z.eqb_neq; lia).
  rewrite round_pos_exact by (done || apply f_canon).
  apply (mk_f64_fields (f64_abs x)).
Qed.

(** A decimal whose value is [|x|] converts to [|x|]. *)
Lemma f64_of_decimal_value x c q :
  0 < f_man x -> 0 < c ->
  (dec_frac c q).1 * (frac_of (f_man x) (f_exp x)).2 =
    (frac_of (f_man x) (f_exp x)).1 * (dec_frac c q).2 ->
  f64_of_decimal c q = Some (f64_abs x).
Proof.
  intros Hm Hc Hv. destruct (frac_of_pos _ (f_exp x) Hm).
  pose proof (dec_frac_pos c q ltac:(lia)) as [??].
  unfold f64_of_decimal. rewrite <- (f64_of_frac_exact x Hm).
  apply f64_of_frac_cross; lia.
Qed.

(** Trailing zeros moved into the exponent do not change the double. *)
Lemma f64_of_decimal_shift c q a :
  0 <= c -> 0 <= a -> f64_of_decimal (c * 10 ^ a) (q - a) = f64_of_decimal c q.
Proof.
  intros Hc Ha. unfold f64_of_decimal.
  assert (H10 : 0 < 10 ^ a) by (apply Z.pow_pos_nonneg; lia).
  pose proof (dec_frac_pos (c * 10 ^ a) (q - a) ltac:(nia)) as [??].
  pose proof (dec_frac_pos c q Hc) as [??].
  apply f64_of_frac_cross; [done..|]. unfold dec_frac; simpl.
  replace (c * 10 ^ a * 10 ^ Z.max 0 (q - a) * 10 ^ Z.max 0 (- q))
    with (c * 10 ^ (a + Z.max 0 (q - a) + Z.max 0 (- q))) by (rewrite !Z.pow_add_r by lia; ring).
  replace (c * 10 ^ Z.max 0 q * 10 ^ Z.max 0 (- (q - a)))
    with (c * 10 ^ (Z.max 0 q + Z.max 0 (- (q - a)))) by (rewrite !Z.pow_add_r by lia; ring).
  do 2 f_equal. lia.
Qed.

(** ** Correct rounding *)

(** Rounding the quotient half to even gives a nearest integer. *)
Lemma round_half_even_nearest N D k :
  0 < D -> Z.abs (N - D * round_half_even (N / D) (N mod D) D) <= Z.abs (N - D * k).
Proof.
  intros HD. pose proof (Z.div_mod N D ltac:(lia)) as HN. pose proof (Z.mod_pos_bound N D HD) as Hr.
  set (q := N / D) in *. set (r := N mod D) in *. unfold round_half_even.
  assert (Hk : D * k <= D * q \/ D * (q + 1) <= D * k) by (destruct (Z.le_gt_cases k q); [left|right]; nia).
  destruct ((D <? 2 * r) || ((2 * r =? D) && Z.odd q)) eqn:E.
  - assert (2 * r >= D).
    { apply orb_true_iff in E as [E|E]; [apply Z.ltb_lt in E; lia|].
      apply andb_true_iff in E as [E _]. apply Z.eqb_eq in E. lia. }
    lia.
  - assert (2 * r <= D) by (apply orb_false_iff in E as [E _]; apply Z.ltb_ge in E; lia). lia.
Qed.

(** The distance to [n / d] in units, as the distance of the scaled
    quotient the rounding works on. *)
Lemma units_scaled n d E k :
  -1074 <= E ->
  n * 2 ^ 1074 - d * (k * 2 ^ (E + 1074))
  = (n * 2 ^ Z.max 0 (- E) - d * 2 ^ Z.max 0 E * k) * 2 ^ (1074 - Z.max 0 (- E)).
Proof.
  intros HE. replace (E + 1074) with (Z.max 0 E + (1074 - Z.max 0 (- E))) by lia.
  replace (2 ^ 1074) with (2 ^ Z.max 0 (- E) * 2 ^ (1074 - Z.max 0 (- E)))
    by (rewrite <- Z.pow_add_r by lia; f_equal; lia).
  rewrite Z.pow_add_r by lia. ring.
Qed.

Lemma units_nearest n d E q' k :
  0 < d -> -1074 <= E ->
  q' = round_half_even (n * 2 ^ Z.max 0 (- E) / (d * 2 ^ Z.max 0 E))
         (n * 2 ^ Z.max 0 (- E) mod (d * 2 ^ Z.max 0 E)) (d * 2 ^ Z.max 0 E) ->
  Z.abs (n * 2 ^ 1074 - d * (q' * 2 ^ (E + 1074)))
  <= Z.abs (n * 2 ^ 1074 - d * (k * 2 ^ (E + 1074))).
Proof.
  intros Hd HE ->. rewrite !units_scaled, !Z.abs_mul by done.
  apply Z.mul_le_mono_nonneg_r; [apply Z.abs_nonneg|].
  apply round_half_even_nearest. apply Z.mul_pos_pos; [done|apply Z.pow_pos_nonneg; lia].
Qed.

(** The double [round_pos] returns is nearest to [n / d] among all
    non-negative doubles: those of the result's binade or above are
    whole multiples of its unit, and those below it lie below [n / d]
    and below the binade's first double. *)
Lemma round_pos_nearest n d m e m' e' :
  0 < n -> 0 < d -> round_pos n d = Some (m, e) -> canonical m' e' = true ->
  Z.abs (n * 2 ^ 1074 - d * (m * 2 ^ (e + 1074)))
  <= Z.abs (n * 2 ^ 1074 - d * (m' * 2 ^ (e' + 1074))).
Proof.
  intros Hn Hd Hr Hc. apply canonical_spec in Hc as (Hm' & He' & _).
  unfold round_pos in Hr.
  set (E := Z.max (-1074) (ilog2 n d - 52)) in Hr.
  set (q' := round_half_even _ _ _) in Hr.
  assert (HE : -1074 <= E) by lia.
  assert (Hm : m * 2 ^ (e + 1074) = q' * 2 ^ (E + 1074)).
  { destruct (Z.eqb_spec q' (2 ^ 53)) as [Hq|Hq]; cbn iota beta in Hr.
    - destruct (971 <? E + 1); [done|]. injection Hr as <- <-. rewrite Hq.
      replace (E + 1 + 1074) with (1 + (E + 1074)) by lia. rewrite Z.pow_add_r by lia.
      change (2 ^ 53) with (2 ^ 52 * 2 ^ 1). ring.
    - destruct (971 <? E); [done|]. injection Hr as <- <-. done. }
  rewrite Hm.
  destruct (Z.le_gt_cases E e') as [Hle|Hlt].
  - replace (m' * 2 ^ (e' + 1074)) with ((m' * 2 ^ (e' - E)) * 2 ^ (E + 1074))
      by (rewrite <- Z.mul_assoc, <- Z.pow_add_r by lia; f_equal; f_equal; lia).
    by apply units_nearest.
  - (* a double of a lower binade: below [2^ilog2 <= n / d] *)
    assert (HEl : E = ilog2 n d - 52) by lia.
    destruct (ilog2_spec n d Hn Hd) as [Hge _].
    rewrite (ge_pow2_shift _ _ _ 1074) in Hge by lia. apply Z.leb_le in Hge.
    assert (Hnear := units_nearest n d E q' (2 ^ 52) Hd HE eq_refl).
    replace (2 ^ 52 * 2 ^ (E + 1074)) with (2 ^ (ilog2 n d + 1074)) in Hnear
      by (rewrite <- Z.pow_add_r by lia; f_equal; lia).
    assert (HP : 0 < 2 ^ (e' + 1074)) by (apply Z.pow_pos_nonneg; lia).
    assert (Hy : 2 ^ 53 * 2 ^ (e' + 1074) <= 2 ^ (ilog2 n d + 1074))
      by (rewrite <- Z.pow_add_r by lia; apply Z.pow_le_mono_r; lia).
    assert (m' * 2 ^ (e' + 1074) <= 2 ^ 53 * 2 ^ (e' + 1074))
      by (apply Z.mul_le_mono_nonneg_r; lia).
    assert (d * (m' * 2 ^ (e' + 1074)) <= d * 2 ^ (ilog2 n d + 1074))
      by (apply Z.mul_le_mono_nonneg_l; lia).
    lia.
Qed.

(** The double [f64_of_frac] gives is non-negative and nearest, among
    all doubles, to the fraction. *)
Lemma f64_of_frac_nearest n d x y :
  0 <= n -> 0 < d -> f64_of_frac n d = Some x ->
  f_neg x = false /\
  Z.abs (n * 2 ^ 1074 - d * f64_units x) <= Z.abs (n * 2 ^ 1074 - d * f64_units y).
Proof.
  intros Hn0 Hd Hx. unfold f64_of_frac in Hx.
  destruct (Z.eqb_spec n 0) as [->|Hn1].
  - injection Hx as <-. split; [done|]. unfold f64_units. simpl. lia.
  - destruct (round_pos _ _) as [[m e]|] eqn:Hr; [|done].
    unfold mk_f64 in Hx. destruct (decide _) as [Hcan|]; [|done]. injection Hx as <-.
    split; [done|]. unfold f64_units at 1. cbn [f_neg f_man f_exp].
    destruct y as [sy my ey Hy]. unfold f64_units. cbn [f_neg f_man f_exp].
    pose proof (round_pos_nearest n d m e my ey ltac:(lia) Hd Hr Hy) as Hnear.
    destruct sy; [|done].
    pose proof (proj1 (canonical_spec my ey) Hy) as (Hmy & Hey & _).
    assert (0 <= my * 2 ^ (ey + 1074)) by (apply Z.mul_nonneg_nonneg; [lia|apply Z.pow_nonneg; lia]).
    assert (0 <= d * (my * 2 ^ (ey + 1074))) by (apply Z.mul_nonneg_nonneg; lia).
    assert (0 <= n * 2 ^ 1074) by (apply Z.mul_nonneg_nonneg; [lia|apply Z.pow_nonneg; lia]).
    lia.
Qed.

(** C25. [float] of a decimal literal is correctly rounded: the double
    [eval] makes of the literal [c * 10^q] is non-negative and nearest,
    among all doubles, to the literal's exact value.  Distances are
    counted in units of [2^-1074], so the statement is exact in
    integers. *)
Theorem f64_of_decimal_nearest c q x y :
  0 <= c -> f64_of_decimal c q = Some x ->
  f_neg x = false /\
  Z.abs ((dec_frac c q).1 * 2 ^ 1074 - (dec_frac c q).2 * f64_units x)
  <= Z.abs ((dec_frac c q).1 * 2 ^ 1074 - (dec_frac c q).2 * f64_units y).
Proof.
  intros Hc Hx. destruct (dec_frac_pos c q Hc).
  by apply f64_of_frac_nearest.
Qed.

(** ** Overflow, monotonicity and intervals of the conversion *)

Lemma round_half_even_bounds q r den :
  0 <= r < den -> q <= round_half_even q r den <= q + 1.
Proof. intros Hr. unfold round_half_even. case_match; lia. Qed.

(** The scaled quotient [round_pos] rounds: below [2^53], and at least
    [2^52] unless the result is subnormal. *)
Lemma round_pos_quot n d :
  0 < n -> 0 < d ->
  let e := Z.max (-1074) (ilog2 n d - 52) in
  0 < d * 2 ^ Z.max 0 e /\
  n * 2 ^ Z.max 0 (- e) / (d * 2 ^ Z.max 0 e) < 2 ^ 53 /\
  (e = ilog2 n d - 52 -> 2 ^ 52 <= n * 2 ^ Z.max 0 (- e) / (d * 2 ^ Z.max 0 e)).
Proof.
  intros Hn Hd e. destruct (ilog2_spec n d Hn Hd) as [H1 H2].
  set (L := ilog2 n d) in *. set (t := Z.max 0 (- e)).
  assert (HE : 0 < 2 ^ Z.max 0 e) by (apply Z.pow_pos_nonneg; lia).
  assert (Hden : 0 < d * 2 ^ Z.max 0 e) by lia.
  split_and!; [done| |].
  - apply Z.div_lt_upper_bound; [done|].
    destruct (Z.le_gt_cases (-1074) (L - 52)) as [Hnorm|Hsub].
    + rewrite (ge_pow2_shift _ _ _ t) in H2 by lia. apply Z.leb_gt in H2.
      replace (L + 1 + t) with (53 + Z.max 0 e) in H2 by lia.
      rewrite Z.pow_add_r in H2 by lia. lia.
    + assert (Hg : ge_pow2 n d (-1021) = false).
      { destruct (ge_pow2 n d (-1021)) eqn:G; [|done].
        rewrite (ge_pow2_mono n d (-1021) (L + 1)) in H2 by (done || lia). done. }
      rewrite (ge_pow2_shift _ _ _ 1074) in Hg by lia. apply Z.leb_gt in Hg.
      unfold t. replace (Z.max 0 e) with 0 by lia. replace (Z.max 0 (- e)) with 1074 by lia.
      replace (-1021 + 1074) with 53 in Hg by lia. lia.
  - intros He. apply Z.div_le_lower_bound; [done|].
    rewrite (ge_pow2_shift _ _ _ t) in H1 by lia. apply Z.leb_le in H1.
    replace (L + t) with (52 + Z.max 0 e) in H1 by lia.
    rewrite Z.pow_add_r in H1 by lia. lia.
Qed.

(** What [round_pos] returns is a canonical double. *)
Lemma round_pos_canonical n d m e :
  0 < n -> 0 < d -> round_pos n d = Some (m, e) -> canonical m e = true.
Proof.
  intros Hn Hd Hr. pose proof (round_pos_quot n d Hn Hd) as (Hden & Hq53 & Hq52). cbv zeta in *.
  unfold round_pos in Hr. set (E := Z.max (-1074) (ilog2 n d - 52)) in *.
  set (num := n * 2 ^ Z.max 0 (- E)) in *. set (den := d * 2 ^ Z.max 0 E) in *.
  pose proof (Z.mod_pos_bound num den Hden).
  assert (0 <= num / den) by (apply Z.div_pos; [unfold num; apply Z.mul_nonneg_nonneg; [lia|apply Z.pow_nonneg]|]; lia).
  pose proof (round_half_even_bounds (num / den) (num mod den) den ltac:(lia)).
  set (q' := round_half_even _ _ _) in *.
  assert (H5253 : 2 ^ 52 < 2 ^ 53) by (apply Z.pow_lt_mono_r; lia).
  apply canonical_spec. destruct (Z.eqb_spec q' (2 ^ 53)); cbn iota beta in Hr.
  - destruct (971 <? E + 1) eqn:Ho; [done|]. injection Hr as <- <-. apply Z.ltb_ge in Ho.
    split_and!; lia.
  - destruct (971 <? E) eqn:Ho; [done|]. injection Hr as <- <-. apply Z.ltb_ge in Ho.
    split_and!; lia.
Qed.

Lemma overflow_arith M D q r :
  0 < D -> 0 <= r < 2 * D -> q < M ->
  (D * (2 * M - 1) <= q * (2 * D) + r <-> q = M - 1 /\ D <= r).
Proof.
  intros HD Hr Hq. split.
  - intros H. destruct (Z.le_gt_cases q (M - 2)) as [Hq2|Hq2].
    + exfalso. assert (q * (2 * D) <= (M - 2) * (2 * D)) by (apply Z.mul_le_mono_nonneg_r; lia).
      nia.
    + assert (q = M - 1) by lia. subst q. nia.
  - intros [-> Hr']. nia.
Qed.

Lemma overflow_bound_eq : overflow_bound = 2 ^ 53 * 2 ^ 971 - 2 ^ 970.
Proof.
  unfold overflow_bound. replace (2 ^ 971) with (2 * 2 ^ 970) by (rewrite <- Z.pow_succ_r; lia).
  replace (2 ^ 54) with (2 * 2 ^ 53) by (rewrite <- Z.pow_succ_r; lia). ring.
Qed.

(** Unfold [round_pos] and name its parts: the binade [L], the exponent
    [E], the scaled quotient and remainder, the rounded mantissa [q']. *)
Local Ltac round_pos_setup n d Hn Hd :=
  pose proof (round_pos_quot n d Hn Hd) as (Hden & Hq53 & Hq52); cbv zeta in *;
  destruct (ilog2_spec n d Hn Hd) as [H1 H2];
  unfold round_pos; set (L := ilog2 n d) in *; set (E := Z.max (-1074) (L - 52)) in *;
  set (num := n * 2 ^ Z.max 0 (- E)) in *; set (den := d * 2 ^ Z.max 0 E) in *;
  pose proof (Z.mod_pos_bound num den Hden);
  pose proof (round_half_even_bounds (num / den) (num mod den) den ltac:(lia));
  set (q' := round_half_even _ _ _) in *.

Section Overflow.
Context (n d : Z).
Hypothesis Hn : 0 < n.
Hypothesis Hd : 0 < d.

(** Below [2^1023] nothing overflows. *)
Lemma round_pos_below :
  ilog2 n d < 1023 -> round_pos n d <> None /\ n < d * overflow_bound.
Proof.
  round_pos_setup n d Hn Hd. intros Hlow.
  assert (HE : E <= 970) by lia.
  assert (Hg : ge_pow2 n d 1023 = false).
  { destruct (ge_pow2 n d 1023) eqn:G; [|reflexivity].
    rewrite (ge_pow2_mono n d 1023 (L + 1) Hd ltac:(lia) G) in H2. discriminate H2. }
  rewrite (ge_pow2_shift _ _ _ 0) in Hg by lia. apply Z.leb_gt in Hg.
  rewrite Z.add_0_r, Z.pow_0_r, Z.mul_1_r in Hg.
  split; [destruct (q' =? 2 ^ 53); cbn iota beta;
          [rewrite (proj2 (Z.ltb_ge 971 (E + 1))) by lia|
           rewrite (proj2 (Z.ltb_ge 971 E)) by lia]; discriminate|].
  rewrite overflow_bound_eq.
  replace (2 ^ 1023) with (2 ^ 52 * 2 ^ 971) in Hg by (rewrite <- Z.pow_add_r; lia).
  assert (2 ^ 52 * 2 ^ 971 <= 2 ^ 53 * 2 ^ 971 - 2 ^ 970).
  { replace (2 ^ 53) with (2 * 2 ^ 52) by (rewrite <- Z.pow_succ_r; lia).
    replace (2 ^ 971) with (2 * 2 ^ 970) by (rewrite <- Z.pow_succ_r; lia).
    assert (0 < 2 ^ 52) by (apply Z.pow_pos_nonneg; lia).
    assert (0 < 2 ^ 970) by (apply Z.pow_pos_nonneg; lia). nia. }
  nia.
Qed.

(** From [2^1024] on everything overflows. *)
Lemma round_pos_above :
  1023 < ilog2 n d -> round_pos n d = None /\ d * overflow_bound <= n.
Proof.
  round_pos_setup n d Hn Hd. intros Hhigh.
  assert (HE : 972 <= E) by lia.
  assert (Hg : ge_pow2 n d 1024 = true) by (apply (ge_pow2_mono n d L); [lia|lia|exact H1]).
  rewrite (ge_pow2_shift _ _ _ 0) in Hg by lia. apply Z.leb_le in Hg.
  rewrite Z.add_0_r, Z.pow_0_r, Z.mul_1_r in Hg.
  split; [destruct (q' =? 2 ^ 53); cbn iota beta;
          [rewrite (proj2 (Z.ltb_lt 971 (E + 1))) by lia|
           rewrite (proj2 (Z.ltb_lt 971 E)) by lia]; reflexivity|].
  rewrite overflow_bound_eq.
  replace (2 ^ 1024) with (2 ^ 53 * 2 ^ 971) in Hg by (rewrite <- Z.pow_add_r; lia).
  assert (0 <= 2 ^ 970) by (apply Z.pow_nonneg; lia). nia.
Qed.

(** In the last binade the result overflows iff the mantissa rounds up
    to [2^53], that is iff [n / d] is at least halfway above the largest
    double. *)
Lemma round_pos_last_binade :
  ilog2 n d = 1023 -> round_pos n d = None <-> d * overflow_bound <= n.
Proof.
  round_pos_setup n d Hn Hd. intros Hmid.
  assert (HE : E = 971) by lia. specialize (Hq52 ltac:(lia)).
  assert (Hnum : num = n) by (unfold num; replace (Z.max 0 (- E)) with 0 by lia; ring).
  set (P := 2 ^ 970) in *. set (M := 2 ^ 53) in *.
  assert (HP : 0 < P) by (apply Z.pow_pos_nonneg; lia).
  assert (Hden' : den = 2 * (d * P))
    by (unfold den, P; rewrite HE, Z.max_r by lia; change 971 with (Z.succ 970);
        rewrite Z.pow_succ_r by lia; ring).
  assert (HdT : d * overflow_bound = d * P * (2 * M - 1)).
  { rewrite overflow_bound_eq. change 971 with (Z.succ 970). rewrite Z.pow_succ_r by lia.
    unfold P, M. ring. }
  rewrite HdT. clear HdT H1 H2.
  pose proof (Z.div_mod num den ltac:(lia)) as Hdm.
  set (q := num / den) in *. set (r := num mod den) in *.
  assert (Hodd : q = M - 1 -> Z.odd q = true) by (intros ->; reflexivity).
  assert (Hn' : n = q * (2 * (d * P)) + r) by (rewrite <- Hnum, Hdm, Hden'; ring).
  rewrite Hn', overflow_arith by lia.
  unfold q', round_half_even in *.
  destruct ((den <? 2 * r) || ((2 * r =? den) && Z.odd q)) eqn:Hup.
  - apply orb_true_iff in Hup.
    assert (Hup' : den <= 2 * r)
      by (destruct Hup as [Hup|Hup]; [apply Z.ltb_lt in Hup|
          apply andb_true_iff in Hup as [Hup _]; apply Z.eqb_eq in Hup]; lia).
    destruct (Z.eqb_spec (q + 1) M) as [Hq|Hq]; cbn iota beta.
    + rewrite (proj2 (Z.ltb_lt 971 (E + 1))) by lia. split; [intros _|done]. lia.
    + rewrite (proj2 (Z.ltb_ge 971 E)) by lia. split; [done|lia].
  - apply orb_false_iff in Hup as [Hlt Hti]. apply Z.ltb_ge in Hlt.
    destruct (Z.eqb_spec q M) as [Hq|Hq]; [lia|]. cbn iota beta.
    rewrite (proj2 (Z.ltb_ge 971 E)) by lia. split; [done|intros [Hq1 Hr]].
    rewrite Hodd, andb_true_r in Hti by done. apply Z.eqb_neq in Hti. lia.
Qed.

(** [round_pos] overflows exactly from the halfway point on: [n / d]
    rounds to infinity iff it is at least [overflow_bound]. *)
Lemma round_pos_None_iff : round_pos n d = None <-> d * overflow_bound <= n.
Proof.
  destruct (Z.lt_trichotomy (ilog2 n d) 1023) as [H|[H|H]].
  - destruct (round_pos_below H). split; [done|lia].
  - by apply round_pos_last_binade.
  - destruct (round_pos_above H). tauto.
Qed.

End Overflow.

Lemma overflow_bound_pos : 0 < overflow_bound.
Proof. vm_compute. reflexivity. Qed.

(** [f64_of_frac] overflows exactly from [overflow_bound] on. *)
Lemma f64_of_frac_None_iff n d :
  0 <= n -> 0 < d -> f64_of_frac n d = None <-> d * overflow_bound <= n.
Proof.
  intros Hn Hd. pose proof overflow_bound_pos. unfold f64_of_frac.
  destruct (Z.eqb_spec n 0) as [->|Hn0]; [split; [discriminate|nia]|].
  rewrite <- round_pos_None_iff by lia.
  destruct (round_pos n d) as [[m e]|] eqn:Hr; [|done].
  unfold mk_f64. destruct (decide _) as [|Hc]; [split; discriminate|].
  exfalso. apply Hc. eapply round_pos_canonical; [..|exact Hr]; lia.
Qed.

(** A double of a higher exponent is larger: the lower one is below
    [2^53] of its units, the higher one normal. *)
Lemma units_exp_lt mx ex my ey :
  canonical mx ex = true -> canonical my ey = true -> ex < ey ->
  mx * 2 ^ (ex + 1074) < my * 2 ^ (ey + 1074).
Proof.
  intros Hx Hy Hlt.
  apply canonical_spec in Hx as (Hmx & Hex & _), Hy as (Hmy & Hey & [Hn|Hs]); [|lia].
  assert (H1 : 2 ^ (ex + 1074) * 2 ^ 1 <= 2 ^ (ey + 1074))
    by (rewrite <- Z.pow_add_r by lia; apply Z.pow_le_mono_r; lia).
  assert (H2 : 2 ^ 53 = 2 ^ 52 * 2 ^ 1) by (rewrite <- Z.pow_add_r; lia).
  assert (0 < 2 ^ (ex + 1074)) by (apply Z.pow_pos_nonneg; lia).
  assert (mx * 2 ^ (ex + 1074) < 2 ^ 52 * (2 ^ (ex + 1074) * 2 ^ 1)) by nia.
  assert (2 ^ 52 * (2 ^ (ex + 1074) * 2 ^ 1) <= my * 2 ^ (ey + 1074)).
  { apply Z.mul_le_mono_nonneg; lia. }
  lia.
Qed.

(** Non-negative doubles are determined by their value. *)
Lemma f64_units_inj x y :
  f_neg x = false -> f_neg y = false -> f64_units x = f64_units y -> x = y.
Proof.
  destruct x as [sx mx ex Hx], y as [sy my ey Hy]. unfold f64_units; cbn. intros -> -> Hu.
  destruct (Z.lt_trichotomy ex ey) as [Hlt|[<-|Hgt]].
  - pose proof (units_exp_lt mx ex my ey Hx Hy Hlt). lia.
  - pose proof (proj1 (canonical_spec _ _) Hx) as (_ & Hex & _).
    assert (0 < 2 ^ (ex + 1074)) by (apply Z.pow_pos_nonneg; lia).
    apply Z.mul_cancel_r in Hu; [|lia]. subst my. f_equal. apply proof_irrel.
  - pose proof (units_exp_lt my ey mx ex Hy Hx Hgt). lia.
Qed.

(** Of two doubles [u2 < u1], a point nearer to [u1] is past their
    midpoint. *)
Lemma nearer_midpoint A D u1 u2 :
  0 < D -> u2 < u1 -> Z.abs (A - D * u1) <= Z.abs (A - D * u2) -> D * (u1 + u2) <= 2 * A.
Proof.
  intros HD Hu H. assert (D * u2 < D * u1) by (apply Z.mul_lt_mono_pos_l; lia). lia.
Qed.

(** The conversion is monotone: a larger fraction gives a double that
    is not smaller. *)
Lemma f64_of_frac_mono n1 d1 n2 d2 x1 x2 :
  0 <= n1 -> 0 < d1 -> 0 <= n2 -> 0 < d2 -> n1 * d2 <= n2 * d1 ->
  f64_of_frac n1 d1 = Some x1 -> f64_of_frac n2 d2 = Some x2 ->
  f64_units x1 <= f64_units x2.
Proof.
  intros Hn1 Hd1 Hn2 Hd2 Hle H1 H2.
  destruct (f64_of_frac_nearest n1 d1 x1 x2 Hn1 Hd1 H1) as [_ Hx1].
  destruct (f64_of_frac_nearest n2 d2 x2 x1 Hn2 Hd2 H2) as [_ Hx2].
  destruct (Z.le_gt_cases (f64_units x1) (f64_units x2)) as [|Hgt]; [done|exfalso].
  apply nearer_midpoint in Hx1; [|done|lia].
  assert (Hx2' : 2 * (n2 * 2 ^ 1074) <= d2 * (f64_units x1 + f64_units x2)).
  { assert (d2 * f64_units x2 < d2 * f64_units x1) by (apply Z.mul_lt_mono_pos_l; lia). lia. }
  assert (HP : 0 < 2 ^ 1074) by (apply Z.pow_pos_nonneg; lia).
  set (S := f64_units x1 + f64_units x2) in *.
  assert (Hc : n1 * d2 = n2 * d1).
  { assert (d1 * S * d2 <= 2 * (n1 * 2 ^ 1074) * d2) by (apply Z.mul_le_mono_nonneg_r; lia).
    assert (2 * (n2 * 2 ^ 1074) * d1 <= d2 * S * d1) by (apply Z.mul_le_mono_nonneg_r; lia).
    assert (n1 * d2 * 2 ^ 1074 <= n2 * d1 * 2 ^ 1074) by (apply Z.mul_le_mono_nonneg_r; lia).
    apply (Z.mul_cancel_r _ _ (2 ^ 1074)); [lia|]. nia. }
  rewrite (f64_of_frac_cross n1 d1 n2 d2) in H1 by done. rewrite H1 in H2. injection H2 as ->. lia.
Qed.

(** The fractions that convert to one double form an interval: what
    lies between two of them converts to it too. *)
Lemma f64_of_frac_between n1 d1 n d n2 d2 x :
  0 <= n1 -> 0 < d1 -> 0 <= n -> 0 < d -> 0 <= n2 -> 0 < d2 ->
  n1 * d <= n * d1 -> n * d2 <= n2 * d ->
  f64_of_frac n1 d1 = Some x -> f64_of_frac n2 d2 = Some x -> f64_of_frac n d = Some x.
Proof.
  intros Hn1 Hd1 Hn Hd Hn2 Hd2 Hlo Hhi H1 H2.
  destruct (f64_of_frac n d) as [y|] eqn:Hy.
  - pose proof (f64_of_frac_mono n1 d1 n d x y Hn1 Hd1 Hn Hd Hlo H1 Hy).
    pose proof (f64_of_frac_mono n d n2 d2 y x Hn Hd Hn2 Hd2 Hhi Hy H2).
    f_equal. apply f64_units_inj; [|eapply f64_of_frac_nearest; eauto|lia].
    by eapply (f64_of_frac_nearest n d y x).
  - exfalso. apply f64_of_frac_None_iff in Hy; [|done|done].
    assert (Hs : ~ d2 * overflow_bound <= n2) by (rewrite <- f64_of_frac_None_iff by done; congruence).
    pose proof overflow_bound_pos.
    assert (d * overflow_bound * d2 <= n * d2) by (apply Z.mul_le_mono_nonneg_r; lia).
    nia.
Qed.

Module Binary64Witness.

(** The double nearest to [859.99]. *)
Definition rent_double : float64 :=
  match f64_of_decimal 85999 (-2) with Some x => x | None => f64_zero false end.

Lemma f64_of_decimal_nearest_witness :
  f64_of_decimal 85999 (-2) = Some rent_double /\
  f_neg rent_double = false /\
  Z.abs ((dec_frac 85999 (-2)).1 * 2 ^ 1074 - (dec_frac 85999 (-2)).2 * f64_units rent_double)
  <= Z.abs ((dec_frac 85999 (-2)).1 * 2 ^ 1074
            - (dec_frac 85999 (-2)).2 * f64_units (f64_zero false)).
Proof.
  assert (H : f64_of_decimal 85999 (-2) = Some rent_double) by reflexivity.
  split; [exact H|]. apply (f64_of_decimal_nearest 85999 (-2)); [lia|exact H].
Defined.

End Binary64Witness.
