(* ===== verification/Shortest.v ===== *)
(** * Shortest: the digits [repr] prints for a float

    CPython's [repr] of a float (and [str], the same since Python 3.1)
    prints the shortest decimal that converts back to the double, and of
    the shortest ones the nearest ([_Py_dg_dtoa] in mode 0, called by
    [float_repr] through [PyOS_double_to_string] with the 'r' format).
    [shortest] computes those digits by search: for [p = 1, 2, ...]
    significant digits it takes the two [p]-digit decimals around the
    value ([pick]) and keeps the first precision at which one of them
    converts back ([roundtrips]).  PyCore turns the digits into text.

    The theorems: the search returns for every double that is not zero
    ([shortest_spec]); what it returns converts back; no decimal with
    fewer significant digits converts back; and no decimal with as many
    is nearer to the value. *)

From S2P Require Import Prelude Binary64.
From Stdlib Require Import DecimalPos.
Local Open Scope Z_scope.

(** ** The search *)

Definition ndigits (z : Z) : Z := Z.of_nat (Decimal.nb_digits (Pos.to_uint (Z.to_pos z))).

(** [n / d < 10^k]. *)
Definition lt_pow10 (n d k : Z) : bool := n * 10 ^ Z.max 0 (- k) <? d * 10 ^ Z.max 0 k.

(** The decimal exponent [k] with [10^(k-1) <= n/d < 10^k]: from the
    digit counts, it is their difference or one more. *)
Definition dec_exp (n d : Z) : Z :=
  let k := ndigits n - ndigits d in if lt_pow10 n d k then k else k + 1.

(** Does the decimal [c * 10^q] convert to [|x|]? *)
Definition roundtrips (x : float64) (c q : Z) : bool :=
  bool_decide (f64_of_decimal c q = Some (f64_abs x)).

(** Of the two [p]-digit decimals around [|x|], [lo * 10^q] and
    [(lo + 1) * 10^q] ([r] and [den] place [|x|] between them), the one
    that converts back; the nearer one if both do, the even one at a
    tie. *)
Definition pick (x : float64) (lo r den q : Z) : option Z :=
  let okl := roundtrips x lo q in
  let okh := (0 <? r) && roundtrips x (lo + 1) q in
  if okl && okh then
    Some (if 2 * r <? den then lo else if den <? 2 * r then lo + 1
          else if Z.even lo then lo else lo + 1)
  else if okl then Some lo
  else if okh then Some (lo + 1)
  else None.

(** Try [p], [p + 1], ... significant digits. *)
Fixpoint shortest_from (x : float64) (n d k p : Z) (fuel : nat) : option (Z * Z) :=
  match fuel with
  | O => None
  | S fuel' =>
      let num := n * 10 ^ Z.max 0 (p - k) in
      let den := d * 10 ^ Z.max 0 (k - p) in
      match pick x (num / den) (num mod den) den (k - p) with
      | Some c => Some (c, k - p)
      | None => shortest_from x n d k (p + 1) fuel'
      end
  end.

(** The digits [c] and exponent [q] of the shortest decimal [c * 10^q]
    that converts back to [|x|], for [x] not zero.  At [k + 1074]
    digits the decimal is [|x|] itself, so the search ends by then. *)
Definition shortest (x : float64) : option (Z * Z) :=
  let '(n, d) := frac_of (f_man x) (f_exp x) in
  let k := dec_exp n d in
  shortest_from x n d k 1 (Z.to_nat (Z.max 17 (k + 1075))).

(** The search at the decimal exponent [q]: the candidates [lo * 10^q]
    and [(lo + 1) * 10^q] around [n / d]. *)
Definition pick_at (x : float64) (n d q : Z) : option Z :=
  let num := n * 10 ^ Z.max 0 (- q) in
  let den := d * 10 ^ Z.max 0 q in
  pick x (num / den) (num mod den) den q.

(** ** The search ends, and what it returns converts back *)

Lemma pick_sound x lo r den q c :
  0 <= lo -> pick x lo r den q = Some c -> 0 <= c /\ roundtrips x c q = true.
Proof.
  unfold pick. intros Hlo.
  destruct (roundtrips x lo q) eqn:Hl, (0 <? r), (roundtrips x (lo + 1) q) eqn:Hh;
    simpl; intros; simplify_eq; repeat case_match; split; done || lia.
Qed.

Lemma pick_exact x lo den q : roundtrips x lo q = true -> pick x lo 0 den q = Some lo.
Proof. unfold pick. intros ->. done. Qed.

Lemma shortest_from_sound x n d k p fuel c q :
  0 <= n -> 0 < d ->
  shortest_from x n d k p fuel = Some (c, q) -> 0 <= c /\ roundtrips x c q = true.
Proof.
  intros Hn Hd. revert p. induction fuel as [|fuel IH]; intros p; cbn [shortest_from]; [done|].
  destruct (pick _ _ _ _ _) eqn:E; [intros [= <- <-]|apply IH].
  eapply pick_sound; [|done]. apply Z.div_pos; [|apply Z.mul_pos_pos; [done|]];
    [apply Z.mul_nonneg_nonneg; [done|]|]; apply Z.pow_pos_nonneg || apply Z.pow_nonneg; lia.
Qed.

(** The search succeeds if the candidate at some precision [p0] within
    the fuel converts back. *)
Lemma shortest_from_reach x n d k p p0 fuel :
  p <= p0 < p + Z.of_nat fuel ->
  pick x (n * 10 ^ Z.max 0 (p0 - k) / (d * 10 ^ Z.max 0 (k - p0)))
    (n * 10 ^ Z.max 0 (p0 - k) mod (d * 10 ^ Z.max 0 (k - p0))) (d * 10 ^ Z.max 0 (k - p0))
    (k - p0) <> None ->
  shortest_from x n d k p fuel <> None.
Proof.
  revert p. induction fuel as [|fuel IH]; intros p Hp Hpick; [lia|]. cbn [shortest_from].
  destruct (pick x (n * 10 ^ Z.max 0 (p - k) / _) _ _ _) eqn:E; [done|].
  destruct (Z.eq_dec p p0) as [->|Hne]; [done|]. apply IH; [lia|done].
Qed.

(** The shortest decimal of a double that is not zero exists, is
    positive, and converts back. *)
Lemma shortest_spec x :
  0 < f_man x -> exists c q, shortest x = Some (c, q) /\ 0 < c /\ f64_of_decimal c q = Some (f64_abs x).
Proof.
  intros Hm. pose proof (f_canon x) as Hc. apply canonical_spec in Hc as (Hm53 & He & _).
  unfold shortest. destruct (frac_of (f_man x) (f_exp x)) as [n d] eqn:Hfr.
  set (k := dec_exp n d). set (j := Z.max 0 (- f_exp x)).
  set (p0 := Z.max 1 (k + j)).
  assert (Hd : d = 2 ^ j) by (unfold frac_of in Hfr; by injection Hfr).
  assert (Hn : 0 < n).
  { unfold frac_of in Hfr. injection Hfr as <- _. apply Z.mul_pos_pos; [lia|apply Z.pow_pos_nonneg; lia]. }
  set (lo := n * 2 ^ (p0 - k - j) * 5 ^ (p0 - k)).
  assert (Hten : n * 10 ^ (p0 - k) = lo * 2 ^ j).
  { unfold lo. replace 10 with (2 * 5) by done. rewrite Z.pow_mul_l.
    replace (p0 - k) with ((p0 - k - j) + j) at 1 by lia. rewrite Z.pow_add_r by lia. ring. }
  assert (Hlo : 0 < lo) by (unfold lo; repeat apply Z.mul_pos_pos; try apply Z.pow_pos_nonneg; lia).
  assert (Hround : roundtrips x lo (k - p0) = true).
  { apply bool_decide_eq_true, f64_of_decimal_value; [done|done|].
    rewrite Hfr. unfold dec_frac; simpl. rewrite Hd.
    rewrite (Z.max_l 0 (k - p0)), (Z.max_r 0 (- (k - p0))) by lia.
    replace (- (k - p0)) with (p0 - k) by lia. rewrite Hten. ring. }
  assert (Hsome : shortest_from x n d k 1 (Z.to_nat (Z.max 17 (k + 1075))) <> None).
  { apply (shortest_from_reach _ _ _ _ _ p0); [lia|].
    rewrite (Z.max_r 0 (p0 - k)), (Z.max_l 0 (k - p0)), Z.pow_0_r, Z.mul_1_r, Hten, Hd by lia.
    rewrite Z.div_mul, Z_mod_mult by (apply Z.pow_nonzero; lia).
    by rewrite pick_exact. }
  destruct (shortest_from _ _ _ _ _ _) as [[c q]|] eqn:Hs; [|done].
  exists c, q. apply shortest_from_sound in Hs as [Hc0 Hs]; [|lia|rewrite Hd; apply Z.pow_pos_nonneg; lia].
  apply bool_decide_eq_true in Hs. split_and!; [done| |done].
  destruct (Z.eqb_spec c 0) as [->|Hne]; [|lia].
  unfold f64_of_decimal in Hs. simpl in Hs. injection Hs. lia.
Qed.

(** ** The search finds the shortest, then nearest, decimal *)

Lemma shortest_from_S x n d k p fuel :
  shortest_from x n d k p (S fuel) =
  match pick_at x n d (k - p) with
  | Some c => Some (c, k - p)
  | None => shortest_from x n d k (p + 1) fuel
  end.
Proof. cbn [shortest_from]. unfold pick_at. by replace (- (k - p)) with (p - k) by lia. Qed.

(** The search returns at the first precision whose pick succeeds. *)
Lemma shortest_from_first x n d k p fuel c q :
  shortest_from x n d k p fuel = Some (c, q) ->
  exists p1, p <= p1 /\ q = k - p1 /\ pick_at x n d (k - p1) = Some c /\
    forall p', p <= p' < p1 -> pick_at x n d (k - p') = None.
Proof.
  revert p. induction fuel as [|fuel IH]; intros p; [done|]. rewrite shortest_from_S.
  destruct (pick_at x n d (k - p)) as [c'|] eqn:E.
  - intros [= -> <-]. exists p. split_and!; [lia|done|done|lia].
  - intros (p1 & Hp1 & -> & Hc & Hnone)%IH. exists p1. split_and!; [lia|done|done|].
    intros p' Hp'. destruct (Z.eq_dec p' p) as [->|]; [done|]. apply Hnone. lia.
Qed.

Lemma pick_some_l x lo r den q : roundtrips x lo q = true -> pick x lo r den q <> None.
Proof. unfold pick. intros ->. by destruct (_ && _). Qed.

Lemma pick_some_h x lo r den q :
  0 < r -> roundtrips x (lo + 1) q = true -> pick x lo r den q <> None.
Proof.
  unfold pick. intros Hr%Z.ltb_lt ->. rewrite Hr. by destruct (roundtrips x lo q).
Qed.

Section Optimal.
Context (x : float64) (n d : Z).
Hypothesis Hm : 0 < f_man x.
Hypothesis Hfr : frac_of (f_man x) (f_exp x) = (n, d).

Lemma value_pos : 0 < n /\ 0 < d.
Proof. pose proof (frac_of_pos _ (f_exp x) Hm) as H. by rewrite Hfr in H. Qed.

Lemma value_converts : f64_of_frac n d = Some (f64_abs x).
Proof. pose proof (f64_of_frac_exact x Hm) as H. by rewrite Hfr in H. Qed.

Lemma pow10_pos z : 0 < 10 ^ Z.max 0 z.
Proof. apply Z.pow_pos_nonneg; lia. Qed.

Lemma decimal_not_zero q : f64_of_decimal 0 q <> Some (f64_abs x).
Proof.
  unfold f64_of_decimal, f64_of_frac. cbn. intros [= Hz]. lia.
Qed.

(** A decimal between a converting one and the value converts. *)
Lemma decimal_below c1 c2 q :
  0 <= c1 <= c2 -> c2 * (d * 10 ^ Z.max 0 q) <= n * 10 ^ Z.max 0 (- q) ->
  f64_of_decimal c1 q = Some (f64_abs x) -> f64_of_decimal c2 q = Some (f64_abs x).
Proof.
  intros Hc Hle H1. destruct value_pos. pose proof (pow10_pos q). pose proof (pow10_pos (- q)).
  unfold f64_of_decimal, dec_frac in *; cbn [fst snd] in *.
  eapply f64_of_frac_between; [..|exact H1|exact value_converts]; try nia.
  apply Z.mul_le_mono_nonneg_r; [lia|]. apply Z.mul_le_mono_nonneg_r; lia.
Qed.

Lemma decimal_above c1 c2 q :
  0 <= c1 <= c2 -> n * 10 ^ Z.max 0 (- q) <= c1 * (d * 10 ^ Z.max 0 q) ->
  f64_of_decimal c2 q = Some (f64_abs x) -> f64_of_decimal c1 q = Some (f64_abs x).
Proof.
  intros Hc Hle H2. destruct value_pos. pose proof (pow10_pos q). pose proof (pow10_pos (- q)).
  unfold f64_of_decimal, dec_frac in *; cbn [fst snd] in *.
  eapply f64_of_frac_between; [..|exact value_converts|exact H2]; try nia.
  apply Z.mul_le_mono_nonneg_r; [lia|]. apply Z.mul_le_mono_nonneg_r; lia.
Qed.

Lemma decimal_exact c q :
  0 <= c -> c * (d * 10 ^ Z.max 0 q) = n * 10 ^ Z.max 0 (- q) ->
  f64_of_decimal c q = Some (f64_abs x).
Proof.
  intros Hc Heq. destruct value_pos. pose proof (pow10_pos q). pose proof (pow10_pos (- q)).
  unfold f64_of_decimal, dec_frac; cbn [fst snd]. rewrite <- value_converts.
  apply f64_of_frac_cross; nia.
Qed.

Local Ltac ltb_to_lt :=
  repeat match goal with
  | H : (_ <? _) = true |- _ => apply Z.ltb_lt in H
  | H : (_ <? _) = false |- _ => apply Z.ltb_ge in H
  end.

(** The candidates at exponent [q], around the value. *)
Lemma pick_at_setup q :
  let num := n * 10 ^ Z.max 0 (- q) in let den := d * 10 ^ Z.max 0 q in
  0 < den /\ 0 <= num / den /\ num = den * (num / den) + num mod den /\ 0 <= num mod den < den.
Proof.
  intros num den. destruct value_pos. pose proof (pow10_pos q). pose proof (pow10_pos (- q)).
  assert (0 < den) by (unfold den; nia). assert (0 <= num) by (unfold num; nia).
  split_and!; [done|apply Z.div_pos; lia|apply Z.div_mod; lia|apply Z.mod_pos_bound; lia..].
Qed.

(** No pick at exponent [q]: no positive decimal of that exponent
    converts back. *)
Lemma pick_at_none q c' :
  pick_at x n d q = None -> 0 < c' -> f64_of_decimal c' q <> Some (f64_abs x).
Proof.
  unfold pick_at. destruct (pick_at_setup q) as (Hden & Hlo & Hdm & Hr).
  set (num := n * 10 ^ Z.max 0 (- q)) in *. set (den := d * 10 ^ Z.max 0 q) in *.
  set (lo := num / den) in *. set (r := num mod den) in *.
  intros Hnone Hc' Hx.
  destruct (Z.le_gt_cases c' lo) as [Hle|Hgt].
  - apply (pick_some_l x lo r den q); [|done]. apply bool_decide_eq_true.
    apply (decimal_below c' lo q); [lia| |done]. change (lo * den <= num). nia.
  - destruct (Z.eq_dec r 0) as [Hr0|Hr0].
    + apply (pick_some_l x lo r den q); [|done]. apply bool_decide_eq_true.
      apply decimal_exact; [lia|]. change (lo * den = num). lia.
    + apply (pick_some_h x lo r den q); [lia| |done]. apply bool_decide_eq_true.
      apply (decimal_above (lo + 1) c' q); [lia| |done]. change (num <= (lo + 1) * den). nia.
Qed.

(** The pick at exponent [q] is the nearest decimal of that exponent
    that converts back. *)
Lemma pick_at_nearest q c c' :
  pick_at x n d q = Some c -> 0 <= c' -> f64_of_decimal c' q = Some (f64_abs x) ->
  Z.abs (c * (d * 10 ^ Z.max 0 q) - n * 10 ^ Z.max 0 (- q))
  <= Z.abs (c' * (d * 10 ^ Z.max 0 q) - n * 10 ^ Z.max 0 (- q)).
Proof.
  unfold pick_at. destruct (pick_at_setup q) as (Hden & Hlo & Hdm & Hr).
  set (num := n * 10 ^ Z.max 0 (- q)) in *. set (den := d * 10 ^ Z.max 0 q) in *.
  set (lo := num / den) in *. set (r := num mod den) in *.
  intros Hpick Hc' Hx.
  assert (Hc'0 : 0 < c') by (destruct (Z.eq_dec c' 0) as [->|]; [by apply decimal_not_zero in Hx|lia]).
  unfold pick in Hpick.
  destruct (Z.le_gt_cases c' lo) as [Hle|Hgt].
  - assert (Hl : roundtrips x lo q = true).
    { apply bool_decide_eq_true, (decimal_below c' lo q); [lia| |done].
      change (lo * den <= num). nia. }
    rewrite Hl in Hpick.
    assert (c' * den <= lo * den) by (apply Z.mul_le_mono_nonneg_r; lia).
    destruct ((0 <? r) && roundtrips x (lo + 1) q); cbn in Hpick;
      repeat case_match; injection Hpick as <-; ltb_to_lt; nia.
  - assert ((lo + 1) * den <= c' * den) by (apply Z.mul_le_mono_nonneg_r; lia).
    destruct (Z.eq_dec r 0) as [Hr0|Hr0].
    + assert (Hl : roundtrips x lo q = true).
      { apply bool_decide_eq_true, decimal_exact; [lia|]. change (lo * den = num). lia. }
      rewrite Hl, Hr0 in Hpick. cbn in Hpick. injection Hpick as <-. nia.
    + assert (Hh : roundtrips x (lo + 1) q = true).
      { apply bool_decide_eq_true, (decimal_above (lo + 1) c' q); [lia| |done].
        change (num <= (lo + 1) * den). nia. }
      rewrite Hh, (proj2 (Z.ltb_lt 0 r)) in Hpick by lia.
      destruct (roundtrips x lo q); cbn in Hpick;
        repeat case_match; injection Hpick as <-; ltb_to_lt; nia.
Qed.

End Optimal.

(** C22. [repr] prints the shortest decimal that converts back, and of
    those the nearest: for a double [x] that is not zero, with exact
    value [n / d] and decimal exponent [k] ([10^(k-1) <= n/d < 10^k]),
    the digits [c * 10^q] that [shortest] finds convert back to [|x|];
    no positive decimal [c' * 10^q'] with an exponent [q < q' < k], that
    is with fewer significant digits, converts back to [|x|]; and no
    decimal [c' * 10^q] of the same exponent that converts back is
    nearer to [|x|] (distances multiplied by [d * 10^|q|]). *)
Theorem shortest_optimal x n d c q :
  0 < f_man x -> frac_of (f_man x) (f_exp x) = (n, d) -> shortest x = Some (c, q) ->
  f64_of_decimal c q = Some (f64_abs x) /\
  (forall c' q', 0 < c' -> q < q' < dec_exp n d -> f64_of_decimal c' q' <> Some (f64_abs x)) /\
  (forall c', 0 <= c' -> f64_of_decimal c' q = Some (f64_abs x) ->
     Z.abs ((dec_frac c q).1 * d - n * (dec_frac c q).2)
     <= Z.abs ((dec_frac c' q).1 * d - n * (dec_frac c' q).2)).
Proof.
  intros Hm Hfr Hs. destruct (value_pos x n d Hm Hfr).
  unfold shortest in Hs. rewrite Hfr in Hs. cbv beta iota zeta in Hs.
  pose proof Hs as Hs'. apply shortest_from_sound in Hs' as [_ Hrt%bool_decide_eq_true]; [|lia|lia].
  apply shortest_from_first in Hs as (p1 & Hp1 & -> & Hpick & Hnone).
  split_and!; [done| |].
  - intros c' q' Hc' Hq'. replace q' with (dec_exp n d - (dec_exp n d - q')) by lia.
    apply (pick_at_none x n d Hm Hfr); [apply Hnone; lia|done].
  - intros c' Hc' Hx. unfold dec_frac; cbn [fst snd].
    pose proof (pick_at_nearest x n d Hm Hfr _ c c' Hpick Hc' Hx) as Hn.
    replace (c * 10 ^ Z.max 0 (dec_exp n d - p1) * d)
      with (c * (d * 10 ^ Z.max 0 (dec_exp n d - p1))) by ring.
    replace (c' * 10 ^ Z.max 0 (dec_exp n d - p1) * d)
      with (c' * (d * 10 ^ Z.max 0 (dec_exp n d - p1))) by ring.
    exact Hn.
Qed.

Module ShortestWitness.

(** [859.99]: no decimal of one to four significant digits converts to
    it, so [repr] prints five. *)
Lemma shortest_optimal_witness :
  shortest Binary64Witness.rent_double = Some (85999, -2) /\
  (forall c' q', 0 < c' -> -2 < q' < 3 ->
     f64_of_decimal c' q' <> Some (f64_abs Binary64Witness.rent_double)).
Proof.
  assert (Hs : shortest Binary64Witness.rent_double = Some (85999, -2)) by (vm_compute; reflexivity).
  assert (Hfr : frac_of (f_man Binary64Witness.rent_double) (f_exp Binary64Witness.rent_double)
                = (7564552038168658, 8796093022208)) by (vm_compute; reflexivity).
  assert (Hk : dec_exp 7564552038168658 8796093022208 = 3) by (vm_compute; reflexivity).
  destruct (shortest_optimal Binary64Witness.rent_double _ _ 85999 (-2)
              ltac:(vm_compute; reflexivity) Hfr Hs) as (_ & HA & _).
  split; [exact Hs|]. intros c' q' Hc' Hq'. apply HA; [done|]. rewrite Hk. lia.
Defined.

End ShortestWitness.
