(* ===== verification/PyCore.v ===== *)
(** * PyCore: the fragment of the Python runtime the service relies on

    Values, exceptions and an error monad for code that raises;
    [str.find] and slicing with CPython's index normalisation
    ([ADJUST_INDICES], [PySlice_AdjustIndices]); [str] on integers and
    the [int] constructor on strings as Flask's [type=int] calls it. *)

From S2P Require Import Prelude.
From S2P Require Import Binary64 Shortest.
From Stdlib Require Import DecimalPos.
Local Open Scope Z_scope.

(** ** Values and exceptions *)

(** The values that reach the CSV writer: Python [int], [str] and
    (finite) [float]. *)
Inductive pyval : Type :=
| PyInt (z : Z)
| PyStr (s : pystr)
| PyFloat (x : float64).

#[export] Instance pyval_eq_dec : EqDecision pyval.
Proof. solve_decision. Defined.

(** The exceptions raised on the request path, with their message. *)
Inductive pyexc : Type :=
| SyntaxError (msg : pystr)      (** [eval] on text that does not parse *)
| NameError (msg : pystr)        (** [eval] of an unbound name *)
| ValueError (msg : pystr)       (** [int(...)] on a malformed string *)
| AttributeError (msg : pystr)   (** [.items()] on a value that is not a dict *)
| EmptyDataError (msg : pystr)   (** pandas: no columns to parse *)
| ServiceError (msg : pystr).    (** anything raised by the completion call *)

#[export] Instance pyexc_eq_dec : EqDecision pyexc.
Proof. solve_decision. Defined.

(** [str(e)]: the message the handler puts in its JSON body. *)
Definition exc_str (e : pyexc) : pystr :=
  match e with
  | SyntaxError m | NameError m | ValueError m | AttributeError m
  | EmptyDataError m | ServiceError m => m
  end.

(** Code that may raise: a value or the exception raised. *)
Inductive pyres (A : Type) : Type :=
| Ok (a : A)
| Raise (e : pyexc).
Arguments Ok {A} a.
Arguments Raise {A} e.

Definition pybind {A B} (c : pyres A) (k : A -> pyres B) : pyres B :=
  match c with Ok a => k a | Raise e => Raise e end.

Notation "x <- c ;; k" := (pybind c (fun x => k))
  (at level 60, c at next level, right associativity) : py_scope.

Lemma pybind_Ok {A B} (a : A) (k : A -> pyres B) : pybind (Ok a) k = k a.
Proof. reflexivity. Qed.

Lemma pybind_Raise {A B} (e : pyexc) (k : A -> pyres B) :
  pybind (Raise e) k = Raise e.
Proof. reflexivity. Qed.

Lemma pybind_Ok_inv {A B} (c : pyres A) (k : A -> pyres B) b :
  pybind c k = Ok b -> exists a, c = Ok a /\ k a = Ok b.
Proof. destruct c; simpl; [eauto|done]. Qed.

#[export] Hint Rewrite @pybind_Ok @pybind_Raise : pyrw.

(** ** [str.find] with a start argument *)

(** CPython's [ADJUST_INDICES] for the start of a search. *)
Definition adjust_start (len st : Z) : Z :=
  if st <? 0 then Z.max 0 (st + len) else st.

(** [s.find(c, start)] for a one-character needle: the index of the first
    [c] at or after the adjusted start, or -1. *)
Definition py_find (s : pystr) (c : ascii) (start : Z) : Z :=
  let len := Z.of_nat (length s) in
  let st := adjust_start len start in
  if len <? st then -1
  else match index_of c (drop (Z.to_nat st) s) with
       | Some i => st + Z.of_nat i
       | None => -1
       end.

(** ** Slicing [s[i:j]] *)

(** CPython's [PySlice_AdjustIndices] for one bound, step 1. *)
Definition adjust_slice_index (len i : Z) : Z :=
  if i <? 0 then Z.max 0 (i + len) else Z.min i len.

Definition py_slice (s : pystr) (i j : Z) : pystr :=
  let len := Z.of_nat (length s) in
  let a := adjust_slice_index len i in
  let b := adjust_slice_index len j in
  take (Z.to_nat (b - a)) (drop (Z.to_nat a) s).

(** ** [str] on integers *)

Definition digit_char (d : nat) : ascii := ascii_of_nat (48 + d).

Fixpoint chars_of_uint (u : Decimal.uint) : pystr :=
  match u with
  | Decimal.Nil => []
  | Decimal.D0 u => digit_char 0 :: chars_of_uint u
  | Decimal.D1 u => digit_char 1 :: chars_of_uint u
  | Decimal.D2 u => digit_char 2 :: chars_of_uint u
  | Decimal.D3 u => digit_char 3 :: chars_of_uint u
  | Decimal.D4 u => digit_char 4 :: chars_of_uint u
  | Decimal.D5 u => digit_char 5 :: chars_of_uint u
  | Decimal.D6 u => digit_char 6 :: chars_of_uint u
  | Decimal.D7 u => digit_char 7 :: chars_of_uint u
  | Decimal.D8 u => digit_char 8 :: chars_of_uint u
  | Decimal.D9 u => digit_char 9 :: chars_of_uint u
  end.

(** [str(z)] for a Python [int]: optional minus sign, then the decimal
    digits without leading zeros. *)
Definition str_of_int (z : Z) : pystr :=
  match z with
  | Z0 => [digit_char 0]
  | Zpos p => chars_of_uint (Pos.to_uint p)
  | Zneg p => "-"%char :: chars_of_uint (Pos.to_uint p)
  end.

(** ** [int] on strings *)

(** The whitespace [int] strips, on code points below 256: CPython
    first maps the non-ASCII Unicode spaces (NEL 0x85, NBSP 0xa0) to ' '
    and then skips ASCII [isspace] (tab, LF, VT, FF, CR, space).  The
    separators 0x1c-0x1f are [str.isspace] but not skipped: [int] raises
    [ValueError] on them. *)
Definition is_space (c : ascii) : bool :=
  match nat_of_ascii c with
  | 9%nat | 10%nat | 11%nat | 12%nat | 13%nat | 32%nat | 133%nat | 160%nat => true
  | _ => false
  end.

Fixpoint lstrip (l : pystr) : pystr :=
  match l with
  | c :: l' => if is_space c then lstrip l' else l
  | [] => []
  end.

Definition strip (l : pystr) : pystr := rev (lstrip (rev (lstrip l))).

Definition digit_val (c : ascii) : option Z :=
  let n := nat_of_ascii c in
  if (48 <=? n)%nat && (n <=? 57)%nat then Some (Z.of_nat n - 48) else None.

(** Decimal digits with single underscores between digits, as [int]
    accepts them; [after_digit] records that the last character read was
    a digit (so that an underscore or the end of input is allowed). *)
Fixpoint int_digits (acc : Z) (after_digit : bool) (l : pystr) : option Z :=
  match l with
  | [] => if after_digit then Some acc else None
  | c :: l' =>
      match digit_val c with
      | Some d => int_digits (10 * acc + d) true l'
      | None =>
          if after_digit && bool_decide (c = "_"%char)
          then int_digits acc false l' else None
      end
  end.

(** CPython 3.11's [sys.get_int_max_str_digits()]: [int] of a text and
    [str] of an [int] raise [ValueError] past this many decimal digits. *)
Definition int_max_str_digits : nat := 4300.

(** The number of decimal digits of an [int]. *)
Definition n_digits (z : Z) : nat := length (str_of_int (Z.abs z)).

(** The decimal digits of a numeral, signs and underscores not counted. *)
Definition numeral_digits (l : pystr) : nat :=
  length (filter (fun c => is_Some (digit_val c)) l).

(** [int(s)]: [None] stands for the [ValueError] that Flask's
    [form.get(..., type=int)] turns into its default [None], the one of
    a numeral of more than [int_max_str_digits] digits included. *)
Definition int_of_numeral (l : pystr) : option Z :=
  match l with
  | c :: r =>
      if bool_decide (c = "-"%char) then Z.opp <$> int_digits 0 false r
      else if bool_decide (c = "+"%char) then int_digits 0 false r
      else int_digits 0 false (c :: r)
  | [] => None
  end.

Definition py_int (s : pystr) : option Z :=
  if (int_max_str_digits <? numeral_digits (strip s))%nat then None
  else int_of_numeral (strip s).

(** ** Laws of [find] and slicing *)

Lemma py_find_from s c (n : nat) :
  (n <= length s)%nat ->
  py_find s c (Z.of_nat n) =
    match index_of c (drop n s) with
    | Some i => Z.of_nat (n + i)
    | None => -1
    end.
Proof.
  intros Hn. unfold py_find, adjust_start.
  destruct (Z.ltb_spec (Z.of_nat n) 0); [lia|].
  destruct (Z.ltb_spec (Z.of_nat (length s)) (Z.of_nat n)); [lia|].
  rewrite Nat2Z.id. destruct (index_of c (drop n s)); [f_equal; lia|done].
Qed.

(** A search from -1 looks at the last character only. *)
Lemma py_find_last s c c' :
  py_find (s ++ [c']) c (-1) =
    if decide (c' = c) then Z.of_nat (length s) else -1.
Proof.
  unfold py_find, adjust_start. rewrite length_app. simpl.
  destruct (Z.ltb_spec (Z.of_nat (length s + 1)) (Z.max 0 (-1 + Z.of_nat (length s + 1)))); [lia|].
  replace (Z.to_nat (Z.max 0 (-1 + Z.of_nat (length s + 1)))) with (length s) by lia.
  rewrite drop_app_length. simpl. case_decide; simpl; [lia|done].
Qed.

Lemma py_find_nil c st : py_find [] c st = -1.
Proof.
  unfold py_find. rewrite drop_nil. simpl. by case_match.
Qed.

Lemma py_slice_range s (i j : nat) :
  (i <= j <= length s)%nat ->
  py_slice s (Z.of_nat i) (Z.of_nat j) = take (j - i) (drop i s).
Proof.
  intros Hij. unfold py_slice, adjust_slice_index.
  destruct (Z.ltb_spec (Z.of_nat i) 0), (Z.ltb_spec (Z.of_nat j) 0); try lia.
  f_equal; [|f_equal]; lia.
Qed.

(** Slicing up to 0 is empty, whatever the start. *)
Lemma py_slice_to_zero s i : py_slice s i 0 = [].
Proof.
  unfold py_slice, adjust_slice_index. simpl.
  match goal with
  | |- take (Z.to_nat ?d) _ = _ =>
      replace (Z.to_nat d) with 0%nat by (destruct (Z.ltb_spec i 0); lia)
  end.
  done.
Qed.

Lemma py_slice_last s c :
  py_slice (s ++ [c]) (-1) (Z.of_nat (length s + 1)) = [c].
Proof.
  unfold py_slice, adjust_slice_index. rewrite length_app. simpl.
  destruct (Z.ltb_spec (Z.of_nat (length s + 1)) 0); [lia|].
  match goal with
  | |- take (Z.to_nat ?d) (drop (Z.to_nat ?a) _) = _ =>
      replace (Z.to_nat d) with 1%nat by lia;
      replace (Z.to_nat a) with (length s) by lia
  end.
  by rewrite drop_app_length.
Qed.

(** ** [int(str(z)) = z] *)

(** The value of a digit string read from the left into [acc]. *)
Fixpoint uint_fold (acc : Z) (u : Decimal.uint) : Z :=
  match u with
  | Decimal.Nil => acc
  | Decimal.D0 u => uint_fold (10 * acc) u
  | Decimal.D1 u => uint_fold (10 * acc + 1) u
  | Decimal.D2 u => uint_fold (10 * acc + 2) u
  | Decimal.D3 u => uint_fold (10 * acc + 3) u
  | Decimal.D4 u => uint_fold (10 * acc + 4) u
  | Decimal.D5 u => uint_fold (10 * acc + 5) u
  | Decimal.D6 u => uint_fold (10 * acc + 6) u
  | Decimal.D7 u => uint_fold (10 * acc + 7) u
  | Decimal.D8 u => uint_fold (10 * acc + 8) u
  | Decimal.D9 u => uint_fold (10 * acc + 9) u
  end.

Lemma of_uint_acc_fold u p :
  Zpos (Pos.of_uint_acc u p) = uint_fold (Zpos p) u.
Proof.
  revert p; induction u; intros p; simpl; rewrite ?IHu; try f_equal; lia.
Qed.

Lemma of_uint_fold u : Z.of_N (Pos.of_uint u) = uint_fold 0 u.
Proof. induction u; simpl; rewrite ?of_uint_acc_fold; done. Qed.

Lemma digit_val_char k : (k < 10)%nat -> digit_val (digit_char k) = Some (Z.of_nat k).
Proof. intros Hk. do 10 (destruct k as [|k]; [reflexivity|]). lia. Qed.

Lemma int_digits_uint acc u :
  int_digits acc true (chars_of_uint u) = Some (uint_fold acc u).
Proof.
  revert acc; induction u; intros acc; cbn [chars_of_uint int_digits uint_fold];
    rewrite ?digit_val_char by lia; rewrite ?IHu; do 2 f_equal; lia.
Qed.

Lemma int_digits_uint_nonnil acc b u :
  u <> Decimal.Nil -> int_digits acc b (chars_of_uint u) = Some (uint_fold acc u).
Proof.
  destruct u; intros Hu; [done|..]; cbn [chars_of_uint int_digits uint_fold];
    rewrite digit_val_char by lia; rewrite int_digits_uint; do 2 f_equal; lia.
Qed.

Lemma to_uint_nonnil p : Pos.to_uint p <> Decimal.Nil.
Proof.
  intros Hnil. pose proof (DecimalPos.Unsigned.of_to p) as Hp.
  rewrite Hnil in Hp. discriminate.
Qed.

Lemma chars_of_uint_nospace u :
  Forall (fun c => is_space c = false) (chars_of_uint u).
Proof. induction u; simpl; constructor; auto. Qed.

Lemma lstrip_nospace l :
  Forall (fun c => is_space c = false) l -> lstrip l = l.
Proof. destruct 1 as [|c l Hc _]; simpl; [done|by rewrite Hc]. Qed.

Lemma strip_nospace l :
  Forall (fun c => is_space c = false) l -> strip l = l.
Proof.
  intros Hl. unfold strip. rewrite (lstrip_nospace l Hl).
  rewrite lstrip_nospace; [apply rev_involutive|].
  by apply Forall_rev.
Qed.

Lemma str_of_int_nospace z :
  Forall (fun c => is_space c = false) (str_of_int z).
Proof.
  destruct z; simpl; repeat constructor; apply chars_of_uint_nospace.
Qed.

#[export] Hint Resolve str_of_int_nospace chars_of_uint_nospace : pylib.

(** The digits [str] prints for an [int] are its decimal digits. *)
Lemma numeral_digits_uint u : numeral_digits (chars_of_uint u) = length (chars_of_uint u).
Proof.
  unfold numeral_digits. induction u; cbn [chars_of_uint length]; [done|..];
    rewrite filter_cons_True by (rewrite digit_val_char by lia; eauto); cbn [length]; by rewrite IHu.
Qed.

Lemma numeral_digits_str_of_int z : numeral_digits (str_of_int z) = n_digits z.
Proof.
  unfold n_digits. destruct z as [|p|p]; [reflexivity| |]; cbn [Z.abs str_of_int].
  - apply numeral_digits_uint.
  - unfold numeral_digits. rewrite filter_cons_False by (compute; intros [? ?]; discriminate).
    apply numeral_digits_uint.
Qed.

(** The numeral [str] prints reads back as the integer. *)
Lemma int_of_numeral_str_of_int z : int_of_numeral (str_of_int z) = Some z.
Proof.
  unfold int_of_numeral. destruct z as [|p|p]; [reflexivity| |].
  - pose proof (int_digits_uint_nonnil 0 false _ (to_uint_nonnil p)) as Hd.
    rewrite <- of_uint_fold, DecimalPos.Unsigned.of_to in Hd.
    cbn [str_of_int].
    destruct (Pos.to_uint p) eqn:Hu; [by destruct (to_uint_nonnil p)|..];
      cbn [chars_of_uint] in Hd |- *;
      rewrite !bool_decide_false by (compute; discriminate); exact Hd.
  - simpl. rewrite int_digits_uint_nonnil by apply to_uint_nonnil. simpl.
    rewrite <- of_uint_fold, DecimalPos.Unsigned.of_to. done.
Qed.

(** Reading back what [str] printed gives the integer, below the limit. *)
Lemma py_int_str_of_int z : (n_digits z <= int_max_str_digits)%nat -> py_int (str_of_int z) = Some z.
Proof.
  intros Hz. unfold py_int. rewrite strip_nospace by apply str_of_int_nospace.
  rewrite numeral_digits_str_of_int, (proj2 (Nat.ltb_ge _ _) Hz). apply int_of_numeral_str_of_int.
Qed.

(** Above the limit [int] refuses the numeral. *)
Lemma py_int_too_long z : (int_max_str_digits < n_digits z)%nat -> py_int (str_of_int z) = None.
Proof.
  intros Hz. unfold py_int. rewrite strip_nospace by apply str_of_int_nospace.
  by rewrite numeral_digits_str_of_int, (proj2 (Nat.ltb_lt _ _) Hz).
Qed.

Lemma chars_of_uint_digits u : Forall (fun c => digit_val c <> None) (chars_of_uint u).
Proof. induction u; simpl; constructor; auto; by rewrite digit_val_char by lia. Qed.

(** What [str(int)] prints contains only '-' and digits. *)
Lemma str_of_int_notin c z : digit_val c = None -> c <> "-"%char -> c ∉ str_of_int z.
Proof.
  intros Hd Hm Hin.
  assert (Hu : forall u, c ∉ chars_of_uint u).
  { intros u Hc. pose proof (chars_of_uint_digits u) as Hf. rewrite Forall_forall in Hf.
    by apply (Hf c). }
  destruct z as [|p|p]; simpl in Hin.
  - apply list_elem_of_singleton in Hin as ->. by rewrite digit_val_char in Hd by lia.
  - by apply (Hu (Pos.to_uint p)).
  - apply elem_of_cons in Hin as [->|Hin]; [done|by apply (Hu (Pos.to_uint p))].
Qed.

(** [str(z)] followed by a character that is neither a digit nor '-'
    determines [z] and the rest. *)
Lemma str_of_int_prefix_unique c z1 z2 r1 r2 :
  digit_val c = None -> c <> "-"%char ->
  str_of_int z1 ++ c :: r1 = str_of_int z2 ++ c :: r2 -> z1 = z2 /\ r1 = r2.
Proof.
  intros Hd Hm Heq.
  apply split_at_char_unique in Heq as [Hs ->]; [|by apply str_of_int_notin..].
  split; [|done]. apply (f_equal int_of_numeral) in Hs. rewrite !int_of_numeral_str_of_int in Hs.
  by injection Hs.
Qed.

(** ** [repr] and [str] on floats *)

Definition zeros (n : nat) : pystr := replicate n "0"%char.

Fixpoint drop_zeros (s : pystr) : pystr :=
  match s with
  | c :: s' => if bool_decide (c = "0"%char) then drop_zeros s' else s
  | [] => []
  end.

(** A digit string without its trailing zeros. *)
Definition rstrip_zeros (s : pystr) : pystr := rev (drop_zeros (rev s)).

(** An exponent as [%+.02d] prints it, after the sign: two digits at
    least. *)
Definition exp_digits (x : Z) : pystr :=
  if Z.abs x <? 10 then "0"%char :: str_of_int (Z.abs x) else str_of_int (Z.abs x).

(** CPython's [format_float_short] for the [r] format of [repr]: the
    digits [full] of the shortest decimal with the decimal point [decpt]
    places from their start.  Positional notation with at least one
    digit after the point when [-4 < decpt <= 16], scientific notation
    [d.ddde+XX] otherwise. *)
Definition format_repr (full : pystr) (decpt : Z) : pystr :=
  let ds := rstrip_zeros full in
  if (-4 <? decpt) && (decpt <=? 16) then
    if decpt <=? 0 then lit "0." ++ zeros (Z.to_nat (- decpt)) ++ ds
    else if Z.of_nat (length ds) <=? decpt then ds ++ zeros (Z.to_nat decpt - length ds) ++ lit ".0"
    else take (Z.to_nat decpt) ds ++ "."%char :: drop (Z.to_nat decpt) ds
  else
    let x := decpt - 1 in
    take 1 ds ++ (match drop 1 ds with [] => [] | r => "."%char :: r end)
      ++ "e"%char :: (if x <? 0 then "-"%char else "+"%char) :: exp_digits x.

(** The text of [repr(|x|)]: the shortest decimal that converts back
    ([Binary64.shortest]) in the [r] format, [0.0] for zero. *)
Definition repr_float_abs (x : float64) : pystr :=
  if f_man x =? 0 then lit "0.0"
  else match shortest x with
       | Some (c, q) => format_repr (str_of_int c) (Z.of_nat (length (str_of_int c)) + q)
       | None => []
       end.

(** [repr(x)], which is also [str(x)], of a float: the sign, also of
    [-0.0], then the digits of [|x|]. *)
Definition repr_float (x : float64) : pystr :=
  (if f_neg x then ["-"%char] else []) ++ repr_float_abs x.

(** [str(v)] as [csv.writer] applies it to a non-string field. *)
Definition py_str (v : pyval) : pystr :=
  match v with
  | PyInt z => str_of_int z
  | PyStr s => s
  | PyFloat x => repr_float x
  end.

Definition int_str_limit_msg : pystr :=
  lit "Exceeds the limit (4300 digits) for integer string conversion; use sys.set_int_max_str_digits() to increase the limit".

(** [str(v)] with CPython 3.11's limit: an [int] of more than
    [int_max_str_digits] digits raises [ValueError]. *)
Definition py_str_limited (v : pyval) : pyres pystr :=
  match v with
  | PyInt z => if (int_max_str_digits <? n_digits z)%nat then Raise (ValueError int_str_limit_msg)
               else Ok (str_of_int z)
  | _ => Ok (py_str v)
  end.

(** [str] of [v] does not hit the limit. *)
Definition str_ok (v : pyval) : Prop :=
  match v with PyInt z => (n_digits z <= int_max_str_digits)%nat | _ => True end.

#[export] Instance str_ok_dec v : Decision (str_ok v).
Proof. destruct v; cbn; apply _. Defined.
