(* ===== verification/PyDict.v ===== *)
(** * PyDict: Python's [dict] as the code uses it

    A dict is an association list in insertion order: [d[k] = v]
    overwrites the value in place when [k] is present and appends the
    pair otherwise, and [d.items()] lists the pairs in that order.  Keys
    are compared as Python compares them: [1], [1.0] and [True] are the
    same key, and so are [0.0] and [-0.0] ([key_norm]); the key object
    stored is the first one assigned.  A
    dict display [{k1: v1, k2: v2}] and [Series.to_dict()] build a dict
    by assigning the pairs from left to right ([dict_of_pairs]).  The
    invariant is that keys are distinct; every operation keeps it.
    Objects that [eval] can return ([pyobj]) are also declared here. *)

From S2P Require Import Prelude Binary64 PyCore.

Abbreviation pydict := (list (pyval * pyval)).

(** The objects a literal evaluates to: a dict, a set display, or a
    scalar. *)
Inductive pyobj : Type :=
| ODict (d : pydict)
| OSet (l : list pyval)
| OScalar (v : pyval).

#[export] Instance pyobj_eq_dec : EqDecision pyobj.
Proof. solve_decision. Defined.

Definition dict_keys (d : pydict) : list pyval := map fst d.

(** The key a value stands for in a dict or a set: a float equal to an
    integer is that [int] ([float.__eq__] and [float.__hash__]); other
    values are compared as they are. *)
Definition key_norm (v : pyval) : pyval :=
  match v with
  | PyFloat x => match f64_int_value x with Some z => PyInt z | None => v end
  | _ => v
  end.

(** [d.get(k)] *)
Fixpoint dict_get (d : pydict) (k : pyval) : option pyval :=
  match d with
  | [] => None
  | (k', v) :: d' => if decide (key_norm k = key_norm k') then Some v else dict_get d' k
  end.

(** [d[k] = v]: an equal key keeps its place and its first key object. *)
Fixpoint dict_set (d : pydict) (k v : pyval) : pydict :=
  match d with
  | [] => [(k, v)]
  | (k', v') :: d' =>
      if decide (key_norm k = key_norm k') then (k', v) :: d' else (k', v') :: dict_set d' k v
  end.

(** [dict(pairs)], a dict display, [Series.to_dict()]. *)
Definition dict_of_pairs (l : list (pyval * pyval)) : pydict :=
  fold_left (fun d '(k, v) => dict_set d k v) l [].

(** The invariant: no two keys are equal. *)
Definition dict_wf (d : pydict) : Prop := NoDup (map key_norm (dict_keys d)).

(** The keys of a list in order of first occurrence, those equal to a
    key of [seen] excluded: the order a dict built from the list
    iterates in, and the elements of a set display. *)
Fixpoint first_occ (seen : list pyval) (l : list pyval) : list pyval :=
  match l with
  | [] => []
  | k :: l' =>
      if decide (key_norm k ∈ map key_norm seen) then first_occ seen l'
      else k :: first_occ (seen ++ [k]) l'
  end.

Section DictLaws.
Implicit Types (d : pydict) (k v : pyval).

Lemma dict_keys_set d k v :
  dict_keys (dict_set d k v) =
    if decide (key_norm k ∈ map key_norm (dict_keys d)) then dict_keys d else dict_keys d ++ [k].
Proof.
  induction d as [|[k' v'] d IH]; simpl; [done|].
  destruct (decide (key_norm k = key_norm k')) as [Heq|Hne]; simpl.
  - rewrite decide_True by (rewrite Heq; left). done.
  - rewrite IH. unfold dict_keys in *.
    destruct (decide (key_norm k ∈ map key_norm (map fst d))),
      (decide (key_norm k ∈ key_norm k' :: map key_norm (map fst d))); set_solver.
Qed.

Lemma dict_set_wf d k v : dict_wf d -> dict_wf (dict_set d k v).
Proof.
  unfold dict_wf. rewrite dict_keys_set. case_decide; [done|].
  intros Hnd. rewrite map_app. apply NoDup_app. split_and!; [done| |by apply NoDup_singleton].
  set_solver.
Qed.

Lemma dict_get_set_eq d k k' v :
  key_norm k = key_norm k' -> dict_get (dict_set d k v) k' = Some v.
Proof.
  intros Hk. induction d as [|[k0 v0] d IH]; simpl; [by rewrite decide_True|].
  destruct (decide (key_norm k = key_norm k0)); simpl;
    [by rewrite decide_True by congruence|rewrite decide_False by congruence; done].
Qed.

Lemma dict_get_set_ne d k k' v :
  key_norm k <> key_norm k' -> dict_get (dict_set d k v) k' = dict_get d k'.
Proof.
  intros Hne. induction d as [|[k0 v0] d IH]; simpl; [by rewrite decide_False|].
  destruct (decide (key_norm k = key_norm k0)) as [Heq|]; simpl.
  - rewrite !decide_False by congruence. done.
  - destruct (decide (key_norm k' = key_norm k0)); [done|apply IH].
Qed.

Lemma dict_get_Some_in d k v : dict_get d k = Some v -> exists k', (k', v) ∈ d /\ key_norm k' = key_norm k.
Proof.
  induction d as [|[k' v'] d IH]; simpl; [done|].
  destruct (decide (key_norm k = key_norm k')); [intros [= ->]; exists k'; split; [left|done]|].
  intros Hg. destruct (IH Hg) as (k'' & Hin & Hk). exists k''. split; [by right|done].
Qed.

(** Assigning a key that is absent appends it. *)
Lemma dict_set_absent d k v :
  key_norm k ∉ map key_norm (dict_keys d) -> dict_set d k v = d ++ [(k, v)].
Proof.
  induction d as [|[k' v'] d IH]; simpl; intros Hn; [done|].
  rewrite decide_False by set_solver. rewrite IH by set_solver. done.
Qed.

(** Building from pairs with distinct keys keeps the pairs as they are,
    in order. *)
Lemma dict_of_pairs_distinct_aux acc l :
  NoDup (map key_norm (dict_keys acc ++ dict_keys l)) ->
  fold_left (fun d '(k, v) => dict_set d k v) l acc = acc ++ l.
Proof.
  revert acc. induction l as [|[k v] l IH]; intros acc Hnd; simpl.
  - by rewrite app_nil_r.
  - rewrite dict_set_absent.
    + rewrite IH; [by rewrite <- app_assoc|].
      unfold dict_keys in *. rewrite !map_app in *. simpl in *. rewrite <- app_assoc. exact Hnd.
    + unfold dict_keys in *. simpl in Hnd. rewrite map_app in Hnd. simpl in Hnd.
      apply NoDup_app in Hnd as (_ & Hdis & _). intros Hin. by apply (Hdis (key_norm k)); [|left].
Qed.

Lemma dict_of_pairs_distinct l : dict_wf l -> dict_of_pairs l = l.
Proof. intros Hnd. apply (dict_of_pairs_distinct_aux []). exact Hnd. Qed.

Lemma dict_of_pairs_wf l : dict_wf (dict_of_pairs l).
Proof.
  unfold dict_of_pairs. cut (forall acc, dict_wf acc ->
    dict_wf (fold_left (fun d '(k, v) => dict_set d k v) l acc)).
  { intros H. apply H. constructor. }
  induction l as [|[k v] l IH]; intros acc Hacc; simpl; [done|].
  apply IH. by apply dict_set_wf.
Qed.

Lemma dict_of_pairs_keys_aux acc l :
  dict_keys (fold_left (fun d '(k, v) => dict_set d k v) l acc)
  = dict_keys acc ++ first_occ (dict_keys acc) (map fst l).
Proof.
  revert acc. induction l as [|[k v] l IH]; intros acc; simpl; [by rewrite app_nil_r|].
  rewrite IH, dict_keys_set. case_decide; [done|]. by rewrite <- app_assoc.
Qed.

Lemma first_occ_subset seen l x : x ∈ first_occ seen l -> x ∈ l.
Proof.
  revert seen. induction l as [|k l IH]; intros seen; simpl; [done|].
  case_decide; [intros Hx; right; eauto|].
  rewrite elem_of_cons. intros [->|Hx]; [by left|right; eauto].
Qed.

Lemma first_occ_nodup seen l :
  NoDup (map key_norm seen) -> NoDup (map key_norm (seen ++ first_occ seen l)).
Proof.
  revert seen. induction l as [|k l IH]; intros seen Hs; simpl; [by rewrite app_nil_r|].
  case_decide as Hk; [by apply IH|].
  replace (seen ++ k :: first_occ (seen ++ [k]) l) with ((seen ++ [k]) ++ first_occ (seen ++ [k]) l)
    by (by rewrite <- app_assoc).
  apply IH. rewrite map_app. apply NoDup_app. split_and!; [done| |apply NoDup_singleton]. set_solver.
Qed.

Lemma dict_of_pairs_get_aux acc l k :
  dict_get (fold_left (fun d '(k, v) => dict_set d k v) l acc) k
  = match last (map snd (filter (fun kv => key_norm kv.1 = key_norm k) l)) with
    | Some v => Some v
    | None => dict_get acc k
    end.
Proof.
  revert acc. induction l as [|[k' v'] l IH]; intros acc; simpl; [done|].
  rewrite IH. destruct (decide (key_norm k' = key_norm k)) as [Heq|Hne].
  - rewrite filter_cons_True by done. simpl. rewrite last_cons.
    destruct (last _); [done|]. by apply dict_get_set_eq.
  - rewrite filter_cons_False by done. destruct (last _); [done|].
    by apply dict_get_set_ne.
Qed.

End DictLaws.

#[export] Hint Resolve dict_set_wf dict_of_pairs_wf : pylib.

(** C21. A dict display or [dict(pairs)] with a repeated key keeps the
    value written last, at the position where the key first appeared,
    keys being equal as Python compares them ([1] and [1.0] are one
    key): what [eval] makes of a reply that lists a category twice. *)
Theorem dict_of_pairs_last_wins l k :
  dict_get (dict_of_pairs l) k = last (map snd (filter (fun kv => key_norm kv.1 = key_norm k) l)) /\
  dict_keys (dict_of_pairs l) = first_occ [] (map fst l).
Proof.
  split.
  - unfold dict_of_pairs. rewrite dict_of_pairs_get_aux. by destruct (last _).
  - apply (dict_of_pairs_keys_aux []).
Qed.
