(* ===== verification/Number.v ===== *)
(** * Number: the number tokens of [eval]

    Integer and float literals as Python's tokenizer reads them inside a
    dict display: [digitpart]s with single underscores between digits,
    the point and the exponent of a float, the characters that may end a
    number, and unary minus.  The value of a float literal is the
    correctly rounded double of Binary64.  The lemmas read back what
    [str] and [repr] print for an [int] or a [float]. *)

From S2P Require Import Prelude Binary64 Shortest PyCore.
From Stdlib Require Import DecimalPos.
Local Open Scope Z_scope.

Module Number.

Definition cons_fst {A B} (a : A) (p : list A * B) : list A * B := (a :: p.1, p.2).


Definition is_digit (c : ascii) : bool :=
  let n := nat_of_ascii c in ((48 <=? n) && (n <=? 57))%nat.

(** Characters that may end an integer literal inside a dict display. *)
Definition ends_token (c : ascii) : bool :=
  bool_decide (c = ","%char) || bool_decide (c = ":"%char) || bool_decide (c = "}"%char)
  || bool_decide (c = " "%char) || bool_decide (c = "009"%char)
  || bool_decide (c = "010"%char) || bool_decide (c = "013"%char).

Fixpoint span_digits (s : pystr) : pystr * pystr :=
  match s with
  | c :: s' => if is_digit c || bool_decide (c = "_"%char)
               then cons_fst c (span_digits s') else ([], s)
  | [] => ([], [])
  end.

(** A decimal literal: digits with single underscores between digits,
    no leading zero unless every digit is 0, followed by a token end. *)
Definition lex_int (s : pystr) : option (Z * pystr) :=
  let '(ds, rest) := span_digits s in
  let ok_end := match rest with [] => true | c :: _ => ends_token c end in
  let ok_zero := match ds with
                 | c :: _ => negb (bool_decide (c = "0"%char))
                             || forallb (fun c => bool_decide (c = "0"%char) || bool_decide (c = "_"%char)) ds
                 | [] => false
                 end in
  if ok_end && ok_zero then (fun z => (z, rest)) <$> int_digits 0 false ds else None.

(** A digit part of a float literal ([digitpart] of the grammar): its
    value and its number of digits. *)
Definition count_digits (ds : pystr) : Z := Z.of_nat (length (filter (fun c => is_digit c = true) ds)).

Definition digitpart (ds : pystr) : option (Z * Z) :=
  (fun v => (v, count_digits ds)) <$> int_digits 0 false ds.

Definition is_exp_mark (c : ascii) : bool := bool_decide (c = "e"%char) || bool_decide (c = "E"%char).

(** The exponent after [e] or [E]: an optional sign and a digit part. *)
Definition lex_exponent (r : pystr) : option (Z * pystr) :=
  let '(sgn, r') := match r with
                    | c :: t => if bool_decide (c = "-"%char) then (-1, t)
                                else if bool_decide (c = "+"%char) then (1, t) else (1, r)
                    | [] => (1, r)
                    end in
  let '(ds, r'') := span_digits r' in
  (fun v => (sgn * v, r'')) <$> int_digits 0 false ds.

(** A float literal, at a text whose digits are followed by a point or
    an exponent mark: [[digitpart] . [digitpart] [exponent]] with a
    digit on at least one side of the point, or [digitpart exponent].
    Its value is the double nearest to the decimal it writes; [None]
    when it does not parse, is not followed by a token end, or
    overflows (a literal such as [1e400] is [inf], outside this model). *)
Definition lex_float (s : pystr) : option (float64 * pystr) :=
  let '(ip, r1) := span_digits s in
  let '(fp, r2) := match r1 with
                   | c :: r => if bool_decide (c = "."%char)
                               then (Some (span_digits r).1, (span_digits r).2) else (None, r1)
                   | [] => (None, r1)
                   end in
  let ex := match r2 with
            | c :: r => if is_exp_mark c then lex_exponent r else Some (0, r2)
            | [] => Some (0, r2)
            end in
  match ex with
  | None => None
  | Some (ev, r3) =>
      let ok_end := match r3 with [] => true | c :: _ => ends_token c end in
      let ipv := match ip with [] => Some (0, 0) | _ => digitpart ip end in
      let fpv := match fp with None | Some [] => Some (0, 0) | Some f => digitpart f end in
      let nonempty := match ip, fp with [], None | [], Some [] => false | _, _ => true end in
      match ipv, fpv with
      | Some (a, _), Some (b, nb) =>
          if ok_end && nonempty then (fun x => (x, r3)) <$> f64_of_decimal (a * 10 ^ nb + b) (ev - nb)
          else None
      | _, _ => None
      end
  end.

(** A number: a float literal when the digits are followed by a point or
    an exponent mark, an integer literal otherwise. *)
Definition lex_number (s : pystr) : option (pyval * pystr) :=
  match (span_digits s).2 with
  | c :: _ =>
      if bool_decide (c = "."%char) || is_exp_mark c
      then (fun '(x, r) => (PyFloat x, r)) <$> lex_float s
      else (fun '(z, r) => (PyInt z, r)) <$> lex_int s
  | [] => (fun '(z, r) => (PyInt z, r)) <$> lex_int s
  end.

(** Unary minus on a number. *)
Definition neg_num (v : pyval) : pyval :=
  match v with
  | PyInt z => PyInt (- z)
  | PyFloat x => PyFloat (f64_opp x)
  | PyStr _ => v
  end.

(** [float(s)] on a string, for its finite results: the whitespace
    [int] also strips, an optional sign, then a decimal with the syntax
    of a float literal, where a plain integer and leading zeros are
    allowed.  [None] is the [ValueError], and also the strings this
    model leaves out: [inf], [nan], and decimals too large for a double. *)
Definition py_float (s : pystr) : option float64 :=
  let body r := match lex_float r with Some (x, []) => Some x | _ => None end in
  match strip s with
  | c :: r =>
      if bool_decide (c = "-"%char) then f64_opp <$> body r
      else if bool_decide (c = "+"%char) then body r
      else body (c :: r)
  | [] => None
  end.

(** ** Helpers of the proofs: where a number ends, digit strings *)

(** What follows a value in a display: [:], [,] or [}]. *)
Definition value_end (rest : pystr) : Prop :=
  head rest = Some ":"%char \/ head rest = Some ","%char \/ head rest = Some "}"%char.

(** The end of a number: the end of the text, or what follows a value
    in a display. *)
Definition num_end (rest : pystr) : Prop := rest = [] \/ value_end rest.

Definition all_digits (ds : pystr) : Prop := Forall (fun c => is_digit c = true) ds.

(** The value of a digit string read from the left into [acc]. *)
Fixpoint dval (acc : Z) (ds : pystr) : Z :=
  match ds with
  | [] => acc
  | c :: ds' => dval (10 * acc + (Z.of_nat (nat_of_ascii c) - 48)) ds'
  end.

(** Where a run of digits and underscores stops. *)
Definition stops_digits (rest : pystr) : Prop :=
  match rest with [] => True | c :: _ => is_digit c = false /\ c <> "_"%char end.

(** ** Reading back [str] of an integer *)

Lemma nzhead_not_D0 d u : Decimal.nzhead d <> Decimal.D0 u.
Proof. induction d; simpl; congruence. Qed.

(** [str] never prints a leading zero for a positive number. *)
Lemma to_uint_not_D0 p u : Pos.to_uint p <> Decimal.D0 u.
Proof.
  intros Hp. pose proof (DecimalPos.Unsigned.to_of (Pos.to_uint p)) as Hn.
  rewrite DecimalPos.Unsigned.of_to in Hn. change (N.to_uint (N.pos p)) with (Pos.to_uint p) in Hn.
  rewrite Hp in Hn. unfold Decimal.unorm in Hn. simpl in Hn.
  destruct (Decimal.nzhead u) eqn:Hu; try discriminate Hn.
  - injection Hn as ->. by apply (DecimalPos.Unsigned.to_uint_nonzero p).
  - by apply nzhead_not_D0 in Hu.
Qed.

Lemma span_digits_uint u rest :
  value_end rest -> span_digits (chars_of_uint u ++ rest) = (chars_of_uint u, rest).
Proof.
  intros Hr. induction u; simpl;
    try (rewrite IHu; reflexivity).
  destruct rest as [|c r]; [done|]. simpl in Hr.
  destruct Hr as [[= ->]|[[= ->]|[= ->]]]; reflexivity.
Qed.

Lemma ends_token_value_end rest :
  value_end rest -> match rest with [] => true | c :: _ => ends_token c end = true.
Proof. destruct rest as [|c r]; [done|]. intros [[= ->]|[[= ->]|[= ->]]]; reflexivity. Qed.

Lemma ends_token_num_end rest :
  num_end rest -> match rest with [] => true | c :: _ => ends_token c end = true.
Proof. intros [->|Hr]; [done|by apply ends_token_value_end]. Qed.

Lemma lex_int_pos p rest :
  value_end rest -> lex_int (chars_of_uint (Pos.to_uint p) ++ rest) = Some (Z.pos p, rest).
Proof.
  intros Hr. unfold lex_int. rewrite span_digits_uint by done.
  rewrite ends_token_value_end by done.
  pose proof (int_digits_uint_nonnil 0 false _ (to_uint_nonnil p)) as Hd.
  rewrite <- of_uint_fold, DecimalPos.Unsigned.of_to in Hd. simpl in Hd.
  pose proof (to_uint_not_D0 p) as Hnz. pose proof (to_uint_nonnil p) as Hnn.
  destruct (Pos.to_uint p) eqn:Hu; try done; try (exfalso; by eapply Hnz);
    cbn [chars_of_uint] in *; rewrite bool_decide_false by (compute; discriminate);
    rewrite Hd; reflexivity.
Qed.

Lemma span_digits_split s : (span_digits s).1 ++ (span_digits s).2 = s.
Proof.
  induction s as [|c s IH]; [done|]. simpl.
  destruct (is_digit c || _); simpl; [by rewrite IH|done].
Qed.

Lemma lex_int_shorter s z r : lex_int s = Some (z, r) -> (length r < length s)%nat.
Proof.
  unfold lex_int. pose proof (span_digits_split s) as Hs.
  destruct (span_digits s) as [ds rest]. simpl in Hs. intros H.
  destruct (_ && _) eqn:Hok; [|done].
  apply fmap_Some in H as (z' & _ & [= _ <-]). rewrite <- Hs, length_app.
  destruct ds; [by rewrite andb_false_r in Hok|simpl; lia].
Qed.

(** ** Reading back [repr] of a float *)

(** Decide the comparisons of known characters in a goal. *)
Local Ltac char_decide :=
  repeat ((rewrite bool_decide_true by done) || (rewrite bool_decide_false by discriminate)).

Lemma digit_val_is_digit c : is_digit c = true -> digit_val c = Some (Z.of_nat (nat_of_ascii c) - 48).
Proof. unfold digit_val, is_digit. cbn zeta. intros ->. done. Qed.

Lemma int_digits_all acc b ds :
  all_digits ds -> ds <> [] \/ b = true -> int_digits acc b ds = Some (dval acc ds).
Proof.
  revert acc b. induction ds as [|c ds IH]; intros acc b Hd Hne; cbn [int_digits dval].
  - by destruct Hne as [?| ->].
  - inversion Hd as [|? ? Hc Hds]; subst. rewrite digit_val_is_digit by done. apply IH; auto.
Qed.

Lemma dval_app acc a b : dval acc (a ++ b) = dval (dval acc a) b.
Proof. revert acc. induction a; simpl; auto. Qed.

Lemma dval_acc acc ds : dval acc ds = acc * 10 ^ Z.of_nat (length ds) + dval 0 ds.
Proof.
  revert acc. induction ds as [|c ds IH]; intros acc; cbn [dval length]; [lia|].
  rewrite (IH (10 * acc + _)), (IH (10 * 0 + _)), Nat2Z.inj_succ, Z.pow_succ_r by lia. ring.
Qed.

Lemma dval_zeros acc n : dval acc (zeros n) = acc * 10 ^ Z.of_nat n.
Proof.
  revert acc. induction n as [|n IH]; intros acc; cbn [zeros replicate dval]; [lia|].
  fold (zeros n). rewrite IH. change (Z.of_nat (nat_of_ascii "0"%char) - 48) with 0.
  rewrite Nat2Z.inj_succ, Z.pow_succ_r by lia. ring.
Qed.

Lemma length_zeros n : length (zeros n) = n.
Proof. apply length_replicate. Qed.

Lemma all_digits_zeros n : all_digits (zeros n).
Proof. by apply Forall_replicate. Qed.

Lemma count_digits_all ds : all_digits ds -> count_digits ds = Z.of_nat (length ds).
Proof.
  unfold count_digits. intros Hd. f_equal.
  induction Hd as [|c ds Hc Hds IH]; [done|]. rewrite filter_cons_True by done. simpl. by rewrite IH.
Qed.

Lemma span_digits_all ds rest :
  all_digits ds -> stops_digits rest -> span_digits (ds ++ rest) = (ds, rest).
Proof.
  intros Hd Hr. induction Hd as [|c ds Hc Hds IH]; simpl.
  - destruct rest as [|c r]; [done|]. destruct Hr as [H1 H2]. simpl.
    by rewrite H1, bool_decide_false.
  - rewrite Hc. simpl. by rewrite IH.
Qed.

Lemma num_end_stops rest : num_end rest -> stops_digits rest.
Proof. intros [->|Hr]; [done|]. destruct rest as [|c r]; [done|]. destruct Hr as [[= ->]|[[= ->]|[= ->]]]; split; done. Qed.

Lemma digitpart_all ds :
  ds <> [] -> all_digits ds -> digitpart ds = Some (dval 0 ds, Z.of_nat (length ds)).
Proof.
  intros Hne Hd. unfold digitpart. rewrite int_digits_all by auto. simpl.
  by rewrite count_digits_all.
Qed.

(** A text [ip.fp] followed by the end of a value. *)
Lemma lex_float_point ip fp rest :
  ip <> [] -> all_digits ip -> all_digits fp -> num_end rest ->
  lex_float (ip ++ "."%char :: fp ++ rest) =
    (fun x => (x, rest)) <$>
      f64_of_decimal (dval 0 ip * 10 ^ Z.of_nat (length fp) + dval 0 fp) (- Z.of_nat (length fp)).
Proof.
  intros Hip Hdi Hdf Hr. unfold lex_float.
  rewrite span_digits_all by (done || split; done). cbn iota beta.
  rewrite bool_decide_true by done. rewrite span_digits_all by (done || by apply num_end_stops).
  cbn iota beta. cbn [fst snd].
  replace (match rest with c :: r => if is_exp_mark c then lex_exponent r else Some (0, rest)
           | [] => Some (0, rest) end) with (Some (0, rest))
    by (destruct rest as [|c r]; [done|]; by destruct Hr as [[=]|[[= ->]|[[= ->]|[= ->]]]]).
  cbn iota beta. rewrite ends_token_num_end by done.
  destruct ip as [|c ip']; [done|]. rewrite digitpart_all by done. cbn iota beta.
  destruct fp as [|d fp'].
  - cbn iota beta. simpl (_ && _). repeat f_equal; simpl; lia.
  - rewrite digitpart_all by done. cbn iota beta. simpl (_ && _). repeat f_equal; lia.
Qed.

Lemma lex_exponent_sign (neg : bool) ed rest :
  ed <> [] -> all_digits ed -> num_end rest ->
  lex_exponent ((if neg then "-"%char else "+"%char) :: ed ++ rest)
  = Some (if neg then - dval 0 ed else dval 0 ed, rest).
Proof.
  intros Hne Hde Hr. unfold lex_exponent. destruct neg; cbn iota beta;
    char_decide; cbn iota beta; rewrite span_digits_all by (done || by apply num_end_stops);
    cbn iota beta; rewrite int_digits_all by auto; simpl; repeat f_equal; lia.
Qed.

(** A text [ip.fpe+ed] or [ip.fpe-ed] followed by the end of a value. *)
Lemma lex_float_point_exp ip fp (neg : bool) ed rest :
  ip <> [] -> all_digits ip -> all_digits fp -> ed <> [] -> all_digits ed -> num_end rest ->
  lex_float (ip ++ "."%char :: fp ++ "e"%char :: (if neg then "-"%char else "+"%char) :: ed ++ rest) =
    (fun x => (x, rest)) <$>
      f64_of_decimal (dval 0 ip * 10 ^ Z.of_nat (length fp) + dval 0 fp)
        ((if neg then - dval 0 ed else dval 0 ed) - Z.of_nat (length fp)).
Proof.
  intros Hip Hdi Hdf Hne Hde Hr. unfold lex_float.
  rewrite span_digits_all by (done || split; done). cbn iota beta.
  char_decide. rewrite span_digits_all by (done || split; done).
  cbn iota beta. cbn [fst snd]. change (is_exp_mark "e"%char) with true. cbn iota beta.
  rewrite lex_exponent_sign by done. cbn iota beta. rewrite ends_token_num_end by done.
  destruct ip as [|c ip']; [done|]. rewrite digitpart_all by done. cbn iota beta.
  destruct fp as [|d fp'].
  - cbn iota beta. simpl (_ && _). repeat f_equal; simpl; lia.
  - rewrite digitpart_all by done. cbn iota beta. simpl (_ && _). repeat f_equal; lia.
Qed.

(** A text [ipe+ed] or [ipe-ed] followed by the end of a value. *)
Lemma lex_float_int_exp ip (neg : bool) ed rest :
  ip <> [] -> all_digits ip -> ed <> [] -> all_digits ed -> num_end rest ->
  lex_float (ip ++ "e"%char :: (if neg then "-"%char else "+"%char) :: ed ++ rest) =
    (fun x => (x, rest)) <$> f64_of_decimal (dval 0 ip) (if neg then - dval 0 ed else dval 0 ed).
Proof.
  intros Hip Hdi Hne Hde Hr. unfold lex_float.
  rewrite span_digits_all by (done || split; done). cbn iota beta.
  char_decide. cbn iota beta. change (is_exp_mark "e"%char) with true. cbn iota beta.
  rewrite lex_exponent_sign by done. cbn iota beta. rewrite ends_token_num_end by done.
  destruct ip as [|c ip']; [done|]. rewrite digitpart_all by done. cbn iota beta.
  simpl (_ && _). repeat f_equal; simpl; lia.
Qed.

(** ** The texts [repr] prints for a float *)

Lemma is_digit_digit_val c : digit_val c <> None -> is_digit c = true.
Proof. unfold digit_val, is_digit. cbn zeta. by destruct (_ && _). Qed.

Lemma str_of_int_digits z :
  0 <= z -> str_of_int z <> [] /\ all_digits (str_of_int z) /\ dval 0 (str_of_int z) = z.
Proof.
  intros Hz. destruct z as [|p|p]; [|..|lia].
  - split_and!; [done|repeat constructor|done].
  - cbn [str_of_int]. pose proof (to_uint_nonnil p) as Hnn.
    assert (Hd : all_digits (chars_of_uint (Pos.to_uint p))).
    { eapply Forall_impl; [apply chars_of_uint_digits|]. intros c. apply is_digit_digit_val. }
    split_and!; [by destruct (Pos.to_uint p)|done|].
    pose proof (int_digits_uint_nonnil 0 false _ Hnn) as Hi.
    rewrite int_digits_all in Hi by (done || left; by destruct (Pos.to_uint p)).
    rewrite <- of_uint_fold, DecimalPos.Unsigned.of_to in Hi. by injection Hi.
Qed.

Lemma exp_digits_spec x :
  exp_digits x <> [] /\ all_digits (exp_digits x) /\ dval 0 (exp_digits x) = Z.abs x.
Proof.
  unfold exp_digits. destruct (str_of_int_digits (Z.abs x)) as (Hn & Hd & Hv); [lia|].
  destruct (_ <? 10); [|done]. split_and!; [done|by constructor|].
  cbn [dval]. by change (10 * 0 + (Z.of_nat (nat_of_ascii "0"%char) - 48)) with 0.
Qed.

Lemma drop_zeros_spec l : exists t, l = zeros t ++ drop_zeros l.
Proof.
  induction l as [|c l IH]; [by exists 0%nat|]. simpl. case_bool_decide as Hc.
  - destruct IH as [t Ht]. exists (S t). subst c. unfold zeros in *. simpl. f_equal. exact Ht.
  - by exists 0%nat.
Qed.

Lemma rev_zeros t : rev (zeros t) = zeros t.
Proof.
  induction t as [|t IH]; [done|]. unfold zeros in *. simpl. rewrite IH.
  by rewrite <- replicate_S_end.
Qed.

(** The digits without trailing zeros, and the zeros. *)
Lemma rstrip_zeros_spec s : exists t, s = rstrip_zeros s ++ zeros t.
Proof.
  destruct (drop_zeros_spec (rev s)) as [t Ht]. exists t. unfold rstrip_zeros.
  rewrite <- (rev_zeros t), <- rev_app_distr, <- Ht. by rewrite rev_involutive.
Qed.

Lemma lex_number_float ip c r :
  all_digits ip -> c = "."%char \/ c = "e"%char ->
  lex_number (ip ++ c :: r) = (fun '(x, r') => (PyFloat x, r')) <$> lex_float (ip ++ c :: r).
Proof.
  intros Hd Hc. unfold lex_number.
  rewrite span_digits_all by (done || destruct Hc as [-> | ->]; split; done).
  by destruct Hc as [-> | ->].
Qed.

Lemma dval_nonneg acc ds : 0 <= acc -> all_digits ds -> 0 <= dval acc ds.
Proof.
  intros Ha Hd. revert acc Ha. induction Hd as [|c l Hc _ IH]; intros acc Ha; [done|].
  cbn [dval]. apply IH. unfold is_digit in Hc. apply andb_true_iff in Hc as [H1 _].
  apply Nat.leb_le in H1. lia.
Qed.

Lemma fmap_float_pair (o : option float64) (rest : pystr) :
  (fun '(x, r') => (PyFloat x, r')) <$> ((fun x => (x, rest)) <$> o)
  = (fun x => (PyFloat x, rest)) <$> o.
Proof. by destruct o. Qed.

Section FormatRepr.
Context (ds rest : pystr) (Hds : ds <> []) (Hdd : all_digits ds) (Hr : num_end rest).

Let n : Z := Z.of_nat (length ds).

(** The side conditions of the lexing lemmas. *)
Local Ltac side :=
  solve [done | by left | by right | by repeat constructor | by destruct ds
        | by apply Forall_take | by apply Forall_drop
        | by apply Forall_app; split; [apply all_digits_zeros|done]
        | by apply Forall_app; split; [done|apply all_digits_zeros]].

(** [0.000ddd], for [-4 < decpt <= 0]. *)
Lemma lex_format_small decpt :
  decpt <= 0 ->
  lex_number ((lit "0." ++ zeros (Z.to_nat (- decpt)) ++ ds) ++ rest)
  = (fun x => (PyFloat x, rest)) <$> f64_of_decimal (dval 0 ds) (decpt - n).
Proof.
  intros Hd. replace ((lit "0." ++ zeros (Z.to_nat (- decpt)) ++ ds) ++ rest)
    with (["0"%char] ++ "."%char :: (zeros (Z.to_nat (- decpt)) ++ ds) ++ rest)
    by (simpl; by rewrite <- !app_assoc).
  rewrite lex_number_float, lex_float_point, fmap_float_pair; try side.
  do 2 f_equal.
  - rewrite dval_app, dval_zeros. cbn [dval]. simpl. by rewrite (dval_acc 0), Z.mul_0_l.
  - unfold n. rewrite length_app, length_zeros. lia.
Qed.

(** [ddd000.0], for [len ds <= decpt <= 16]. *)
Lemma lex_format_int decpt :
  n <= decpt ->
  lex_number ((ds ++ zeros (Z.to_nat decpt - length ds) ++ lit ".0") ++ rest)
  = (fun x => (PyFloat x, rest)) <$> f64_of_decimal (dval 0 ds) (decpt - n).
Proof.
  intros Hd. set (m := (Z.to_nat decpt - length ds)%nat).
  replace ((ds ++ zeros m ++ lit ".0") ++ rest)
    with ((ds ++ zeros m) ++ "."%char :: ["0"%char] ++ rest) by (simpl; by rewrite <- !app_assoc).
  assert (Hdm : all_digits (ds ++ zeros m)) by (apply Forall_app; split; [done|apply all_digits_zeros]).
  rewrite lex_number_float, lex_float_point, fmap_float_pair; try side.
  rewrite <- (f64_of_decimal_shift (dval 0 ds) (decpt - n) (Z.of_nat m + 1));
    [|by apply dval_nonneg|lia].
  do 2 f_equal.
  - rewrite dval_app, dval_zeros. change (dval 0 ["0"%char]) with 0.
    change (Z.of_nat (length ["0"%char])) with 1. rewrite Z.pow_add_r by lia. ring.
  - unfold m, n in *. simpl. lia.
Qed.

(** [dd.ddd], for [0 < decpt < len ds]. *)
Lemma lex_format_mid decpt :
  0 < decpt < n ->
  lex_number ((take (Z.to_nat decpt) ds ++ "."%char :: drop (Z.to_nat decpt) ds) ++ rest)
  = (fun x => (PyFloat x, rest)) <$> f64_of_decimal (dval 0 ds) (decpt - n).
Proof.
  intros Hd. set (k := Z.to_nat decpt).
  rewrite <- app_assoc. simpl.
  assert (Hk : take k ds <> []).
  { intros Ht. apply (f_equal length) in Ht. rewrite length_take in Ht. simpl in Ht. unfold n, k in *. lia. }
  rewrite lex_number_float, lex_float_point, fmap_float_pair; try side.
  do 2 f_equal.
  - by rewrite <- (dval_acc (dval 0 (take k ds))), <- dval_app, take_drop.
  - rewrite length_drop. unfold n, k in *. lia.
Qed.

(** [d.ddde+XX] or [de-XX], for the other exponents. *)
Lemma lex_format_sci decpt :
  lex_number ((take 1 ds ++ (match drop 1 ds with [] => [] | r => "."%char :: r end)
                ++ "e"%char :: (if decpt - 1 <? 0 then "-"%char else "+"%char)
                :: exp_digits (decpt - 1)) ++ rest)
  = (fun x => (PyFloat x, rest)) <$> f64_of_decimal (dval 0 ds) (decpt - n).
Proof.
  destruct (exp_digits_spec (decpt - 1)) as (He1 & He2 & He3).
  assert (Hsg : (if decpt - 1 <? 0 then - dval 0 (exp_digits (decpt - 1)) else dval 0 (exp_digits (decpt - 1)))
                = decpt - 1) by (rewrite He3; destruct (Z.ltb_spec (decpt - 1) 0); lia).
  unfold n. destruct ds as [|d0 ds'] eqn:E; [done|].
  change (take 1 (d0 :: ds')) with [d0]. change (drop 1 (d0 :: ds')) with ds'.
  inversion Hdd as [|? ? Hd0 Hds']; subst.
  destruct ds' as [|d1 ds'']; cbn iota.
  - replace (([d0] ++ [] ++ "e"%char :: (if decpt - 1 <? 0 then "-"%char else "+"%char)
               :: exp_digits (decpt - 1)) ++ rest)
      with ([d0] ++ "e"%char :: (if decpt - 1 <? 0 then "-"%char else "+"%char)
               :: exp_digits (decpt - 1) ++ rest) by done.
    rewrite lex_number_float, lex_float_int_exp, fmap_float_pair; try side.
    rewrite Hsg. do 2 f_equal; simpl; lia.
  - replace (([d0] ++ ("."%char :: d1 :: ds'') ++ "e"%char :: (if decpt - 1 <? 0 then "-"%char else "+"%char)
               :: exp_digits (decpt - 1)) ++ rest)
      with ([d0] ++ "."%char :: (d1 :: ds'') ++ "e"%char :: (if decpt - 1 <? 0 then "-"%char else "+"%char)
               :: exp_digits (decpt - 1) ++ rest) by (simpl; by rewrite <- !app_assoc).
    rewrite lex_number_float, lex_float_point_exp, fmap_float_pair; try side.
    rewrite Hsg. do 2 f_equal.
    + by rewrite <- (dval_acc (dval 0 [d0])), <- dval_app.
    + simpl length. lia.
Qed.

End FormatRepr.

(** The digits of [str(c)] without trailing zeros, for [c > 0]. *)
Lemma rstrip_digits c :
  0 < c -> rstrip_zeros (str_of_int c) <> [] /\ all_digits (rstrip_zeros (str_of_int c)) /\
  exists t, str_of_int c = rstrip_zeros (str_of_int c) ++ zeros t /\
            c = dval 0 (rstrip_zeros (str_of_int c)) * 10 ^ Z.of_nat t.
Proof.
  intros Hc. destruct (str_of_int_digits c) as (_ & Hdig & Hval); [lia|].
  destruct (rstrip_zeros_spec (str_of_int c)) as [t Ht].
  assert (Hcv : c = dval 0 (rstrip_zeros (str_of_int c)) * 10 ^ Z.of_nat t)
    by (rewrite <- Hval at 1; rewrite Ht at 1; by rewrite dval_app, dval_zeros).
  split_and!; [|rewrite Ht in Hdig; by apply Forall_app in Hdig as [? _]|by exists t].
  intros Hn. rewrite Hn in Hcv. simpl in Hcv. lia.
Qed.

(** What [repr] prints for the decimal [c * 10^q] reads back as that
    decimal's double. *)
Lemma lex_number_format c q rest :
  0 < c -> num_end rest ->
  lex_number (format_repr (str_of_int c) (Z.of_nat (length (str_of_int c)) + q) ++ rest)
  = (fun x => (PyFloat x, rest)) <$> f64_of_decimal c q.
Proof.
  intros Hc Hr. destruct (rstrip_digits c Hc) as (Hds & Hdds & t & Ht & Hcv).
  set (decpt := Z.of_nat (length (str_of_int c)) + q).
  assert (Hkey : f64_of_decimal c q
                 = f64_of_decimal (dval 0 (rstrip_zeros (str_of_int c)))
                     (decpt - Z.of_nat (length (rstrip_zeros (str_of_int c))))).
  { rewrite <- (f64_of_decimal_shift (dval 0 (rstrip_zeros (str_of_int c)))
                  (decpt - Z.of_nat (length (rstrip_zeros (str_of_int c)))) (Z.of_nat t));
      [|apply dval_nonneg; [lia|done]|lia].
    rewrite <- Hcv. f_equal. unfold decpt. rewrite Ht at 1. rewrite length_app, length_zeros. lia. }
  rewrite Hkey. unfold format_repr. cbn zeta.
  destruct ((-4 <? decpt) && (decpt <=? 16)).
  - destruct (Z.leb_spec decpt 0); [by apply lex_format_small|].
    destruct (Z.leb_spec (Z.of_nat (length (rstrip_zeros (str_of_int c)))) decpt);
      [by apply lex_format_int|apply lex_format_mid; (done || lia)].
  - by apply lex_format_sci.
Qed.

(** [repr(|x|)] reads back as [|x|]. *)
Lemma lex_number_repr_abs x rest :
  num_end rest -> lex_number (repr_float_abs x ++ rest) = Some (PyFloat (f64_abs x), rest).
Proof.
  intros Hr. pose proof (f_canon x) as Hc. apply canonical_spec in Hc as (Hm & He & Hn).
  unfold repr_float_abs. destruct (Z.eqb_spec (f_man x) 0) as [Hm0|Hm0].
  - change (lit "0.0" ++ rest) with (["0"%char] ++ "."%char :: ["0"%char] ++ rest).
    rewrite lex_number_float, lex_float_point, fmap_float_pair;
      [|done|by repeat constructor|by repeat constructor|done|by repeat constructor|by left].
    change (f64_of_decimal _ (- Z.of_nat (length ["0"%char]))) with (Some (f64_zero false)).
    simpl. do 3 f_equal. apply float64_eq; simpl; [done|lia|destruct Hn; lia].
  - destruct (shortest_spec x) as (c & q & Hs & Hc & Hf); [lia|].
    by rewrite Hs, lex_number_format, Hf.
Qed.

Lemma format_repr_head full decpt :
  rstrip_zeros full <> [] -> all_digits (rstrip_zeros full) ->
  exists d r, format_repr full decpt = d :: r /\ is_digit d = true.
Proof.
  intros Hne Hd. unfold format_repr. cbn zeta.
  destruct (rstrip_zeros full) as [|d0 ds'] eqn:E; [done|]. inversion Hd; subst.
  destruct (_ && _); [|by eexists _, _].
  destruct (Z.leb_spec decpt 0); [by eexists _, _|].
  destruct (_ <=? decpt); [by eexists _, _|].
  destruct (Z.to_nat decpt) as [|k] eqn:Ek; [lia|by eexists _, _].
Qed.

(** [repr(|x|)] starts with a digit. *)
Lemma repr_float_abs_head x : exists d r, repr_float_abs x = d :: r /\ is_digit d = true.
Proof.
  pose proof (f_canon x) as Hc. apply canonical_spec in Hc as (Hm & _ & _).
  unfold repr_float_abs. destruct (Z.eqb_spec (f_man x) 0) as [Hm0|Hm0]; [by eexists _, _|].
  destruct (shortest_spec x) as (c & q & -> & Hc & _); [lia|].
  destruct (rstrip_digits c Hc) as (Hds & Hdds & _). by apply format_repr_head.
Qed.

(** ** [lex_number]: integers, and what a number consumes *)

Lemma lex_number_int_pos p rest :
  value_end rest -> lex_number (chars_of_uint (Pos.to_uint p) ++ rest) = Some (PyInt (Z.pos p), rest).
Proof.
  intros Hr. unfold lex_number. rewrite span_digits_uint by done. cbn [snd].
  rewrite lex_int_pos by done.
  destruct rest as [|c r]; [by destruct Hr as [?|[?|?]]|].
  by destruct Hr as [[= ->]|[[= ->]|[= ->]]].
Qed.

Lemma lex_exponent_shorter r v r3 : lex_exponent r = Some (v, r3) -> (length r3 <= length r)%nat.
Proof.
  unfold lex_exponent.
  match goal with |- context [match ?m with (_, _) => _ end] => destruct m as [sgn r'] eqn:E end.
  assert (Hr : (length r' <= length r)%nat)
    by (destruct r as [|c t]; repeat case_bool_decide; simplify_eq/=; lia).
  pose proof (span_digits_split r') as Hs. destruct (span_digits r') as [ds r''].
  intros H. apply fmap_Some in H as (? & _ & [= _ <-]). simpl in Hs.
  rewrite <- Hs, length_app in Hr. lia.
Qed.

Lemma lex_float_shorter s x r0 : lex_float s = Some (x, r0) -> (length r0 < length s)%nat.
Proof.
  unfold lex_float. pose proof (span_digits_split s) as Hs.
  destruct (span_digits s) as [ip r1]. simpl in Hs.
  assert (Hfr : exists fp r2,
    (match r1 with
     | c :: r => if bool_decide (c = "."%char) then (Some (span_digits r).1, (span_digits r).2) else (None, r1)
     | [] => (None, r1)
     end) = (fp, r2) /\ (length r2 <= length r1)%nat /\ (fp <> None -> (length r2 < length r1)%nat)).
  { destruct r1 as [|c r]; [by eexists _, _|]. case_bool_decide; [|by eexists _, _].
    pose proof (span_digits_split r) as Hr. destruct (span_digits r) as [fp r2].
    eexists _, _. split; [done|]. simpl in Hr. rewrite <- Hr. simpl. rewrite length_app. lia. }
  destruct Hfr as (fp & r2 & -> & H1 & H2). cbn iota beta.
  destruct (match r2 with
            | c :: r => if is_exp_mark c then lex_exponent r else Some (0, r2)
            | [] => Some (0, r2) end) as [[ev r3]|] eqn:Eex; [|done].
  assert (H3 : (length r3 <= length r2)%nat).
  { destruct r2 as [|c r']; [by injection Eex as _ <-|].
    destruct (is_exp_mark c); [apply lex_exponent_shorter in Eex; simpl; lia|by injection Eex as _ <-]. }
  intros H.
  assert (Hne : (ip <> [] \/ fp <> None) /\ r0 = r3).
  { destruct (match ip with [] => Some (0, 0) | _ => digitpart ip end) as [[a ?]|]; [|done].
    destruct (match fp with None | Some [] => Some (0, 0) | Some f => digitpart f end) as [[b nb]|]; [|done].
    destruct (_ && _) eqn:Eok; [|done].
    apply fmap_Some in H as (y & _ & [= _ <-]). split; [|done].
    apply andb_true_iff in Eok as [_ Eok]. destruct ip; [|by left].
    destruct fp as [[|]|]; [done|by right|done]. }
  destruct Hne as [[Hip|Hfp] ->].
  - rewrite <- Hs, length_app. destruct ip; [done|simpl; lia].
  - specialize (H2 Hfp). rewrite <- Hs, length_app. lia.
Qed.

Lemma lex_number_shorter s v r : lex_number s = Some (v, r) -> (length r < length s)%nat.
Proof.
  unfold lex_number. destruct (span_digits s).2 as [|c r'];
    [|destruct (bool_decide (c = "."%char) || is_exp_mark c)]; intros H;
    apply fmap_Some in H as ([? ?] & H & [= _ <-]);
    eauto using lex_int_shorter, lex_float_shorter.
Qed.

(** ** [int] and [float] on what [repr] prints for a float *)

Lemma lex_number_float_inv T y r :
  lex_number T = Some (PyFloat y, r) ->
  lex_float T = Some (y, r) /\ exists c, c ∈ T /\ (c = "."%char \/ is_exp_mark c = true).
Proof.
  unfold lex_number. pose proof (span_digits_split T) as Hs.
  destruct (span_digits T) as [a b]. simpl in Hs |- *.
  destruct b as [|c b'].
  - intros H. by apply fmap_Some in H as ([z r'] & _ & [=]).
  - destruct (bool_decide (c = "."%char) || is_exp_mark c) eqn:E; intros H;
      apply fmap_Some in H as ([z r'] & H & Heq); simplify_eq.
    split; [done|]. exists c. split; [subst; set_solver|].
    apply orb_true_iff in E as [E|E]; [left; by apply bool_decide_eq_true in E|by right].
Qed.

Lemma lex_float_repr_abs x : lex_float (repr_float_abs x) = Some (f64_abs x, []).
Proof.
  pose proof (lex_number_repr_abs x [] (or_introl eq_refl)) as H. rewrite app_nil_r in H.
  by apply lex_number_float_inv in H as [? _].
Qed.

Lemma digit_not_space d : is_digit d = true -> is_space d = false.
Proof. destruct d as [[] [] [] [] [] [] [] []]; by vm_compute. Qed.

Lemma elem_of_lstrip c l : c ∈ l -> is_space c = false -> c ∈ lstrip l.
Proof.
  induction l as [|c' l IH]; simpl; [set_solver|]. intros Hin Hc.
  destruct (is_space c') eqn:E; [|done]. apply IH; [|done].
  apply elem_of_cons in Hin as [->|]; [congruence|done].
Qed.

Lemma elem_of_rev (x : ascii) (l : pystr) : x ∈ rev l <-> x ∈ l.
Proof. rewrite rev_alt. apply (elem_of_reverse x l). Qed.

Lemma elem_of_strip c l : c ∈ l -> is_space c = false -> c ∈ strip l.
Proof.
  intros Hin Hc. unfold strip. apply elem_of_rev, elem_of_lstrip; [|done].
  apply elem_of_rev. by apply elem_of_lstrip.
Qed.

(** A text whose first and last characters are not spaces is its own
    [strip]. *)
Lemma strip_ends T c r l d :
  T = c :: r -> T = l ++ [d] -> is_space c = false -> is_space d = false -> strip T = T.
Proof.
  intros E1 E2 Hc Hd. unfold strip.
  assert (lstrip T = T) as -> by (rewrite E1; simpl; by rewrite Hc).
  rewrite E2, rev_unit. simpl. rewrite Hd. simpl. by rewrite rev_involutive.
Qed.

Lemma int_digits_none acc b l c :
  c ∈ l -> digit_val c = None -> c <> "_"%char -> int_digits acc b l = None.
Proof.
  revert acc b. induction l as [|c' l IH]; intros acc b Hin Hd Hu; [set_solver|]. simpl.
  apply elem_of_cons in Hin as [<-|Hin].
  - rewrite Hd, (bool_decide_false (c = "_"%char)) by done. by rewrite andb_false_r.
  - destruct (digit_val c'); [by apply IH|]. destruct (_ && _); [by apply IH|done].
Qed.

(** [int] raises on a text with a character that is no digit, sign,
    underscore or space. *)
Lemma py_int_none s c :
  c ∈ s -> digit_val c = None -> is_space c = false ->
  c <> "_"%char -> c <> "-"%char -> c <> "+"%char -> py_int s = None.
Proof.
  intros Hin Hd Hs Hu Hm Hp. unfold py_int, int_of_numeral. pose proof (elem_of_strip c s Hin Hs) as Hin'.
  destruct (_ <? _)%nat; [done|].
  destruct (strip s) as [|c0 r]; [set_solver|].
  repeat case_bool_decide; subst;
    (rewrite (int_digits_none _ _ _ c); [done|set_solver|done|done]).
Qed.

Lemma format_repr_last full decpt :
  rstrip_zeros full <> [] -> all_digits (rstrip_zeros full) ->
  exists l d, format_repr full decpt = l ++ [d] /\ is_digit d = true.
Proof.
  intros Hne Hd. unfold format_repr. cbn zeta.
  set (ds := rstrip_zeros full) in *. pose proof Hd as Hdall.
  destruct (exists_last Hne) as (l & d & Hl). rewrite Hl in Hd.
  apply Forall_app in Hd as [_ Hd]. inversion Hd as [|? ? Hdd _]; subst.
  destruct (exp_digits_spec (decpt - 1)) as (He & Hed & _).
  destruct (exists_last He) as (le & de & Hle). rewrite Hle in Hed.
  apply Forall_app in Hed as [_ Hed]. inversion Hed as [|? ? Hde _]; subst.
  destruct (_ && _).
  - destruct (Z.leb_spec decpt 0).
    + exists (lit "0." ++ zeros (Z.to_nat (- decpt)) ++ l), d. rewrite Hl. by rewrite <- !app_assoc.
    + destruct (Z.leb_spec (Z.of_nat (length ds)) decpt).
      * by exists (ds ++ zeros (Z.to_nat decpt - length ds) ++ ["."%char]), "0"%char; rewrite <- !app_assoc.
      * assert (Hdrop : drop (Z.to_nat decpt) ds <> []) by (intros E; apply (f_equal length) in E;
          rewrite length_drop in E; simpl in E; lia).
        destruct (exists_last Hdrop) as (l2 & d2 & Hl2).
        assert (Hd2 : is_digit d2 = true).
        { assert (Hf : all_digits (drop (Z.to_nat decpt) ds)) by (apply Forall_drop, Hdall).
          rewrite Hl2 in Hf. apply Forall_app in Hf as [_ Hf]. by inversion Hf. }
        exists (take (Z.to_nat decpt) ds ++ "."%char :: l2), d2. rewrite Hl2. by rewrite <- app_assoc.
  - exists (take 1 ds ++ (match drop 1 ds with [] => [] | r => "."%char :: r end)
            ++ "e"%char :: (if decpt - 1 <? 0 then "-"%char else "+"%char) :: le), de.
    rewrite Hle. by rewrite <- !app_assoc.
Qed.

Lemma not_digit_char c d : is_digit c = true -> is_digit d = false -> c <> d.
Proof. by intros Hc Hd ->; rewrite Hc in Hd. Qed.

Lemma repr_float_abs_last x : exists l d, repr_float_abs x = l ++ [d] /\ is_digit d = true.
Proof.
  pose proof (f_canon x) as Hc. apply canonical_spec in Hc as (Hm & _ & _).
  unfold repr_float_abs. destruct (Z.eqb_spec (f_man x) 0); [by exists (lit "0."), "0"%char|].
  destruct (shortest_spec x) as (c & q & -> & Hc & _); [lia|].
  destruct (rstrip_digits c Hc) as (Hds & Hdds & _). by apply format_repr_last.
Qed.

Lemma strip_repr_float x : strip (repr_float x) = repr_float x.
Proof.
  destruct (repr_float_abs_last x) as (l & d & El & Hd).
  destruct (repr_float_abs_head x) as (c & r & Ec & Hc).
  unfold repr_float. destruct (f_neg x).
  - apply (strip_ends _ "-"%char (repr_float_abs x) (["-"%char] ++ l) d);
      [done|by rewrite El, app_assoc|done|by apply digit_not_space].
  - rewrite app_nil_l. apply (strip_ends _ c r l d); [done|done|by apply digit_not_space..].
Qed.

(** [float(repr(x)) = x] for every finite double, the sign of zero
    included. *)
Lemma py_float_repr_float x : py_float (repr_float x) = Some x.
Proof.
  unfold py_float. rewrite strip_repr_float. unfold repr_float.
  destruct (f_neg x) eqn:Hn.
  - cbn [app]. rewrite bool_decide_true by done. rewrite lex_float_repr_abs. simpl.
    f_equal. by apply float64_eq.
  - rewrite app_nil_l. destruct (repr_float_abs_head x) as (c & r & Ec & Hc). rewrite Ec.
    rewrite !bool_decide_false by (apply not_digit_char; done).
    rewrite <- Ec, lex_float_repr_abs. f_equal. by apply float64_eq.
Qed.

(** [int(repr(x))] raises: [repr] of a float always has a point or an
    exponent. *)
Lemma py_int_repr_float x : py_int (repr_float x) = None.
Proof.
  pose proof (lex_number_repr_abs x [] (or_introl eq_refl)) as H. rewrite app_nil_r in H.
  apply lex_number_float_inv in H as [_ (c & Hin & Hc)].
  assert (Hin' : c ∈ repr_float x) by (unfold repr_float; set_solver).
  assert (Hc' : c = "."%char \/ c = "e"%char \/ c = "E"%char).
  { destruct Hc as [-> | Hc]; [by left|]. unfold is_exp_mark in Hc.
    apply orb_true_iff in Hc as [Hc|Hc]; apply bool_decide_eq_true in Hc; auto. }
  destruct Hc' as [-> | [-> | ->]]; (apply (py_int_none _ _ Hin'); [done|done|discriminate..]).
Qed.

End Number.
