(* ===== verification/FloatArith.v ===== *)
(** * FloatArith: double arithmetic as the C code of numpy and pandas runs it

    Addition, multiplication and division of doubles and the conversion
    of an integer to a double (numpy's [astype(float64)] of an int64, a C
    cast), each rounded to nearest with ties to even, the default mode of
    C on x86-64.  Every operation is the correctly rounded value of its
    exact result, computed in integers: a double is a whole number of
    units of [2^-1074] ([f64_units]), so the exact sum is the sum of the
    units, the exact product the product over [2^2148], the exact
    quotient the quotient of the units.  [None] is a result that is not
    a finite double (an overflow to infinity, a division by zero): the
    model has no value for it (Binary64).  The sign of a zero result is
    IEEE 754's: [x + (-x) = +0], [(-0) + (-0) = -0], a product or a
    quotient takes the exclusive or of the signs.

    The lemmas: a result that is a double is returned exactly
    ([round_signed_exact], [f64_add_exact]); the integers below [2^53],
    scaled by a power of two, are doubles ([double_of_units]); a sum
    bounded by a double does not overflow and stays within the bound
    ([f64_add_le]); a finite sum is within [2^-53] of the exact sum
    ([f64_add_error], through [near_double]). *)

From S2P Require Import Prelude Binary64.
Local Open Scope Z_scope.

Module FloatArith.

(** The double nearest to [n / d] ([n >= 0], [d > 0]), with the sign
    [neg]: rounding to nearest is symmetric, so the magnitude is rounded
    and the sign put back, also on a zero. *)
Definition round_signed (neg : bool) (n d : Z) : option float64 :=
  (fun x => if neg then f64_opp x else x) <$> f64_of_frac n d.

(** The mantissa with the sign of the double. *)
Definition signed_man (x : float64) : Z := if f_neg x then - f_man x else f_man x.

(** [x + y]: the exact sum is [s * 2^e] with [e] the smaller exponent. *)
Definition f64_add (x y : float64) : option float64 :=
  let e := Z.min (f_exp x) (f_exp y) in
  let s := signed_man x * 2 ^ (f_exp x - e) + signed_man y * 2 ^ (f_exp y - e) in
  if s =? 0 then Some (f64_zero (f_neg x && f_neg y))
  else round_signed (s <? 0) (Z.abs s * 2 ^ Z.max 0 e) (2 ^ Z.max 0 (- e)).

(** [x * y]: the exact product is [mx * my * 2^(ex + ey)]. *)
Definition f64_mul (x y : float64) : option float64 :=
  let e := f_exp x + f_exp y in
  round_signed (xorb (f_neg x) (f_neg y)) (f_man x * f_man y * 2 ^ Z.max 0 e) (2 ^ Z.max 0 (- e)).

(** [x / y]: the exact quotient is [mx * 2^ex / (my * 2^ey)]; a zero
    divisor gives an infinity or a NaN. *)
Definition f64_div (x y : float64) : option float64 :=
  if f_man y =? 0 then None
  else round_signed (xorb (f_neg x) (f_neg y))
         (f_man x * 2 ^ Z.max 0 (f_exp x - f_exp y)) (f_man y * 2 ^ Z.max 0 (f_exp y - f_exp x)).

(** [(double) z]. *)
Definition f64_of_int (z : Z) : option float64 := round_signed (z <? 0) (Z.abs z) 1.

(** ** Units of a double *)

Lemma f64_man_units_nonneg x : 0 <= f_man x * 2 ^ (f_exp x + 1074).
Proof.
  pose proof (proj1 (canonical_spec _ _) (f_canon x)) as (Hm & He & _).
  apply Z.mul_nonneg_nonneg; [lia|apply Z.pow_nonneg; lia].
Qed.

Lemma f64_units_opp x : f64_units (f64_opp x) = - f64_units x.
Proof. unfold f64_units, f64_opp. simpl. destruct (f_neg x); simpl; lia. Qed.

Lemma f64_units_abs x : f64_units (f64_abs x) = Z.abs (f64_units x).
Proof.
  pose proof (f64_man_units_nonneg x). unfold f64_units, f64_abs. simpl.
  destruct (f_neg x); lia.
Qed.

Lemma f64_units_zero_iff x : f64_units x = 0 <-> f_man x = 0.
Proof.
  pose proof (proj1 (canonical_spec _ _) (f_canon x)) as (Hm & He & _).
  assert (0 < 2 ^ (f_exp x + 1074)) by (apply Z.pow_pos_nonneg; lia).
  unfold f64_units. destruct (f_neg x); nia.
Qed.

(** A double that is not zero has the sign of its value. *)
Lemma f64_units_sign x : f64_units x <> 0 -> f_neg x = (f64_units x <? 0).
Proof.
  intros Hx. pose proof (f64_man_units_nonneg x). unfold f64_units in *.
  destruct (f_neg x); symmetry; [apply Z.ltb_lt|apply Z.ltb_ge]; lia.
Qed.

Lemma f64_units_nonneg x : f_neg x = false -> 0 <= f64_units x.
Proof. intros Hx. unfold f64_units. rewrite Hx. apply f64_man_units_nonneg. Qed.

(** A zero is [+0] or [-0]. *)
Lemma f64_zero_units x : f64_units x = 0 -> x = f64_zero (f_neg x).
Proof.
  intros Hx%f64_units_zero_iff.
  pose proof (proj1 (canonical_spec _ _) (f_canon x)) as (_ & _ & [Hn| He]); [lia|].
  by apply float64_eq.
Qed.

Lemma f64_abs_nonneg x : f_neg x = false -> f64_abs x = x.
Proof. intros Hx. by apply float64_eq. Qed.

Lemma f64_opp_abs x : f_neg x = true -> f64_opp (f64_abs x) = x.
Proof. intros Hx. by apply float64_eq. Qed.

(** ** The operations on the values in units *)

Lemma f64_units_man x : f64_units x = signed_man x * 2 ^ (f_exp x + 1074).
Proof. unfold f64_units, signed_man. destruct (f_neg x); lia. Qed.

Lemma round_signed_cross b n1 d1 n2 d2 :
  0 <= n1 -> 0 < d1 -> 0 <= n2 -> 0 < d2 -> n1 * d2 = n2 * d1 ->
  round_signed b n1 d1 = round_signed b n2 d2.
Proof. intros. unfold round_signed. by rewrite (f64_of_frac_cross n1 d1 n2 d2). Qed.

Lemma pow2_pos k : 0 <= k -> 0 < 2 ^ k.
Proof. intros. apply Z.pow_pos_nonneg; lia. Qed.

Lemma f64_exp_range x : -1074 <= f_exp x <= 971.
Proof. by pose proof (proj1 (canonical_spec _ _) (f_canon x)) as (_ & ? & _). Qed.

Lemma f64_man_range x : 0 <= f_man x < 2 ^ 53.
Proof. by pose proof (proj1 (canonical_spec _ _) (f_canon x)) as (? & _ & _). Qed.

(** [2^max(0,e) * 2^1074 = 2^(e + 1074) * 2^max(0,-e)] for the
    exponents of doubles. *)
Lemma pow2_scale e : -1074 <= e -> 2 ^ Z.max 0 e * 2 ^ 1074 = 2 ^ (e + 1074) * 2 ^ Z.max 0 (- e).
Proof. intros He. rewrite <- !Z.pow_add_r by lia. f_equal. lia. Qed.

(** The sum is the rounded sum of the values in units. *)
Lemma f64_add_spec x y :
  f64_add x y =
  let s := f64_units x + f64_units y in
  if s =? 0 then Some (f64_zero (f_neg x && f_neg y))
  else round_signed (s <? 0) (Z.abs s) (2 ^ 1074).
Proof.
  unfold f64_add. cbv zeta. set (e := Z.min (f_exp x) (f_exp y)).
  pose proof (f64_exp_range x). pose proof (f64_exp_range y).
  set (s := signed_man x * 2 ^ (f_exp x - e) + signed_man y * 2 ^ (f_exp y - e)).
  assert (Hs : f64_units x + f64_units y = s * 2 ^ (e + 1074)).
  { rewrite !f64_units_man. unfold s.
    rewrite Z.mul_add_distr_r, <- !Z.mul_assoc, <- !Z.pow_add_r by lia.
    do 2 f_equal; f_equal; lia. }
  pose proof (pow2_pos (e + 1074) ltac:(lia)).
  rewrite Hs. replace (s * 2 ^ (e + 1074) =? 0) with (s =? 0)
    by (destruct (Z.eqb_spec s 0), (Z.eqb_spec (s * 2 ^ (e + 1074)) 0); nia).
  replace (s * 2 ^ (e + 1074) <? 0) with (s <? 0)
    by (destruct (Z.ltb_spec s 0), (Z.ltb_spec (s * 2 ^ (e + 1074)) 0); nia).
  destruct (s =? 0); [done|]. apply round_signed_cross; try apply pow2_pos; try lia.
  - pose proof (pow2_pos (Z.max 0 e) ltac:(lia)). nia.
  - rewrite Z.abs_mul, (Z.abs_eq (2 ^ (e + 1074))) by lia.
    rewrite <- Z.mul_assoc, pow2_scale by lia. ring.
Qed.

Lemma f64_mul_spec x y :
  f64_mul x y = round_signed (xorb (f_neg x) (f_neg y)) (Z.abs (f64_units x * f64_units y)) (2 ^ 2148).
Proof.
  unfold f64_mul. pose proof (f64_exp_range x). pose proof (f64_exp_range y).
  pose proof (f64_man_range x). pose proof (f64_man_range y).
  pose proof (pow2_pos (Z.max 0 (f_exp x + f_exp y)) ltac:(lia)).
  pose proof (pow2_pos (Z.max 0 (- (f_exp x + f_exp y))) ltac:(lia)).
  pose proof (pow2_pos 2148 ltac:(lia)).
  apply round_signed_cross; [nia|lia|lia|lia|].
  - rewrite !f64_units_man, Z.abs_mul, !Z.abs_mul.
    replace (Z.abs (signed_man x)) with (f_man x) by (unfold signed_man; destruct (f_neg x); lia).
    replace (Z.abs (signed_man y)) with (f_man y) by (unfold signed_man; destruct (f_neg y); lia).
    rewrite !Z.abs_eq by (apply Z.lt_le_incl, pow2_pos; lia).
    replace (2 ^ 2148) with (2 ^ 1074 * 2 ^ 1074) by (rewrite <- Z.pow_add_r by lia; reflexivity).
    assert (Hp : 2 ^ (f_exp x + 1074) * 2 ^ (f_exp y + 1074) * 2 ^ Z.max 0 (- (f_exp x + f_exp y))
                 = 2 ^ Z.max 0 (f_exp x + f_exp y) * (2 ^ 1074 * 2 ^ 1074))
      by (rewrite <- !Z.pow_add_r by lia; f_equal; lia).
    transitivity (f_man x * f_man y * (2 ^ Z.max 0 (f_exp x + f_exp y) * (2 ^ 1074 * 2 ^ 1074))); [ring|].
    rewrite <- Hp. ring.
Qed.

Lemma f64_div_spec x y :
  f64_div x y =
  if f64_units y =? 0 then None
  else round_signed (xorb (f_neg x) (f_neg y)) (Z.abs (f64_units x)) (Z.abs (f64_units y)).
Proof.
  unfold f64_div. pose proof (f64_exp_range x). pose proof (f64_exp_range y).
  pose proof (f64_man_range x). pose proof (f64_man_range y).
  replace (f64_units y =? 0) with (f_man y =? 0)
    by (destruct (Z.eqb_spec (f_man y) 0) as [Hm0|Hm0], (Z.eqb_spec (f64_units y) 0) as [Hu0|Hu0];
        rewrite ?f64_units_zero_iff in *; done).
  destruct (Z.eqb_spec (f_man y) 0) as [|Hy]; [done|].
  rewrite !f64_units_man. unfold signed_man.
  rewrite !Z.abs_mul, !(Z.abs_eq (2 ^ (_ + 1074))) by (apply Z.lt_le_incl, pow2_pos; lia).
  replace (Z.abs (if f_neg x then - f_man x else f_man x)) with (f_man x) by (destruct (f_neg x); lia).
  replace (Z.abs (if f_neg y then - f_man y else f_man y)) with (f_man y) by (destruct (f_neg y); lia).
  pose proof (pow2_pos (Z.max 0 (f_exp x - f_exp y)) ltac:(lia)).
  pose proof (pow2_pos (Z.max 0 (f_exp y - f_exp x)) ltac:(lia)).
  pose proof (pow2_pos (f_exp x + 1074) ltac:(lia)).
  pose proof (pow2_pos (f_exp y + 1074) ltac:(lia)).
  apply round_signed_cross; [nia|nia|nia|nia|].
  - assert (Hp : 2 ^ Z.max 0 (f_exp x - f_exp y) * 2 ^ (f_exp y + 1074)
                 = 2 ^ Z.max 0 (f_exp y - f_exp x) * 2 ^ (f_exp x + 1074))
      by (rewrite <- !Z.pow_add_r by lia; f_equal; lia).
    transitivity (f_man x * f_man y * (2 ^ Z.max 0 (f_exp x - f_exp y) * 2 ^ (f_exp y + 1074))); [ring|].
    rewrite Hp. ring.
Qed.

(** ** Exact results *)

(** A fraction equal to the value of a non-negative double converts to
    that double. *)
Lemma f64_of_frac_value n d x :
  0 <= n -> 0 < d -> f_neg x = false -> n * 2 ^ 1074 = d * f64_units x ->
  f64_of_frac n d = Some x.
Proof.
  intros Hn Hd Hx Hv. pose proof (proj1 (canonical_spec _ _) (f_canon x)) as (Hm & He & _).
  destruct (Z.eq_dec (f_man x) 0) as [H0|H0].
  - assert (f64_units x = 0) as Hu by (by apply f64_units_zero_iff).
    assert (n = 0) as -> by (rewrite Hu in Hv; pose proof (Z.pow_pos_nonneg 2 1074); nia).
    rewrite (f64_zero_units x Hu), Hx. reflexivity.
  - rewrite <- (f64_abs_nonneg x Hx), <- f64_of_frac_exact by lia.
    destruct (frac_of_pos (f_man x) (f_exp x)) as [??]; [lia|].
    apply f64_of_frac_cross; [lia|lia|lia|lia|]. unfold f64_units in Hv. rewrite Hx in Hv.
    unfold frac_of. simpl.
    assert (Hp : 2 ^ (f_exp x + 1074) * 2 ^ Z.max 0 (- f_exp x) = 2 ^ Z.max 0 (f_exp x) * 2 ^ 1074)
      by (rewrite <- !Z.pow_add_r by lia; f_equal; lia).
    apply (Z.mul_cancel_r _ _ (2 ^ 1074)); [pose proof (Z.pow_pos_nonneg 2 1074); lia|].
    transitivity (d * (f_man x * 2 ^ (f_exp x + 1074)) * 2 ^ Z.max 0 (- f_exp x)); [nia|].
    rewrite <- Z.mul_assoc, <- Z.mul_assoc, Hp. ring.
Qed.

(** A result that is a double is returned exactly, with its sign. *)
Lemma round_signed_exact neg n d z :
  0 <= n -> 0 < d -> f_neg z = neg -> n * 2 ^ 1074 = d * Z.abs (f64_units z) ->
  round_signed neg n d = Some z.
Proof.
  intros Hn Hd Hs Hv. unfold round_signed.
  rewrite (f64_of_frac_value n d (f64_abs z)) by (done || by rewrite f64_units_abs).
  cbn [fmap option_fmap option_map]. f_equal.
  destruct neg; [by apply f64_opp_abs|by apply f64_abs_nonneg].
Qed.

Lemma f64_add_exact x y z :
  f64_units z = f64_units x + f64_units y -> f64_units z <> 0 -> f64_add x y = Some z.
Proof.
  intros Hz H0. rewrite f64_add_spec. cbv zeta. rewrite <- Hz.
  replace (f64_units z =? 0) with false by (symmetry; by apply Z.eqb_neq).
  apply round_signed_exact; [lia|apply Z.pow_pos_nonneg; lia|by apply f64_units_sign|lia].
Qed.

(** When the exact sum is a double, the sum is exact (a zero may be
    either one). *)
Lemma f64_add_units x y :
  (exists z, f64_units z = f64_units x + f64_units y) ->
  exists w, f64_add x y = Some w /\ f64_units w = f64_units x + f64_units y.
Proof.
  intros [z Hz]. destruct (Z.eq_dec (f64_units z) 0) as [H0|H0].
  - exists (f64_zero (f_neg x && f_neg y)). rewrite f64_add_spec. cbv zeta.
    rewrite <- Hz, H0. split; [done|]. unfold f64_units. simpl. by destruct (_ && _).
  - exists z. split; [by apply f64_add_exact|done].
Qed.

(** The sum of two non-negative doubles, when it is a double, is exact
    and non-negative, also when it is zero. *)
Lemma f64_add_nonneg x y :
  f_neg x = false -> f_neg y = false ->
  (exists z, f64_units z = f64_units x + f64_units y) ->
  exists w, f64_add x y = Some w /\ f_neg w = false /\ f64_units w = f64_units x + f64_units y.
Proof.
  intros Hx Hy [z Hz]. pose proof (f64_units_nonneg x Hx) as Hx0.
  pose proof (f64_units_nonneg y Hy) as Hy0.
  destruct (Z.eq_dec (f64_units x + f64_units y) 0) as [H0|H0].
  - exists (f64_zero false). rewrite f64_add_spec. cbv zeta. rewrite H0, Hx, Hy. split; [done|].
    split; [done|]. unfold f64_units. simpl. lia.
  - exists z. split; [apply f64_add_exact; lia|]. split; [|done].
    rewrite f64_units_sign by lia. apply Z.ltb_ge. lia.
Qed.

(** Every [z * 2^p] units with [0 <= z < 2^53] is a double, from the
    subnormals ([p] small: mantissa [z * 2^p], least exponent) to the top
    binade ([p = 2045]). *)
Lemma double_of_units z p :
  0 <= z < 2 ^ 53 -> 0 <= p <= 2045 ->
  exists x, f_neg x = false /\ f64_units x = z * 2 ^ p.
Proof.
  intros Hz Hp. destruct (Z.eq_dec z 0) as [->|Hz0].
  { exists (f64_zero false). split; [done|]. reflexivity. }
  pose proof (Z.log2_spec z ltac:(lia)) as [HL1 HL2].
  assert (HL : Z.log2 z <= 52) by (apply Z.lt_succ_r, Z.log2_lt_pow2; lia).
  pose proof (Z.log2_nonneg z). set (L := Z.log2 z) in *.
  pose proof (pow2_pos p ltac:(lia)).
  destruct (Z_le_gt_dec 52 (p + L)) as [Hn|Hs].
  - set (m := z * 2 ^ (52 - L)). set (e := p + L - 52 - 1074).
    assert (Hk : 2 ^ L * 2 ^ (52 - L) = 2 ^ 52) by (rewrite <- Z.pow_add_r by lia; f_equal; lia).
    assert (Hk' : 2 ^ Z.succ L * 2 ^ (52 - L) = 2 ^ 53) by (rewrite <- Z.pow_add_r by lia; f_equal; lia).
    assert (0 < 2 ^ (52 - L)) by (apply Z.pow_pos_nonneg; lia).
    assert (Hc : canonical m e = true).
    { apply canonical_spec. unfold m, e. split_and!; try nia. }
    exists (F64 false m e Hc). split; [done|]. unfold f64_units. cbn [f_neg f_man f_exp].
    unfold m, e. rewrite <- Z.mul_assoc, <- Z.pow_add_r by lia. do 2 f_equal. lia.
  - assert (Hk : 2 ^ Z.succ L * 2 ^ p <= 2 ^ 52)
      by (rewrite <- Z.pow_add_r by lia; apply Z.pow_le_mono_r; lia).
    assert (Hc : canonical (z * 2 ^ p) (-1074) = true).
    { apply canonical_spec. split_and!; try nia. }
    exists (F64 false (z * 2 ^ p) (-1074) Hc). split; [done|]. unfold f64_units. simpl. lia.
Qed.

(** The same in the exponents of the normal range used here. *)
Lemma double_of_scaled z j :
  0 <= z < 2 ^ 53 -> 0 <= j <= 919 ->
  exists x, f_neg x = false /\ f64_units x = z * 2 ^ (j + 1074).
Proof. intros Hz Hj. apply double_of_units; lia. Qed.

(** Below the overflow threshold every positive [v] units has a double
    within [v / 2^53]: with [2^(52+j) <= v < 2^(53+j)] the doubles
    there are the multiples of [2^j], and the nearer of the two around
    [v] is at most [2^(j-1)] away; at the top of the range the lower
    one is near enough. *)
Lemma near_double v :
  0 < v -> v < 2 ^ 1074 * overflow_bound ->
  exists y, f_neg y = false /\ 2 ^ 53 * Z.abs (v - f64_units y) <= v.
Proof.
  intros Hv Hov. rewrite overflow_bound_eq in Hov.
  assert (Htop : 2 ^ 1074 * (2 ^ 53 * 2 ^ 971 - 2 ^ 970) = 2 ^ 2045 * 2 ^ 53 - 2 ^ 2044)
    by reflexivity.
  assert (H2045 : 2 ^ 2045 = 2 * 2 ^ 2044) by reflexivity.
  assert (Hmax : 2 ^ 2045 * 2 ^ 53 - 2 ^ 2044 < 2 ^ 2098) by reflexivity.
  pose proof (Z.log2_spec v Hv) as [HL1 HL2]. pose proof (Z.log2_nonneg v).
  assert (HLt : Z.log2 v < 2098) by (apply Z.log2_lt_pow2; lia).
  set (L := Z.log2 v) in *. set (j := Z.max 0 (L - 52)).
  assert (Hj : 0 <= j <= 2045) by lia.
  pose proof (pow2_pos j ltac:(lia)) as Hpj.
  pose proof (Z.div_mod v (2 ^ j) ltac:(lia)) as Hvqr.
  pose proof (Z.mod_pos_bound v (2 ^ j) Hpj) as Hr.
  set (q := v / 2 ^ j) in *. set (r := v mod 2 ^ j) in *.
  assert (Hup : 2 ^ Z.succ L <= 2 ^ 53 * 2 ^ j)
    by (rewrite <- Z.pow_add_r by lia; apply Z.pow_le_mono_r; lia).
  assert (Hq : 0 <= q < 2 ^ 53) by (split; [apply Z.div_pos|]; nia).
  assert (Hlow : j = 0 \/ 2 ^ 52 * 2 ^ j <= v).
  { destruct (Z_le_gt_dec 52 L); [right|left; lia].
    replace (2 ^ 52 * 2 ^ j) with (2 ^ L) by (rewrite <- Z.pow_add_r by lia; f_equal; lia). lia. }
  destruct (Z_le_gt_dec (2 * r) (2 ^ j)) as [Hdown|Hround].
  - destruct (double_of_units q j Hq Hj) as (y & Hy & Hyu). exists y. split; [done|].
    rewrite Hyu. replace (v - q * 2 ^ j) with r by lia. rewrite Z.abs_eq by lia.
    destruct Hlow as [Hj0|Hlow]; [rewrite Hj0 in Hr; simpl in Hr; lia|nia].
  - assert (Hlow' : 2 ^ 52 * 2 ^ j <= v) by (destruct Hlow as [Hj0|]; [rewrite Hj0 in *; simpl in *; lia|done]).
    assert (Hfin : forall y, f64_units y = (q + 1) * 2 ^ j -> 2 ^ 53 * Z.abs (v - f64_units y) <= v).
    { intros y ->. replace (v - (q + 1) * 2 ^ j) with (r - 2 ^ j) by lia.
      rewrite Z.abs_neq by lia. nia. }
    destruct (Z.eq_dec (q + 1) (2 ^ 53)) as [Hq1|Hq1].
    + assert (Hj' : j <= 2044).
      { destruct (Z.eq_dec j 2045) as [Hj5|]; [|lia]. exfalso. rewrite Hj5 in *.
        assert (2 ^ 2045 * q = 2 ^ 2045 * 2 ^ 53 - 2 ^ 2045) by (replace q with (2 ^ 53 - 1) by lia; ring).
        lia. }
      destruct (double_of_units (2 ^ 52) (j + 1)) as (y & Hy & Hyu); [lia|lia|].
      exists y. split; [done|]. apply Hfin. rewrite Hyu, Hq1, Z.pow_add_r by lia. ring.
    + destruct (double_of_units (q + 1) j ltac:(lia) Hj) as (y & Hy & Hyu).
      exists y. split; [done|]. by apply Hfin.
Qed.

(** The error of one rounded addition: the sum differs from the exact
    sum by at most [2^-53] of it (the unit roundoff of binary64). *)
Lemma f64_add_error x y w :
  f64_add x y = Some w ->
  2 ^ 53 * Z.abs (f64_units w - (f64_units x + f64_units y)) <= Z.abs (f64_units x + f64_units y).
Proof.
  rewrite f64_add_spec. cbv zeta. set (s := f64_units x + f64_units y).
  destruct (Z.eqb_spec s 0) as [H0|H0].
  { intros [= <-]. rewrite H0. unfold f64_units. simpl. by destruct (_ && _). }
  unfold round_signed. destruct (f64_of_frac (Z.abs s) (2 ^ 1074)) as [r|] eqn:Hr; [|done].
  cbn. intros [= <-].
  assert (HP : 0 < 2 ^ 1074) by (apply pow2_pos; lia).
  assert (Hov : Z.abs s < 2 ^ 1074 * overflow_bound).
  { destruct (Z_lt_le_dec (Z.abs s) (2 ^ 1074 * overflow_bound)) as [|Hge]; [done|].
    apply f64_of_frac_None_iff in Hge; [congruence|lia|done]. }
  destruct (near_double (Z.abs s)) as (y' & _ & Hnear); [lia|done|].
  destruct (f64_of_frac_nearest (Z.abs s) (2 ^ 1074) r y' ltac:(lia) HP Hr) as [_ Hle].
  rewrite !(Z.mul_comm (Z.abs s)), <- !Z.mul_sub_distr_l, !Z.abs_mul, (Z.abs_eq (2 ^ 1074)) in Hle
    by lia.
  apply Z.mul_le_mono_pos_l in Hle; [|done].
  assert (Habs : Z.abs (f64_units (if s <? 0 then f64_opp r else r) - s) = Z.abs (Z.abs s - f64_units r)).
  { destruct (Z.ltb_spec s 0); rewrite ?f64_units_opp; lia. }
  rewrite Habs. lia.
Qed.

(** A sum bounded by a double does not overflow and stays within the
    bound: rounding is monotone and the bound rounds to itself. *)
Lemma f64_add_le x y V :
  (exists D, f_neg D = false /\ f64_units D = V) ->
  Z.abs (f64_units x + f64_units y) <= V ->
  exists w, f64_add x y = Some w /\ Z.abs (f64_units w) <= V.
Proof.
  intros (D & HD & HV) Hle. rewrite f64_add_spec. cbv zeta.
  assert (0 <= V) by (rewrite <- HV; by apply f64_units_nonneg).
  set (s := f64_units x + f64_units y) in *.
  destruct (Z.eqb_spec s 0) as [H0|H0].
  { eexists. split; [reflexivity|]. unfold f64_units. simpl. destruct (_ && _); simpl; lia. }
  assert (HP : 0 < 2 ^ 1074) by (apply Z.pow_pos_nonneg; lia).
  assert (HfD : f64_of_frac V (2 ^ 1074) = Some D)
    by (apply f64_of_frac_value; [lia|lia|done|rewrite HV; ring]).
  unfold round_signed. destruct (f64_of_frac (Z.abs s) (2 ^ 1074)) as [r|] eqn:Hr.
  - eexists. split; [reflexivity|].
    pose proof (f64_of_frac_mono (Z.abs s) (2 ^ 1074) V (2 ^ 1074) r D ltac:(lia) HP ltac:(lia) HP
                  ltac:(apply Z.mul_le_mono_nonneg_r; lia) Hr HfD).
    destruct (f64_of_frac_nearest (Z.abs s) (2 ^ 1074) r r ltac:(lia) HP Hr) as [Hrs _].
    pose proof (f64_units_nonneg r Hrs). destruct (s <? 0); rewrite ?f64_units_opp; lia.
  - exfalso. apply f64_of_frac_None_iff in Hr; [|lia|done].
    assert (Hs : ~ 2 ^ 1074 * overflow_bound <= V)
      by (rewrite <- f64_of_frac_None_iff by lia; congruence).
    lia.
Qed.

(** An integer below [2^1000] in magnitude converts without overflow. *)
Lemma f64_of_int_some z : Z.abs z < 2 ^ 1000 -> is_Some (f64_of_int z).
Proof.
  intros Hz. unfold f64_of_int, round_signed.
  destruct (f64_of_frac (Z.abs z) 1) eqn:Hf; [by eexists|exfalso].
  apply f64_of_frac_None_iff in Hf; [|lia|lia].
  assert (2 ^ 1000 <= overflow_bound) by (vm_compute; discriminate). lia.
Qed.

(** A double is the integer [z] when its value in units is [z * 2^1074]. *)
Lemma f64_int_value_units x z : f64_int_value x = Some z <-> f64_units x = z * 2 ^ 1074.
Proof.
  pose proof (f64_exp_range x). pose proof (f64_man_range x).
  rewrite f64_units_man. unfold f64_int_value, signed_man. cbv zeta.
  set (m := f_man x). set (e := f_exp x). set (sg := f_neg x).
  destruct (Z.leb_spec 0 e) as [He|He].
  - rewrite Z.pow_add_r by lia. cbn [fmap option_fmap option_map].
    split; [intros [= <-]; destruct sg; ring|intros Hz].
    pose proof (pow2_pos 1074 ltac:(lia)). f_equal.
    apply (Z.mul_cancel_r _ _ (2 ^ 1074)); [lia|]. rewrite <- Hz. destruct sg; ring.
  - assert (Hp : 2 ^ (e + 1074) * 2 ^ (- e) = 2 ^ 1074) by (rewrite <- Z.pow_add_r by lia; f_equal; lia).
    pose proof (pow2_pos (- e) ltac:(lia)). pose proof (pow2_pos (e + 1074) ltac:(lia)).
    destruct (Z.eqb_spec (m mod 2 ^ (- e)) 0) as [Hd|Hd]; cbn [fmap option_fmap option_map].
    + pose proof (proj2 (Z.div_exact m (2 ^ (- e)) ltac:(lia)) Hd) as Hm.
      set (q := m / 2 ^ (- e)) in *. rewrite Hm.
      split; [intros [= <-]; rewrite <- Hp; destruct sg; ring|intros Hz].
      f_equal. apply (Z.mul_cancel_r _ _ (2 ^ 1074)); [lia|]. rewrite <- Hz, <- Hp.
      destruct sg; ring.
    + split; [done|intros Hz]. exfalso. apply Hd.
      assert (Hm : (if sg then - m else m) = z * 2 ^ (- e)).
      { apply (Z.mul_cancel_r _ _ (2 ^ (e + 1074))); [lia|]. rewrite Hz, <- Hp. ring. }
      destruct sg.
      * replace m with ((- z) * 2 ^ (- e)) by lia. apply Z_mod_mult.
      * rewrite Hm. apply Z_mod_mult.
Qed.

(** The integers below [2^53] in magnitude are doubles. *)
Lemma int_double z : Z.abs z < 2 ^ 53 -> exists x, f64_units x = z * 2 ^ 1074.
Proof.
  intros Hz. destruct (Z.leb_spec 0 z).
  - destruct (double_of_scaled z 0) as (x & _ & Hx); [lia|lia|]. by exists x.
  - destruct (double_of_scaled (- z) 0) as (x & _ & Hx); [lia|lia|].
    exists (f64_opp x). rewrite f64_units_opp, Hx. simpl. lia.
Qed.

(** [float(z)] of an integer below [2^53] in magnitude is exact. *)
Lemma f64_of_int_whole z :
  Z.abs z < 2 ^ 53 -> exists x, f64_of_int z = Some x /\ f64_int_value x = Some z.
Proof.
  intros Hz. destruct (double_of_scaled (Z.abs z) 0) as (y & Hy & Hu); [lia|lia|].
  exists (if z <? 0 then f64_opp y else y). rewrite f64_int_value_units. unfold f64_of_int.
  pose proof (pow2_pos 1074 ltac:(lia)).
  destruct (Z.ltb_spec z 0); rewrite ?f64_units_opp, Hu; cbn [Z.add];
    (split; [apply round_signed_exact; [lia|lia| |]|lia]).
  - by cbn [f64_opp f_neg]; rewrite Hy.
  - rewrite f64_units_opp, Hu. lia.
  - done.
  - rewrite Hu. lia.
Qed.

End FloatArith.
