(* ===== verification/Xstrtod.v ===== *)
(** * Xstrtod: the float parser of pandas' [read_csv]

    A column of [read_csv] that is not all integers is tried as float64
    cell by cell with [precise_xstrtod] (pandas/_libs/src/parser/
    tokenizer.c), the converter the default [float_precision=None]
    selects; [_try_double] accepts a cell when the converter sets no
    error and consumes the whole cell ([double_cell]).  The converter is
    not [strtod]: it accumulates the first 17 digits into a double with
    [number = number * 10. + digit], drops further fraction digits,
    counts further integer digits into the exponent, then multiplies or
    divides once by the double [1e<k>] of a table (twice for subnormal
    exponents).  Every step is a rounded double operation of FloatArith;
    the exponent digits are read into a C [int] ([wrap32]: signed
    overflow is undefined in C and wraps on the targets pandas is built
    for); an exponent above 308 is an error, below -616 gives [0.].

    The theorems: on a cell of at most 15 digits whose decimal exponent
    lies within [-22, 22] every intermediate double is exact and the
    result is the correctly rounded value, the double Python's [float]
    gives ([double_cell_decimal], [double_cell_py_float]); on longer
    cells it is not, since the digits after the 17th are dropped, not
    rounded (the witness in [XstrtodWitness]).  The converter reads only
    white space, digits, signs, the point and [e]/[E]
    ([double_cell_chars]), so a cell with another letter is text. *)

From S2P Require Import Prelude Binary64 FloatArith PyCore Number.
Local Open Scope Z_scope.

Module Xstrtod.
Import FloatArith.

(** [isspace_ascii]: space, and tab to carriage return. *)
Definition isspace_ascii (c : ascii) : bool :=
  let n := nat_of_ascii c in (n =? 32)%nat || ((9 <=? n) && (n <=? 13))%nat.

Fixpoint skip_space (p : pystr) : pystr :=
  match p with
  | c :: p' => if isspace_ascii c then skip_space p' else p
  | [] => []
  end.

Fixpoint skip_digits (p : pystr) : pystr :=
  match p with
  | c :: p' => match digit_val c with Some _ => skip_digits p' | None => p end
  | [] => []
  end.

Definition max_digits : Z := 17.

(** A C [int] after an arithmetic operation: two's complement, 32 bits. *)
Definition wrap32 (z : Z) : Z := (z + 2 ^ 31) mod 2 ^ 32 - 2 ^ 31.

(** The literal [10.]: [5 * 2^50 * 2^-49]. *)
Definition ten : float64 := F64 false (5 * 2 ^ 50) (-49) eq_refl.

(** The table entry [e[k]], the literal [1e<k>] as the compiler rounds it. *)
Definition e_tab (k : Z) : option float64 := f64_of_decimal 1 k.

(** [number = number * 10. + ( *p - '0')]. *)
Definition push_digit (number : float64) (d : Z) : option float64 :=
  t ← f64_mul number ten; dd ← f64_of_int d; f64_add t dd.

(** [switch ( *p) { case '-': negative = 1; case '+': p++; }] *)
Definition sign_of (p : pystr) : bool * pystr :=
  match p with
  | c :: p' => if bool_decide (c = "-"%char) then (true, p')
               else if bool_decide (c = "+"%char) then (false, p') else (false, p)
  | [] => (false, [])
  end.

(** The digits before the point: the first [max_digits] go into
    [number], the others raise the exponent. *)
Fixpoint int_part (number : float64) (exponent nd : Z) (p : pystr)
    : option (float64 * Z * Z * pystr) :=
  match p with
  | c :: p' =>
      match digit_val c with
      | Some d =>
          if nd <? max_digits then number' ← push_digit number d; int_part number' exponent (nd + 1) p'
          else int_part number (exponent + 1) nd p'
      | None => Some (number, exponent, nd, p)
      end
  | [] => Some (number, exponent, nd, [])
  end.

(** The digits after the point, while fewer than [max_digits] are read. *)
Fixpoint frac_part (number : float64) (nd ndec : Z) (p : pystr)
    : option (float64 * Z * Z * pystr) :=
  match p with
  | c :: p' =>
      match digit_val c with
      | Some d =>
          if nd <? max_digits then number' ← push_digit number d; frac_part number' (nd + 1) (ndec + 1) p'
          else Some (number, nd, ndec, p)
      | None => Some (number, nd, ndec, p)
      end
  | [] => Some (number, nd, ndec, [])
  end.

(** The digits of the exponent, at most [max_digits], into an [int]. *)
Fixpoint exp_digits (n nd : Z) (p : pystr) : Z * Z * pystr :=
  match p with
  | c :: p' =>
      match digit_val c with
      | Some d => if nd <? max_digits then exp_digits (wrap32 (n * 10 + d)) (nd + 1) p' else (n, nd, p)
      | None => (n, nd, p)
      end
  | [] => (n, nd, [])
  end.

Definition is_exp_mark (c : ascii) : bool :=
  bool_decide (c = "e"%char) || bool_decide (c = "E"%char).

(** After the mark [e] or [E] (at [mark :: p]): an optional sign, the
    digits; without a digit, [p--] gives back the sign, or the mark. *)
Definition exponent_part (exponent : Z) (mark : ascii) (p : pystr) : Z * pystr :=
  let '(neg, p1) := sign_of p in
  let '(n, nd, p2) := exp_digits 0 0 p1 in
  let exponent' := wrap32 (if neg then exponent - n else exponent + n) in
  if nd =? 0 then (exponent', if bool_decide (p1 = p) then mark :: p else p) else (exponent', p2).

(** [number] times [10^exponent], by the table. *)
Definition scale (number : float64) (exponent : Z) : option float64 :=
  if 308 <? exponent then None
  else if 0 <? exponent then t ← e_tab exponent; f64_mul number t
  else if exponent <? -308 then
    if exponent <? -616 then Some (f64_zero false)
    else t1 ← e_tab (-308 - exponent); n1 ← f64_div number t1; t2 ← e_tab 308; f64_div n1 t2
  else t ← e_tab (- exponent); f64_div number t.

(** After the integer digits: a point and the fraction digits, the
    exponent lowered by their number; past [max_digits] digits the
    further ones are skipped. *)
Definition fraction_part (number : float64) (exponent nd : Z) (p : pystr)
    : option (float64 * Z * Z * pystr) :=
  match p with
  | c :: p' =>
      if bool_decide (c = "."%char) then
        '(number', nd', ndec, p'') ← frac_part number nd 0 p';
        Some (number', exponent - ndec, nd', if max_digits <=? nd' then skip_digits p'' else p'')
      else Some (number, exponent, nd, p)
  | [] => Some (number, exponent, nd, p)
  end.

(** The exponent string, when the text goes on with [e] or [E]. *)
Definition exponent_stage (exponent : Z) (p : pystr) : Z * pystr :=
  match p with
  | c :: p' => if is_exp_mark c then exponent_part exponent c p' else (exponent, p)
  | [] => (exponent, p)
  end.

(** [precise_xstrtod(str, &endptr, '.', 'E', '\0', 1, &error, NULL)]:
    the double and the text after it, or [None] when [error] is set (no
    digit, an exponent above 308, a result that is not finite). *)
Definition precise_xstrtod (s : pystr) : option (float64 * pystr) :=
  let '(negative, p) := sign_of (skip_space s) in
  '(number, exponent, nd, p) ← int_part (f64_zero false) 0 0 p;
  '(number, exponent, nd, p) ← fraction_part number exponent nd p;
  if nd =? 0 then None else
  let number := if negative then f64_opp number else number in
  let '(exponent, p) := exponent_stage exponent p in
  number ← scale number exponent;
  Some (number, skip_space p).

(** [_try_double] on one cell that is not missing: the value when no
    error is set and the whole cell is read. *)
Definition double_cell (s : pystr) : option float64 :=
  match precise_xstrtod s with
  | Some (x, []) => Some x
  | _ => None
  end.

(** ** Decimal texts *)

Definition sign_text (sg : option bool) : pystr :=
  match sg with Some true => ["-"%char] | Some false => ["+"%char] | None => [] end.

Definition sign_neg (sg : option bool) : bool := match sg with Some true => true | _ => false end.

(** An exponent: [e], an optional sign, digits. *)
Definition exp_text (ex : option (option bool * pystr)) : pystr :=
  match ex with Some (sg, ds) => "e"%char :: sign_text sg ++ ds | None => [] end.

Definition exp_value (ex : option (option bool * pystr)) : Z :=
  match ex with
  | Some (sg, ds) => if sign_neg sg then - Number.dval 0 ds else Number.dval 0 ds
  | None => 0
  end.

(** The exponent digits the converter reads in full: one to 17. *)
Definition exp_ok (ex : option (option bool * pystr)) : Prop :=
  match ex with
  | Some (_, ds) => Number.all_digits ds /\ (1 <= length ds <= 17)%nat
  | None => True
  end.

(** A decimal as a cell holds one: an optional sign, the integer
    digits, optionally a point and the fraction digits, optionally an
    exponent. *)
Definition decimal_text (sg : option bool) (ip : pystr) (fp : option pystr)
    (ex : option (option bool * pystr)) : pystr :=
  sign_text sg ++ ip ++ (match fp with Some f => "."%char :: f | None => [] end) ++ exp_text ex.

(** The characters the converter can read: white space, digits, the
    signs, the point and the exponent marks. *)
Definition float_char (c : ascii) : bool :=
  isspace_ascii c || match digit_val c with Some _ => true | None => false end ||
  bool_decide (c ∈ ["+"; "-"; "."; "e"; "E"]%char).

(** [q] is what is left of [p] after the converter has read some of
    its characters. *)
Definition read_by (p q : pystr) : Prop :=
  exists pre, p = pre ++ q /\ Forall (fun c => float_char c = true) pre.

(** ** Exact accumulation of short digit strings *)

(** [x] is the non-negative double of the integer [a]. *)
Definition is_int_double (x : float64) (a : Z) : Prop :=
  f_neg x = false /\ f64_units x = a * 2 ^ 1074.

(** The text does not start with a digit. *)
Definition no_digit_head (p : pystr) : Prop :=
  match p with c :: _ => digit_val c = None | [] => True end.

Lemma int_double_exists a : 0 <= a < 2 ^ 53 -> exists x, is_int_double x a.
Proof.
  intros Ha. destruct (double_of_scaled a 0 Ha ltac:(lia)) as (x & Hx & Hu). by exists x.
Qed.

Lemma f64_of_int_exact d : 0 <= d < 2 ^ 53 -> exists y, f64_of_int d = Some y /\ is_int_double y d.
Proof.
  intros Hd. destruct (int_double_exists d Hd) as [y [Hy Hu]]. exists y. split; [|done].
  unfold f64_of_int. rewrite (proj2 (Z.ltb_ge d 0)) by lia.
  apply round_signed_exact; [lia|lia|done|]. rewrite Hu. lia.
Qed.

Lemma ten_units : f64_units ten = 10 * 2 ^ 1074.
Proof. vm_compute. reflexivity. Qed.

Lemma push_digit_exact x a d :
  is_int_double x a -> 0 <= a -> 0 <= d < 10 -> 10 * a + d < 2 ^ 53 ->
  exists y, push_digit x d = Some y /\ is_int_double y (10 * a + d).
Proof.
  intros [Hx Hu] Ha Hd Hlt. pose proof (Z.pow_pos_nonneg 2 1074 ltac:(lia) ltac:(lia)) as HP.
  destruct (int_double_exists (10 * a)) as [t [Ht Htu]]; [lia|].
  assert (Hm : f64_mul x ten = Some t).
  { rewrite f64_mul_spec, Hx. apply round_signed_exact; [lia|apply Z.pow_pos_nonneg; lia|done|].
    rewrite Hu, ten_units, Htu, !Z.abs_eq by nia.
    replace (2 ^ 2148) with (2 ^ 1074 * 2 ^ 1074) by (rewrite <- Z.pow_add_r by lia; reflexivity).
    ring. }
  destruct (f64_of_int_exact d) as [dd [Hdd [Hdn Hdu]]]; [lia|].
  destruct (f64_add_nonneg t dd Ht Hdn) as (w & Hw & Hwn & Hwu).
  { destruct (int_double_exists (10 * a + d)) as [z [_ Hz]]; [lia|]. exists z. lia. }
  exists w. unfold push_digit. rewrite Hm. cbn [mbind option_bind]. rewrite Hdd. cbn [mbind option_bind].
  split; [done|]. split; [done|lia].
Qed.

(** A digit character and its value. *)
Lemma digit_char_val c :
  Number.is_digit c = true ->
  digit_val c = Some (Z.of_nat (nat_of_ascii c) - 48) /\ 0 <= Z.of_nat (nat_of_ascii c) - 48 < 10.
Proof.
  intros Hc. split; [by apply Number.digit_val_is_digit|].
  unfold Number.is_digit in Hc. apply andb_prop in Hc as [H1 H2].
  apply Nat.leb_le in H1, H2. lia.
Qed.

Lemma dval_ge a ds : 0 <= a -> Number.all_digits ds -> a <= Number.dval a ds.
Proof.
  intros Ha Hd. rewrite Number.dval_acc. pose proof (Number.dval_nonneg 0 ds ltac:(lia) Hd).
  assert (0 < 10 ^ Z.of_nat (length ds)) by (apply Z.pow_pos_nonneg; lia). nia.
Qed.

Lemma dval_lt ds : Number.all_digits ds -> Number.dval 0 ds < 10 ^ Z.of_nat (length ds).
Proof.
  induction ds as [|x ds IH] using rev_ind; intros Hd; [simpl; lia|].
  apply Forall_app in Hd as [Hds Hx]. apply Forall_inv in Hx.
  destruct (digit_char_val x Hx) as [_ Hx10]. specialize (IH Hds).
  rewrite Number.dval_app, length_app, Nat2Z.inj_add, Z.pow_add_r by lia.
  cbn [Number.dval length]. simpl (10 ^ Z.of_nat 1). lia.
Qed.

(** The integer digits go into [number] exactly while it stays below
    [2^53] and no more than [max_digits] are read. *)
Lemma int_part_digits ds : forall x a e nd rest,
  Number.all_digits ds -> is_int_double x a -> 0 <= a -> 0 <= nd ->
  nd + Z.of_nat (length ds) <= max_digits -> Number.dval a ds < 2 ^ 53 -> no_digit_head rest ->
  exists y, int_part x e nd (ds ++ rest) = Some (y, e, nd + Z.of_nat (length ds), rest)
            /\ is_int_double y (Number.dval a ds).
Proof.
  induction ds as [|c ds IH]; intros x a e nd rest Hds Hx Ha Hnd Hlen Hv Hr.
  - exists x. split; [|done]. rewrite Z.add_0_r.
    destruct rest as [|c r]; cbn [app int_part]; [done|]. by rewrite Hr.
  - apply Forall_cons in Hds as [Hc Hds]. destruct (digit_char_val c Hc) as [Hcv Hc10].
    cbn [app length Number.dval] in *. set (d := Z.of_nat (nat_of_ascii c) - 48) in *.
    pose proof (dval_ge (10 * a + d) ds ltac:(lia) Hds).
    destruct (push_digit_exact x a d) as (y & Hy & Hyi); [done|done|lia|lia|].
    cbn [int_part]. rewrite Hcv. rewrite (proj2 (Z.ltb_lt nd max_digits)) by lia.
    rewrite Hy. cbn [mbind option_bind].
    destruct (IH y (10 * a + d) e (nd + 1) rest) as (z & Hz & Hzi); [done|done|lia|lia|lia|done|done|].
    exists z. rewrite Hz. split; [|done].
    by replace (nd + Z.of_nat (S (length ds))) with (nd + 1 + Z.of_nat (length ds)) by lia.
Qed.

Lemma frac_part_digits ds : forall x a nd ndec rest,
  Number.all_digits ds -> is_int_double x a -> 0 <= a -> 0 <= nd ->
  nd + Z.of_nat (length ds) <= max_digits -> Number.dval a ds < 2 ^ 53 -> no_digit_head rest ->
  exists y, frac_part x nd ndec (ds ++ rest)
            = Some (y, nd + Z.of_nat (length ds), ndec + Z.of_nat (length ds), rest)
            /\ is_int_double y (Number.dval a ds).
Proof.
  induction ds as [|c ds IH]; intros x a nd ndec rest Hds Hx Ha Hnd Hlen Hv Hr.
  - exists x. split; [|done]. rewrite !Z.add_0_r.
    destruct rest as [|c r]; cbn [app frac_part]; [done|]. by rewrite Hr.
  - apply Forall_cons in Hds as [Hc Hds]. destruct (digit_char_val c Hc) as [Hcv Hc10].
    cbn [app length Number.dval] in *. set (d := Z.of_nat (nat_of_ascii c) - 48) in *.
    pose proof (dval_ge (10 * a + d) ds ltac:(lia) Hds).
    destruct (push_digit_exact x a d) as (y & Hy & Hyi); [done|done|lia|lia|].
    cbn [frac_part]. rewrite Hcv. rewrite (proj2 (Z.ltb_lt nd max_digits)) by lia.
    rewrite Hy. cbn [mbind option_bind].
    destruct (IH y (10 * a + d) (nd + 1) (ndec + 1) rest) as (z & Hz & Hzi);
      [done|done|lia|lia|lia|done|done|].
    exists z. rewrite Hz. split; [|done].
    replace (nd + Z.of_nat (S (length ds))) with (nd + 1 + Z.of_nat (length ds)) by lia.
    by replace (ndec + Z.of_nat (S (length ds))) with (ndec + 1 + Z.of_nat (length ds)) by lia.
Qed.

Lemma wrap32_id z : - 2 ^ 31 <= z < 2 ^ 31 -> wrap32 z = z.
Proof. intros Hz. unfold wrap32. rewrite Z.mod_small by lia. lia. Qed.

Lemma exp_digits_digits ds : forall n nd rest,
  Number.all_digits ds -> 0 <= n -> 0 <= nd ->
  nd + Z.of_nat (length ds) <= max_digits -> Number.dval n ds < 2 ^ 31 -> no_digit_head rest ->
  exp_digits n nd (ds ++ rest) = (Number.dval n ds, nd + Z.of_nat (length ds), rest).
Proof.
  induction ds as [|c ds IH]; intros n nd rest Hds Hn Hnd Hlen Hv Hr.
  - rewrite Z.add_0_r. destruct rest as [|c r]; cbn [app exp_digits]; [done|]. by rewrite Hr.
  - apply Forall_cons in Hds as [Hc Hds]. destruct (digit_char_val c Hc) as [Hcv Hc10].
    cbn [app length Number.dval] in *. set (d := Z.of_nat (nat_of_ascii c) - 48) in *.
    pose proof (dval_ge (10 * n + d) ds ltac:(lia) Hds).
    cbn [exp_digits]. rewrite Hcv.
    rewrite (proj2 (Z.ltb_lt nd max_digits)) by lia. rewrite wrap32_id by lia.
    replace (n * 10 + d) with (10 * n + d) by lia.
    rewrite IH by (done || lia).
    by replace (nd + Z.of_nat (S (length ds))) with (nd + 1 + Z.of_nat (length ds)) by lia.
Qed.

(** The table holds [10^k] exactly up to [k = 22]: [5^22 < 2^53]. *)
Lemma e_tab_exact k : 0 <= k <= 22 -> exists t, e_tab k = Some t /\ is_int_double t (10 ^ k).
Proof.
  intros Hk. assert (H5 : 0 <= 5 ^ k < 2 ^ 53).
  { split; [apply Z.pow_nonneg; lia|].
    apply (Z.le_lt_trans _ (5 ^ 22)); [apply Z.pow_le_mono_r; lia|vm_compute; reflexivity]. }
  destruct (double_of_scaled (5 ^ k) k H5 ltac:(lia)) as (t & Ht & Hu).
  assert (H10 : 5 ^ k * 2 ^ (k + 1074) = 10 ^ k * 2 ^ 1074).
  { rewrite Z.pow_add_r by lia. replace 10 with (5 * 2) by reflexivity. rewrite Z.pow_mul_l. ring. }
  exists t. split; [|split; [done|lia]].
  unfold e_tab, f64_of_decimal, dec_frac. cbn [fst snd].
  rewrite (Z.max_r 0 k), (Z.max_l 0 (- k)) by lia. apply f64_of_frac_value; [|lia|done|].
  - apply Z.mul_nonneg_nonneg; [lia|apply Z.pow_nonneg; lia].
  - rewrite Hu, H10. simpl. lia.
Qed.

(** Scaling an exact integer by an exact power of ten rounds once. *)
Lemma scale_exact (neg : bool) x c q :
  is_int_double x c -> 0 <= c -> -22 <= q <= 22 ->
  scale (if neg then f64_opp x else x) q = (fun y => if neg then f64_opp y else y) <$> f64_of_decimal c q.
Proof.
  intros [Hx Hu] Hc Hq. pose proof (Z.pow_pos_nonneg 2 1074 ltac:(lia) ltac:(lia)) as HP.
  set (xs := if neg then f64_opp x else x).
  assert (Hxs : f_neg xs = neg) by (unfold xs; destruct neg; simpl; by rewrite Hx).
  assert (Hxu : Z.abs (f64_units xs) = c * 2 ^ 1074)
    by (unfold xs; destruct neg; rewrite ?f64_units_opp, Hu; lia).
  unfold scale, f64_of_decimal, dec_frac. cbn [fst snd].
  rewrite (proj2 (Z.ltb_ge 308 q)) by lia.
  destruct (Z.ltb_spec 0 q) as [Hpos|Hneg].
  - destruct (e_tab_exact q) as (t & -> & Ht & Htu); [lia|]. cbn [mbind option_bind].
    rewrite f64_mul_spec. unfold round_signed. rewrite Hxs, Ht, xorb_false_r.
    rewrite (Z.max_r 0 q), (Z.max_l 0 (- q)) by lia. f_equal.
    assert (0 < 10 ^ q) by (apply Z.pow_pos_nonneg; lia).
    apply f64_of_frac_cross; [lia|apply Z.pow_pos_nonneg; lia|nia|lia|].
    rewrite Z.abs_mul, Hxu, Htu, Z.abs_eq by nia.
    replace (2 ^ 2148) with (2 ^ 1074 * 2 ^ 1074) by (rewrite <- Z.pow_add_r by lia; reflexivity).
    simpl. ring.
  - rewrite (proj2 (Z.ltb_ge q (-308))) by lia.
    destruct (e_tab_exact (- q)) as (t & -> & Ht & Htu); [lia|]. cbn [mbind option_bind].
    assert (0 < 10 ^ (- q)) by (apply Z.pow_pos_nonneg; lia).
    rewrite f64_div_spec. unfold round_signed. rewrite (proj2 (Z.eqb_neq _ 0)) by nia.
    rewrite Hxs, Ht, xorb_false_r, (Z.max_l 0 q), (Z.max_r 0 (- q)) by lia. f_equal.
    apply f64_of_frac_cross; [lia|nia|lia|lia|]. rewrite Hxu, Htu, Z.abs_eq by nia. simpl. ring.
Qed.

(** ** The stages on a decimal text *)

(** The text does not start with a space or a sign. *)
Definition plain_head (p : pystr) : Prop :=
  match p with
  | c :: _ => isspace_ascii c = false /\ c <> "-"%char /\ c <> "+"%char
  | [] => True
  end.

Lemma sign_stage sg body :
  plain_head body -> sign_of (skip_space (sign_text sg ++ body)) = (sign_neg sg, body).
Proof.
  intros Hb. destruct sg as [[|]|]; [reflexivity|reflexivity|]. cbn [sign_text app sign_neg].
  destruct body as [|c r]; [reflexivity|]. destruct Hb as (Hs & Hm & Hp).
  cbn [skip_space]. rewrite Hs. cbn [sign_of].
  by rewrite !bool_decide_false by done.
Qed.

Lemma digit_plain c p : Number.is_digit c = true -> plain_head (c :: p).
Proof.
  intros Hc. pose proof (Number.digit_not_space c Hc).
  split_and!; [|intros ->; discriminate Hc|intros ->; discriminate Hc].
  unfold isspace_ascii. unfold Number.is_digit in Hc. apply andb_prop in Hc as [H1 H2].
  apply Nat.leb_le in H1, H2. apply orb_false_intro; [apply Nat.eqb_neq; lia|].
  apply andb_false_intro2. apply Nat.leb_gt. lia.
Qed.

Lemma exp_text_no_digit ex : no_digit_head (exp_text ex).
Proof. by destruct ex as [[]|]. Qed.

Lemma exp_text_no_point ex : head (exp_text ex) <> Some "."%char.
Proof. by destruct ex as [[]|]. Qed.

(** Without a point the fraction stage does nothing. *)
Lemma fraction_part_none x e nd rest :
  head rest <> Some "."%char -> fraction_part x e nd rest = Some (x, e, nd, rest).
Proof.
  intros Hr. destruct rest as [|c r]; [done|]. cbn [fraction_part].
  rewrite bool_decide_false; [done|]. intros ->. by apply Hr.
Qed.

Lemma fraction_part_digits x a nd f rest :
  Number.all_digits f -> is_int_double x a -> 0 <= a -> 0 <= nd ->
  nd + Z.of_nat (length f) < max_digits -> Number.dval a f < 2 ^ 53 -> no_digit_head rest ->
  exists y, fraction_part x 0 nd ("."%char :: f ++ rest)
            = Some (y, - Z.of_nat (length f), nd + Z.of_nat (length f), rest)
            /\ is_int_double y (Number.dval a f).
Proof.
  intros Hf Hx Ha Hnd Hlen Hv Hr.
  destruct (frac_part_digits f x a nd 0 rest) as (y & Hy & Hyi); [done|done|done|done|lia|done|done|].
  exists y. split; [|done]. cbn [fraction_part]. rewrite bool_decide_true by done.
  rewrite Hy. cbn [mbind option_bind]. rewrite (proj2 (Z.leb_gt _ _)) by lia. done.
Qed.

Lemma sign_digits sg c ds :
  Number.is_digit c = true -> sign_of (sign_text sg ++ c :: ds) = (sign_neg sg, c :: ds).
Proof.
  intros Hc. destruct sg as [[|]|]; [reflexivity|reflexivity|].
  destruct (digit_plain c ds Hc) as (_ & Hm & Hp). cbn [sign_text app sign_of].
  by rewrite !bool_decide_false.
Qed.

Lemma exponent_stage_text e0 ex :
  exp_ok ex -> -1000 <= e0 <= 1000 -> -1000 <= e0 + exp_value ex <= 1000 ->
  exponent_stage e0 (exp_text ex) = (e0 + exp_value ex, []).
Proof.
  intros Hex He0 Hv. destruct ex as [[sg ds]|]; [|simpl; by rewrite Z.add_0_r].
  destruct Hex as [Hds Hlen]. cbn [exp_text exponent_stage].
  replace (is_exp_mark "e"%char) with true by reflexivity. unfold exponent_part.
  destruct ds as [|c ds]; [simpl in Hlen; lia|]. inversion Hds as [|? ? Hc _]; subst.
  rewrite sign_digits by done. pose proof (dval_ge 0 (c :: ds) ltac:(lia) Hds).
  assert (H31 : 2 ^ 31 = 2147483648) by reflexivity.
  assert (Hb : Number.dval 0 (c :: ds) < 2 ^ 31)
    by (unfold exp_value in Hv; destruct (sign_neg sg); lia).
  rewrite <- (app_nil_r (c :: ds)).
  rewrite (exp_digits_digits (c :: ds) 0 0 []);
    [|done|lia|lia|rewrite Z.add_0_l; unfold max_digits; lia|done|done].
  rewrite (proj2 (Z.eqb_neq _ 0)) by (simpl; lia).
  unfold exp_value in *. cbn zeta. rewrite wrap32_id by (destruct (sign_neg sg); lia).
  rewrite app_nil_r. destruct (sign_neg sg); f_equal; lia.
Qed.

(** A decimal of at most 15 digits, whose decimal exponent lies within
    [-22, 22], reads exactly: the accumulation is exact and the one
    scaling rounds correctly. *)
Lemma double_cell_decimal sg ip fp ex f :
  f = default [] fp ->
  Number.all_digits (ip ++ f) ->
  (1 <= length ip + length f <= 15)%nat ->
  exp_ok ex ->
  -22 <= exp_value ex - Z.of_nat (length f) <= 22 ->
  double_cell (decimal_text sg ip fp ex) =
  (fun x => if sign_neg sg then f64_opp x else x) <$>
    f64_of_decimal (Number.dval (Number.dval 0 ip) f) (exp_value ex - Z.of_nat (length f)).
Proof.
  intros Hfe Hds Hnd Hex Hq. pose proof Hds as Hall. apply Forall_app in Hds as [Hip Hf].
  set (c := Number.dval (Number.dval 0 ip) f).
  assert (Hc : 0 <= c < 2 ^ 53).
  { unfold c. rewrite <- Number.dval_app. split; [apply Number.dval_nonneg; [lia|done]|].
    pose proof (dval_lt (ip ++ f) Hall). rewrite length_app in *.
    assert (10 ^ Z.of_nat (length ip + length f) <= 10 ^ 15) by (apply Z.pow_le_mono_r; lia).
    assert (10 ^ 15 < 2 ^ 53) by (vm_compute; reflexivity). lia. }
  assert (Hip0 : 0 <= Number.dval 0 ip <= c).
  { pose proof (Number.dval_nonneg 0 ip ltac:(lia) Hip). split; [done|]. by apply dval_ge. }
  unfold double_cell, precise_xstrtod, decimal_text.
  destruct (int_part_digits ip (f64_zero false) 0 0 0
             ((match fp with Some f => "."%char :: f | None => [] end) ++ exp_text ex))
    as (y1 & Hy1 & Hy1i); [done|split; [done|reflexivity]|lia|lia|unfold max_digits; lia|lia| |].
  { destruct fp; [done|apply exp_text_no_digit]. }
  rewrite sign_stage.
  2:{ destruct ip as [|k ip]; [|apply digit_plain; by inversion Hip].
      destruct fp as [f'|]; [done|]. subst f. simpl in Hnd. lia. }
  rewrite Hy1. cbn [mbind option_bind].
  assert (Hfr : exists y, fraction_part y1 0 (0 + Z.of_nat (length ip))
                  ((match fp with Some f => "."%char :: f | None => [] end) ++ exp_text ex)
                = Some (y, - Z.of_nat (length f), Z.of_nat (length ip) + Z.of_nat (length f), exp_text ex)
                /\ is_int_double y c).
  { destruct fp as [f'|]; cbn [app] in *; subst f; unfold c in Hc |- *; cbn [default id] in *.
    - destruct (fraction_part_digits y1 (Number.dval 0 ip) (0 + Z.of_nat (length ip)) f' (exp_text ex))
        as (y & Hy & Hyi); [done|done|lia|lia|unfold max_digits; lia|lia|apply exp_text_no_digit|].
      exists y. rewrite Hy. by rewrite Z.add_0_l.
    - exists y1. rewrite fraction_part_none by apply exp_text_no_point. simpl. by rewrite !Z.add_0_r. }
  destruct Hfr as (y & Hy & Hyi). rewrite Hy. cbn [mbind option_bind].
  rewrite (proj2 (Z.eqb_neq _ 0)) by lia.
  rewrite exponent_stage_text by (done || (unfold exp_value in *; lia)).
  cbn zeta. replace (- Z.of_nat (length f) + exp_value ex) with (exp_value ex - Z.of_nat (length f)) by lia.
  rewrite (scale_exact (sign_neg sg) y c) by (done || lia).
  destruct (f64_of_decimal c _); reflexivity.
Qed.

(** ** The same text under Python's [float] *)

Lemma lex_exp_text ex :
  exp_ok ex ->
  match exp_text ex with
  | c :: r => if Number.is_exp_mark c then Number.lex_exponent r else Some (0, exp_text ex)
  | [] => Some (0, exp_text ex)
  end = Some (exp_value ex, []).
Proof.
  destruct ex as [[sg ds]|]; [|done]. intros [Hds Hlen]. cbn [exp_text].
  change (Number.is_exp_mark "e"%char) with true. cbn iota.
  destruct ds as [|c ds]; [simpl in Hlen; lia|].
  assert (Hsp : Number.span_digits (c :: ds) = (c :: ds, [])).
  { rewrite <- (app_nil_r (c :: ds)) at 1. by apply Number.span_digits_all. }
  unfold Number.lex_exponent, exp_value.
  destruct sg as [[|]|]; cbn [sign_text app sign_neg].
  - rewrite bool_decide_true by done. rewrite Hsp. cbn iota.
    rewrite Number.int_digits_all by (done || by left). simpl; repeat f_equal; lia.
  - rewrite bool_decide_false by done. rewrite bool_decide_true by done. rewrite Hsp. cbn iota.
    rewrite Number.int_digits_all by (done || by left). simpl; repeat f_equal; lia.
  - inversion Hds as [|? ? Hc _]; subst. destruct (digit_plain c ds Hc) as (_ & Hm & Hp).
    rewrite !bool_decide_false by done. rewrite Hsp. cbn iota.
    rewrite Number.int_digits_all by (done || by left). simpl; repeat f_equal; lia.
Qed.

Lemma digitpart_or_zero ds :
  Number.all_digits ds ->
  match ds with [] => Some (0, 0) | _ => Number.digitpart ds end
  = Some (Number.dval 0 ds, Z.of_nat (length ds)).
Proof. intros Hd. destruct ds as [|c ds]; [done|]. by apply Number.digitpart_all. Qed.

(** [float] reads the decimal text as the correctly rounded value of
    the decimal, with no bound on the digits. *)
Lemma lex_float_decimal ip fp ex f :
  f = default [] fp -> Number.all_digits (ip ++ f) -> (1 <= length ip + length f)%nat -> exp_ok ex ->
  Number.lex_float (ip ++ (match fp with Some f => "."%char :: f | None => [] end) ++ exp_text ex)
  = (fun x => (x, [])) <$>
      f64_of_decimal (Number.dval (Number.dval 0 ip) f) (exp_value ex - Z.of_nat (length f)).
Proof.
  intros Hfe Hds Hnd Hex. apply Forall_app in Hds as [Hip Hf]. unfold Number.lex_float.
  assert (Hstop : Number.stops_digits ((match fp with Some f => "."%char :: f | None => [] end) ++ exp_text ex))
    by (destruct fp; [done|destruct ex as [[]|]; done]).
  rewrite Number.span_digits_all by done. cbn iota beta.
  assert (Hfr : match (match fp with Some f => "."%char :: f | None => [] end) ++ exp_text ex with
                | c :: r => if bool_decide (c = "."%char)
                            then (Some (Number.span_digits r).1, (Number.span_digits r).2)
                            else (None, (match fp with Some f => "."%char :: f | None => [] end) ++ exp_text ex)
                | [] => (None, (match fp with Some f => "."%char :: f | None => [] end) ++ exp_text ex)
                end = (fp, exp_text ex)).
  { destruct fp as [f'|]; cbn [app].
    - subst f. rewrite bool_decide_true by done.
      rewrite Number.span_digits_all by (done || by destruct ex as [[]|]). done.
    - by destruct ex as [[]|]. }
  rewrite Hfr. cbn iota beta. rewrite lex_exp_text by done. cbn iota beta.
  rewrite digitpart_or_zero by done.
  replace (match fp with None | Some [] => Some (0, 0) | Some f => Number.digitpart f end)
    with (Some (Number.dval 0 f, Z.of_nat (length f)))
    by (subst f; destruct fp as [[|c f']|]; [done|symmetry; by apply Number.digitpart_all|done]).
  cbn iota beta.
  replace (match ip, fp with [], None | [], Some [] => false | _, _ => true end) with true
    by (subst f; destruct ip, fp as [[|]|]; simpl in Hnd; (done || lia)).
  simpl (_ && _). cbn iota. rewrite (Number.dval_acc (Number.dval 0 ip) f). done.
Qed.

Lemma decimal_text_nospace sg ip fp ex f :
  f = default [] fp -> Number.all_digits (ip ++ f) -> exp_ok ex ->
  Forall (fun c => is_space c = false) (decimal_text sg ip fp ex).
Proof.
  intros -> Hds Hex. apply Forall_app in Hds as [Hip Hf].
  assert (Hd : forall ds, Number.all_digits ds -> Forall (fun c => is_space c = false) ds)
    by (intros ds Hd; eapply Forall_impl; [exact Hd|]; intros c; apply Number.digit_not_space).
  unfold decimal_text. repeat apply Forall_app_2.
  - by destruct sg as [[|]|]; repeat constructor.
  - by apply Hd.
  - destruct fp; [constructor; [done|by apply Hd]|constructor].
  - destruct ex as [[sg' ds]|]; [|constructor]. destruct Hex as [Hds _].
    constructor; [done|]. apply Forall_app_2; [by destruct sg' as [[|]|]; repeat constructor|by apply Hd].
Qed.

Lemma py_float_decimal sg ip fp ex f :
  f = default [] fp -> Number.all_digits (ip ++ f) -> (1 <= length ip + length f)%nat -> exp_ok ex ->
  Number.py_float (decimal_text sg ip fp ex) =
  (fun x => if sign_neg sg then f64_opp x else x) <$>
    f64_of_decimal (Number.dval (Number.dval 0 ip) f) (exp_value ex - Z.of_nat (length f)).
Proof.
  intros Hfe Hds Hnd Hex. unfold Number.py_float.
  rewrite strip_nospace by (eapply decimal_text_nospace; eauto).
  pose proof (lex_float_decimal ip fp ex f Hfe Hds Hnd Hex) as Hl.
  unfold decimal_text. destruct sg as [[|]|]; cbn [sign_text app sign_neg].
  - rewrite bool_decide_true by done. rewrite Hl.
    destruct (f64_of_decimal _ _); reflexivity.
  - rewrite bool_decide_false by done. rewrite bool_decide_true by done. rewrite Hl.
    destruct (f64_of_decimal _ _); reflexivity.
  - destruct (ip ++ (match fp with Some f => "."%char :: f | None => [] end) ++ exp_text ex)
      as [|c r] eqn:Hb.
    { subst f. destruct ip, fp as [[|]|]; simpl in *; (discriminate || lia). }
    assert (Hc : c <> "-"%char /\ c <> "+"%char).
    { destruct ip as [|d ip].
      - destruct fp as [f'|]; [injection Hb as Hcd _; by rewrite <- Hcd|]. subst f. simpl in Hnd. lia.
      - injection Hb as Hcd _. rewrite <- Hcd. apply Forall_inv in Hds.
        by destruct (digit_plain d [] Hds) as (_ & ? & ?). }
    rewrite !bool_decide_false by tauto. rewrite Hl. destruct (f64_of_decimal _ _); reflexivity.
Qed.

(** ** pandas and Python on the cells of a float column *)

(** ** What the converter reads *)

Lemma read_by_refl p : read_by p p.
Proof. by exists []. Qed.

Lemma read_by_trans p q r : read_by p q -> read_by q r -> read_by p r.
Proof.
  intros (a & -> & Ha) (b & -> & Hb). exists (a ++ b).
  split; [by rewrite app_assoc|by apply Forall_app].
Qed.

Lemma read_by_cons c p q : float_char c = true -> read_by p q -> read_by (c :: p) q.
Proof. intros Hc (a & -> & Ha). exists (c :: a). split; [done|by constructor]. Qed.

Lemma float_char_digit c d : digit_val c = Some d -> float_char c = true.
Proof. intros H. unfold float_char. rewrite H. by rewrite orb_true_r, orb_true_l. Qed.

Lemma float_char_space c : isspace_ascii c = true -> float_char c = true.
Proof. intros H. unfold float_char. by rewrite H. Qed.

Lemma float_char_in c : c ∈ ["+"; "-"; "."; "e"; "E"]%char -> float_char c = true.
Proof. intros H. unfold float_char. rewrite bool_decide_true by done. by rewrite orb_true_r. Qed.

Lemma skip_space_read p : read_by p (skip_space p).
Proof.
  induction p as [|c p IH]; cbn [skip_space]; [apply read_by_refl|].
  destruct (isspace_ascii c) eqn:Hc; [by apply read_by_cons; [apply float_char_space|]|].
  apply read_by_refl.
Qed.

Lemma skip_digits_read p : read_by p (skip_digits p).
Proof.
  induction p as [|c p IH]; cbn [skip_digits]; [apply read_by_refl|].
  destruct (digit_val c) eqn:Hc; [by eapply read_by_cons; [eapply float_char_digit|]|].
  apply read_by_refl.
Qed.

Lemma sign_of_read p : read_by p (sign_of p).2.
Proof.
  destruct p as [|c p]; cbn [sign_of]; [apply read_by_refl|].
  case_bool_decide; [|case_bool_decide]; subst; cbn [snd];
    try (apply read_by_cons; [apply float_char_in; set_solver|]); apply read_by_refl.
Qed.

Lemma int_part_read p : forall x e nd r,
  int_part x e nd p = Some r -> read_by p r.2.
Proof.
  induction p as [|c p IH]; intros x e nd r; cbn [int_part]; [intros [= <-]; apply read_by_refl|].
  destruct (digit_val c) as [d|] eqn:Hd; [|intros [= <-]; apply read_by_refl].
  apply float_char_digit in Hd. destruct (nd <? max_digits).
  - destruct (push_digit x d); [|done]. intros H%IH. by apply read_by_cons.
  - intros H%IH. by apply read_by_cons.
Qed.

Lemma frac_part_read p : forall x nd ndec r,
  frac_part x nd ndec p = Some r -> read_by p r.2.
Proof.
  induction p as [|c p IH]; intros x nd ndec r; cbn [frac_part]; [intros [= <-]; apply read_by_refl|].
  destruct (digit_val c) as [d|] eqn:Hd; [|intros [= <-]; apply read_by_refl].
  apply float_char_digit in Hd. destruct (nd <? max_digits); [|intros [= <-]; apply read_by_refl].
  destruct (push_digit x d); [|done]. intros H%IH. by apply read_by_cons.
Qed.

Lemma exp_digits_read p : forall n nd, read_by p (exp_digits n nd p).2.
Proof.
  induction p as [|c p IH]; intros n nd; cbn [exp_digits]; [apply read_by_refl|].
  destruct (digit_val c) as [d|] eqn:Hd; [|apply read_by_refl].
  destruct (nd <? max_digits); [|apply read_by_refl].
  apply read_by_cons; [by eapply float_char_digit|apply IH].
Qed.

Lemma exponent_stage_read e p : read_by p (exponent_stage e p).2.
Proof.
  destruct p as [|c p]; cbn [exponent_stage]; [apply read_by_refl|].
  destruct (is_exp_mark c) eqn:Hm; [|apply read_by_refl].
  assert (Hc : float_char c = true).
  { apply float_char_in. unfold is_exp_mark in Hm.
    apply orb_true_iff in Hm as [Hm|Hm]; apply bool_decide_eq_true in Hm; set_solver. }
  unfold exponent_part. pose proof (sign_of_read p) as Hs. destruct (sign_of p) as [neg p1].
  pose proof (exp_digits_read p1 0 0) as He. destruct (exp_digits 0 0 p1) as [[n nd] p2].
  cbn [snd] in *. destruct (nd =? 0); cbn [snd].
  - case_bool_decide; [apply read_by_refl|by apply read_by_cons; [|apply read_by_refl]].
  - apply read_by_cons; [done|]. by eapply read_by_trans.
Qed.

Lemma fraction_part_read x e nd p r : fraction_part x e nd p = Some r -> read_by p r.2.
Proof.
  destruct p as [|c p]; cbn [fraction_part]; [intros [= <-]; apply read_by_refl|].
  case_bool_decide as Hc; [|intros [= <-]; apply read_by_refl]. subst c.
  destruct (frac_part x nd 0 p) as [[[[x' nd'] ndec] p'']|] eqn:Hf; [|done].
  intros [= <-]. cbn [snd]. apply frac_part_read in Hf. cbn [snd] in Hf.
  apply read_by_cons; [apply float_char_in; set_solver|].
  destruct (max_digits <=? nd'); [|done]. eapply read_by_trans; [exact Hf|apply skip_digits_read].
Qed.

Lemma precise_xstrtod_read s x q : precise_xstrtod s = Some (x, q) -> read_by s q.
Proof.
  unfold precise_xstrtod. pose proof (skip_space_read s) as H0.
  pose proof (sign_of_read (skip_space s)) as H1. destruct (sign_of (skip_space s)) as [neg p].
  destruct (int_part _ _ _ p) as [[[[n1 e1] nd1] p1]|] eqn:H2; [|done]. cbn [mbind option_bind].
  apply int_part_read in H2.
  destruct (fraction_part n1 e1 nd1 p1) as [[[[n2 e2] nd2] p2]|] eqn:H3; [|done].
  cbn [mbind option_bind]. apply fraction_part_read in H3.
  destruct (nd2 =? 0); [done|].
  pose proof (exponent_stage_read e2 p2) as H4. destruct (exponent_stage e2 p2) as [e3 p3].
  destruct (scale _ e3); [|done]. intros [= _ <-]. cbn [snd] in *.
  eapply read_by_trans; [exact H0|]. eapply read_by_trans; [exact H1|].
  eapply read_by_trans; [exact H2|]. eapply read_by_trans; [exact H3|].
  eapply read_by_trans; [exact H4|]. apply skip_space_read.
Qed.

(** A cell the converter reads in full has only characters of numbers. *)
Lemma double_cell_chars s x : double_cell s = Some x -> Forall (fun c => float_char c = true) s.
Proof.
  unfold double_cell. destruct (precise_xstrtod s) as [[y [|c q]]|] eqn:H; try done.
  intros _. apply precise_xstrtod_read in H as (pre & -> & Hpre). by rewrite app_nil_r.
Qed.

(** C8. pandas' float parser agrees with Python's [float] on the cells
    a spreadsheet of amounts holds: for a decimal of at most 15 digits
    whose decimal exponent lies within [-22, 22], [precise_xstrtod]
    reads the whole cell and gives the double [float] gives, the one
    nearest to the decimal. *)
Theorem double_cell_py_float sg ip fp ex f :
  f = default [] fp -> Number.all_digits (ip ++ f) -> (1 <= length ip + length f <= 15)%nat ->
  exp_ok ex -> -22 <= exp_value ex - Z.of_nat (length f) <= 22 ->
  double_cell (decimal_text sg ip fp ex) = Number.py_float (decimal_text sg ip fp ex) /\
  double_cell (decimal_text sg ip fp ex) =
  (fun x => if sign_neg sg then f64_opp x else x) <$>
    f64_of_decimal (Number.dval (Number.dval 0 ip) f) (exp_value ex - Z.of_nat (length f)).
Proof.
  intros Hfe Hds Hnd Hex Hq.
  rewrite (double_cell_decimal sg ip fp ex f), (py_float_decimal sg ip fp ex f) by (done || lia).
  done.
Qed.

End Xstrtod.

Module XstrtodWitness.
Import Xstrtod.

(** The cell [-859.99e0]. *)
Lemma double_cell_py_float_witness :
  double_cell (decimal_text (Some true) (lit "859") (Some (lit "99")) (Some (None, lit "0")))
  = Number.py_float (decimal_text (Some true) (lit "859") (Some (lit "99")) (Some (None, lit "0"))).
Proof.
  refine (proj1 (double_cell_py_float (Some true) (lit "859") (Some (lit "99")) (Some (None, lit "0"))
                   (lit "99") eq_refl _ _ _ _)).
  - repeat constructor.
  - simpl. lia.
  - split; [repeat constructor|simpl; lia].
  - vm_compute. split; discriminate.
Defined.

(** Past 17 digits the converter truncates: the cell
    [1.000000000000000111023] lies above the midpoint of [1] and the
    next double, [float] rounds it up, pandas reads [1.0]. *)
Lemma double_cell_long_decimal :
  double_cell (lit "1.000000000000000111023") = f64_of_decimal 1 0 /\
  Number.py_float (lit "1.000000000000000111023") <> f64_of_decimal 1 0.
Proof. split; vm_compute; [reflexivity|congruence]. Qed.

End XstrtodWitness.
