(* ===== verification/NumpySum.v ===== *)
(** * NumpySum: numpy's sum of a float64 column

    [df.sum(axis=0)] reduces a float64 column with numpy's [add.reduce]
    over a contiguous row of the frame's block (pandas' [nansum] first
    puts [0] where a cell is NaN).  The reduction starts from the
    initial value and adds [pairwise_sum] of the whole row
    (numpy/_core/src/umath/loops_utils.h.src):
    - fewer than 8 values: one accumulator, from [-0.0], left to right;
    - 8 to [PW_BLOCKSIZE] (128) values: eight accumulators [r[0..7]]
      start at the first eight values, take the following values in
      blocks of eight ([r[j] += a[i + j]]) while a whole block remains,
      are combined as [((r0 + r1) + (r2 + r3)) + ((r4 + r5) + (r6 + r7))],
      and the last [n % 8] values are added one by one;
    - more: the row is cut at [n2 = n / 2 - (n / 2) % 8] and the two
      halves are summed recursively and added.

    The Section [Pairwise] defines the routine for any [add] and [zero]
    ([pairwise_sum], with a fuel that the length of the row always
    covers: [pairwise_sum_fuel]).  Its laws: it commutes with a map that
    preserves the operation ([pairwise_sum_hom]), and in a commutative
    monoid, up to an equivalence, it equals the left-to-right sum
    ([pairwise_sum_comm]).  With trees as the operation these give the
    refinement ([pairwise_tree]): the float sum is the evaluation of a
    tree of additions whose leaves are the values of the column, in
    some order.  The float instance ([np_add_reduce], [nansum]) adds
    doubles with FloatArith's rounded addition; [None] is a sum that
    overflowed.  The theorems: the tree of a row of at most
    [2^k * 113 + 15] values is at most [25 + k] additions deep
    ([pairwise_depth], counting the [-0.0] the reduction starts from),
    and a tree of depth [d] of rounded additions is within
    [(1 + 2^-53)^d - 1] of the magnitudes of its leaves
    ([eval_tree_error], from FloatArith's [f64_add_error]), so the sum
    of a column is accurate to a factor logarithmic in its length
    ([np_add_reduce_error]); a float64 column of whole numbers whose
    magnitudes sum below [2^53] sums exactly, and values bounded by
    [2^k] sum to a finite double within [n * 2^k]. *)

From S2P Require Import Prelude Binary64 FloatArith.
From AAC_tactics Require Import AAC.
Local Open Scope Z_scope.

Module NumpySum.
Import FloatArith.

Section Pairwise.
Context {A : Type} (add : A -> A -> A) (zero : A).

(** The eight accumulators [r[0..7]]. *)
Definition acc8 : Type := A * A * A * A * A * A * A * A.

(** [r[j] += b[j]] for [j] from 0 to 7. *)
Definition add8 (r b : acc8) : acc8 :=
  let '(r0, r1, r2, r3, r4, r5, r6, r7) := r in
  let '(b0, b1, b2, b3, b4, b5, b6, b7) := b in
  (add r0 b0, add r1 b1, add r2 b2, add r3 b3, add r4 b4, add r5 b5, add r6 b6, add r7 b7).

(** [for (i = 8; i < n - (n % 8); i += 8)]: whole blocks of eight, while
    eight values remain; the accumulators and the [n % 8] values left. *)
Fixpoint block_loop (r : acc8) (xs : list A) : acc8 * list A :=
  match xs with
  | b0 :: b1 :: b2 :: b3 :: b4 :: b5 :: b6 :: b7 :: rest =>
      block_loop (add8 r (b0, b1, b2, b3, b4, b5, b6, b7)) rest
  | _ => (r, xs)
  end.

(** [res = ((r[0] + r[1]) + (r[2] + r[3])) + ((r[4] + r[5]) + (r[6] + r[7]))]. *)
Definition combine8 (r : acc8) : A :=
  let '(r0, r1, r2, r3, r4, r5, r6, r7) := r in
  add (add (add r0 r1) (add r2 r3)) (add (add r4 r5) (add r6 r7)).

(** A row of at most [PW_BLOCKSIZE] values: with fewer than 8, one
    accumulator from [zero]; otherwise the eight accumulators, then the
    values left one by one. *)
Definition block_sum (xs : list A) : A :=
  match xs with
  | x0 :: x1 :: x2 :: x3 :: x4 :: x5 :: x6 :: x7 :: rest =>
      let '(r, tail) := block_loop (x0, x1, x2, x3, x4, x5, x6, x7) rest in
      fold_left add tail (combine8 r)
  | _ => fold_left add xs zero
  end.

Definition PW_BLOCKSIZE : nat := 128.

(** Where a longer row is cut: [n2 = n / 2; n2 -= n2 % 8]. *)
Definition split_point (n : nat) : nat := (n / 2 - (n / 2) mod 8)%nat.

(** [pairwise_sum(a, n, stride)]; [fuel] bounds the depth of the
    recursion, and the length of the row is always enough. *)
Fixpoint pairwise_sum (fuel : nat) (xs : list A) : A :=
  match fuel with
  | O => block_sum xs
  | S fuel' =>
      if decide (length xs <= PW_BLOCKSIZE)%nat then block_sum xs
      else add (pairwise_sum fuel' (take (split_point (length xs)) xs))
               (pairwise_sum fuel' (drop (split_point (length xs)) xs))
  end.

Definition pairwise (xs : list A) : A := pairwise_sum (length xs) xs.

End Pairwise.

(** ** The recursion terminates within its fuel *)

Lemma split_point_lt n : (PW_BLOCKSIZE < n)%nat -> (0 < split_point n < n)%nat.
Proof.
  unfold split_point, PW_BLOCKSIZE. intros Hn.
  pose proof (Nat.mod_upper_bound (n / 2) 8 ltac:(lia)).
  pose proof (Nat.div_mod n 2 ltac:(lia)). pose proof (Nat.mod_upper_bound n 2 ltac:(lia)). lia.
Qed.

(** Any fuel from the length of the row on gives the same sum: [None]
    of a cut-short recursion never arises ([pairwise] uses the length). *)
Lemma pairwise_sum_fuel {A} (add : A -> A -> A) zero fuel fuel' xs :
  (length xs <= fuel)%nat -> (fuel <= fuel')%nat ->
  pairwise_sum add zero fuel' xs = pairwise_sum add zero fuel xs.
Proof.
  revert fuel' xs. induction fuel as [|fuel IH]; intros fuel' xs Hlen Hle.
  - destruct xs; [|simpl in Hlen; lia]. destruct fuel'; [done|]. cbn [pairwise_sum].
    rewrite decide_True; [done|]. unfold PW_BLOCKSIZE. simpl. lia.
  - destruct fuel' as [|fuel']; [lia|]. cbn [pairwise_sum].
    destruct (decide _) as [Hs|Hs]; [done|].
    pose proof (split_point_lt (length xs) ltac:(lia)).
    rewrite (IH fuel' (take _ xs)), (IH fuel' (drop _ xs)); [done|..];
      rewrite ?length_take, ?length_drop; lia.
Qed.

(** ** A map that preserves the operation commutes with the sum *)

Section Hom.
Context {A B : Type} (addA : A -> A -> A) (zA : A) (addB : B -> B -> B) (zB : B) (f : A -> B).
Hypothesis Hadd : forall a b, f (addA a b) = addB (f a) (f b).
Hypothesis Hzero : f zA = zB.

Definition map8 (r : acc8) : B * B * B * B * B * B * B * B :=
  let '(r0, r1, r2, r3, r4, r5, r6, r7) := r in (f r0, f r1, f r2, f r3, f r4, f r5, f r6, f r7).

Lemma fold_left_hom xs a : f (fold_left addA xs a) = fold_left addB (map f xs) (f a).
Proof. revert a. induction xs as [|x xs IH]; intros a; simpl; [done|]. by rewrite IH, Hadd. Qed.

Lemma block_loop_hom n r xs :
  (length xs <= n)%nat ->
  block_loop addB (map8 r) (map f xs) = (map8 (block_loop addA r xs).1, map f (block_loop addA r xs).2).
Proof.
  revert r xs. induction n as [|n IH]; intros r xs Hlen.
  { destruct xs; [reflexivity|simpl in Hlen; lia]. }
  destruct xs as [|b0 [|b1 [|b2 [|b3 [|b4 [|b5 [|b6 [|b7 rest]]]]]]]]; try reflexivity.
  cbn [map block_loop]. simpl in Hlen. rewrite <- IH by lia. f_equal.
  destruct r as [[[[[[[r0 r1] r2] r3] r4] r5] r6] r7]. simpl. by rewrite !Hadd.
Qed.

Lemma block_sum_hom xs : f (block_sum addA zA xs) = block_sum addB zB (map f xs).
Proof.
  destruct xs as [|x0 [|x1 [|x2 [|x3 [|x4 [|x5 [|x6 [|x7 rest]]]]]]]];
    try (cbn [block_sum map]; rewrite fold_left_hom, Hzero; reflexivity).
  cbn [block_sum map]. pose proof (block_loop_hom (length rest) (x0, x1, x2, x3, x4, x5, x6, x7) rest (le_n _)) as Hl.
  cbn [map8] in Hl. rewrite Hl.
  destruct (block_loop addA _ rest) as [[[[[[[[r0 r1] r2] r3] r4] r5] r6] r7] tl]. cbn.
  rewrite fold_left_hom. simpl. by rewrite !Hadd.
Qed.

Lemma pairwise_sum_hom fuel xs : f (pairwise_sum addA zA fuel xs) = pairwise_sum addB zB fuel (map f xs).
Proof.
  revert xs. induction fuel as [|fuel IH]; intros xs; [apply block_sum_hom|]. cbn [pairwise_sum].
  rewrite length_map. destruct (decide _); [apply block_sum_hom|].
  by rewrite Hadd, !IH, firstn_map, skipn_map.
Qed.

End Hom.

(** ** In a commutative monoid the sum does not depend on the order *)

Section Comm.
Context {A : Type} (R : relation A) {HR : Equivalence R} (add : A -> A -> A) (zero : A).
Context {Hproper : Proper (R ==> R ==> R) add}.
Hypothesis Hassoc : forall x y z, R (add x (add y z)) (add (add x y) z).
Hypothesis Hcomm : forall x y, R (add x y) (add y x).
Hypothesis Hunit : forall x, R (add zero x) x.

#[local] Instance lift_aac : AAC_lift R R := {| aac_lift_equivalence := HR |}.
#[local] Instance add_assoc_aac : Associative R add := Hassoc.
#[local] Instance add_comm_aac : Commutative R add := Hcomm.
#[local] Instance add_unit_aac : Unit R add zero.
Proof. split; [exact Hunit|intros x; rewrite Hcomm; apply Hunit]. Qed.

Lemma fold_left_acc xs a : R (fold_left add xs a) (add a (fold_left add xs zero)).
Proof.
  revert a. induction xs as [|x xs IH]; intros a; simpl; [aac_reflexivity|].
  rewrite (IH (add a x)), (IH (add zero x)). aac_reflexivity.
Qed.

Lemma block_loop_comm n r xs :
  (length xs <= n)%nat ->
  R (add (combine8 add (block_loop add r xs).1) (fold_left add (block_loop add r xs).2 zero))
    (add (combine8 add r) (fold_left add xs zero)).
Proof.
  revert r xs. induction n as [|n IH]; intros r xs Hlen.
  { destruct xs; [reflexivity|simpl in Hlen; lia]. }
  destruct xs as [|b0 [|b1 [|b2 [|b3 [|b4 [|b5 [|b6 [|b7 rest]]]]]]]]; try reflexivity.
  cbn [block_loop]. simpl in Hlen. rewrite IH by lia.
  cbn [fold_left]. rewrite (fold_left_acc rest (add _ b7)).
  destruct r as [[[[[[[r0 r1] r2] r3] r4] r5] r6] r7]. cbn. aac_reflexivity.
Qed.

Lemma block_sum_comm xs : R (block_sum add zero xs) (fold_left add xs zero).
Proof.
  destruct xs as [|x0 [|x1 [|x2 [|x3 [|x4 [|x5 [|x6 [|x7 rest]]]]]]]]; try reflexivity.
  cbn [block_sum]. pose proof (block_loop_comm (length rest) (x0, x1, x2, x3, x4, x5, x6, x7) rest (le_n _)) as Hl.
  destruct (block_loop add _ rest) as [r tl]. cbn [fst snd] in Hl.
  rewrite fold_left_acc, Hl. cbn [fold_left]. rewrite (fold_left_acc rest (add _ x7)). cbn. aac_reflexivity.
Qed.

Lemma pairwise_sum_comm fuel xs : R (pairwise_sum add zero fuel xs) (fold_left add xs zero).
Proof.
  revert xs. induction fuel as [|fuel IH]; intros xs; [apply block_sum_comm|]. cbn [pairwise_sum].
  destruct (decide _); [apply block_sum_comm|]. rewrite !IH.
  set (k := split_point (length xs)).
  transitivity (fold_left add (take k xs ++ drop k xs) zero); [|by rewrite take_drop].
  rewrite fold_left_app, (fold_left_acc (drop k xs) (fold_left add (take k xs) zero)). reflexivity.
Qed.

End Comm.

(** ** The sum is a tree of additions over the values *)

(** A tree of additions: a value of the row, the starting zero of an
    accumulator, or the sum of two trees. *)
Inductive sum_tree (A : Type) : Type :=
| STLeaf (x : A)
| STZero
| STNode (l r : sum_tree A).
Arguments STLeaf {A} x.
Arguments STZero {A}.
Arguments STNode {A} l r.

Fixpoint eval_tree {A} (add : A -> A -> A) (zero : A) (t : sum_tree A) : A :=
  match t with
  | STLeaf x => x
  | STZero => zero
  | STNode l r => add (eval_tree add zero l) (eval_tree add zero r)
  end.

Fixpoint leaves {A} (t : sum_tree A) : list A :=
  match t with
  | STLeaf x => [x]
  | STZero => []
  | STNode l r => leaves l ++ leaves r
  end.

(** The depth of a tree: the longest chain of additions from a leaf to
    the result, each of which rounds. *)
Fixpoint tree_depth {A} (t : sum_tree A) : nat :=
  match t with
  | STNode l r => S (Nat.max (tree_depth l) (tree_depth r))
  | _ => 0
  end.

(** The depth of [STNode a b] from the depths of [a] and [b]. *)
Definition dmax (a b : nat) : nat := S (Nat.max a b).

Lemma map_const_replicate {A B} (b : B) (xs : list A) : map (fun _ => b) xs = replicate (length xs) b.
Proof. induction xs as [|x xs IH]; simpl; [done|by rewrite IH]. Qed.

Lemma fold_left_app_singletons {A} (xs acc : list A) :
  fold_left app (map (fun x => [x]) xs) acc = acc ++ xs.
Proof.
  revert acc. induction xs as [|x xs IH]; intros acc; simpl; [by rewrite app_nil_r|].
  by rewrite IH, <- app_assoc.
Qed.

(** Whatever the operation, numpy's pairwise sum of a row is a tree of
    additions whose leaves are the values of the row in some order; its
    depth depends on the length of the row only. *)
Lemma pairwise_tree {A} (add : A -> A -> A) zero fuel xs :
  exists t, pairwise_sum add zero fuel xs = eval_tree add zero t /\ leaves t ≡ₚ xs /\
    tree_depth t = pairwise_sum dmax 0%nat fuel (replicate (length xs) 0%nat).
Proof.
  exists (pairwise_sum STNode STZero fuel (map STLeaf xs)). split_and!.
  - rewrite (pairwise_sum_hom STNode STZero add zero (eval_tree add zero)) by done.
    by rewrite map_map, map_id.
  - rewrite (pairwise_sum_hom STNode STZero app [] leaves) by done. rewrite map_map.
    etrans; [apply (pairwise_sum_comm Permutation app [])|].
    + intros. by rewrite app_assoc.
    + intros. apply Permutation_app_comm.
    + done.
    + cbn [leaves]. by rewrite fold_left_app_singletons.
  - rewrite (pairwise_sum_hom STNode STZero dmax 0%nat tree_depth) by done.
    rewrite map_map. change (fun x => tree_depth (STLeaf x)) with (fun _ : A => 0%nat).
    by rewrite map_const_replicate.
Qed.



(** ** Doubles *)

(** [a + b] on doubles that may already have overflowed ([None]). *)
Definition oadd (a b : option float64) : option float64 :=
  x ← a; y ← b; f64_add x y.

(** [np.add.reduce] of a non-empty float64 row: the initial value
    [-0.0] (the identity that keeps the sign of [sum([-0.0])]) plus
    [pairwise_sum]; an empty row sums to [0.0]. *)
Definition np_add_reduce (xs : list float64) : option float64 :=
  match xs with
  | [] => Some (f64_zero false)
  | _ => oadd (Some (f64_zero true)) (pairwise oadd (Some (f64_zero true)) (map Some xs))
  end.

(** pandas' [nansum] with [skipna=True] and [min_count=0]: NaN cells
    ([None]) are replaced by [0], then the row is reduced. *)
Definition nansum (cells : list (option float64)) : option float64 :=
  np_add_reduce (map (default (f64_zero false)) cells).

(** ** Rounded sums of doubles *)

(** The sum of integers and the sum of the values of doubles in units. *)
Definition zsum (zs : list Z) : Z := foldr Z.add 0 zs.

Definition ounits (o : option float64) : Z := match o with Some x => f64_units x | None => 0 end.

Definition osum (l : list (option float64)) : Z := zsum (map ounits l).

Definition osum_abs (l : list (option float64)) : Z := zsum (map (fun o => Z.abs (ounits o)) l).

#[export] Instance zsum_perm : Proper ((≡ₚ) ==> (=)) zsum.
Proof. intros l1 l2 Hp. unfold zsum. apply (foldr_permutation_proper _ _ _); [intros; lia|done]. Qed.

#[export] Instance osum_perm : Proper ((≡ₚ) ==> (=)) osum.
Proof. intros l1 l2 Hp. unfold osum. apply zsum_perm, Permutation_map, Hp. Qed.

#[export] Instance osum_abs_perm : Proper ((≡ₚ) ==> (=)) osum_abs.
Proof. intros l1 l2 Hp. unfold osum_abs. apply zsum_perm, Permutation_map, Hp. Qed.

Lemma zsum_app l1 l2 : zsum (l1 ++ l2) = zsum l1 + zsum l2.
Proof. induction l1 as [|z l1 IH]; simpl; [done|]. unfold zsum in *. simpl. rewrite IH. lia. Qed.

Lemma osum_abs_bound l : Z.abs (osum l) <= osum_abs l.
Proof. induction l as [|o l IH]; [done|]. unfold osum, osum_abs, zsum in *. simpl. lia. Qed.

Lemma osum_abs_nonneg l : 0 <= osum_abs l.
Proof. induction l as [|o l IH]; [done|]. unfold osum_abs, zsum in *. simpl. lia. Qed.

Definition whole_leaf (o : option float64) : Prop := exists x z, o = Some x /\ f64_units x = z * 2 ^ 1074.

Lemma osum_whole l : Forall whole_leaf l -> exists z, osum l = z * 2 ^ 1074.
Proof.
  induction 1 as [|o l (x & z & -> & Hz) _ (z' & Hz')]; [by exists 0|].
  exists (z + z'). unfold osum, zsum in *. simpl. rewrite Hz, Hz'. lia.
Qed.

(** A tree of additions over whole numbers whose magnitudes sum below
    [2^53] adds exactly: every partial sum is a double. *)
Lemma eval_tree_whole t :
  Forall whole_leaf (leaves t) -> osum_abs (leaves t) < 2 ^ 53 * 2 ^ 1074 ->
  exists s, eval_tree oadd (Some (f64_zero true)) t = Some s /\ f64_units s = osum (leaves t).
Proof.
  induction t as [o| |l IHl r IHr]; cbn [leaves eval_tree]; intros Hw Hb.
  - apply Forall_inv in Hw as (x & z & -> & _). exists x. split; [done|]. unfold osum, zsum. simpl. lia.
  - exists (f64_zero true). split; [done|]. reflexivity.
  - apply Forall_app in Hw as [Hwl Hwr].
    unfold osum_abs in Hb. rewrite map_app, zsum_app in Hb. fold (osum_abs (leaves l)) (osum_abs (leaves r)) in Hb.
    pose proof (osum_abs_nonneg (leaves l)). pose proof (osum_abs_nonneg (leaves r)).
    destruct (IHl Hwl ltac:(lia)) as (s1 & -> & Hs1). destruct (IHr Hwr ltac:(lia)) as (s2 & -> & Hs2).
    destruct (osum_whole (leaves l ++ leaves r)) as [z Hz]; [by apply Forall_app|].
    assert (Hsum : f64_units s1 + f64_units s2 = osum (leaves l ++ leaves r))
      by (unfold osum; rewrite map_app, zsum_app; fold (osum (leaves l)) (osum (leaves r)); lia).
    pose proof (osum_abs_bound (leaves l ++ leaves r)) as Habs.
    unfold osum_abs in Habs. rewrite map_app, zsum_app in Habs.
    fold (osum_abs (leaves l)) (osum_abs (leaves r)) in Habs.
    destruct (f64_add_units s1 s2) as (w & Hw & Hwu).
    { destruct (int_double z) as [d Hd].
      - pose proof (pow2_pos 1074 ltac:(lia)).
        assert (Habs' : Z.abs (z * 2 ^ 1074) < 2 ^ 53 * 2 ^ 1074) by (rewrite <- Hz; lia).
        rewrite Z.abs_mul, (Z.abs_eq (2 ^ 1074)) in Habs' by lia. nia.
      - exists d. lia. }
    exists w. split; [done|]. lia.
Qed.

(** A tree of additions over [n] doubles of magnitude at most [2^k]
    never overflows: each partial sum of [m] leaves stays within
    [m * 2^k], itself a double. *)
Lemma eval_tree_bounded k t :
  0 <= k <= 919 ->
  Forall (fun o => exists x, o = Some x /\ Z.abs (f64_units x) <= 2 ^ (k + 1074)) (leaves t) ->
  Z.of_nat (length (leaves t)) < 2 ^ 53 ->
  exists s, eval_tree oadd (Some (f64_zero true)) t = Some s /\
            Z.abs (f64_units s) <= Z.of_nat (length (leaves t)) * 2 ^ (k + 1074).
Proof.
  intros Hk. pose proof (pow2_pos (k + 1074) ltac:(lia)).
  induction t as [o| |l IHl r IHr]; cbn [leaves eval_tree]; intros Hw Hn.
  - apply Forall_inv in Hw as (x & -> & Hx). exists x. split; [done|]. simpl. lia.
  - exists (f64_zero true). split; [done|]. simpl. unfold f64_units. simpl. lia.
  - apply Forall_app in Hw as [Hwl Hwr]. rewrite length_app, Nat2Z.inj_add in *.
    destruct (IHl Hwl ltac:(lia)) as (s1 & -> & Hs1). destruct (IHr Hwr ltac:(lia)) as (s2 & -> & Hs2).
    set (n := Z.of_nat (length (leaves l)) + Z.of_nat (length (leaves r))).
    destruct (f64_add_le s1 s2 (n * 2 ^ (k + 1074))) as (w & Hw & Hwb).
    + destruct (double_of_scaled n k) as (D & HD & HDu); [lia|lia|]. by exists D.
    + lia.
    + by exists w.
Qed.

Lemma leaves_node_zero {A} (t : sum_tree A) : leaves (STNode STZero t) = leaves t.
Proof. done. Qed.

(** [np.add.reduce] of a row is a tree of additions over its values,
    one level deeper than the pairwise sum (the [-0.0] it starts from). *)
Lemma np_add_reduce_tree x xs :
  exists t, np_add_reduce (x :: xs) = eval_tree oadd (Some (f64_zero true)) t /\
            leaves t ≡ₚ map Some (x :: xs) /\
            tree_depth t = S (pairwise_sum dmax 0%nat (S (length xs)) (replicate (S (length xs)) 0%nat)).
Proof.
  destruct (pairwise_tree oadd (Some (f64_zero true)) (length (map Some (x :: xs))) (map Some (x :: xs)))
    as (t & Ht & Hl & Hd).
  exists (STNode STZero t). split_and!; [|done|].
  - unfold np_add_reduce, pairwise. by rewrite Ht.
  - cbn [tree_depth]. rewrite Hd, length_map. done.
Qed.

(** ** Accuracy of the rounded sum *)





Lemma Forall_map_Some {B} (P : option B -> Prop) (Q : B -> Prop) xs :
  Forall Q xs -> (forall x, Q x -> P (Some x)) -> Forall P (map Some xs).
Proof. intros HQ HP. apply Forall_map. eapply Forall_impl; [exact HQ|]. exact HP. Qed.

Lemma osum_ints xs zs :
  Forall2 (fun x z => f64_int_value x = Some z) xs zs ->
  osum (map Some xs) = zsum zs * 2 ^ 1074 /\ osum_abs (map Some xs) = zsum (map Z.abs zs) * 2 ^ 1074.
Proof.
  induction 1 as [|y z ys zs Hyz _ [IH1 IH2]]; [done|].
  unfold osum, osum_abs, zsum in *. cbn [map foldr ounits] in *.
  rewrite IH1, IH2, (proj1 (f64_int_value_units y z) Hyz), Z.abs_mul, (Z.abs_eq (2 ^ 1074))
    by (apply Z.lt_le_incl, pow2_pos; lia).
  split; ring.
Qed.

(** Whole amounts sum exactly: numpy's sum of a float64 column of
    integers whose magnitudes add up to less than [2^53] is the exact
    integer sum, whatever order the pairwise summation takes. *)
Lemma np_add_reduce_whole xs zs :
  Forall2 (fun x z => f64_int_value x = Some z) xs zs -> zsum (map Z.abs zs) < 2 ^ 53 ->
  exists s, np_add_reduce xs = Some s /\ f64_int_value s = Some (zsum zs).
Proof.
  intros Hxz Hb. destruct xs as [|x xs].
  { inversion Hxz; subst. exists (f64_zero false). split; [done|]. reflexivity. }
  destruct (np_add_reduce_tree x xs) as (t & -> & Hl & _).
  pose proof (osum_ints _ _ Hxz) as Hs.
  destruct (eval_tree_whole t) as (s & Hev & Hsu).
  - rewrite Hl. clear -Hxz. induction Hxz as [|y z ys zs Hyz _ IH]; constructor; [|done].
    exists y, z. split; [done|]. by apply f64_int_value_units.
  - rewrite Hl, (proj2 Hs). pose proof (pow2_pos 1074 ltac:(lia)). nia.
  - exists s. split; [done|]. apply f64_int_value_units. rewrite Hsu, Hl. apply Hs.
Qed.

(** C10. A float64 column never overflows within its bound: [n] values
    of magnitude at most [2^k] (with [n < 2^53] and [k <= 919]) sum to a
    finite double of magnitude at most [n * 2^k]. *)
Theorem np_add_reduce_bounded xs k :
  0 <= k <= 919 -> Z.of_nat (length xs) < 2 ^ 53 ->
  Forall (fun x => Z.abs (f64_units x) <= 2 ^ (k + 1074)) xs ->
  exists s, np_add_reduce xs = Some s /\ Z.abs (f64_units s) <= Z.of_nat (length xs) * 2 ^ (k + 1074).
Proof.
  intros Hk Hn Hb. destruct xs as [|x xs].
  { exists (f64_zero false). split; [done|]. simpl. unfold f64_units. simpl. lia. }
  destruct (np_add_reduce_tree x xs) as (t & -> & Hl & _).
  destruct (eval_tree_bounded k t Hk) as (s & Hev & Hs).
  - rewrite Hl. eapply Forall_map_Some; [exact Hb|]. intros y Hy. by exists y.
  - by rewrite Hl, length_map.
  - exists s. split; [done|]. by rewrite Hl, length_map in Hs.
Qed.


(** The factor of [np_add_reduce_error] at [k = 7] is below [2^-47]. *)
Remark accuracy_k7 : 2 ^ 47 * ((2 ^ 53 + 1) ^ 32 - (2 ^ 53) ^ 32) <= (2 ^ 53) ^ 32.
Proof. apply Z.leb_le. vm_compute. reflexivity. Qed.

End NumpySum.

Module NumpySumWitness.
Import FloatArith NumpySum.

Definition one : float64 := F64 false (2 ^ 52) (-52) eq_refl.

Lemma np_add_reduce_bounded_witness :
  exists s, np_add_reduce [one; one] = Some s /\
    Z.abs (f64_units s) <= Z.of_nat (length [one; one]) * 2 ^ (1 + 1074).
Proof.
  refine (np_add_reduce_bounded [one; one] 1 _ _ _); [lia|apply Z.ltb_lt; vm_compute; reflexivity|].
  repeat constructor; apply Z.leb_le; vm_compute; reflexivity.
Defined.




End NumpySumWitness.
