(* ===== verification/Extract.v ===== *)
(** * Extract: [Utils.extract_expenses_string] (src/utils.py)

    The source finds the first '{' with [s.find('{')], the first '}' at
    or after it with [s.find('}', start_index)], and slices
    [s[start_index:end_index + 1]].  The Module [Extractor] writes this
    index arithmetic as it is, on top of [py_find] and [py_slice], and a
    structural reference [extract_ref] (split at the first '{', then at
    the first '}').  The theorems give the result on every branch,
    including the one the spec gets wrong: a reply with no '{' that ends
    in '}' yields the one-character string "}", not the empty string. *)

From S2P Require Import Prelude PyCore.
Local Open Scope Z_scope.

Module Extractor.

(** utils.py, [extract_expenses_string]. *)
Definition extract_expenses_string (s : pystr) : pystr :=
  let start_index := py_find s "{"%char 0 in
  let end_index := py_find s "}"%char start_index + 1 in
  py_slice s start_index end_index.

(** The reference: the text from the first '{' to the first '}' after
    it, both included; when there is no '{', the index -1 makes the
    slice start at the last character. *)
Definition extract_ref (s : pystr) : pystr :=
  match split_at_char "{"%char s with
  | Some (_, rest) =>
      match split_at_char "}"%char rest with
      | Some (body, _) => "{"%char :: body ++ ["}"%char]
      | None => []
      end
  | None => if decide (last s = Some "}"%char) then ["}"%char] else []
  end.

(** ** How the two [find] calls and the slice evaluate *)

Lemma find_open_found pre rest :
  "{"%char ∉ pre -> py_find (pre ++ "{"%char :: rest) "{"%char 0 = Z.of_nat (length pre).
Proof.
  intros Hn. change 0 with (Z.of_nat 0).
  rewrite py_find_from by lia. rewrite drop_0, index_of_app_notin by done. done.
Qed.

Lemma find_open_missing s : "{"%char ∉ s -> py_find s "{"%char 0 = -1.
Proof.
  intros Hn. change 0 with (Z.of_nat 0).
  rewrite py_find_from by lia. rewrite drop_0. by rewrite (proj2 (index_of_None _ _) Hn).
Qed.

Lemma find_close_after pre body post :
  "}"%char ∉ body ->
  py_find (pre ++ "{"%char :: body ++ "}"%char :: post) "}"%char (Z.of_nat (length pre))
  = Z.of_nat (length pre + length body + 1).
Proof.
  intros Hn. rewrite py_find_from by list_lia.
  rewrite drop_app_length. simpl.
  rewrite index_of_app_notin by done. simpl. f_equal; lia.
Qed.

Lemma find_close_missing pre rest :
  "}"%char ∉ rest ->
  py_find (pre ++ "{"%char :: rest) "}"%char (Z.of_nat (length pre)) = -1.
Proof.
  intros Hn. rewrite py_find_from by list_lia.
  rewrite drop_app_length. simpl.
  by rewrite (proj2 (index_of_None _ _) Hn).
Qed.

Lemma slice_span pre body post :
  py_slice (pre ++ "{"%char :: body ++ "}"%char :: post)
    (Z.of_nat (length pre)) (Z.of_nat (length pre + length body + 1) + 1)
  = "{"%char :: body ++ ["}"%char].
Proof.
  replace (Z.of_nat (length pre + length body + 1) + 1)
    with (Z.of_nat (length pre + (length body + 2))) by lia.
  rewrite py_slice_range by list_lia.
  rewrite drop_app_length. replace (length pre + (length body + 2) - length pre)%nat
    with (length ("{"%char :: body ++ ["}"%char])) by list_lia.
  replace ("{"%char :: body ++ "}"%char :: post)
    with (("{"%char :: body ++ ["}"%char]) ++ post) by (simpl; by rewrite <- app_assoc).
  apply take_app_length.
Qed.

(** Without a '{', the start index is -1 and only the last character can
    be picked up. *)
Lemma extract_without_open s :
  "{"%char ∉ s ->
  extract_expenses_string s =
    if decide (last s = Some "}"%char) then ["}"%char] else [].
Proof.
  intros Hn. unfold extract_expenses_string. rewrite find_open_missing by done.
  destruct s as [|c s _] using rev_ind.
  - by rewrite py_find_nil, py_slice_to_zero.
  - rewrite py_find_last, last_snoc.
    destruct (decide (c = "}"%char)) as [->|Hc].
    + rewrite decide_True by done. replace (Z.of_nat (length s) + 1)
        with (Z.of_nat (length s + 1)) by lia. apply py_slice_last.
    + rewrite decide_False by congruence. apply py_slice_to_zero.
Qed.

(** The three shapes of a reply, and what the extractor returns on each. *)
Lemma extract_cases s :
  (exists pre body post, s = pre ++ "{"%char :: body ++ "}"%char :: post /\
     "{"%char ∉ pre /\ "}"%char ∉ body /\
     extract_expenses_string s = "{"%char :: body ++ ["}"%char]) \/
  (exists pre rest, s = pre ++ "{"%char :: rest /\ "{"%char ∉ pre /\ "}"%char ∉ rest /\
     extract_expenses_string s = []) \/
  ("{"%char ∉ s /\
     extract_expenses_string s = if decide (last s = Some "}"%char) then ["}"%char] else []).
Proof.
  destruct (split_at_char "{"%char s) as [[pre rest]|] eqn:Ho.
  - apply split_at_char_Some in Ho as [-> Hpre]. unfold extract_expenses_string.
    rewrite find_open_found by done.
    destruct (split_at_char "}"%char rest) as [[body post]|] eqn:Hc.
    + apply split_at_char_Some in Hc as [-> Hbody]. left. exists pre, body, post.
      rewrite find_close_after by done. split_and!; [done..|apply slice_span].
    + apply split_at_char_None in Hc. right; left. exists pre, rest.
      rewrite find_close_missing by done. split_and!; [done..|apply py_slice_to_zero].
  - apply split_at_char_None in Ho. right; right. split; [done|by apply extract_without_open].
Qed.

(** The span case, shared with the pipeline's theorems. *)
Lemma extract_span pre body post :
  "{"%char ∉ pre -> "}"%char ∉ body ->
  extract_expenses_string (pre ++ "{"%char :: body ++ "}"%char :: post)
  = "{"%char :: body ++ ["}"%char].
Proof.
  intros Hpre Hbody. unfold extract_expenses_string.
  rewrite find_open_found, find_close_after by done. apply slice_span.
Qed.

(** ** Properties of the extractor *)

(** C1. When the reply has a '{' with none before it, and a '}' after
    it, the extractor returns exactly the text from that '{' to the
    first '}' after it, both braces included: the spec's "exactly one
    brace-delimited span is returned verbatim", and more (text around
    it, and further braces after it, are ignored). *)
Theorem extract_expenses_string_span pre body post :
  "{"%char ∉ pre -> "}"%char ∉ body ->
  extract_expenses_string (pre ++ "{"%char :: body ++ "}"%char :: post)
  = "{"%char :: body ++ ["}"%char].
Proof. apply extract_span. Qed.

(** C15. The index arithmetic of the source ([find], [find] from the
    start index, slice to [end_index + 1]) computes the structural
    reference extractor on every input. *)
Theorem extract_expenses_string_ref s : extract_expenses_string s = extract_ref s.
Proof.
  unfold extract_ref.
  destruct (extract_cases s) as
    [(pre & body & post & -> & Hp & Hb & ->)|[(pre & rest & -> & Hp & Hr & ->)|[Hn ->]]].
  - rewrite split_at_char_app by done. by rewrite split_at_char_app.
  - rewrite split_at_char_app by done. by rewrite (proj2 (split_at_char_None _ _) Hr).
  - by rewrite (proj2 (split_at_char_None _ _) Hn).
Qed.

(** C16. A reply with no '{' that ends in '}' is cut down to the single
    character "}": [find('{')] is -1, [find('}', -1)] looks at the last
    character, and the slice [s[-1:len(s)]] keeps it.  The spec says an
    empty string is returned whenever there is no '{'. *)
Theorem extract_expenses_string_stray_close s :
  "{"%char ∉ s -> extract_expenses_string (s ++ ["}"%char]) = ["}"%char].
Proof.
  intros Hn. rewrite extract_without_open by set_solver.
  by rewrite last_snoc, decide_True.
Qed.

(** The two ways the extractor gives the empty string: a reply
    with no '{' that does not end in '}', and a '{' that is never closed
    (the second [find] returns -1 and the slice ends at index 0). *)
Theorem extract_expenses_string_empty s pre rest :
  ("{"%char ∉ s -> last s <> Some "}"%char -> extract_expenses_string s = []) /\
  ("{"%char ∉ pre -> "}"%char ∉ rest -> extract_expenses_string (pre ++ "{"%char :: rest) = []).
Proof.
  split.
  - intros Hn Hl. rewrite extract_without_open by done. by rewrite decide_False.
  - intros Hp Hr. unfold extract_expenses_string.
    rewrite find_open_found, find_close_missing by done. apply py_slice_to_zero.
Qed.

(** Whatever the reply, the extracted text is a contiguous piece of
    it, and it is empty, the single "}", or a span from '{' to the first
    '}' after it with no '}' inside. *)
Theorem extract_expenses_string_infix s :
  (exists pre post, s = pre ++ extract_expenses_string s ++ post) /\
  (extract_expenses_string s = [] \/ extract_expenses_string s = ["}"%char] \/
   exists body, extract_expenses_string s = "{"%char :: body ++ ["}"%char] /\
                "}"%char ∉ body).
Proof.
  destruct (extract_cases s) as
    [(pre & body & post & -> & Hp & Hb & ->)|[(pre & rest & -> & Hp & Hr & ->)|[Hn ->]]].
  - split; [exists pre, post; simpl; by rewrite <- app_assoc|eauto].
  - split; [by exists [], (pre ++ "{"%char :: rest)|auto].
  - case_decide as Hl; split; [|auto|exists [], s; done|auto].
    destruct s as [|c s _] using rev_ind; [done|]. rewrite last_snoc in Hl.
    injection Hl as ->. by exists s, [].
Qed.

(** Extraction is idempotent: extracting again from the extracted
    text changes nothing, on every input (the span, the empty text and
    the lone "}" are all fixed points). *)
Theorem extract_expenses_string_idempotent s :
  extract_expenses_string (extract_expenses_string s) = extract_expenses_string s.
Proof.
  destruct (extract_cases s) as
    [(pre & body & post & _ & _ & Hb & ->)|[(pre & rest & _ & _ & _ & ->)|[_ ->]]].
  - apply (extract_span [] body []); [apply not_elem_of_nil|done].
  - reflexivity.
  - case_decide; reflexivity.
Qed.

End Extractor.

(** ** Witnesses *)

Module ExtractorWitness.
Import Extractor.

Lemma extract_span_witness :
  extract_expenses_string (lit "Sure! {'Rent': 860, 'Food': 500} Done.")
  = lit "{'Rent': 860, 'Food': 500}".
Proof.
  refine (extract_expenses_string_span (lit "Sure! ") (lit "'Rent': 860, 'Food': 500")
            (lit " Done.") _ _); py_decide.
Defined.

Lemma extract_stray_close_witness :
  extract_expenses_string (lit "I cannot produce the mapping :}") = lit "}".
Proof.
  refine (extract_expenses_string_stray_close (lit "I cannot produce the mapping :") _).
  py_decide.
Defined.

Lemma extract_empty_witness :
  extract_expenses_string (lit "no mapping here") = [] /\
  extract_expenses_string (lit "{'Rent': 860, 'Food': 5") = [].
Proof.
  split.
  - refine (proj1 (extract_expenses_string_empty (lit "no mapping here") [] []) _ _);
      [py_decide|vm_compute; discriminate].
  - refine (proj2 (extract_expenses_string_empty [] [] (lit "'Rent': 860, 'Food': 5")) _ _);
      py_decide.
Defined.

End ExtractorWitness.
