(* ===== verification/CsvWriter.v ===== *)
(** * CsvWriter: [csv.writer] and [Utils.save_expenses_to_csv] (src/utils.py)

    [csv.writer] with the default dialect: delimiter ',', quote character
    the double quote (code 34) doubled inside quoted fields, QUOTE_MINIMAL
    (a field is quoted when it contains the delimiter, the quote or a
    character of the line terminator), line terminator CR LF, and the
    rule that a record made of one empty field is written as two quotes.
    [save_expenses_to_csv] writes the header row and one row per item of
    the dict into a [StringIO] ([write_rows]: [str] of the key and of the
    amount, which raises [ValueError] for an [int] of more than 4300
    digits, stopping the loop), encodes it as UTF-8 into a [BytesIO] and
    rewinds it.  A CSV reader ([read_csv_text]) and a UTF-8 decoder are
    the test oracle of the round-trip law. *)

From S2P Require Import Prelude Binary64 PyCore PyDict Number.
Local Open Scope Z_scope.

Module CsvWriter.

Definition DQ : ascii := Ascii.ascii_of_nat 34.
Definition CR : ascii := "013"%char.
Definition LF : ascii := "010"%char.

(** [lineterminator] of the default dialect. *)
Definition CRLF : pystr := [CR; LF].

(** The characters that force quoting under QUOTE_MINIMAL. *)
Definition special (c : ascii) : bool :=
  bool_decide (c = ","%char) || bool_decide (c = DQ) || bool_decide (c = CR)
  || bool_decide (c = LF).

(** [doublequote=True]: a quote inside a quoted field is written twice. *)
Fixpoint double_quotes (f : pystr) : pystr :=
  match f with
  | [] => []
  | c :: f' => if bool_decide (c = DQ) then DQ :: DQ :: double_quotes f'
               else c :: double_quotes f'
  end.

Definition write_field (f : pystr) : pystr :=
  if existsb special f then DQ :: double_quotes f ++ [DQ] else f.

Fixpoint join_fields (fs : list pystr) : pystr :=
  match fs with
  | [] => []
  | [f] => write_field f
  | f :: fs' => write_field f ++ ","%char :: join_fields fs'
  end.

(** [writer.writerow(row)]: the joined fields, or two quotes for a record
    of one empty field, then the line terminator. *)
Definition writerow (row : list pystr) : pystr :=
  let rec := join_fields row in
  (if bool_decide (rec = []) && bool_decide (row <> []) then [DQ; DQ] else rec) ++ CRLF.

(** [str.encode('utf-8')] on code points below 256. *)
Definition utf8_encode_char (c : ascii) : list Z :=
  let n := Z.of_nat (nat_of_ascii c) in
  if n <? 128 then [n]
  else [Z.lor 192 (Z.shiftr n 6); Z.lor 128 (Z.land n 63)].

Definition utf8_encode (s : pystr) : list Z := s ≫= utf8_encode_char.

(** An in-memory binary stream: its bytes and its position. *)
Record bytesio := BytesIO { bio_buf : list Z; bio_pos : nat }.

(** The name [type(o).__name__] that an [AttributeError] message shows. *)
Definition type_name (o : pyobj) : pystr :=
  match o with
  | ODict _ => lit "dict"
  | OSet _ => lit "set"
  | OScalar (PyInt _) => lit "int"
  | OScalar (PyStr _) => lit "str"
  | OScalar (PyFloat _) => lit "float"
  end.

(** The line of one item, when [str] of both fields succeeds. *)
Definition expense_row (kv : pyval * pyval) : pystr :=
  writerow [py_str kv.1; py_str kv.2].

(** [writer.writerow([category, amount])]: [str] of each field in
    order, which raises on an [int] past the digit limit, then the line. *)
Definition write_row (kv : pyval * pyval) : pyres pystr :=
  k <- py_str_limited kv.1 ;; v <- py_str_limited kv.2 ;; Ok (writerow [k; v]).

(** The loop over [expenses_dict.items()]: the lines in dict order; the
    first row that raises ends the call. *)
Fixpoint write_rows (d : pydict) : pyres pystr :=
  match d with
  | [] => Ok []
  | kv :: d' => r <- write_row kv ;; rs <- write_rows d' ;; Ok (r ++ rs)
  end.

(** utils.py, [save_expenses_to_csv]: header, one row per item in dict
    order, UTF-8 bytes, position 0.  On an object without [.items()] the
    loop raises [AttributeError]. *)
Definition save_expenses_to_csv (o : pyobj) : pyres bytesio :=
  let header := writerow [lit "Category"; lit "Amount"] in
  match o with
  | ODict d =>
      rows <- write_rows d ;;
      let csv_data := header ++ rows in
      Ok (BytesIO (utf8_encode csv_data) 0)
  | _ =>
      Raise (AttributeError ("'"%char :: type_name o ++
                             lit "' object has no attribute 'items'"))
  end.

(** ** The oracle: a CSV reader and a UTF-8 decoder *)

(** The content of a quoted field after its opening quote, and the text
    after its closing quote. *)
Fixpoint read_quoted (s : pystr) : option (pystr * pystr) :=
  match s with
  | [] => None
  | c :: s' =>
      if bool_decide (c = DQ) then
        match s' with
        | c' :: s'' =>
            if bool_decide (c' = DQ)
            then (fun '(f, r) => (DQ :: f, r)) <$> read_quoted s''
            else Some ([], s')
        | [] => Some ([], [])
        end
      else (fun '(f, r) => (c :: f, r)) <$> read_quoted s'
  end.

Definition ends_field (c : ascii) : bool :=
  bool_decide (c = ","%char) || bool_decide (c = CR) || bool_decide (c = LF).

Fixpoint read_unquoted (s : pystr) : pystr * pystr :=
  match s with
  | [] => ([], [])
  | c :: s' =>
      if ends_field c then ([], s)
      else (fun '(f, r) => (c :: f, r)) (read_unquoted s')
  end.

Definition read_field (s : pystr) : option (pystr * pystr) :=
  match s with
  | c :: s' => if bool_decide (c = DQ) then read_quoted s' else Some (read_unquoted s)
  | [] => Some ([], [])
  end.

(** One record; [fuel] bounds the number of fields. *)
Fixpoint read_record (fuel : nat) (s : pystr) : option (list pystr * pystr) :=
  match fuel with
  | O => None
  | S fuel' =>
      match read_field s with
      | None => None
      | Some (f, []) => Some ([f], [])
      | Some (f, c :: r) =>
          if bool_decide (c = ","%char) then
            (fun '(fs, r') => (f :: fs, r')) <$> read_record fuel' r
          else if bool_decide (c = LF) then Some ([f], r)
          else if bool_decide (c = CR) then
            match r with
            | c2 :: r2 => if bool_decide (c2 = LF) then Some ([f], r2) else None
            | [] => Some ([f], [])
            end
          else None
      end
  end.

(** All records; [fuel] bounds the number of records. *)
Fixpoint read_rows (fuel : nat) (s : pystr) : option (list (list pystr)) :=
  match fuel with
  | O => None
  | S fuel' =>
      match s with
      | [] => Some []
      | _ =>
          match read_record (S (length s)) s with
          | Some (row, rest) => cons row <$> read_rows fuel' rest
          | None => None
          end
      end
  end.

(** Every record consumes at least one character, so [length s + 1]
    rounds are enough. *)
Definition read_csv_text (s : pystr) : option (list (list pystr)) :=
  read_rows (S (length s)) s.

(** [bytes.decode('utf-8')] for code points below 256. *)
Fixpoint utf8_decode (bs : list Z) : option pystr :=
  match bs with
  | [] => Some []
  | b :: bs' =>
      if (0 <=? b) && (b <? 128) then
        cons (ascii_of_nat (Z.to_nat b)) <$> utf8_decode bs'
      else if (194 <=? b) && (b <? 196) then
        match bs' with
        | b2 :: bs'' =>
            if (128 <=? b2) && (b2 <? 192) then
              cons (ascii_of_nat (Z.to_nat (Z.lor (Z.shiftl (Z.land b 31) 6)
                                                  (Z.land b2 63))))
                <$> utf8_decode bs''
            else None
        | [] => None
        end
      else None
  end.

(** The rows a reader sees in the file [save_expenses_to_csv] writes. *)
Definition expected_rows (d : pydict) : list (list pystr) :=
  [lit "Category"; lit "Amount"] :: map (fun kv => [py_str kv.1; py_str kv.2]) d.

(** Reading an amount back the way a client of the CSV does: [int(a)]
    where it parses, else [float(a)]. *)
Definition read_amount (a : pystr) : option pyval :=
  match py_int a with
  | Some z => Some (PyInt z)
  | None => PyFloat <$> Number.py_float a
  end.

(** Reading the expense rows back into a dict of [str] to numbers. *)
Fixpoint parse_number_rows (rows : list (list pystr)) : option pydict :=
  match rows with
  | [] => Some []
  | [k; a] :: rows' =>
      match read_amount a with
      | Some v => cons (PyStr k, v) <$> parse_number_rows rows'
      | None => None
      end
  | _ => None
  end.

(** ** Reading a written field back *)

Lemma special_false c : special c = false -> ends_field c = false /\ c <> DQ.
Proof.
  unfold special, ends_field. intros H.
  repeat match goal with H : (_ || _) = false |- _ => apply orb_false_iff in H as [? ?] end.
  rewrite !bool_decide_eq_false in *. rewrite !orb_false_iff, !bool_decide_eq_false. done.
Qed.

Lemma read_quoted_double f rest :
  head rest <> Some DQ ->
  read_quoted (double_quotes f ++ DQ :: rest) = Some (f, rest).
Proof.
  intros Hr. induction f as [|c f IH]; simpl.
  - destruct rest as [|c' r]; simpl; [done|].
    case_bool_decide; [simpl in Hr; congruence|done].
  - case_bool_decide as Hc; [subst c|]; simpl; repeat case_bool_decide;
      try congruence; rewrite IH; done.
Qed.

Lemma read_unquoted_plain f rest :
  Forall (fun c => ends_field c = false) f ->
  match rest with [] => True | c :: _ => ends_field c = true end ->
  read_unquoted (f ++ rest) = (f, rest).
Proof.
  intros Hf Hr. induction Hf as [|c f Hc _ IH]; simpl.
  - destruct rest as [|c r]; simpl; [done|]. by rewrite Hr.
  - rewrite Hc, IH. done.
Qed.

(** A written field followed by a delimiter or the line terminator reads
    back as itself. *)
Lemma read_field_write f c r :
  c = ","%char \/ c = CR ->
  read_field (write_field f ++ c :: r) = Some (f, c :: r).
Proof.
  intros Hc. assert (Hnq : c <> DQ) by (destruct Hc as [->| ->]; done).
  assert (Hend : ends_field c = true) by (destruct Hc as [->| ->]; done).
  unfold write_field. destruct (existsb special f) eqn:Hsp.
  - simpl. rewrite <- app_assoc. simpl. apply read_quoted_double. simpl. congruence.
  - assert (Hall : Forall (fun c => special c = false) f)
      by apply existsb_false_Forall, Hsp.
    destruct f as [|c0 f]; simpl.
    + case_bool_decide; [congruence|]. simpl. by rewrite Hend.
    + inversion Hall as [|? ? Hc0 Hrest]; subst.
      destruct (special_false c0 Hc0) as [He0 Hq0].
      case_bool_decide; [congruence|]. rewrite He0.
      rewrite (read_unquoted_plain f (c :: r)); [done| |done].
      eapply Forall_impl; [exact Hrest|]. intros x Hx. apply (special_false x Hx).
Qed.

Lemma join_fields_nil row : join_fields row = [] -> row <> [] -> row = [[]].
Proof.
  destruct row as [|f [|f2 fs]]; simpl; intros Hj Hne; [done| |].
  - unfold write_field in Hj. destruct (existsb special f); [done|by subst].
  - apply app_eq_nil in Hj as [_ Hj]. done.
Qed.

Lemma read_record_join fuel row more :
  row <> [] -> (length row <= fuel)%nat ->
  read_record fuel (join_fields row ++ CR :: LF :: more) = Some (row, more).
Proof.
  revert fuel. induction row as [|f [|f2 fs] IH]; intros fuel Hne Hfuel; [done| |].
  - destruct fuel as [|fuel]; [simpl in Hfuel; lia|]. simpl.
    rewrite read_field_write by auto. done.
  - destruct fuel as [|fuel]; [simpl in Hfuel; lia|].
    change (join_fields (f :: f2 :: fs)) with (write_field f ++ ","%char :: join_fields (f2 :: fs)).
    cbn [read_record]. rewrite <- app_assoc. simpl.
    rewrite read_field_write by auto. simpl.
    rewrite IH by (done || simpl in *; lia). done.
Qed.

Lemma read_record_writerow fuel row more :
  row <> [] -> (length row <= fuel)%nat ->
  read_record fuel (writerow row ++ more) = Some (row, more).
Proof.
  intros Hne Hfuel. unfold writerow.
  destruct (bool_decide_reflect (join_fields row = [])) as [Hj|Hj]; simpl.
  - rewrite (join_fields_nil row Hj Hne) in *. rewrite bool_decide_true by done.
    destruct fuel as [|fuel]; [simpl in Hfuel; lia|]. reflexivity.
  - rewrite <- app_assoc. apply read_record_join; done.
Qed.

Lemma length_join_fields row : (length row <= S (length (join_fields row)))%nat.
Proof.
  induction row as [|f [|f2 fs] IH]; simpl; [lia|lia|].
  rewrite length_app. simpl in *. lia.
Qed.

Lemma length_writerow row : (S (length row) <= length (writerow row))%nat.
Proof.
  unfold writerow. pose proof (length_join_fields row) as Hl.
  destruct (decide (row = [])) as [->|Hne]; [simpl; lia|].
  rewrite (bool_decide_true (row ≠ [])) by done. rewrite andb_true_r.
  case_bool_decide as Hj; rewrite length_app; simpl; [|lia].
  rewrite (join_fields_nil row Hj Hne). simpl. lia.
Qed.

Lemma read_rows_step fuel s :
  s <> [] ->
  read_rows (S fuel) s =
    match read_record (S (length s)) s with
    | Some (row, rest) => cons row <$> read_rows fuel rest
    | None => None
    end.
Proof. destruct s; [done|reflexivity]. Qed.

Lemma read_rows_write fuel rows :
  Forall (fun r => r <> []) rows -> (length rows < fuel)%nat ->
  read_rows fuel (concat (map writerow rows)) = Some rows.
Proof.
  revert fuel. induction rows as [|r rows IH]; intros fuel Hne Hfuel;
    (destruct fuel as [|fuel]; [simpl in Hfuel; lia|]); [done|].
  inversion Hne as [|? ? Hr Hrs]; subst.
  change (concat (map writerow (r :: rows))) with (writerow r ++ concat (map writerow rows)).
  pose proof (length_writerow r) as Hlen.
  rewrite read_rows_step.
  - rewrite read_record_writerow; [|done|rewrite length_app; lia].
    simpl. rewrite IH; [done|done|simpl in Hfuel; lia].
  - intros Hnil. apply (f_equal length) in Hnil. rewrite length_app in Hnil. simpl in Hnil. lia.
Qed.

Lemma length_concat_writerow rows :
  (length rows <= length (concat (map writerow rows)))%nat.
Proof.
  induction rows as [|r rows IH]; simpl; [lia|].
  rewrite length_app. pose proof (length_writerow r). lia.
Qed.

Lemma read_csv_text_write rows :
  Forall (fun r => r <> []) rows ->
  read_csv_text (concat (map writerow rows)) = Some rows.
Proof.
  intros Hne. unfold read_csv_text. apply read_rows_write; [done|].
  pose proof (length_concat_writerow rows). lia.
Qed.

(** ** UTF-8 round trip *)

Lemma utf8_char_roundtrip c bs :
  utf8_decode (utf8_encode_char c ++ bs) = cons c <$> utf8_decode bs.
Proof. destruct c as [[] [] [] [] [] [] [] []]; reflexivity. Qed.

Lemma utf8_roundtrip s : utf8_decode (utf8_encode s) = Some s.
Proof.
  induction s as [|c s IH]; [done|].
  unfold utf8_encode in *. rewrite bind_cons, utf8_char_roundtrip, IH. done.
Qed.

(** The text [save_expenses_to_csv] writes, read as CSV, gives the
    header row and the rows of the dict in order. *)
Lemma read_saved_text d :
  read_csv_text (writerow [lit "Category"; lit "Amount"] ++ concat (map expense_row d))
  = Some (expected_rows d).
Proof.
  replace (writerow [lit "Category"; lit "Amount"] ++ concat (map expense_row d))
    with (concat (map writerow (expected_rows d)))
    by (unfold expected_rows; cbn [map concat]; f_equal; by rewrite map_map).
  apply (read_csv_text_write (expected_rows d)). constructor; [done|].
  apply Forall_map, Forall_forall. intros kv _. discriminate.
Qed.

(** The same through the UTF-8 encoding of the buffer. *)
Lemma read_back_saved d :
  (utf8_decode (utf8_encode (writerow [lit "Category"; lit "Amount"]
                             ++ concat (map expense_row d))) ≫= read_csv_text)
  = Some (expected_rows d).
Proof. rewrite utf8_roundtrip. apply read_saved_text. Qed.

(** An [int] or [float] amount reads back as itself. *)
Lemma read_amount_str v :
  str_ok v -> (exists z, v = PyInt z) \/ (exists x, v = PyFloat x) ->
  read_amount (py_str v) = Some v.
Proof.
  intros Hok [(z & ->)|(x & ->)]; unfold read_amount; simpl.
  - by rewrite py_int_str_of_int.
  - by rewrite Number.py_int_repr_float, Number.py_float_repr_float.
Qed.

Lemma parse_number_rows_map d :
  Forall (fun kv => str_ok kv.2) d ->
  Forall (fun kv => exists k, kv.1 = PyStr k /\
            ((exists z, kv.2 = PyInt z) \/ (exists x, kv.2 = PyFloat x))) d ->
  parse_number_rows (map (fun kv => [py_str kv.1; py_str kv.2]) d) = Some d.
Proof.
  intros Hok Hd. induction Hd as [|[k0 v] d (k & Hk & Hv) _ IH]; [done|].
  apply Forall_cons in Hok as [Hok1 Hok].
  simpl in *; subst k0. simpl. rewrite read_amount_str, IH by done. done.
Qed.

(** ** The digit limit of [str] *)

Lemma py_str_limited_ok v : str_ok v -> py_str_limited v = Ok (py_str v).
Proof. destruct v as [z| |]; [|done..]. intros Hz. unfold py_str_limited. by rewrite (proj2 (Nat.ltb_ge _ _) Hz). Qed.

Lemma py_str_limited_inv v s : py_str_limited v = Ok s -> s = py_str v /\ str_ok v.
Proof.
  destruct v as [z| |]; unfold py_str_limited; [|intros [= <-]; done..].
  destruct (Nat.ltb_spec int_max_str_digits (n_digits z)); intros [= <-]. split; [done|cbn; lia].
Qed.

Lemma py_str_limited_fail v : ~ str_ok v -> py_str_limited v = Raise (ValueError int_str_limit_msg).
Proof.
  destruct v as [z| |]; unfold py_str_limited; [|done..]. intros Hz.
  destruct (Nat.ltb_spec int_max_str_digits (n_digits z)); [done|]. by destruct Hz.
Qed.

(** The rows are written exactly when no field hits the limit. *)
Lemma write_rows_ok d :
  Forall (fun kv => str_ok kv.1 /\ str_ok kv.2) d -> write_rows d = Ok (concat (map expense_row d)).
Proof.
  induction 1 as [|[k v] d [Hk Hv] _ IH]; [done|]. cbn [write_rows]; unfold write_row; cbn [fst snd].
  rewrite (py_str_limited_ok k Hk), (py_str_limited_ok v Hv), IH. done.
Qed.

Lemma write_rows_inv d t :
  write_rows d = Ok t -> t = concat (map expense_row d) /\ Forall (fun kv => str_ok kv.1 /\ str_ok kv.2) d.
Proof.
  revert t. induction d as [|[k v] d IH]; intros t; cbn [write_rows]; unfold write_row; cbn [fst snd].
  { intros [= <-]. done. }
  destruct (py_str_limited k) as [sk|] eqn:Hk; [|done]. cbn [pybind].
  destruct (py_str_limited v) as [sv|] eqn:Hv; [|done]. cbn [pybind].
  destruct (write_rows d) as [rs|] eqn:Hr; [|done]. cbn [pybind]. intros [= <-].
  apply py_str_limited_inv in Hk as [-> Hk]. apply py_str_limited_inv in Hv as [-> Hv].
  destruct (IH rs eq_refl) as [-> HF]. split; [done|by constructor].
Qed.

Lemma write_rows_fail d :
  ~ Forall (fun kv => str_ok kv.1 /\ str_ok kv.2) d -> write_rows d = Raise (ValueError int_str_limit_msg).
Proof.
  induction d as [|[k v] d IH]; intros Hn; [by destruct Hn|]. cbn [write_rows]; unfold write_row; cbn [fst snd].
  destruct (decide (str_ok k)) as [Hk|Hk]; [|by rewrite py_str_limited_fail].
  rewrite (py_str_limited_ok k Hk). cbn [pybind].
  destruct (decide (str_ok v)) as [Hv|Hv]; [|by rewrite py_str_limited_fail].
  rewrite (py_str_limited_ok v Hv). cbn [pybind].
  rewrite IH; [done|]. intros HF. apply Hn. by constructor.
Qed.

(** The buffer of a saved dict: the header and the rows, UTF-8 encoded. *)
Lemma save_dict_buf d b :
  save_expenses_to_csv (ODict d) = Ok b ->
  bio_buf b = utf8_encode (writerow [lit "Category"; lit "Amount"] ++ concat (map expense_row d)).
Proof.
  cbn [save_expenses_to_csv]. destruct (write_rows d) as [t|] eqn:Hw; [|done]. cbn [pybind].
  intros [= <-]. apply write_rows_inv in Hw as [-> _]. reflexivity.
Qed.

(** The buffer of a saved dict decodes to the text written. *)
Lemma save_dict_text d b :
  save_expenses_to_csv (ODict d) = Ok b ->
  utf8_decode (bio_buf b)
  = Some (writerow [lit "Category"; lit "Amount"] ++ concat (map expense_row d)).
Proof. intros H. rewrite (save_dict_buf d b H). apply utf8_roundtrip. Qed.

Lemma save_dict_ok d b :
  save_expenses_to_csv (ODict d) = Ok b -> Forall (fun kv => str_ok kv.1 /\ str_ok kv.2) d.
Proof.
  cbn [save_expenses_to_csv]. destruct (write_rows d) as [t|] eqn:Hw; [|done].
  intros _. by apply write_rows_inv in Hw as [_ ?].
Qed.

Lemma save_dict_read_back d b :
  save_expenses_to_csv (ODict d) = Ok b ->
  (utf8_decode (bio_buf b) ≫= read_csv_text) = Some (expected_rows d).
Proof. intros H. rewrite (save_dict_buf d b H). apply read_back_saved. Qed.

(** ** Properties of the emitter *)

(** C3. [save_expenses_to_csv] on a dict whose [int] keys and amounts
    have at most 4300 digits succeeds with a stream at position 0 whose
    bytes, decoded as UTF-8 and read as CSV, are the header row followed
    by one [str(key), str(value)] row per item, in the dict's order:
    quoting (commas, quotes, CR, LF in a category) and the CR LF
    terminator never lose or split a field.  On any other dict, [str]
    of the first such [int] raises CPython 3.11's [ValueError]. *)
Theorem save_expenses_to_csv_roundtrip d :
  (Forall (fun kv => str_ok kv.1 /\ str_ok kv.2) d ->
   exists b, save_expenses_to_csv (ODict d) = Ok b /\ bio_pos b = 0%nat /\
     (utf8_decode (bio_buf b) ≫= read_csv_text) = Some (expected_rows d)) /\
  (~ Forall (fun kv => str_ok kv.1 /\ str_ok kv.2) d ->
   save_expenses_to_csv (ODict d) = Raise (ValueError int_str_limit_msg)).
Proof.
  split; intros Hd.
  - assert (Hs : save_expenses_to_csv (ODict d)
                 = Ok (BytesIO (utf8_encode (writerow [lit "Category"; lit "Amount"]
                                             ++ concat (map expense_row d))) 0))
      by (cbn [save_expenses_to_csv]; by rewrite write_rows_ok).
    eexists. split_and!; [exact Hs|reflexivity|by apply (save_dict_read_back d _ Hs)].
  - cbn [save_expenses_to_csv]. by rewrite write_rows_fail.
Qed.

(** C26. The round-trip law for numeric amounts: for a mapping from
    category names to amounts that are Python [int]s or [float]s, reading
    the emitted file back and parsing each amount with [int], or with
    [float] where [int] refuses it, reproduces the mapping exactly, in
    order: [str] of a float is its shortest round-tripping [repr]. *)
Theorem save_expenses_to_csv_numbers d b :
  Forall (fun kv => exists k, kv.1 = PyStr k /\
            ((exists z, kv.2 = PyInt z) \/ (exists x, kv.2 = PyFloat x))) d ->
  save_expenses_to_csv (ODict d) = Ok b ->
  ((utf8_decode (bio_buf b) ≫= read_csv_text) ≫= fun rows => parse_number_rows (tail rows))
  = Some d.
Proof.
  intros Hd Hsave. rewrite (save_dict_read_back d b Hsave). apply parse_number_rows_map; [|done].
  eapply Forall_impl; [exact (save_dict_ok d b Hsave)|]. by intros kv [_ ?].
Qed.

End CsvWriter.

Module CsvWriterWitness.
Import CsvWriter.

(** A float amount, [859.99], beside an [int] one. *)
Definition rent_float : float64 :=
  match f64_of_decimal 85999 (-2) with Some x => x | None => f64_zero false end.

Definition float_example : pydict :=
  [(PyStr (lit "Rent"), PyFloat rent_float); (PyStr (lit "Food"), PyInt 500)].

Lemma save_numbers_witness :
  exists b, save_expenses_to_csv (ODict float_example) = Ok b /\
    ((utf8_decode (bio_buf b) ≫= read_csv_text) ≫= fun rows => parse_number_rows (tail rows))
    = Some float_example.
Proof.
  eexists. split; [reflexivity|].
  apply save_expenses_to_csv_numbers; [|reflexivity].
  repeat constructor; eexists; split; [reflexivity| |reflexivity|]; eauto.
Defined.

(** An amount of 4301 digits. *)
Definition big_example : pydict := [(PyStr (lit "Rent"), PyInt (10 ^ 4300))].

Lemma save_roundtrip_witness :
  (exists b, save_expenses_to_csv (ODict float_example) = Ok b /\ bio_pos b = 0%nat /\
     (utf8_decode (bio_buf b) ≫= read_csv_text) = Some (expected_rows float_example)) /\
  save_expenses_to_csv (ODict big_example) = Raise (ValueError int_str_limit_msg).
Proof.
  split.
  - apply (proj1 (save_expenses_to_csv_roundtrip float_example)). py_decide.
  - apply (proj2 (save_expenses_to_csv_roundtrip big_example)).
    apply (bool_decide_eq_false_1 (Forall _ big_example)). vm_compute. reflexivity.
Defined.

End CsvWriterWitness.
