(* ===== verification/Ingest.v ===== *)
(** * Ingest: [Utils.parse_csv_to_expenses] (src/utils.py)

    [pd.read_csv(csv_file)] gives a DataFrame; [df.sum(axis=0)] reduces
    each column, block by block: an int64 column with numpy's [sum],
    whose additions wrap around modulo 2^64, a float64 column with
    pandas' [nansum] (NaN skipped, numpy's pairwise summation in
    doubles), an object column (strings) with Python's [+], which
    concatenates; the block sums are interleaved into one Series of the
    common dtype, so beside a float64 column the int64 sums become
    floats; [.to_dict()] turns the Series indexed by the column labels
    into a dict in column order.

    pandas' [read_csv] is a library: the pipeline takes it as a
    parameter.  [read_table] models it on tables of int64, float64 and
    string columns (quoted fields included; empty lines and lines of
    spaces and tabs only are skipped, as the tokenizer's
    [skip_blank_lines] does), with pandas' type inference per column,
    and says [None] outside that fragment (NaN words, booleans, ragged
    rows, duplicate or empty labels, a header without rows) rather than
    guess.  The theorems: the column sums of an int64 table, the total
    of a table with missing amounts, the int64 wrap-around, and what
    becomes of the file the emitter writes. *)

From S2P Require Import Prelude Binary64 PyCore PyDict CsvWriter Number FloatArith Xstrtod NumpySum.
Local Open Scope Z_scope.

Module Ingest.

(** numpy's [nansum] of a float64 column is finite. *)
Definition finite_sum (xs : list (option float64)) : bool :=
  match NumpySum.nansum xs with Some _ => true | None => false end.

(** A column of a frame: int64 values, float64 values ([None] for NaN)
    whose sum is finite, or Python strings. *)
Inductive column : Type :=
| ColInt (xs : list Z)
| ColFloat (xs : list (option float64)) (Hfin : finite_sum xs = true)
| ColObj (xs : list pystr).

Record dataframe := DataFrame { df_columns : list pystr; df_data : list column }.

(** ** int64 arithmetic as numpy does it *)

Definition int64_min : Z := - 2 ^ 63.
Definition int64_max : Z := 2 ^ 63 - 1.

(** Two's-complement wrap-around of a mathematical integer to int64. *)
Definition wrap64 (z : Z) : Z := (z + 2 ^ 63) mod 2 ^ 64 - 2 ^ 63.

(** numpy's [sum] of an int64 column: every addition wraps. *)
Definition sum_int64 (xs : list Z) : Z := fold_left (fun acc x => wrap64 (acc + x)) xs 0.

(** numpy's [sum] of an object column of strings: [+] from the first
    element on, which concatenates; an empty column sums to 0. *)
Definition sum_object (xs : list pystr) : pyval :=
  match xs with
  | [] => PyInt 0
  | x :: xs' => PyStr (x ++ concat xs')
  end.

(** The sum of a column: numpy's [sum] of the int64 block, [nansum]
    (NaN skipped, pairwise summation) of the float64 block, Python's [+]
    on the object block. *)
Definition column_sum (c : column) : pyval :=
  match c with
  | ColInt xs => PyInt (sum_int64 xs)
  | ColFloat xs Hfin =>
      match NumpySum.nansum xs as o
            return (match o with Some _ => true | None => false end = true -> pyval) with
      | Some s => fun _ => PyFloat s
      | None => fun H => False_rect pyval (Bool.diff_false_true H)
      end Hfin
  | ColObj xs => sum_object xs
  end.

Definition is_object (c : column) : bool := match c with ColObj _ => true | _ => false end.
Definition is_float (c : column) : bool := match c with ColFloat _ _ => true | _ => false end.

(** An int64 sum in a float64 Series: [astype(float64)], rounded to
    nearest even (never [None] on an int64, [to_float64_int64]). *)
Definition to_float64 (v : pyval) : pyval :=
  match v with
  | PyInt z => match FloatArith.f64_of_int z with Some x => PyFloat x | None => v end
  | _ => v
  end.

(** The values of the Series [df.sum(axis=0)]: the sums of the blocks,
    interleaved into one dtype, the common type of the columns' dtypes:
    object when some column is, float64 when some column is float64 and
    none object (the int64 sums are cast), int64 otherwise. *)
Definition series_values (cols : list column) : list pyval :=
  let sums := map column_sum cols in
  if existsb is_object cols then sums
  else if existsb is_float cols then map to_float64 sums
  else sums.

(** [df.sum(axis=0)]: the Series of column sums, indexed by the labels. *)
Definition df_sum (df : dataframe) : list (pyval * pyval) :=
  zip (map PyStr (df_columns df)) (series_values (df_data df)).

(** utils.py, [parse_csv_to_expenses]: read, sum, [to_dict]. *)
Definition parse_csv_to_expenses (read_csv : pystr -> pyres dataframe)
    (csv_file : pystr) : pyres pydict :=
  df <- read_csv csv_file ;;
  Ok (dict_of_pairs (df_sum df)).

(** ** [read_csv]: pandas' C parser with the default options *)

(** Space and tab: [IS_WHITESPACE] of pandas' tokenizer. *)
Definition is_blank_char (c : ascii) : bool :=
  bool_decide (c = " "%char) || bool_decide (c = "009"%char).

(** A line pandas skips with [skip_blank_lines=True]: empty, or made of
    spaces and tabs only (the tokenizer's [WHITESPACE_LINE] state, which
    goes back to the start of the line as soon as it meets any other
    character, a comma included).  Read as CSV such a line is one field
    of blanks. *)
Definition blank_record (r : list pystr) : bool :=
  match r with [f] => forallb is_blank_char f | _ => false end.

(** The records of the text.  With the default dialect (comma, double
    quote, doubled quotes inside a quoted field, LF or CR LF) the C
    tokenizer splits a text as the [csv] module's reader does on the
    texts that reader accepts; blank lines are skipped. *)
Definition records (text : pystr) : option (list (list pystr)) :=
  filter (fun r => blank_record r = false) <$> CsvWriter.read_csv_text text.

Fixpoint dec_digits (acc : Z) (l : pystr) : option Z :=
  match l with
  | [] => Some acc
  | c :: l' => digit_val c ≫= fun d => dec_digits (10 * acc + d) l'
  end.

(** An integer cell as pandas' C parser reads it: optional sign, then
    decimal digits. *)
Definition int_value (s : pystr) : option Z :=
  match s with
  | c :: r => if bool_decide (c = "-"%char) then
                match r with [] => None | _ => Z.opp <$> dec_digits 0 r end
              else if bool_decide (c = "+"%char) then
                match r with [] => None | _ => dec_digits 0 r end
              else dec_digits 0 s
  | [] => None
  end.

(** An int64 cell: an integer in the int64 range. *)
Definition int_cell (s : pystr) : option Z :=
  match int_value s with
  | Some z => if (int64_min <=? z) && (z <=? int64_max) then Some z else None
  | None => None
  end.

(** An integer beyond int64, which pandas tries as uint64. *)
Definition int_overflow (s : pystr) : bool :=
  match int_value s with
  | Some z => negb ((int64_min <=? z) && (z <=? int64_max))
  | None => false
  end.

(** A float64 cell: [Some None] for an empty cell (NaN), the double
    [precise_xstrtod] reads from the whole cell otherwise; cells with
    white space, which the converter skips around the number, are left
    out of the model. *)
Definition float_cell (s : pystr) : option (option float64) :=
  match s with
  | [] => Some None
  | _ => if existsb Xstrtod.isspace_ascii s then None else Some <$> Xstrtod.double_cell s
  end.

(** numpy reduces a float64 column through a buffer of 8192 elements;
    the model keeps to columns that fit in one buffer. *)
Definition float_rows_max : Z := 8192.

(** A float64 column: every cell a float or empty, no integer beyond
    int64, at most [float_rows_max] rows, a finite sum. *)
Definition float_column (cells : list pystr) : option column :=
  if (Z.of_nat (length cells) <=? float_rows_max) && negb (existsb int_overflow cells) then
    match mapM float_cell cells with
    | Some xs =>
        (if finite_sum xs as b return (finite_sum xs = b -> option column)
         then fun H => Some (ColFloat xs H) else fun _ => None) eq_refl
    | None => None
    end
  else None.

Definition is_letter (c : ascii) : bool :=
  let n := nat_of_ascii c in ((65 <=? n) && (n <=? 90))%nat || ((97 <=? n) && (n <=? 122))%nat.

Definition lower (c : ascii) : ascii :=
  let n := nat_of_ascii c in
  if ((65 <=? n) && (n <=? 90))%nat then ascii_of_nat (n + 32) else c.

Definition drop_sign (s : pystr) : pystr :=
  match s with
  | c :: r => if bool_decide (c = "-"%char) || bool_decide (c = "+"%char) then r else s
  | [] => []
  end.

(** The words pandas reads as missing ([na_values]: [nan], [NA], [N/A],
    [NULL], [None], [<NA>], ...), as booleans ([True], [FALSE], ...) or
    as infinite floats ([inf], [-Infinity], ...), compared here in lower
    case, without surrounding spaces or a sign: a superset of pandas'
    lists, so that the model answers [None] where pandas might convert. *)
Definition special_words : list pystr :=
  map lit ["nan"; "na"; "n/a"; "null"; "none"; "<na>"; "inf"; "infinity"; "true"; "false"].

(** A cell that pandas keeps as a string in an object column: not
    empty (NaN) or blank (a line of spaces, which pandas may skip), no
    [#] ([#N/A], [1.#IND]), not a special word. *)
Definition plain_cell (s : pystr) : bool :=
  bool_decide (strip s <> []) && negb (bool_decide ("#"%char ∈ s)) &&
  negb (bool_decide (map lower (drop_sign (strip s)) ∈ special_words)).

(** A plain cell with a letter other than an exponent's [e]: no number
    parser of pandas accepts it, so its column is an object column. *)
Definition text_cell (s : pystr) : bool :=
  plain_cell s &&
  existsb (fun c => is_letter c && negb (bool_decide (c = "e"%char) || bool_decide (c = "E"%char))) s.

(** Type inference of one column, in pandas' order: int64 when every
    cell is an int64; float64 when every cell is a float or empty;
    object, holding the cells as strings, when some cell is text and
    none is missing; [None] otherwise (bool columns, NaN words, columns
    outside the float64 fragment). *)
Definition infer_column (cells : list pystr) : option column :=
  match mapM int_cell cells with
  | Some zs => Some (ColInt zs)
  | None =>
      match float_column cells with
      | Some c => Some c
      | None => if existsb text_cell cells && forallb plain_cell cells
                then Some (ColObj cells) else None
      end
  end.

Fixpoint transpose (n : nat) (rows : list (list pystr)) : list (list pystr) :=
  match n with
  | O => []
  | S n' => map (fun r => default [] (head r)) rows :: transpose n' (map tail rows)
  end.

(** [pd.read_csv(csv_file)].  [None]: outside the modelled fragment (an
    empty header label, which pandas renames [Unnamed: i]; a repeated
    label, which it renames [x.1]; a row of another length than the
    header, padded with NaN or a [ParserError]; a bool or NaN-word
    column; a header without rows, whose empty columns pandas types as
    object; a text the [csv] reader refuses); [Some (Raise _)]: pandas'
    [EmptyDataError] on a text with no line. *)
Definition read_table (text : pystr) : option (pyres dataframe) :=
  match records text with
  | None => None
  | Some [] => Some (Raise (EmptyDataError (lit "No columns to parse from file")))
  | Some [_] => None
  | Some (labels :: rows) =>
      if bool_decide (NoDup labels) &&
         forallb (fun l => bool_decide (l <> [])) labels &&
         forallb (fun r => bool_decide (length r = length labels)) rows
      then (fun cols => Ok (DataFrame labels cols)) <$>
             mapM infer_column (transpose (length labels) rows)
      else None
  end.

(** A dict of category names to int amounts, as the service saves it. *)
Definition amount_dict (kzs : list (pystr * Z)) : pydict :=
  map (fun kz => (PyStr kz.1, PyInt kz.2)) kzs.

(** A table of integers as a CSV file: the header of labels, then one
    line per row, as [csv.writer] writes them. *)
Definition int_table_text (labels : list pystr) (rows : list (list Z)) : pystr :=
  concat (map CsvWriter.writerow (labels :: map (map str_of_int) rows)).

(** A cell of amounts with some missing: [str] of the amount, or an
    empty field. *)
Definition opt_cell (o : option Z) : pystr :=
  match o with Some z => str_of_int z | None => [] end.

(** A table of amounts, some missing, as a CSV file. *)
Definition opt_table_text (labels : list pystr) (rows : list (list (option Z))) : pystr :=
  concat (map CsvWriter.writerow (labels :: map (map opt_cell) rows)).

(** The exact sum of a column, as a mathematician writes it. *)
Definition sum_Z (xs : list Z) : Z := fold_left Z.add xs 0.

(** ** int64 wrap-around *)

Lemma wrap64_range z : int64_min <= wrap64 z <= int64_max.
Proof.
  unfold wrap64, int64_min, int64_max.
  pose proof (Z.mod_pos_bound (z + 2 ^ 63) (2 ^ 64)). lia.
Qed.

Lemma wrap64_id z : int64_min <= z <= int64_max -> wrap64 z = z.
Proof.
  unfold wrap64, int64_min, int64_max. intros Hz.
  rewrite Z.mod_small by lia. lia.
Qed.

Lemma wrap64_add_l a b : wrap64 (wrap64 a + b) = wrap64 (a + b).
Proof.
  unfold wrap64. f_equal.
  replace ((a + 2 ^ 63) mod 2 ^ 64 - 2 ^ 63 + b + 2 ^ 63)
    with ((a + 2 ^ 63) mod 2 ^ 64 + b) by lia.
  rewrite Zplus_mod_idemp_l. f_equal. lia.
Qed.

Lemma wrap64_congr z k : wrap64 (z + k * 2 ^ 64) = wrap64 z.
Proof.
  unfold wrap64. f_equal. replace (z + k * 2 ^ 64 + 2 ^ 63) with (z + 2 ^ 63 + k * 2 ^ 64) by lia.
  apply Z_mod_plus_full.
Qed.

Lemma fold_wrap64 xs a :
  fold_left (fun acc x => wrap64 (acc + x)) xs (wrap64 a) = wrap64 (fold_left Z.add xs a).
Proof.
  revert a. induction xs as [|x xs IH]; intros a; simpl; [done|].
  rewrite wrap64_add_l, <- IH. done.
Qed.

(** numpy's int64 sum is the exact sum wrapped once. *)
Lemma sum_int64_wrap xs : sum_int64 xs = wrap64 (sum_Z xs).
Proof.
  unfold sum_int64, sum_Z. rewrite <- fold_wrap64.
  rewrite (wrap64_id 0) by (unfold int64_min, int64_max; lia). done.
Qed.

#[export] Hint Rewrite sum_int64_wrap : pyrw.

(** ** [to_dict] of the column sums *)

#[export] Instance PyStr_inj : Inj (=) (=) PyStr.
Proof. intros x y [= ->]. done. Qed.

(** ** The dtype of the Series *)

Lemma length_series_values cols : length (series_values cols) = length cols.
Proof.
  unfold series_values. by destruct (existsb is_object cols), (existsb is_float cols); rewrite ?length_map.
Qed.

(** Without a float64 column, the Series holds the column sums. *)
Lemma series_values_no_float cols :
  existsb is_float cols = false -> series_values cols = map column_sum cols.
Proof. unfold series_values. intros ->. by destruct (existsb is_object cols). Qed.

(** With a float64 column and no object column, every sum is cast. *)
Lemma series_values_float cols :
  existsb is_object cols = false -> existsb is_float cols = true ->
  series_values cols = map (fun c => to_float64 (column_sum c)) cols.
Proof. unfold series_values. intros -> ->. by rewrite map_map. Qed.

Lemma existsb_ints_float cols : existsb is_float (map ColInt cols) = false.
Proof. by induction cols. Qed.

Lemma column_sum_float xs H s :
  NumpySum.nansum xs = Some s -> column_sum (ColFloat xs H) = PyFloat s.
Proof.
  intros Hs. cbn [column_sum]. revert H. unfold finite_sum. by rewrite Hs.
Qed.

(** An int64 cast to float64 is the double nearest to it. *)
Lemma to_float64_int64 z :
  int64_min <= z <= int64_max -> exists x, FloatArith.f64_of_int z = Some x /\ to_float64 (PyInt z) = PyFloat x.
Proof.
  unfold int64_min, int64_max. intros Hz.
  destruct (FloatArith.f64_of_int_some z) as [x Hx].
  { assert (2 ^ 63 < 2 ^ 1000) by (apply Z.pow_lt_mono_r; lia). lia. }
  exists x. cbn [to_float64]. by rewrite Hx.
Qed.

Lemma df_sum_keys labels cols :
  length labels = length cols ->
  dict_keys (df_sum (DataFrame labels cols)) = map PyStr labels.
Proof.
  intros Hl. unfold dict_keys, df_sum. simpl.
  rewrite fst_zip; [done|]. rewrite length_series_values, length_map. lia.
Qed.

(** With distinct labels, [to_dict] keeps every column sum, in order. *)
Lemma to_dict_df_sum labels cols :
  NoDup labels -> length labels = length cols ->
  dict_of_pairs (df_sum (DataFrame labels cols))
  = zip (map PyStr labels) (series_values cols).
Proof.
  intros Hnd Hl. rewrite dict_of_pairs_distinct; [done|].
  unfold dict_wf. rewrite df_sum_keys, map_map by done. by apply (NoDup_fmap_2 PyStr).
Qed.

(** ** Reading back the file the emitter writes *)

Lemma dec_digits_uint acc u : dec_digits acc (chars_of_uint u) = Some (uint_fold acc u).
Proof.
  revert acc; induction u; intros acc; cbn [chars_of_uint dec_digits uint_fold];
    rewrite ?digit_val_char by lia; simpl; rewrite ?IHu; do 2 f_equal; lia.
Qed.

Lemma int64_range_check z :
  int64_min <= z <= int64_max -> (int64_min <=? z) && (z <=? int64_max) = true.
Proof. intros [H1 H2]. apply andb_true_intro. split; by apply Z.leb_le. Qed.

Lemma int_cell_str_of_int z :
  int64_min <= z <= int64_max -> int_cell (str_of_int z) = Some z.
Proof.
  intros Hz. unfold int_cell, int_value. destruct z as [|p|p]; [reflexivity| |].
  - pose proof (dec_digits_uint 0 (Pos.to_uint p)) as Hd.
    rewrite <- of_uint_fold, DecimalPos.Unsigned.of_to in Hd. cbn [str_of_int].
    destruct (Pos.to_uint p) eqn:Hu; [by destruct (to_uint_nonnil p)|..];
      cbn [chars_of_uint] in Hd |- *;
      rewrite !bool_decide_false by (compute; discriminate); rewrite Hd;
      by rewrite int64_range_check.
  - pose proof (dec_digits_uint 0 (Pos.to_uint p)) as Hd.
    rewrite <- of_uint_fold, DecimalPos.Unsigned.of_to in Hd. cbn [str_of_int].
    rewrite bool_decide_true by done.
    destruct (Pos.to_uint p) eqn:Hu; [by destruct (to_uint_nonnil p)|..];
      cbn [chars_of_uint] in Hd |- *; rewrite Hd; cbn; by rewrite int64_range_check.
Qed.

Lemma digit_val_not_letter c d : digit_val c = Some d -> is_letter c = false.
Proof.
  unfold digit_val, is_letter. set (n := nat_of_ascii c).
  destruct (Nat.leb_spec 48 n), (Nat.leb_spec n 57); try done. intros _.
  destruct (Nat.leb_spec 65 n), (Nat.leb_spec n 90), (Nat.leb_spec 97 n), (Nat.leb_spec n 122);
    try done; exfalso; lia.
Qed.

Lemma dec_digits_no_letter acc l z c :
  dec_digits acc l = Some z -> c ∈ l -> is_letter c = false.
Proof.
  revert acc. induction l as [|c0 l IH]; intros acc; [intros _ ?%elem_of_nil; done|].
  cbn [dec_digits]. destruct (digit_val c0) as [d|] eqn:Hv; [|done]. cbn [mbind option_bind].
  intros Hd [->|Hin]%elem_of_cons; [by eapply digit_val_not_letter|by eapply IH].
Qed.

Lemma int_cell_no_letter s z c : int_cell s = Some z -> c ∈ s -> is_letter c = false.
Proof.
  unfold int_cell, int_value. intros H Hc.
  destruct s as [|c0 r]; [done|].
  case_bool_decide as Hm; [|case_bool_decide as Hp].
  - subst c0. destruct r as [|c1 r]; [done|].
    destruct (dec_digits 0 (c1 :: r)) eqn:Hd; [|done].
    apply elem_of_cons in Hc as [->|Hc]; [reflexivity|by eapply dec_digits_no_letter].
  - subst c0. destruct r as [|c1 r]; [done|].
    destruct (dec_digits 0 (c1 :: r)) eqn:Hd; [|done].
    apply elem_of_cons in Hc as [->|Hc]; [reflexivity|by eapply dec_digits_no_letter].
  - destruct (dec_digits 0 (c0 :: r)) eqn:Hd; [|done]. by eapply dec_digits_no_letter.
Qed.

Lemma text_cell_not_int s : text_cell s = true -> int_cell s = None.
Proof.
  unfold text_cell. intros [_ Hex]%andb_prop.
  apply existsb_exists in Hex as (c & Hc & Hl).
  destruct (int_cell s) as [z|] eqn:Hi; [|done].
  apply andb_prop in Hl as [Hl _].
  rewrite (int_cell_no_letter s z c Hi) in Hl; [done|by apply list_elem_of_In].
Qed.

Lemma letter_not_float_char c :
  is_letter c && negb (bool_decide (c = "e"%char) || bool_decide (c = "E"%char)) = true ->
  Xstrtod.float_char c = false.
Proof.
  destruct c as [[] [] [] [] [] [] [] []]; vm_compute; intros H; first [reflexivity|discriminate H].
Qed.

(** A text cell is not a float: the converter reads no letter but [e]. *)
Lemma text_cell_not_float s : text_cell s = true -> float_cell s = None.
Proof.
  unfold text_cell. intros [_ Hex]%andb_prop. apply existsb_exists in Hex as (c & Hc & Hl).
  destruct s as [|c0 s']; [done|]. cbn [float_cell].
  destruct (existsb _ _); [done|].
  destruct (Xstrtod.double_cell (c0 :: s')) as [x|] eqn:Hd; [|done].
  apply Xstrtod.double_cell_chars in Hd. rewrite Forall_forall in Hd.
  apply list_elem_of_In in Hc. specialize (Hd c Hc). by rewrite letter_not_float_char in Hd.
Qed.

Lemma float_column_text ks : Exists (fun k => text_cell k = true) ks -> float_column ks = None.
Proof.
  intros Ht. unfold float_column.
  rewrite mapM_None_2 by (eapply Exists_impl; [exact Ht|]; intros k; apply text_cell_not_float).
  by case_match.
Qed.

Lemma infer_column_text ks :
  Forall (fun k => plain_cell k = true) ks -> Exists (fun k => text_cell k = true) ks ->
  infer_column ks = Some (ColObj ks).
Proof.
  intros Hp Ht. unfold infer_column.
  rewrite mapM_None_2 by (eapply Exists_impl; [exact Ht|]; intros k; apply text_cell_not_int).
  rewrite float_column_text by done.
  assert (existsb text_cell ks = true) as ->.
  { apply existsb_exists. apply Exists_exists in Ht as (k & Hk & Htk).
    exists k. split; [by apply list_elem_of_In|done]. }
  assert (forallb plain_cell ks = true) as ->.
  { apply forallb_forall. intros k Hk. rewrite Forall_forall in Hp. apply Hp.
    by apply list_elem_of_In. }
  done.
Qed.

Lemma infer_column_ints zs :
  Forall (fun z => int64_min <= z <= int64_max) zs ->
  infer_column (map str_of_int zs) = Some (ColInt zs).
Proof.
  intros Hz. unfold infer_column. rewrite (mapM_Some_2 _ _ zs); [done|].
  induction Hz; simpl; constructor; [by apply int_cell_str_of_int|done].
Qed.

Lemma records_saved (d : pydict) :
  records (CsvWriter.writerow [lit "Category"; lit "Amount"]
           ++ concat (map CsvWriter.expense_row d))
  = Some (CsvWriter.expected_rows d).
Proof.
  unfold records. rewrite CsvWriter.read_saved_text. cbn [fmap option_fmap option_map].
  f_equal. unfold CsvWriter.expected_rows. rewrite filter_cons_True by done. f_equal.
  induction d as [|kv d IH]; [done|]. cbn [map]. rewrite filter_cons_True by done.
  by rewrite IH.
Qed.

Lemma read_table_saved kzs :
  Forall (fun kz => plain_cell kz.1 = true /\ int64_min <= kz.2 <= int64_max) kzs ->
  Exists (fun kz => text_cell kz.1 = true) kzs ->
  read_table (CsvWriter.writerow [lit "Category"; lit "Amount"]
              ++ concat (map CsvWriter.expense_row (amount_dict kzs)))
  = Some (Ok (DataFrame [lit "Category"; lit "Amount"] [ColObj (map fst kzs); ColInt (map snd kzs)])).
Proof.
  intros Hall Hex. unfold read_table. rewrite records_saved. unfold CsvWriter.expected_rows, amount_dict.
  rewrite map_map. cbn [fst snd py_str].
  assert (Hlen : forallb (fun r => bool_decide (length r = length [lit "Category"; lit "Amount"]))
                   (map (fun kz => [kz.1; str_of_int kz.2]) kzs) = true).
  { apply forallb_forall. intros r (kz & <- & _)%in_map_iff. by rewrite bool_decide_true. }
  rewrite Hlen, andb_true_r.
  rewrite (bool_decide_true (NoDup _)) by (repeat constructor; set_solver).
  cbn [transpose length forallb]. rewrite !bool_decide_true by done. cbn [andb].
  rewrite !map_map. cbn [head tail default].
  change (map (fun x : pystr * Z => id x.1) kzs) with (map fst kzs).
  change (map (fun x : pystr * Z => id (str_of_int x.2)) kzs)
    with (map (fun x => str_of_int (snd x)) kzs).
  rewrite <- (map_map snd str_of_int). cbn [mapM].
  destruct (map (fun x : pystr * Z => [x.1; str_of_int x.2]) kzs) eqn:Em.
  { apply map_eq_nil in Em. subst kzs. by apply Exists_nil in Hex. }
  rewrite (infer_column_text (map fst kzs)), (infer_column_ints (map snd kzs)); [done|..].
  - apply Forall_map, (Forall_impl _ _ _ Hall). by intros kz [_ ?].
  - apply Forall_map, (Forall_impl _ _ _ Hall). by intros kz [? _].
  - by apply Exists_map.
Qed.

(** ** Reading a table of integers *)

Lemma transpose_nth n (rows : list (list pystr)) :
  transpose n rows = map (fun j => map (fun r => nth j r []) rows) (seq 0 n).
Proof.
  revert rows. induction n as [|n IH]; intros rows; [done|]. cbn [transpose seq map].
  f_equal.
  - apply map_ext. intros [|a r]; reflexivity.
  - rewrite IH, <- seq_shift, map_map. apply map_ext. intros j. rewrite map_map.
    apply map_ext. intros [|a r]; [destruct j|]; reflexivity.
Qed.

Lemma str_of_int_nonnil z : str_of_int z <> [].
Proof.
  destruct z as [|p|p]; [done| |done]. cbn. pose proof (to_uint_nonnil p).
  destruct (Pos.to_uint p); done.
Qed.


(** The records of a table [csv.writer] wrote: every line is kept,
    since no line is blank. *)
Lemma records_table labels (rows : list (list pystr)) :
  labels <> [] -> blank_record labels = false ->
  Forall (fun r => length r = length labels /\ blank_record r = false) rows ->
  records (concat (map CsvWriter.writerow (labels :: rows))) = Some (labels :: rows).
Proof.
  intros Hne Hl Hr. unfold records.
  rewrite CsvWriter.read_csv_text_write.
  - cbn [fmap option_fmap option_map]. f_equal.
    rewrite filter_cons_True by done. f_equal.
    induction Hr as [|r rows [_ Hr1] _ IH]; [done|]. cbn [map].
    by rewrite filter_cons_True, IH.
  - constructor; [done|]. eapply Forall_impl; [exact Hr|]. intros r [Hlen _].
    destruct r; [destruct labels; done|done].
Qed.

(** [str] of an [int] is not blank: it starts with a digit or '-'. *)
Lemma str_of_int_not_blank z : blank_record [str_of_int z] = false.
Proof.
  cbn [blank_record]. destruct (str_of_int z) as [|c r] eqn:E; [by destruct (str_of_int_nonnil z)|].
  cbn [forallb]. destruct (is_blank_char c) eqn:Hc; [|done]. exfalso.
  apply (str_of_int_notin c z).
  - unfold is_blank_char in Hc. apply orb_true_iff in Hc as [Hc|Hc];
      apply bool_decide_eq_true in Hc as ->; reflexivity.
  - unfold is_blank_char in Hc. apply orb_true_iff in Hc as [Hc|Hc];
      apply bool_decide_eq_true in Hc as ->; discriminate.
  - rewrite E. left.
Qed.

(** A label with a character other than space and tab. *)
Lemma label_not_blank l :
  existsb (fun c => negb (is_blank_char c)) l = true -> l <> [] /\ blank_record [l] = false.
Proof.
  intros H. split; [by intros ->|]. cbn [blank_record]. apply not_true_iff_false.
  intros Hf. apply existsb_exists in H as (c & Hc & Hn). rewrite forallb_forall in Hf.
  rewrite (Hf c Hc) in Hn. done.
Qed.

Lemma labels_not_blank labels :
  labels <> [] -> Forall (fun l => existsb (fun c => negb (is_blank_char c)) l = true) labels ->
  Forall (fun l => l <> []) labels /\ blank_record labels = false.
Proof.
  intros Hne Hl. split.
  - eapply Forall_impl; [exact Hl|]. intros l Hb. by apply label_not_blank.
  - destruct labels as [|l [|l' ls]]; [done| |done]. apply Forall_cons in Hl as [Hl _].
    by apply label_not_blank.
Qed.

Lemma records_int_table labels rows :
  labels <> [] -> blank_record labels = false ->
  Forall (fun r => length r = length labels) rows ->
  records (int_table_text labels rows) = Some (labels :: map (map str_of_int) rows).
Proof.
  intros Hne Hl Hr. apply records_table; [done|done|]. apply Forall_map.
  eapply Forall_impl; [exact Hr|]. intros r Hlen. rewrite length_map. split; [done|].
  destruct r as [|z [|]]; try done. apply str_of_int_not_blank.
Qed.

Lemma mapM_infer_ints cols :
  Forall (Forall (fun z => int64_min <= z <= int64_max)) cols ->
  mapM infer_column (map (map str_of_int) cols) = Some (map ColInt cols).
Proof.
  induction 1 as [|c cols Hc _ IH]; [done|]. cbn [map mapM].
  rewrite infer_column_ints, IH by done. done.
Qed.

(** The columns of a table of [n]-cell rows. *)
Lemma transpose_map {A} (f : A -> pystr) (d : A) n rows :
  Forall (fun r => length r = n) rows ->
  transpose n (map (map f) rows)
  = map (map f) (map (fun j => map (fun r => nth j r d) rows) (seq 0 n)).
Proof.
  intros Hr. rewrite transpose_nth, map_map. apply map_ext_in. intros j Hj%in_seq.
  rewrite !map_map. apply map_ext_in. intros r Hin.
  rewrite Forall_forall in Hr. specialize (Hr r (proj2 (list_elem_of_In _ _) Hin)).
  rewrite (nth_indep _ [] (f d)) by (rewrite length_map; lia). apply map_nth.
Qed.

(** [read_table] on a header and at least one row. *)
Lemma read_table_rows text labels rows :
  records text = Some (labels :: rows) -> rows <> [] ->
  read_table text =
    if bool_decide (NoDup labels) && forallb (fun l => bool_decide (l <> [])) labels &&
       forallb (fun r => bool_decide (length r = length labels)) rows
    then (fun cols => Ok (DataFrame labels cols)) <$> mapM infer_column (transpose (length labels) rows)
    else None.
Proof. intros H Hne. unfold read_table. rewrite H. by destruct rows as [|? []]. Qed.

(** A header of distinct non-empty labels over rows of its length: the
    frame is the inferred columns. *)
Lemma read_table_shape text labels rows :
  records text = Some (labels :: rows) -> rows <> [] -> NoDup labels ->
  Forall (fun l => l <> []) labels -> Forall (fun r => length r = length labels) rows ->
  read_table text =
    (fun cols => Ok (DataFrame labels cols)) <$> mapM infer_column (transpose (length labels) rows).
Proof.
  intros H Hne Hnd Hl Hr. rewrite (read_table_rows _ _ _ H Hne), bool_decide_true by done.
  assert (Hl' : forallb (fun l => bool_decide (l <> [])) labels = true).
  { apply forallb_forall. intros l Hin. apply bool_decide_eq_true.
    rewrite Forall_forall in Hl. by apply Hl, list_elem_of_In. }
  assert (Hr' : forallb (fun r => bool_decide (length r = length labels)) rows = true).
  { apply forallb_forall. intros r Hin. apply bool_decide_eq_true.
    rewrite Forall_forall in Hr. by apply Hr, list_elem_of_In. }
  by rewrite Hl', Hr'.
Qed.

Lemma read_table_ints labels rows :
  labels <> [] -> rows <> [] -> NoDup labels ->
  Forall (fun l => existsb (fun c => negb (is_blank_char c)) l = true) labels ->
  Forall (fun r => length r = length labels /\ Forall (fun z => int64_min <= z <= int64_max) r) rows ->
  read_table (int_table_text labels rows)
  = Some (Ok (DataFrame labels
                (map ColInt (map (fun j => map (fun r => nth j r 0) rows) (seq 0 (length labels)))))).
Proof.
  intros Hne Hrne Hnd Hlb Hr. destruct (labels_not_blank labels Hne Hlb) as [Hl Hb].
  assert (Hlen : Forall (fun r => length r = length labels) rows)
    by (eapply Forall_impl; [exact Hr|]; by intros r [? _]).
  rewrite (read_table_shape _ labels (map (map str_of_int) rows));
    [|by apply records_int_table|by intros ?%map_eq_nil|done|done|].
  2: { apply Forall_map. eapply Forall_impl; [exact Hlen|]. intros r ?. by rewrite length_map. }
  rewrite (transpose_map str_of_int 0) by done.
  rewrite mapM_infer_ints; [done|].
  apply Forall_forall. intros col (j & <- & Hj%in_seq)%list_elem_of_In%in_map_iff.
  apply Forall_forall. intros z (r & <- & Hin)%list_elem_of_In%in_map_iff.
  rewrite Forall_forall in Hr. destruct (Hr r (proj2 (list_elem_of_In _ _) Hin)) as [Hrl Hz].
  rewrite Forall_forall in Hz. apply Hz, list_elem_of_In, nth_In. lia.
Qed.

(** ** Float64 cells and columns *)

Lemma digit_not_isspace c : Number.is_digit c = true -> Xstrtod.isspace_ascii c = false.
Proof. destruct c as [[] [] [] [] [] [] [] []]; vm_compute; intros H; first [reflexivity|discriminate H]. Qed.

(** [str(z)] of [0 <= z < 10^15] has at most 15 digits. *)
Lemma str_of_int_short z : 0 <= z < 10 ^ 15 -> (length (str_of_int z) <= 15)%nat.
Proof.
  intros Hz. destruct z as [|p|p]; [simpl; lia| |lia].
  destruct (Number.str_of_int_digits (Z.pos p)) as (_ & Hd & Hv); [lia|].
  cbn [str_of_int] in *. pose proof (Number.to_uint_not_D0 p) as H0.
  destruct (Pos.to_uint p) as [|u|u|u|u|u|u|u|u|u|u]; [done|by destruct (H0 u)|..].
  all: cbn [chars_of_uint length Number.dval] in *; apply Forall_cons in Hd as [_ Hd].
  all: rewrite Number.dval_acc in Hv; pose proof (Number.dval_nonneg 0 _ (Z.le_refl 0) Hd).
  all: match type of Hv with context [Z.of_nat (nat_of_ascii (digit_char ?k))] =>
         replace (Z.of_nat (nat_of_ascii (digit_char k))) with (48 + Z.of_nat k) in Hv by reflexivity end.
  all: assert (Hp : 10 ^ Z.of_nat (length (chars_of_uint u)) < 10 ^ 15) by lia.
  all: apply Z.pow_lt_mono_r_iff in Hp; lia.
Qed.

Lemma f64_of_decimal_int a :
  0 <= a < 2 ^ 53 -> exists y, f64_of_decimal a 0 = Some y /\ f_neg y = false /\ f64_units y = a * 2 ^ 1074.
Proof.
  intros Ha. destruct (Xstrtod.int_double_exists a Ha) as (y & Hy & Hu). exists y.
  split_and!; [|done|done]. unfold f64_of_decimal.
  replace (dec_frac a 0) with (a, 1) by (unfold dec_frac; change (Z.max 0 0) with 0;
    change (Z.max 0 (- 0)) with 0; by rewrite Z.pow_0_r, Z.mul_1_r). cbn [fst snd].
  apply FloatArith.f64_of_frac_value; [lia|lia|done|]. rewrite Hu. lia.
Qed.

(** [str(z)] read back by [precise_xstrtod] is [z], for fewer than 16 digits. *)
Lemma float_cell_int z :
  Z.abs z < 10 ^ 15 -> exists x, float_cell (str_of_int z) = Some (Some x) /\ f64_int_value x = Some z.
Proof.
  intros Hz.
  assert (Hs : exists sg, str_of_int z = Xstrtod.decimal_text sg (str_of_int (Z.abs z)) None None /\
                 Xstrtod.sign_neg sg = (z <? 0)).
  { unfold Xstrtod.decimal_text. destruct z as [|p|p]; [exists None..|exists (Some true)];
      by rewrite ?app_nil_r. }
  destruct Hs as (sg & Hs & Hsg).
  destruct (Number.str_of_int_digits (Z.abs z)) as (Hne & Hd & Hv); [lia|].
  pose proof (str_of_int_short (Z.abs z) ltac:(lia)) as Hlen.
  destruct (f64_of_decimal_int (Z.abs z)) as (y & Hy & Hyn & Hyu).
  { assert (10 ^ 15 < 2 ^ 53) by reflexivity. lia. }
  assert (Hl1 : (1 <= length (str_of_int (Z.abs z)) + length (@nil ascii) <= 15)%nat)
    by (destruct (str_of_int (Z.abs z)); [done|simpl in *; lia]).
  pose proof (Xstrtod.double_cell_decimal sg (str_of_int (Z.abs z)) None None [] eq_refl
                ltac:(by rewrite app_nil_r) Hl1 I ltac:(simpl; lia)) as Hdc.
  cbn [Number.dval length Z.of_nat Xstrtod.exp_value] in Hdc. rewrite Hv, Z.sub_0_r, Hy in Hdc.
  assert (Hsp : existsb Xstrtod.isspace_ascii (str_of_int z) = false).
  { apply not_true_iff_false. rewrite existsb_exists. intros (c & Hc & Hsc).
    rewrite Hs in Hc. unfold Xstrtod.decimal_text in Hc. rewrite !app_nil_r in Hc.
    apply in_app_or in Hc as [Hc|Hc].
    - destruct sg as [[]|]; cbn in Hc; try contradiction; destruct Hc as [<-|[]]; discriminate Hsc.
    - rewrite digit_not_isspace in Hsc; [done|]. unfold Number.all_digits in Hd.
      rewrite Forall_forall in Hd. by apply Hd, list_elem_of_In. }
  eexists. split.
  - destruct (str_of_int z) as [|c r] eqn:E; [by destruct z|]. cbn [float_cell].
    rewrite Hsp, Hs, Hdc. reflexivity.
  - apply FloatArith.f64_int_value_units. rewrite Hsg.
    destruct (Z.ltb_spec z 0); rewrite ?FloatArith.f64_units_opp, Hyu; lia.
Qed.

Lemma int_overflow_opt o :
  (forall z, o = Some z -> Z.abs z < 2 ^ 40) -> int_overflow (opt_cell o) = false.
Proof.
  destruct o as [z|]; [|done]. intros Hz. specialize (Hz z eq_refl).
  pose proof (int_cell_str_of_int z) as Hc. unfold int_cell, int_overflow in *. cbn [opt_cell].
  destruct (int_value (str_of_int z)) as [v|]; [|done].
  destruct ((int64_min <=? v) && (v <=? int64_max)); [done|].
  discriminate Hc. unfold int64_min, int64_max. assert (2 ^ 40 < 2 ^ 63) by reflexivity. lia.
Qed.

Lemma float_cell_opt o :
  (forall z, o = Some z -> Z.abs z < 2 ^ 40) ->
  exists x, float_cell (opt_cell o) = Some x /\ f64_int_value (default (f64_zero false) x) = Some (default 0 o).
Proof.
  destruct o as [z|]; intros Hz; [|by exists None].
  destruct (float_cell_int z) as (x & Hx & Hv).
  { specialize (Hz z eq_refl). assert (2 ^ 40 < 10 ^ 15) by reflexivity. lia. }
  by exists (Some x).
Qed.

Lemma mapM_map_Forall2 {A B C} (f : B -> option C) (g : A -> B) (P : A -> C -> Prop) l :
  Forall (fun a => exists c, f (g a) = Some c /\ P a c) l ->
  exists cs, mapM f (map g l) = Some cs /\ Forall2 P l cs.
Proof.
  induction 1 as [|a l (c & Hc & HP) _ (cs & Hcs & HF)]; [by exists []|].
  exists (c :: cs). cbn [map mapM]. rewrite Hc, Hcs. split; [done|by constructor].
Qed.

Lemma Forall2_map_l_inv {A A' B} (P : A' -> B -> Prop) (f : A -> A') l k :
  Forall2 P (map f l) k -> Forall2 (fun a b => P (f a) b) l k.
Proof.
  revert k. induction l as [|a l IH]; intros k H; inversion H; subst; constructor; auto.
Qed.

Lemma sum_Z_zsum zs : sum_Z zs = NumpySum.zsum zs.
Proof.
  unfold sum_Z, NumpySum.zsum.
  assert (H : forall a, fold_left Z.add zs a = a + foldr Z.add 0 zs).
  { induction zs as [|z zs IH]; intros a; cbn [fold_left foldr]; [lia|]. rewrite IH. lia. }
  by rewrite H.
Qed.

Lemma zsum_abs zs : Z.abs (NumpySum.zsum zs) <= NumpySum.zsum (map Z.abs zs).
Proof. unfold NumpySum.zsum. induction zs as [|z zs IH]; cbn [map foldr]; lia. Qed.

Lemma zsum_abs_le zs B :
  Forall (fun z => Z.abs z <= B) zs -> NumpySum.zsum (map Z.abs zs) <= Z.of_nat (length zs) * B.
Proof.
  unfold NumpySum.zsum. induction 1 as [|z zs Hz _ IH]; cbn [map foldr length]; lia.
Qed.

Lemma dep_if_true {T} (b : bool) (f : b = true -> T) (g : b = false -> T) (E : b = true) :
  (if b as b' return (b = b' -> T) then f else g) eq_refl = f E.
Proof. destruct b; [|discriminate E]. by rewrite (Eqdep_dec.UIP_dec Bool.bool_dec E eq_refl). Qed.

Lemma float_column_some cells xs s :
  Z.of_nat (length cells) <= float_rows_max -> existsb int_overflow cells = false ->
  mapM float_cell cells = Some xs -> NumpySum.nansum xs = Some s ->
  exists H, float_column cells = Some (ColFloat xs H).
Proof.
  intros Hl Ho Hm Hs. assert (E : finite_sum xs = true) by (unfold finite_sum; by rewrite Hs).
  exists E. unfold float_column. rewrite Hm, Ho, (proj2 (Z.leb_le _ _) Hl). cbn [negb andb].
  exact (dep_if_true _ _ _ E).
Qed.

Lemma opt_all_some (col : list (option Z)) : None ∉ col -> map Some (map (default 0) col) = col.
Proof.
  induction col as [|[z|] col IH]; intros Hn; [done| |by destruct Hn; left].
  cbn [map default]. rewrite IH; [done|]. intros ?. apply Hn. by right.
Qed.

(** A column of whole amounts, some missing: float64 when one is
    missing, int64 otherwise; as a float, its sum is the exact one. *)
Lemma opt_column_sum col :
  Z.of_nat (length col) <= float_rows_max -> Forall (fun o => forall z, o = Some z -> Z.abs z < 2 ^ 40) col ->
  exists c, infer_column (map opt_cell col) = Some c /\ is_object c = false /\
    (is_float c = true <-> None ∈ col) /\
    exists x, to_float64 (column_sum c) = PyFloat x /\ f64_int_value x = Some (sum_Z (map (default 0) col)).
Proof.
  intros Hlen Hsmall.
  assert (Hb : Forall (fun z => Z.abs z <= 2 ^ 40 - 1) (map (default 0) col)).
  { apply Forall_map. eapply Forall_impl; [exact Hsmall|]. intros [z|] Hz; [|done].
    specialize (Hz z eq_refl). cbn. lia. }
  pose proof (zsum_abs_le _ _ Hb) as Hsum. rewrite length_map in Hsum. unfold float_rows_max in Hlen.
  assert (Hlt : NumpySum.zsum (map Z.abs (map (default 0) col)) < 2 ^ 53) by lia.
  destruct (decide (None ∈ col)) as [Hnone|Hnone].
  - assert (Hi : mapM int_cell (map opt_cell col) = None).
    { apply mapM_None_2, Exists_map, Exists_exists. by exists None. }
    destruct (mapM_map_Forall2 float_cell opt_cell
                (fun o x => f64_int_value (default (f64_zero false) x) = Some (default 0 o)) col)
      as (xs & Hxs & HF).
    { eapply Forall_impl; [exact Hsmall|]. apply float_cell_opt. }
    destruct (NumpySum.np_add_reduce_whole (map (default (f64_zero false)) xs) (map (default 0) col))
      as (s & Hs & Hsv); [|done|].
    { apply Forall2_fmap, Forall2_flip. by eapply Forall2_impl; [exact HF|]. }
    assert (Ho : existsb int_overflow (map opt_cell col) = false).
    { apply not_true_iff_false. rewrite existsb_exists. intros (k & (o & <- & Ho)%in_map_iff & Hk).
      rewrite int_overflow_opt in Hk; [done|]. rewrite Forall_forall in Hsmall.
      by apply Hsmall, list_elem_of_In. }
    destruct (float_column_some _ xs s ltac:(by rewrite length_map) Ho Hxs Hs) as [H Hf].
    exists (ColFloat xs H). unfold infer_column. rewrite Hi, Hf. split_and!; [done|done|done|].
    exists s. rewrite (column_sum_float _ _ s Hs), sum_Z_zsum. by split.
  - assert (Hcol : map opt_cell col = map str_of_int (map (default 0) col)).
    { rewrite <- (opt_all_some col Hnone) at 1. rewrite map_map. reflexivity. }
    rewrite Hcol, infer_column_ints.
    2: { eapply Forall_impl; [exact Hb|]. unfold int64_min, int64_max. intros z Hz.
         assert (2 ^ 40 < 2 ^ 63) by reflexivity. lia. }
    eexists. split_and!; [done|done|split; [done|intros []%Hnone]|].
    assert (Habs : Z.abs (sum_Z (map (default 0) col)) < 2 ^ 53)
      by (rewrite sum_Z_zsum; pose proof (zsum_abs (map (default 0) col)); lia).
    cbn [column_sum]. rewrite sum_int64_wrap, wrap64_id.
    2: { unfold int64_min, int64_max. assert (2 ^ 53 < 2 ^ 63) by reflexivity. lia. }
    destruct (FloatArith.f64_of_int_whole _ Habs) as (x & Hx & Hxv).
    exists x. cbn [to_float64]. by rewrite Hx.
Qed.

Lemma mapM_infer_opt cols :
  Forall (fun col => Z.of_nat (length col) <= float_rows_max /\
                     Forall (fun o => forall z, o = Some z -> Z.abs z < 2 ^ 40) col) cols ->
  exists cs, mapM infer_column (map (map opt_cell) cols) = Some cs /\
    Forall2 (fun col c => is_object c = false /\ (is_float c = true <-> None ∈ col) /\
      exists x, to_float64 (column_sum c) = PyFloat x /\ f64_int_value x = Some (sum_Z (map (default 0) col)))
      cols cs.
Proof. intros H. apply mapM_map_Forall2. eapply Forall_impl; [exact H|]. intros col [??]. by apply opt_column_sum. Qed.

(** The Series of such columns: float64 as soon as one value is
    missing, each value the exact sum. *)
Lemma float_series cols cs :
  Forall2 (fun col c => is_object c = false /\ (is_float c = true <-> None ∈ col) /\
    exists x, to_float64 (column_sum c) = PyFloat x /\ f64_int_value x = Some (sum_Z (map (default 0) col)))
    cols cs ->
  existsb is_object cs = false /\ (Exists (fun col => None ∈ col) cols -> existsb is_float cs = true) /\
  exists xs, map (fun c => to_float64 (column_sum c)) cs = map PyFloat xs /\
    Forall2 (fun col x => f64_int_value x = Some (sum_Z (map (default 0) col))) cols xs.
Proof.
  induction 1 as [|col c cols cs (Ho & Hf & x & Hx & Hv) _ (Ho' & Hf' & xs & Hxs & HF)].
  { split_and!; [done|by intros ?%Exists_nil|by exists []]. }
  cbn [existsb map]. rewrite Ho, Ho'. split_and!; [done| |].
  - intros [Hn|Hn]%Exists_cons; [by rewrite (proj2 Hf Hn)|by rewrite Hf', orb_true_r].
  - exists (x :: xs). cbn [map]. rewrite Hx, Hxs. split; [done|by constructor].
Qed.

(** A missing cell of some row is a missing cell of some column. *)
Lemma missing_column n (rows : list (list (option Z))) :
  Forall (fun r => length r = n) rows -> Exists (fun r => None ∈ r) rows ->
  Exists (fun col => None ∈ col) (map (fun j => map (fun r => nth j r None) rows) (seq 0 n)).
Proof.
  intros Hl (r & Hr & Hn)%Exists_exists. apply list_elem_of_lookup in Hn as [j Hj].
  rewrite Forall_forall in Hl. pose proof (lookup_lt_Some _ _ _ Hj) as Hjl. rewrite (Hl r Hr) in Hjl.
  apply Exists_exists. exists (map (fun r => nth j r None) rows). split.
  - apply list_elem_of_fmap. exists j. split; [done|]. apply elem_of_seq. lia.
  - apply list_elem_of_fmap. exists r. split; [|done]. symmetry. by apply nth_lookup_Some.
Qed.

(** ** Properties of the ingestor *)

(** On a frame of [N] int64 columns with distinct labels, the result has
    exactly the [N] labels as keys, in column order, each mapped to its
    column's sum reduced to int64. *)
Lemma parse_int_frame_sums read_csv text labels cols :
  read_csv text = Ok (DataFrame labels (map ColInt cols)) ->
  NoDup labels -> length labels = length cols ->
  parse_csv_to_expenses read_csv text
  = Ok (zip (map PyStr labels) (map (fun xs => PyInt (wrap64 (sum_Z xs))) cols)).
Proof.
  intros Hread Hnd Hl. unfold parse_csv_to_expenses. rewrite Hread. simpl.
  rewrite to_dict_df_sum by (rewrite ?length_map; done).
  rewrite series_values_no_float by apply existsb_ints_float. rewrite map_map.
  do 2 f_equal. apply map_ext. intros xs. simpl. by rewrite sum_int64_wrap.
Qed.

(** C6. The spec's ingestion law, from the text of the file: for a
    header of [N] distinct labels, each with a character other than
    space and tab (pandas skips a line of blanks, so a lone blank label
    would not be the header), and [M >= 1] rows of [N] int64 values,
    written as CSV, [parse_csv_to_expenses] returns exactly the [N]
    labels as keys, in column order, each mapped to the sum of its
    column reduced to int64 (the exact sum when it fits, C19). *)
Theorem parse_csv_to_expenses_sums read_csv labels rows :
  (forall t r, read_table t = Some r -> read_csv t = r) ->
  labels <> [] -> rows <> [] -> NoDup labels ->
  Forall (fun l => existsb (fun c => negb (is_blank_char c)) l = true) labels ->
  Forall (fun r => length r = length labels /\ Forall (fun z => int64_min <= z <= int64_max) r) rows ->
  parse_csv_to_expenses read_csv (int_table_text labels rows)
  = Ok (zip (map PyStr labels)
            (map (fun j => PyInt (wrap64 (sum_Z (map (fun r => nth j r 0) rows))))
                 (seq 0 (length labels)))).
Proof.
  intros Hlaw Hne Hrne Hnd Hl Hr.
  rewrite (parse_int_frame_sums read_csv _ labels
             (map (fun j => map (fun r => nth j r 0) rows) (seq 0 (length labels)))).
  - by rewrite map_map.
  - by apply Hlaw, read_table_ints.
  - done.
  - by rewrite length_map, length_seq.
Qed.

(** C7. A missing amount makes every total a float: for a header of
    [N] distinct non-empty labels and [1 <= M <= 8192] rows of [N]
    amounts below [2^40] in magnitude, written as CSV with an empty
    field for a missing amount (no row a single empty field), one
    missing amount anywhere gives pandas a float64 column (NaN), the
    Series of sums the float64 dtype, and [parse_csv_to_expenses]
    returns every label mapped to a [float], the exact sum of its
    column with the missing amounts counted as 0. *)
Theorem parse_csv_missing_amounts read_csv labels rows :
  (forall t r, read_table t = Some r -> read_csv t = r) ->
  labels <> [] -> rows <> [] -> NoDup labels -> Forall (fun l => l <> []) labels ->
  Z.of_nat (length rows) <= float_rows_max ->
  Forall (fun r => length r = length labels /\ r <> [None] /\
                   Forall (fun o => forall z, o = Some z -> Z.abs z < 2 ^ 40) r) rows ->
  Exists (fun r => None ∈ r) rows ->
  exists xs, parse_csv_to_expenses read_csv (opt_table_text labels rows)
             = Ok (zip (map PyStr labels) (map PyFloat xs)) /\
    Forall2 (fun x j => f64_int_value x = Some (sum_Z (map (fun r => default 0 (nth j r None)) rows)))
      xs (seq 0 (length labels)).
Proof.
  intros Hlaw Hne Hrne Hnd Hl Hlen Hr Hex.
  assert (Hrl : Forall (fun r => length r = length labels) rows)
    by (eapply Forall_impl; [exact Hr|]; by intros r [? _]).
  destruct (mapM_infer_opt (map (fun j => map (fun r => nth j r None) rows) (seq 0 (length labels))))
    as (cs & Hcs & HF).
  { apply Forall_forall. intros col (j & -> & _)%list_elem_of_fmap. rewrite length_map. split; [done|].
    apply Forall_forall. intros o (r & -> & Hin)%list_elem_of_fmap. rewrite Forall_forall in Hr.
    destruct (Hr r Hin) as (_ & _ & Hs). intros z Hz. rewrite Forall_forall in Hs.
    apply (Hs (nth j r None)); [apply list_elem_of_In, nth_In|done].
    destruct (decide (j < length r)%nat); [done|]. by rewrite nth_overflow in Hz by lia. }
  destruct (float_series _ _ HF) as (Hobj & Hfl & xs & Hxs & HFx).
  assert (Hread : read_table (opt_table_text labels rows) = Some (Ok (DataFrame labels cs))).
  { rewrite (read_table_shape _ labels (map (map opt_cell) rows)); [|..|done|done|].
    - by rewrite (transpose_map opt_cell None), Hcs.
    - apply records_table; [done| |].
      + destruct labels as [|l [|l' ls]]; [done| |done]. exfalso.
        apply Exists_exists in Hex as (r & Hin & Hn). rewrite Forall_forall in Hr.
        destruct (Hr r Hin) as (Hlr & Hr1 & _).
        destruct r as [|o [|]]; cbn [length] in Hlr; try lia.
        apply list_elem_of_singleton in Hn as <-. done.
      + apply Forall_map. eapply Forall_impl; [exact Hr|].
        intros r (Hlr & Hr1 & _). rewrite length_map. split; [done|].
        destruct r as [|[z|] [|]]; try done. apply str_of_int_not_blank.
    - by intros ?%map_eq_nil.
    - apply Forall_map. eapply Forall_impl; [exact Hrl|]. intros r ?. by rewrite length_map. }
  exists xs. split.
  - unfold parse_csv_to_expenses. rewrite (Hlaw _ _ Hread). simpl.
    rewrite to_dict_df_sum by (done || by rewrite <- (Forall2_length _ _ _ HF), length_map, length_seq).
    rewrite series_values_float, Hxs; [done|done|]. by apply Hfl, missing_column.
  - apply Forall2_map_l_inv, Forall2_flip in HFx. eapply Forall2_impl; [exact HFx|].
    intros x j H. unfold flip in H. by rewrite map_map in H.
Qed.

(** C19. A column sum is exact when the true sum fits in int64; in
    every case it lies in the int64 range and differs from the true sum
    by a multiple of 2^64 (numpy wraps silently on overflow). *)
Theorem sum_int64_bounds xs :
  int64_min <= sum_int64 xs <= int64_max /\
  (exists k, sum_int64 xs = sum_Z xs + k * 2 ^ 64) /\
  (int64_min <= sum_Z xs <= int64_max -> sum_int64 xs = sum_Z xs).
Proof.
  rewrite sum_int64_wrap. split; [|split].
  - apply wrap64_range.
  - exists (- ((sum_Z xs + 2 ^ 63) / 2 ^ 64)). unfold wrap64.
    rewrite Z.mod_eq by lia. lia.
  - apply wrap64_id.
Qed.

(** C4. The emitter's file is not in the ingestor's format: uploading
    the CSV that [save_expenses_to_csv] returns, for a dict of category
    names (none empty, missing-looking or numeric-looking, at least one
    of them text) to int64 amounts, gives pandas a frame of the two
    columns [Category] (object) and [Amount] (int64), and
    [parse_csv_to_expenses] answers [{'Category': <the names
    concatenated>, 'Amount': <their sum>}], not the dict that was saved. *)
Theorem parse_csv_saved_expenses read_csv kzs b :
  (forall t r, read_table t = Some r -> read_csv t = r) ->
  Forall (fun kz => plain_cell kz.1 = true /\ int64_min <= kz.2 <= int64_max) kzs ->
  Exists (fun kz => text_cell kz.1 = true) kzs ->
  CsvWriter.save_expenses_to_csv (ODict (amount_dict kzs)) = Ok b ->
  exists t, CsvWriter.utf8_decode (CsvWriter.bio_buf b) = Some t /\
    parse_csv_to_expenses read_csv t =
    Ok [(PyStr (lit "Category"), PyStr (concat (map fst kzs)));
        (PyStr (lit "Amount"), PyInt (sum_int64 (map snd kzs)))].
Proof.
  intros Hlaw Hall Hex Hsave. eexists. split; [exact (CsvWriter.save_dict_text _ _ Hsave)|].
  unfold parse_csv_to_expenses. rewrite (Hlaw _ _ (read_table_saved kzs Hall Hex)).
  destruct kzs as [|[k z] kzs]; [by apply Exists_nil in Hex|]. reflexivity.
Qed.

End Ingest.

(** ** Witnesses *)

Module IngestWitness.
Import Ingest.

(** The spec's example file: two rows of Rent and Food. *)
Definition spec_csv : pystr :=
  lit "Rent,Food" ++ ["010"%char] ++ lit "1000,400" ++ ["010"%char] ++
  lit "200,100" ++ ["010"%char].

Definition spec_reader (t : pystr) : pyres dataframe :=
  match read_table t with
  | Some r => r
  | None => Raise (ValueError (lit "outside the modelled tables"))
  end.

Lemma spec_reader_law t r : read_table t = Some r -> spec_reader t = r.
Proof. intros H. unfold spec_reader. by rewrite H. Qed.

Lemma parse_spec_csv_witness :
  parse_csv_to_expenses spec_reader (int_table_text [lit "Rent"; lit "Food"] [[1000; 400]; [200; 100]])
  = Ok [(PyStr (lit "Rent"), PyInt 1200); (PyStr (lit "Food"), PyInt 500)].
Proof.
  refine (parse_csv_to_expenses_sums spec_reader [lit "Rent"; lit "Food"] [[1000; 400]; [200; 100]]
            spec_reader_law _ _ _ _ _); [done|done|py_decide|repeat constructor; compute; discriminate|].
  repeat constructor; unfold int64_min, int64_max; lia.
Defined.

Lemma sum_int64_bounds_witness :
  (int64_min <= sum_Z [1000; 200] <= int64_max) /\ sum_int64 [1000; 200] = 1200.
Proof.
  split; [vm_compute; split; discriminate|].
  refine (proj2 (proj2 (sum_int64_bounds [1000; 200])) _).
  vm_compute; split; discriminate.
Defined.

(** The overflow the spec does not mention: the largest int64 plus one
    sums to the smallest. *)
Lemma sum_int64_overflow : sum_int64 [int64_max; 1] = int64_min.
Proof. vm_compute. reflexivity. Qed.

(** The reply of the spec's scenario, saved and uploaded again. *)
Definition adjusted_pairs : list (pystr * Z) := [(lit "Rent", 860); (lit "Food", 500)].

Lemma parse_csv_saved_witness :
  exists b t, CsvWriter.save_expenses_to_csv (ODict (amount_dict adjusted_pairs)) = Ok b /\
    CsvWriter.utf8_decode (CsvWriter.bio_buf b) = Some t /\
    parse_csv_to_expenses spec_reader t =
    Ok [(PyStr (lit "Category"), PyStr (lit "RentFood")); (PyStr (lit "Amount"), PyInt 1360)].
Proof.
  assert (Hs : CsvWriter.save_expenses_to_csv (ODict (amount_dict adjusted_pairs)) = Ok _)
    by reflexivity.
  assert (Hall : Forall (fun kz => (plain_cell kz.1 = true) /\ (int64_min <= kz.2 <= int64_max))
                   adjusted_pairs)
    by (unfold adjusted_pairs; repeat apply Forall_cons_2; try exact (List.Forall_nil _);
        (split; [reflexivity|cbn [snd]; unfold int64_min, int64_max; lia])).
  assert (Hex : Exists (fun kz => text_cell kz.1 = true) adjusted_pairs)
    by (unfold adjusted_pairs; left; reflexivity).
  destruct (parse_csv_saved_expenses spec_reader adjusted_pairs _ spec_reader_law Hall Hex Hs)
    as (t & Ht & Hp).
  eexists _, t. split; [exact Hs|]. split; [exact Ht|]. rewrite Hp. reflexivity.
Defined.

(** The spec's example with Food's first amount missing. *)
Lemma parse_missing_witness :
  exists xs, parse_csv_to_expenses spec_reader
               (opt_table_text [lit "Rent"; lit "Food"] [[Some 1000; None]; [Some 200; Some 100]])
             = Ok (zip (map PyStr [lit "Rent"; lit "Food"]) (map PyFloat xs)) /\
    Forall2 (fun x j => f64_int_value x =
               Some (sum_Z (map (fun r => default 0 (nth j r None)) [[Some 1000; None]; [Some 200; Some 100]])))
      xs (seq 0 2).
Proof.
  refine (parse_csv_missing_amounts spec_reader [lit "Rent"; lit "Food"]
            [[Some 1000; None]; [Some 200; Some 100]] spec_reader_law _ _ _ _ _ _ _);
    [done|done|py_decide|repeat constructor; compute; discriminate|vm_compute; discriminate| |].
  - repeat constructor; try discriminate; intros z [= <-]; lia.
  - left. set_solver.
Defined.

(** A float column sums in binary: [0.1] and [0.2] give
    [0.30000000000000004], not [0.3]. *)
Definition tenths_csv : pystr :=
  lit "Total" ++ ["010"%char] ++ lit "0.1" ++ ["010"%char] ++ lit "0.2" ++ ["010"%char].

Lemma parse_tenths_sum :
  exists x, parse_csv_to_expenses spec_reader tenths_csv = Ok [(PyStr (lit "Total"), PyFloat x)] /\
    f64_of_decimal 30000000000000004 (-17) = Some x /\ f64_of_decimal 3 (-1) <> Some x.
Proof.
  eexists. split; [vm_compute; reflexivity|]. split; [vm_compute; reflexivity|].
  vm_compute. intros H. discriminate H.
Qed.

End IngestWitness.
