(* ===== verification/PyLiteral.v ===== *)
(** * PyLiteral: [repr] of the expense dict and [eval] of a dict display

    [ExpenseCalculator.calculate_expenses] renders the expense dict into
    the prompt with [str(dict)], which is [repr]: [{'Rent': 1200}].
    [extract_adjusted_expenses] turns the model's extracted text back into
    a dict with [eval] (src/expensecalculator.py, line 110).

    [eval] runs arbitrary Python.  This file models the fragment of it
    that a flat dict display of string and number literals exercises:
    string literals in either quote with the escapes [repr] produces,
    integer and float literals with an optional sign (the number lexer
    and the correctly rounded [float] are in Number.v and Binary64.v),
    [key: value] entries separated by commas with an optional trailing
    comma, whitespace between tokens, duplicate keys under Python's
    equality (the last value wins, at the first position; [1] and [1.0]
    are one key), and set displays of the same literals (what a reply of
    bare amounts is).  The model says [None] for every other text: that
    is where a float literal too large for a double, a nested container,
    a name or a call would be evaluated, the code-injection surface of
    spec section 4.3.  Two answers outside the fragment are modelled
    because the extractor produces them: the empty text and the lone "}"
    raise [SyntaxError], and the JSON words [null], [true], [false]
    raise [NameError] as values. *)

From S2P Require Import Prelude Binary64 PyCore PyDict Number.
Local Open Scope Z_scope.

Module PyLiteral.
Import Number.

Definition BS : ascii := "\"%char.
Definition SQ : ascii := "'"%char.
Definition DQ : ascii := Ascii.ascii_of_nat 34.

(** ** [repr] *)

(** [repr] of a string uses single quotes unless the string contains a
    single quote and no double quote. *)
Definition choose_quote (s : pystr) : ascii :=
  if bool_decide (SQ ∈ s) && negb (bool_decide (DQ ∈ s)) then DQ else SQ.

Definition hex_digit (n : nat) : ascii :=
  if (n <? 10)%nat then ascii_of_nat (48 + n) else ascii_of_nat (87 + n).

(** Code points [repr] shows as [\xhh]: controls, DEL, and the Latin-1
    characters that are not printable (0x80 to 0xa0, and 0xad). *)
Definition hex_escaped (n : nat) : bool :=
  (n <? 32)%nat || (n =? 127)%nat || ((128 <=? n) && (n <=? 160))%nat || (n =? 173)%nat.

Definition escape_char (q c : ascii) : pystr :=
  let n := nat_of_ascii c in
  if bool_decide (c = q) || bool_decide (c = BS) then [BS; c]
  else if (n =? 9)%nat then [BS; "t"%char]
  else if (n =? 10)%nat then [BS; "n"%char]
  else if (n =? 13)%nat then [BS; "r"%char]
  else if hex_escaped n then [BS; "x"%char; hex_digit (n / 16); hex_digit (n mod 16)]
  else [c].

Definition repr_str (s : pystr) : pystr :=
  let q := choose_quote s in q :: (s ≫= escape_char q) ++ [q].

Definition repr_val (v : pyval) : pystr :=
  match v with
  | PyInt z => str_of_int z
  | PyStr s => repr_str s
  | PyFloat x => repr_float x
  end.

Fixpoint repr_items (d : pydict) : pystr :=
  match d with
  | [] => []
  | [(k, v)] => repr_val k ++ lit ": " ++ repr_val v
  | (k, v) :: d' => repr_val k ++ lit ": " ++ repr_val v ++ lit ", " ++ repr_items d'
  end.

(** [repr(d)] (and [str(d)]) of a dict. *)
Definition repr_dict (d : pydict) : pystr := "{"%char :: repr_items d ++ ["}"%char].

(** The elements of a non-empty set as [repr] writes them: [1, 'a']. *)
Fixpoint repr_elems (vs : list pyval) : pystr :=
  match vs with
  | [] => []
  | [v] => repr_val v
  | v :: vs' => repr_val v ++ lit ", " ++ repr_elems vs'
  end.

(** ** Lexing literals *)

Definition hex_val (c : ascii) : option nat :=
  let n := nat_of_ascii c in
  if ((48 <=? n) && (n <=? 57))%nat then Some (n - 48)%nat
  else if ((97 <=? n) && (n <=? 102))%nat then Some (n - 87)%nat
  else if ((65 <=? n) && (n <=? 70))%nat then Some (n - 55)%nat
  else None.

(** The body of a string literal opened by [q], up to and without the
    closing quote; [None] on an escape this fragment does not cover and
    on a line break, which ends a short string with a SyntaxError. *)
Fixpoint lex_str (q : ascii) (s : pystr) : option (pystr * pystr) :=
  match s with
  | [] => None
  | c :: s1 =>
      if bool_decide (c = q) then Some ([], s1)
      else if bool_decide (c = BS) then
        match s1 with
        | e :: s2 =>
            if bool_decide (e = "x"%char) then
              match s2 with
              | h1 :: h2 :: s3 =>
                  match hex_val h1, hex_val h2 with
                  | Some a, Some b => cons_fst (ascii_of_nat (16 * a + b)) <$> lex_str q s3
                  | _, _ => None
                  end
              | _ => None
              end
            else if bool_decide (e = BS) || bool_decide (e = SQ) || bool_decide (e = DQ)
            then cons_fst e <$> lex_str q s2
            else if bool_decide (e = "n"%char) then cons_fst "010"%char <$> lex_str q s2
            else if bool_decide (e = "r"%char) then cons_fst "013"%char <$> lex_str q s2
            else if bool_decide (e = "t"%char) then cons_fst "009"%char <$> lex_str q s2
            else None
        | [] => None
        end
      else if bool_decide (c = "010"%char) || bool_decide (c = "013"%char) then None
      else cons_fst c <$> lex_str q s1
  end.

Definition is_ident_start (c : ascii) : bool :=
  let n := nat_of_ascii c in
  ((65 <=? n) && (n <=? 90))%nat || ((97 <=? n) && (n <=? 122))%nat || (n =? 95)%nat.

Definition is_ws (c : ascii) : bool :=
  bool_decide (c = " "%char) || bool_decide (c = "009"%char)
  || bool_decide (c = "010"%char) || bool_decide (c = "013"%char).

Fixpoint skip_ws (s : pystr) : pystr :=
  match s with
  | c :: s' => if is_ws c then skip_ws s' else s
  | [] => []
  end.

Fixpoint span_ident (s : pystr) : pystr * pystr :=
  match s with
  | c :: s' => if is_ident_start c || is_digit c then cons_fst c (span_ident s') else ([], s)
  | [] => ([], [])
  end.

(** An expression of the fragment: a literal, or one of the JSON words
    [null], [true], [false], which Python reads as unbound names. *)
Inductive pyexpr : Type :=
| ELit (v : pyval)
| EName (name : pystr).

Definition json_words : list pystr := [lit "null"; lit "true"; lit "false"].

(** One expression and the rest of the text; [None] outside the fragment. *)
Definition lex_value (s : pystr) : option (pyexpr * pystr) :=
  match s with
  | c :: s' =>
      if bool_decide (c = SQ) || bool_decide (c = DQ) then
        (fun '(str, r) => (ELit (PyStr str), r)) <$> lex_str c s'
      else if bool_decide (c = "-"%char) then
        (fun '(v, r) => (ELit (neg_num v), r)) <$> lex_number s'
      else if bool_decide (c = "+"%char) then
        (fun '(v, r) => (ELit v, r)) <$> lex_number s'
      else if is_digit c || bool_decide (c = "."%char) then
        (fun '(v, r) => (ELit v, r)) <$> lex_number s
      else if is_ident_start c then
        let '(name, r) := span_ident s in
        if bool_decide (name ∈ json_words) then Some (EName name, r) else None
      else None
  | [] => None
  end.

(** ** Parsing a dict display *)

(** The entries after the opening brace, and the text after the closing
    one; [fuel] bounds the number of entries. *)
Fixpoint parse_entries (fuel : nat) (s : pystr) : option (list (pyexpr * pyexpr) * pystr) :=
  match fuel with
  | O => None
  | S fuel' =>
      match skip_ws s with
      | [] => None
      | c :: r =>
          if bool_decide (c = "}"%char) then Some ([], r) else
          match lex_value (c :: r) with
          | None => None
          | Some (k, r1) =>
              match skip_ws r1 with
              | c1 :: r2 =>
                  if bool_decide (c1 = ":"%char) then
                    match lex_value (skip_ws r2) with
                    | None => None
                    | Some (v, r3) =>
                        match skip_ws r3 with
                        | c3 :: r4 =>
                            if bool_decide (c3 = ","%char) then
                              (fun '(es, r5) => ((k, v) :: es, r5)) <$> parse_entries fuel' r4
                            else if bool_decide (c3 = "}"%char) then Some ([(k, v)], r4)
                            else None
                        | [] => None
                        end
                    end
                  else None
              | [] => None
              end
          end
      end
  end.

(** The elements of a set display after its first character, and the
    text after the closing brace; [fuel] bounds the number of elements. *)
Fixpoint parse_elems (fuel : nat) (s : pystr) : option (list pyexpr * pystr) :=
  match fuel with
  | O => None
  | S fuel' =>
      match skip_ws s with
      | [] => None
      | c :: r =>
          if bool_decide (c = "}"%char) then Some ([], r) else
          match lex_value (c :: r) with
          | None => None
          | Some (v, r1) =>
              match skip_ws r1 with
              | c1 :: r2 =>
                  if bool_decide (c1 = ","%char) then
                    (fun '(vs, r3) => (v :: vs, r3)) <$> parse_elems fuel' r2
                  else if bool_decide (c1 = "}"%char) then Some ([v], r2)
                  else None
              | [] => None
              end
          end
      end
  end.

Definition eval_expr (e : pyexpr) : pyres pyval :=
  match e with
  | ELit v => Ok v
  | EName n => Raise (NameError (lit "name '" ++ n ++ lit "' is not defined"))
  end.

(** Evaluation of the entries, left to right, key before value. *)
Fixpoint eval_entries (es : list (pyexpr * pyexpr)) : pyres (list (pyval * pyval)) :=
  match es with
  | [] => Ok []
  | (k, v) :: es' =>
      kv <- eval_expr k ;; vv <- eval_expr v ;; rest <- eval_entries es' ;;
      Ok ((kv, vv) :: rest)
  end.

(** Evaluation of the elements of a set display, left to right. *)
Fixpoint eval_elems (es : list pyexpr) : pyres (list pyval) :=
  match es with
  | [] => Ok []
  | e :: es' => v <- eval_expr e ;; rest <- eval_elems es' ;; Ok (v :: rest)
  end.

(** [eval(s)] on the text [extract_expenses_string] returns: [None]
    outside the fragment; otherwise the dict or the set, or the
    exception.  [{}] is a dict; a display whose first item has no ':'
    is a set, whose elements are kept once each in display order (the
    order a set iterates in is not observed by the code, which raises on
    a set before iterating). *)
Definition py_eval (s : pystr) : option (pyres pyobj) :=
  match skip_ws s with
  | [] => Some (Raise (SyntaxError (lit "invalid syntax (<string>, line 0)")))
  | c :: r =>
      if bool_decide (c = "}"%char) then Some (Raise (SyntaxError (lit "unmatched '}' (<string>, line 1)")))
      else if bool_decide (c = "{"%char) then
        match parse_entries (S (length r)) r with
        | Some (es, rest) =>
            if bool_decide (skip_ws rest = []) then
              Some (es' <- eval_entries es ;; Ok (ODict (dict_of_pairs es')))
            else None
        | None =>
            match parse_elems (S (length r)) r with
            | Some (es, rest) =>
                if bool_decide (skip_ws rest = []) then
                  Some (vs <- eval_elems es ;; Ok (OSet (first_occ [] vs)))
                else None
            | None => None
            end
        end
      else None
  end.

(** ** [eval (repr d) = d] *)

Lemma lex_str_escape q c rest :
  q = SQ \/ q = DQ ->
  lex_str q (escape_char q c ++ rest) = cons_fst c <$> lex_str q rest.
Proof. intros [-> | ->]; destruct c as [[] [] [] [] [] [] [] []]; reflexivity. Qed.

Lemma lex_str_repr q s rest :
  q = SQ \/ q = DQ ->
  lex_str q ((s ≫= escape_char q) ++ q :: rest) = Some (s, rest).
Proof.
  intros Hq. induction s as [|c s IH].
  - simpl. by rewrite bool_decide_true.
  - rewrite bind_cons, <- app_assoc, lex_str_escape, IH by done. done.
Qed.

Lemma choose_quote_cases s : choose_quote s = SQ \/ choose_quote s = DQ.
Proof. unfold choose_quote. destruct (_ && _); auto. Qed.

(** A value that starts with a digit is a number. *)
Lemma lex_value_digit c s :
  is_digit c = true -> lex_value (c :: s) = (fun '(v, r) => (ELit v, r)) <$> lex_number (c :: s).
Proof.
  intros Hd. unfold lex_value.
  rewrite !bool_decide_false by (apply not_digit_char; done). simpl. by rewrite Hd.
Qed.

Lemma lex_value_minus s :
  lex_value ("-"%char :: s) = (fun '(v, r) => (ELit (neg_num v), r)) <$> lex_number s.
Proof. done. Qed.

Lemma digit_not_special d : is_digit d = true -> is_ws d = false /\ d <> "}"%char.
Proof.
  intros Hd. split; [|by apply not_digit_char].
  unfold is_ws. rewrite !bool_decide_false by (apply not_digit_char; done). done.
Qed.

Lemma lex_value_repr v rest :
  value_end rest -> lex_value (repr_val v ++ rest) = Some (ELit v, rest).
Proof.
  intros Hr. destruct v as [[|p|p]|s|x]; cbn [repr_val].
  - destruct rest as [|c r]; [done|].
    destruct Hr as [[= ->]|[[= ->]|[= ->]]]; reflexivity.
  - destruct (str_of_int_digits (Z.pos p)) as (Hne & Hd & _); [lia|].
    destruct (str_of_int (Z.pos p)) as [|d r] eqn:E; [done|]. inversion Hd; subst.
    cbn [app]. rewrite lex_value_digit by done. change (d :: r ++ rest) with ((d :: r) ++ rest).
    rewrite <- E. cbn [str_of_int]. by rewrite lex_number_int_pos.
  - cbn [str_of_int app]. rewrite lex_value_minus, lex_number_int_pos by done. done.
  - unfold repr_str. destruct (choose_quote_cases s) as [Hq|Hq]; rewrite Hq; simpl;
      rewrite <- app_assoc; simpl; rewrite lex_str_repr by auto; done.
  - unfold repr_float. destruct (f_neg x) eqn:Hn; cbn [app].
    + rewrite lex_value_minus, lex_number_repr_abs by (by right). simpl.
      do 4 f_equal. by apply float64_eq.
    + destruct (repr_float_abs_head x) as (d & r & E & Hd). rewrite E. cbn [app].
      rewrite lex_value_digit by done. change (d :: r ++ rest) with ((d :: r) ++ rest).
      rewrite <- E, lex_number_repr_abs by (by right). simpl.
      do 4 f_equal. by apply float64_eq.
Qed.

Lemma repr_val_head v :
  exists c r, repr_val v = c :: r /\ is_ws c = false /\ c <> "}"%char.
Proof.
  destruct v as [[|p|p]|s|x]; cbn [repr_val str_of_int].
  - by eexists _, _.
  - pose proof (to_uint_nonnil p). destruct (Pos.to_uint p); [done|..]; by eexists _, _.
  - by eexists _, _.
  - unfold repr_str. destruct (choose_quote_cases s) as [-> | ->]; by eexists _, _.
  - unfold repr_float. destruct (f_neg x); [by eexists _, _|].
    destruct (repr_float_abs_head x) as (d & r & -> & Hd). exists d, r.
    split; [done|]. by apply digit_not_special.
Qed.

Lemma skip_ws_repr v rest : skip_ws (repr_val v ++ rest) = repr_val v ++ rest.
Proof.
  destruct (repr_val_head v) as (c & r & Hv & Hws & _). rewrite Hv. simpl. by rewrite Hws.
Qed.

Lemma skip_ws_colon_space X : skip_ws (lit ": " ++ X) = ":"%char :: " "%char :: X.
Proof. reflexivity. Qed.

Lemma skip_ws_space X : skip_ws (" "%char :: X) = skip_ws X.
Proof. reflexivity. Qed.

Lemma skip_ws_lbrace X : skip_ws ("{"%char :: X) = "{"%char :: X.
Proof. reflexivity. Qed.

Lemma skip_ws_comma_space X : skip_ws (lit ", " ++ X) = ","%char :: " "%char :: X.
Proof. reflexivity. Qed.

Lemma parse_entries_space fuel s : parse_entries fuel (" "%char :: s) = parse_entries fuel s.
Proof. destruct fuel; reflexivity. Qed.

(** One entry [k: v] followed by [Y], which starts with ',' or '}'. *)
Lemma parse_entries_entry fuel k v Y :
  value_end Y ->
  parse_entries (S fuel) (repr_val k ++ lit ": " ++ repr_val v ++ Y) =
    match skip_ws Y with
    | c3 :: r4 =>
        if bool_decide (c3 = ","%char) then
          (fun '(es, r5) => ((ELit k, ELit v) :: es, r5)) <$> parse_entries fuel r4
        else if bool_decide (c3 = "}"%char) then Some ([(ELit k, ELit v)], r4)
        else None
    | [] => None
    end.
Proof.
  intros HY. destruct (repr_val_head k) as (c & r & Hk & _ & Hnb).
  cbn [parse_entries]. rewrite skip_ws_repr. rewrite Hk at 1. cbn [app].
  rewrite bool_decide_false by done.
  change (c :: r ++ ?X) with ((c :: r) ++ X). rewrite <- Hk.
  rewrite lex_value_repr by (left; reflexivity). cbn beta iota.
  rewrite skip_ws_colon_space. cbn beta iota. rewrite bool_decide_true by done.
  rewrite skip_ws_space, skip_ws_repr, lex_value_repr by done. done.
Qed.

Lemma parse_entries_repr fuel d rest :
  (length d < fuel)%nat ->
  parse_entries fuel (repr_items d ++ "}"%char :: rest)
  = Some (map (fun kv => (ELit kv.1, ELit kv.2)) d, rest).
Proof.
  revert fuel. induction d as [|[k v] d IH]; intros fuel Hf;
    (destruct fuel as [|fuel]; [simpl in Hf; lia|]); [reflexivity|].
  destruct d as [|kv2 d].
  - cbn [repr_items]. rewrite <- !app_assoc. rewrite parse_entries_entry by (right; right; done).
    reflexivity.
  - change (repr_items ((k, v) :: kv2 :: d)) with
      (repr_val k ++ lit ": " ++ repr_val v ++ lit ", " ++ repr_items (kv2 :: d)).
    rewrite <- !app_assoc. rewrite parse_entries_entry by (right; left; done).
    rewrite skip_ws_comma_space. cbn beta iota. rewrite bool_decide_true by done.
    rewrite parse_entries_space, IH by (simpl in *; lia). done.
Qed.

Lemma eval_entries_lits d :
  eval_entries (map (fun kv => (ELit kv.1, ELit kv.2)) d) = Ok d.
Proof. induction d as [|[k v] d IH]; [done|]. simpl. by rewrite IH. Qed.

Lemma length_repr_items d : (length d <= length (repr_items d))%nat.
Proof.
  induction d as [|[k v] [|kv2 d] IH]; [simpl; lia|..];
    destruct (repr_val_head k) as (c & r & Hk & _); cbn [repr_items] in *;
    rewrite ?length_app, ?Hk in *; simpl in *; lia.
Qed.

(** The round trip, shared with the pipeline's theorems. *)
Lemma eval_repr_dict d :
  dict_wf d -> py_eval (repr_dict d) = Some (Ok (ODict d)).
Proof.
  intros Hwf. unfold py_eval, repr_dict. rewrite skip_ws_lbrace. cbn beta iota.
  rewrite bool_decide_false by done. rewrite bool_decide_true by done.
  rewrite parse_entries_repr by (rewrite length_app; pose proof (length_repr_items d); simpl; lia).
  rewrite bool_decide_true by done. cbn [pybind]. rewrite eval_entries_lits. simpl.
  rewrite dict_of_pairs_distinct by done. done.
Qed.

(** [str(d)] followed by any text determines [d] and the text: the
    parser reads exactly the dict back and stops at its closing brace. *)
Lemma repr_dict_prefix_unique e1 e2 r1 r2 :
  repr_dict e1 ++ r1 = repr_dict e2 ++ r2 -> e1 = e2 /\ r1 = r2.
Proof.
  unfold repr_dict. simpl. intros [= Heq]. rewrite <- !app_assoc in Heq. simpl in Heq.
  set (N := length (repr_items e1 ++ "}"%char :: r1)).
  assert (P1 : parse_entries (S N) (repr_items e1 ++ "}"%char :: r1)
               = Some (map (fun kv => (ELit kv.1, ELit kv.2)) e1, r1)).
  { apply parse_entries_repr. pose proof (length_repr_items e1).
    subst N. rewrite length_app. simpl. lia. }
  assert (P2 : parse_entries (S N) (repr_items e2 ++ "}"%char :: r2)
               = Some (map (fun kv => (ELit kv.1, ELit kv.2)) e2, r2)).
  { apply parse_entries_repr. pose proof (length_repr_items e2).
    subst N. rewrite Heq, length_app. simpl. lia. }
  rewrite Heq, P2 in P1. injection P1 as Hm ->. split; [|done]. clear Heq P2 N.
  revert e2 Hm. induction e1 as [|[k v] e1 IH]; intros [|[k' v'] e2] Hm;
    simpl in Hm; try discriminate; [done|].
  injection Hm as -> -> Hm. f_equal. by apply IH.
Qed.

(** ** Set displays *)

Lemma parse_elems_space fuel s : parse_elems fuel (" "%char :: s) = parse_elems fuel s.
Proof. destruct fuel; reflexivity. Qed.

(** One element [v] followed by [Y], which starts with ',' or '}'. *)
Lemma parse_elems_elem fuel v Y :
  value_end Y ->
  parse_elems (S fuel) (repr_val v ++ Y) =
    match skip_ws Y with
    | c1 :: r2 =>
        if bool_decide (c1 = ","%char) then
          (fun '(vs, r3) => (ELit v :: vs, r3)) <$> parse_elems fuel r2
        else if bool_decide (c1 = "}"%char) then Some ([ELit v], r2)
        else None
    | [] => None
    end.
Proof.
  intros HY. destruct (repr_val_head v) as (c & r & Hv & _ & Hnb).
  cbn [parse_elems]. rewrite skip_ws_repr. rewrite Hv at 1. cbn [app].
  rewrite bool_decide_false by done.
  change (c :: r ++ ?X) with ((c :: r) ++ X). rewrite <- Hv.
  rewrite lex_value_repr by done. reflexivity.
Qed.

Lemma parse_elems_repr fuel vs rest :
  vs <> [] -> (length vs < fuel)%nat ->
  parse_elems fuel (repr_elems vs ++ "}"%char :: rest) = Some (map ELit vs, rest).
Proof.
  revert fuel. induction vs as [|v vs IH]; intros fuel Hne Hf; [done|].
  destruct fuel as [|fuel]; [simpl in Hf; lia|].
  destruct vs as [|v2 vs].
  - cbn [repr_elems]. rewrite parse_elems_elem by (right; right; done). reflexivity.
  - change (repr_elems (v :: v2 :: vs)) with (repr_val v ++ lit ", " ++ repr_elems (v2 :: vs)).
    rewrite <- !app_assoc. rewrite parse_elems_elem by (right; left; done).
    rewrite skip_ws_comma_space. cbn beta iota. rewrite bool_decide_true by done.
    rewrite parse_elems_space, IH by (done || (simpl in *; lia)). done.
Qed.

(** A set display is not a dict display: the first element is not
    followed by ':'. *)
Lemma parse_entries_set fuel vs rest :
  vs <> [] -> parse_entries fuel (repr_elems vs ++ "}"%char :: rest) = None.
Proof.
  intros Hne. destruct fuel as [|fuel]; [done|]. destruct vs as [|v vs]; [done|].
  assert (HY : exists Y, repr_elems (v :: vs) ++ "}"%char :: rest = repr_val v ++ Y /\
                         value_end Y /\ head (skip_ws Y) <> Some ":"%char).
  { destruct vs as [|v2 vs].
    - exists ("}"%char :: rest). split_and!; [done|right; right; done|done].
    - eexists. split; [cbn [repr_elems]; by rewrite <- !app_assoc|].
      split; [right; left; done|done]. }
  destruct HY as (Y & -> & HY & Hc). destruct (repr_val_head v) as (c & r & Hv & _ & Hnb).
  cbn [parse_entries]. rewrite skip_ws_repr. rewrite Hv at 1. cbn [app].
  rewrite bool_decide_false by done.
  change (c :: r ++ ?X) with ((c :: r) ++ X). rewrite <- Hv.
  rewrite lex_value_repr by done. cbn beta iota.
  destruct (skip_ws Y) as [|c1 r2]; [done|]. rewrite bool_decide_false; [done|].
  intros ->. by apply Hc.
Qed.

Lemma eval_elems_lits vs : eval_elems (map ELit vs) = Ok vs.
Proof. induction vs as [|v vs IH]; [done|]. simpl. by rewrite IH. Qed.

Lemma length_repr_elems vs : (length vs <= length (repr_elems vs))%nat.
Proof.
  induction vs as [|v [|v2 vs] IH]; [simpl; lia|..];
    destruct (repr_val_head v) as (c & r & Hv & _); cbn [repr_elems] in *;
    rewrite ?length_app, ?Hv in *; simpl in *; lia.
Qed.

(** [eval] of a non-empty set display of literals is the set. *)
Lemma py_eval_repr_set vs :
  vs <> [] ->
  py_eval ("{"%char :: repr_elems vs ++ ["}"%char]) = Some (Ok (OSet (first_occ [] vs))).
Proof.
  intros Hne. unfold py_eval. rewrite skip_ws_lbrace. cbn beta iota.
  rewrite bool_decide_false by done. rewrite bool_decide_true by done.
  rewrite parse_entries_set by done.
  rewrite parse_elems_repr by (done || (rewrite length_app; pose proof (length_repr_elems vs); simpl; lia)).
  rewrite bool_decide_true by done. cbn [pybind]. by rewrite eval_elems_lits.
Qed.

(** ** The parser's fuel is enough *)

Lemma span_ident_split s : (span_ident s).1 ++ (span_ident s).2 = s.
Proof.
  induction s as [|c s IH]; [done|]. simpl.
  destruct (is_ident_start c || _); simpl; [by rewrite IH|done].
Qed.

Lemma skip_ws_length s : (length (skip_ws s) <= length s)%nat.
Proof. induction s as [|c s IH]; simpl; [lia|]. destruct (is_ws c); simpl; lia. Qed.

Lemma lex_str_shorter q n s b r :
  (length s <= n)%nat -> lex_str q s = Some (b, r) -> (length r < length s)%nat.
Proof.
  revert s b r. induction n as [|n IH]; intros s b r Hl Hs;
    (destruct s as [|c s1]; [done|]); simpl in Hl; [lia|].
  cbn [lex_str] in Hs. repeat (case_match; simplify_eq/=; try done; try lia);
    apply fmap_Some in Hs as ([b' r'] & Hs & Heq); unfold cons_fst in Heq; simplify_eq/=;
    apply IH in Hs; simpl in *; lia.
Qed.

Lemma lex_value_shorter s v r : lex_value s = Some (v, r) -> (length r < length s)%nat.
Proof.
  destruct s as [|c s']; [done|]. unfold lex_value.
  destruct (bool_decide (c = SQ) || bool_decide (c = DQ)).
  { intros H. apply fmap_Some in H as ([b r'] & H & [= _ <-]).
    apply (lex_str_shorter _ (length s')) in H; simpl; lia. }
  destruct (bool_decide (c = "-"%char)).
  { intros H. apply fmap_Some in H as ([z r'] & H & [= _ <-]).
    apply lex_number_shorter in H; simpl; lia. }
  destruct (bool_decide (c = "+"%char)).
  { intros H. apply fmap_Some in H as ([z r'] & H & [= _ <-]).
    apply lex_number_shorter in H; simpl; lia. }
  destruct (is_digit c || bool_decide (c = "."%char)).
  { intros H. apply fmap_Some in H as ([z r'] & H & [= _ <-]). by apply lex_number_shorter in H. }
  destruct (is_ident_start c) eqn:Hc; [|done].
  destruct (span_ident (c :: s')) as [name r'] eqn:E. case_decide; [|done].
  intros [= _ <-].
  pose proof (span_ident_split (c :: s')) as Hs. rewrite E in Hs. simpl in Hs.
  assert (Hn : name <> []).
  { simpl in E. rewrite Hc in E. unfold cons_fst in E. simpl in E. by injection E as <- _. }
  apply (f_equal length) in Hs. rewrite length_app in Hs.
  destruct name; [done|]. simpl in *. lia.
Qed.

(** What one entry or element consumes: the rest after it is shorter. *)
Local Ltac consumed :=
  repeat match goal with
  | E : skip_ws ?s = ?l |- _ =>
      let H := fresh in pose proof (skip_ws_length s) as H; rewrite E in H; clear E
  | E : lex_value ?s = Some (_, _) |- _ =>
      let H := fresh in pose proof (lex_value_shorter _ _ _ E) as H; clear E
  end; simpl in *; lia.

Lemma parse_entries_fuel_eq f1 f2 s :
  (length s < f1)%nat -> (length s < f2)%nat -> parse_entries f1 s = parse_entries f2 s.
Proof.
  revert f2 s. induction f1 as [|f1 IH]; intros [|f2] s H1 H2; try lia. cbn [parse_entries].
  destruct (skip_ws s) as [|c r] eqn:E0; [done|]. case_bool_decide; [done|].
  destruct (lex_value (c :: r)) as [[k r1]|] eqn:E1; [|done].
  destruct (skip_ws r1) as [|c1 r2] eqn:E2; [done|]. case_bool_decide; [|done].
  destruct (lex_value (skip_ws r2)) as [[v r3]|] eqn:E3; [|done].
  destruct (skip_ws r3) as [|c3 r4] eqn:E4; [done|]. case_bool_decide; [|done].
  pose proof (skip_ws_length r2) as Hr2.
  rewrite (IH f2 r4); [done|consumed..].
Qed.

Lemma parse_elems_fuel_eq f1 f2 s :
  (length s < f1)%nat -> (length s < f2)%nat -> parse_elems f1 s = parse_elems f2 s.
Proof.
  revert f2 s. induction f1 as [|f1 IH]; intros [|f2] s H1 H2; try lia. cbn [parse_elems].
  destruct (skip_ws s) as [|c r] eqn:E0; [done|]. case_bool_decide; [done|].
  destruct (lex_value (c :: r)) as [[v r1]|] eqn:E1; [|done].
  destruct (skip_ws r1) as [|c1 r2] eqn:E2; [done|]. case_bool_decide; [|done].
  rewrite (IH f2 r2); [done|consumed..].
Qed.

(** ** JSON words in a reply *)

Lemma lex_value_json_word w rest :
  w ∈ json_words ->
  lex_value (skip_ws (w ++ "}"%char :: rest)) = Some (EName w, "}"%char :: rest).
Proof.
  unfold json_words. rewrite !elem_of_cons, elem_of_nil.
  intros [->|[->|[->|[]]]]; reflexivity.
Qed.

Lemma parse_entries_json_word fuel k w rest :
  w ∈ json_words ->
  parse_entries (S fuel) (repr_val k ++ lit ": " ++ w ++ "}"%char :: rest)
  = Some ([(ELit k, EName w)], rest).
Proof.
  intros Hw. destruct (repr_val_head k) as (c & r & Hk & _ & Hnb).
  cbn [parse_entries]. rewrite skip_ws_repr. rewrite Hk at 1. cbn [app].
  rewrite bool_decide_false by done.
  change (c :: r ++ ?X) with ((c :: r) ++ X). rewrite <- Hk.
  rewrite lex_value_repr by (left; reflexivity). cbn beta iota.
  rewrite skip_ws_colon_space. cbn beta iota. rewrite bool_decide_true by done.
  rewrite skip_ws_space, lex_value_json_word by done. reflexivity.
Qed.

Lemma json_word_no_brace w : w ∈ json_words -> "}"%char ∉ w.
Proof.
  unfold json_words. rewrite !elem_of_cons, elem_of_nil.
  intros [->|[->|[->|[]]]]; py_decide.
Qed.

(** [eval] of [{k: null}] (or [true], [false]) raises [NameError]. *)
Lemma py_eval_json_word k w :
  w ∈ json_words ->
  py_eval ("{"%char :: repr_val k ++ lit ": " ++ w ++ ["}"%char])
  = Some (Raise (NameError (lit "name '" ++ w ++ lit "' is not defined"))).
Proof.
  intros Hw. unfold py_eval. rewrite skip_ws_lbrace. cbn beta iota.
  rewrite bool_decide_false by done. rewrite bool_decide_true by done.
  rewrite parse_entries_json_word by done. reflexivity.
Qed.

(** ** The literal round trip *)

(** C5. What [str] writes for a dict of string and integer keys and
    values is read back by [eval] as the same dict: the text the prompt
    shows the model, if it is returned unchanged, evaluates to the
    expenses that were sent. *)
Theorem py_eval_repr_dict d :
  dict_wf d -> py_eval (repr_dict d) = Some (Ok (ODict d)).
Proof. apply eval_repr_dict. Qed.


(** Fuel adequacy of the parsers behind [eval]: any fuel above the
    length of the text gives the same answer, so [None] from [py_eval] always means text outside the
    fragment, never a search cut short. *)
Lemma py_eval_fuel_enough s fuel :
  (length s < fuel)%nat ->
  parse_entries fuel s = parse_entries (S (length s)) s /\
  parse_elems fuel s = parse_elems (S (length s)) s.
Proof.
  intros Hf. split; [apply parse_entries_fuel_eq|apply parse_elems_fuel_eq]; lia.
Qed.


(** The type of what [eval] returns on the fragment, whatever the
    text: a dict whose keys are distinct (a display that repeats a key
    keeps one entry), or a set without two equal elements, equality
    being Python's ([1] and [1.0] are one element); never a scalar. *)
Theorem py_eval_typed s o :
  py_eval s = Some (Ok o) ->
  match o with
  | ODict d => dict_wf d
  | OSet l => NoDup (map key_norm l)
  | OScalar _ => False
  end.
Proof.
  unfold py_eval. intros Hs. destruct (skip_ws s) as [|c r]; [done|].
  destruct (bool_decide (c = "}"%char)); [done|].
  destruct (bool_decide (c = "{"%char)); [|done].
  destruct (parse_entries _ r) as [[es rest]|].
  - destruct (bool_decide _); [|done]. injection Hs as Hs.
    apply pybind_Ok_inv in Hs as (vs & _ & [= <-]). apply dict_of_pairs_wf.
  - destruct (parse_elems _ r) as [[es rest]|]; [|done].
    destruct (bool_decide _); [|done]. injection Hs as Hs.
    apply pybind_Ok_inv in Hs as (vs & _ & [= <-]). apply (first_occ_nodup [] vs). constructor.
Qed.

End PyLiteral.

Module PyLiteralWitness.
Import PyLiteral.

(** A key that needs the other quote and a backslash, and a negative
    amount. *)
Definition tricky : pydict :=
  [(PyStr (lit "Rent"), PyInt 860); (PyStr (lit "Kids' toys\"), PyInt (-5));
   (PyInt 3, PyStr (lit "x"))].

Lemma repr_eval_witness :
  dict_wf tricky /\ py_eval (repr_dict tricky) = Some (Ok (ODict tricky)).
Proof. split; [py_decide|apply (py_eval_repr_dict tricky); py_decide]. Defined.

(** A display that repeats a key. *)
Lemma eval_typed_witness : dict_wf [(PyStr (lit "a"), PyInt 2)].
Proof.
  refine (py_eval_typed (lit "{'a': 1, 'a': 2}") (ODict [(PyStr (lit "a"), PyInt 2)]) _).
  vm_compute. reflexivity.
Defined.

End PyLiteralWitness.
