(* ===== verification/Service.v ===== *)
(** * Service: effects of a request and the interfaces of the libraries

    A request runs in the monad [io]: it threads the log of the prompts
    sent to the completion service (the only outbound effect of the
    program) and stops at the first exception, keeping the log.  The
    three collaborators the code only calls are interfaces:
    - [CompletionService]: [HuggingFaceEndpoint.invoke]; a reply may
      depend on the endpoint, on how many calls came before (sampling at
      temperature 0.5 is not deterministic) and on the prompt, and may be
      an exception (network, authentication, quota);
    - [PandasReader]: [pd.read_csv], with the law that it agrees with
      [Ingest.read_table] on the tables it models;
    - [PythonEval]: [eval], with the law that it agrees with
      [PyLiteral.py_eval] on the fragment that model covers.
    Theorems about the pipeline are proved for every instance. *)

From S2P Require Import Prelude PyCore PyDict Ingest PyLiteral.
From Stdlib Require Import QArith_base.

(** ** The request monad *)

Definition io (A : Type) : Type := list pystr -> pyres A * list pystr.

#[export] Instance io_ret : MRet io := fun A a log => (Ok a, log).

#[export] Instance io_bind : MBind io := fun A B k c log =>
  match c log with
  | (Ok a, log') => k a log'
  | (Raise e, log') => (Raise e, log')
  end.

(** Code that raises without any outbound call. *)
Definition io_lift {A} (r : pyres A) : io A := fun log => (r, log).

(** [try: c / except Exception as e: h(e)], with [ok] run on success. *)
Definition io_try {A B} (c : io A) (ok : A -> B) (h : pyexc -> B) : io B :=
  fun log => match c log with
             | (Ok a, log') => (Ok (ok a), log')
             | (Raise e, log') => (Ok (h e), log')
             end.

Lemma io_bind_run {A B} (c : io A) (k : A -> io B) log :
  (c ≫= k) log = match c log with
                 | (Ok a, log') => k a log'
                 | (Raise e, log') => (Raise e, log')
                 end.
Proof. reflexivity. Qed.

Lemma io_ret_run {A} (a : A) log : (mret a : io A) log = (Ok a, log).
Proof. reflexivity. Qed.

Lemma io_lift_run {A} (r : pyres A) log : io_lift r log = (r, log).
Proof. reflexivity. Qed.

#[export] Hint Rewrite @io_bind_run @io_ret_run @io_lift_run : pyrw.

(** ** The completion service *)

(** [HuggingFaceEndpoint(repo_id=..., huggingfacehub_api_token=...,
    max_new_tokens=100, temperature=0.5)]. *)
Record endpoint := HuggingFaceEndpoint {
  repo_id : option pystr;
  api_token : option pystr;
  max_new_tokens : nat;
  temperature : Q
}.

Class CompletionService := {
  (** The reply to the [n]-th call of a request with this prompt. *)
  complete : endpoint -> nat -> pystr -> pyres pystr
}.

(** [hub_llm.invoke(prompt)]: the prompt is logged, then the reply (or
    the exception) is returned. *)
Definition invoke_llm `{CompletionService} (ep : endpoint) (prompt : pystr) : io pystr :=
  fun log => (complete ep (length log) prompt, log ++ [prompt]).

(** ** pandas and [eval] *)

Class PandasReader := {
  read_csv : pystr -> pyres Ingest.dataframe;
  read_csv_table : forall t r, Ingest.read_table t = Some r -> read_csv t = r
}.

Class PythonEval := {
  eval : pystr -> pyres pyobj;
  eval_fragment : forall s r, PyLiteral.py_eval s = Some r -> eval s = r
}.

Lemma invoke_llm_run `{CompletionService} ep prompt log :
  invoke_llm ep prompt log = (complete ep (length log) prompt, log ++ [prompt]).
Proof. reflexivity. Qed.

Lemma io_try_run {A B} (c : io A) (ok : A -> B) (h : pyexc -> B) log :
  io_try c ok h log = match c log with
                      | (Ok a, log') => (Ok (ok a), log')
                      | (Raise e, log') => (Ok (h e), log')
                      end.
Proof. reflexivity. Qed.
