(* ===== verification/Calculator.v ===== *)
(** * Calculator: [ExpenseCalculator] (src/expensecalculator.py)

    [__init__] builds the endpoint (repo id and token from the caller,
    [max_new_tokens=100], [temperature=0.5]) and the prompt template;
    [calculate_expenses] formats the template with [str] of the expense
    dict, of the savings goal and the excluded category, sends it to the
    endpoint and extracts the first brace span of the reply;
    [extract_adjusted_expenses] composes [parse_csv_to_expenses],
    [calculate_expenses], [eval] and [save_expenses_to_csv].  The
    Section [WithServices] takes the completion service, pandas and
    [eval] as the interfaces of [Service]; every theorem holds for all of
    their instances. *)

From S2P Require Import Prelude PyCore PyDict Extract CsvWriter Ingest PyLiteral Service.
From Stdlib Require Import QArith_base.
Local Open Scope Z_scope.

Module Calculator.

(** A piece of the template: literal text or one of its three fields. *)
Inductive tseg : Type :=
| TLit (s : pystr)
| TExpenses
| TSavingsGoal
| TExcluded.

Definition LF : ascii := "010"%char.

(** The [template] string of [__init__], with its line breaks and its
    twelve-space indentation. *)
Definition prompt_template : list tseg := [
  TLit ([LF] ++ lit "            Create a savings plan based on monthly expenses where the user wants to save a specified percentage of their total expenses, excluding ");
  TExcluded;
  TLit (lit " from adjustment but including it in the total expense calculation." ++ [LF] ++ [LF] ++ lit "            Given:" ++ [LF] ++ [LF] ++ lit "            Monthly expenses: ");
  TExpenses;
  TLit ([LF] ++ lit "            Savings goal: ");
  TSavingsGoal;
  TLit (lit "%" ++ [LF] ++ lit "            Calculate:" ++ [LF] ++ [LF] ++ lit "            The total amount the user should save per month." ++ [LF] ++ lit "            Adjust the expenses proportionally, excluding ");
  TExcluded;
  TLit (lit ", to meet the savings goal." ++ [LF] ++ lit "            Provide the updated expenses in JSON format after adjustment." ++ [LF] ++ [LF] ++ lit "            Example:" ++ [LF] ++ lit "            If expenses are:" ++ [LF] ++ lit "            ");
  TExpenses;
  TLit ([LF] ++ lit "            And the savings goal is ");
  TSavingsGoal;
  TLit (lit "%, the adjusted expenses should reflect proportional reductions in the expenses categories while ");
  TExcluded;
  TLit (lit " remain unchanged in the JSON format." ++ [LF] ++ [LF] ++ lit "            The updated expenses as follows:" ++ [LF] ++ lit "            ")
].

(** [PromptTemplate.format]: each field is replaced by [str] of its
    value; [str] of a dict is its [repr]. *)
Definition format_prompt (t : list tseg) (expenses : pydict) (savings_goal : Z)
    (excluded_categories : pystr) : pystr :=
  t ≫= fun seg =>
    match seg with
    | TLit s => s
    | TExpenses => PyLiteral.repr_dict expenses
    | TSavingsGoal => str_of_int savings_goal
    | TExcluded => excluded_categories
    end.

Record expense_calculator := ExpenseCalculator {
  model_name : option pystr;
  huggingfacehub_api_token : option pystr;
  hub_llm : endpoint;
  prompt : list tseg
}.

(** [ExpenseCalculator.__init__]. *)
Definition init (model_name token : option pystr) : expense_calculator :=
  ExpenseCalculator model_name token
    (HuggingFaceEndpoint model_name token 100 (1 # 2)) prompt_template.

Section WithServices.
Context `{CompletionService} `{PandasReader} `{PythonEval}.

(** [calculate_expenses]: [(self.prompt | self.hub_llm).invoke({...})],
    then [Utils.extract_expenses_string]. *)
Definition calculate_expenses (self : expense_calculator) (expenses : pydict)
    (savings_goal : Z) (excluded_categories : pystr) : io pystr :=
  response ← invoke_llm (hub_llm self)
               (format_prompt (prompt self) expenses savings_goal excluded_categories);
  mret (Extractor.extract_expenses_string response).

(** [extract_adjusted_expenses]. *)
Definition extract_adjusted_expenses (self : expense_calculator) (csv_file : pystr)
    (savings_goal : Z) (excluded_categories : pystr) : io CsvWriter.bytesio :=
  expenses ← io_lift (Ingest.parse_csv_to_expenses read_csv csv_file);
  adjusted_expenses_str ← calculate_expenses self expenses savings_goal excluded_categories;
  adjusted_expenses_dict ← io_lift (eval adjusted_expenses_str);
  io_lift (CsvWriter.save_expenses_to_csv adjusted_expenses_dict).

(** The outcome of a request once the model has replied, written as a
    plain function of the reply. *)
Definition adjusted_from_reply (reply : pyres pystr) : pyres CsvWriter.bytesio :=
  r <- reply ;;
  o <- eval (Extractor.extract_expenses_string r) ;;
  CsvWriter.save_expenses_to_csv o.

Lemma run_extract_adjusted self csv_file g excl log :
  extract_adjusted_expenses self csv_file g excl log =
  match Ingest.parse_csv_to_expenses read_csv csv_file with
  | Raise e => (Raise e, log)
  | Ok expenses =>
      let p := format_prompt (prompt self) expenses g excl in
      (adjusted_from_reply (complete (hub_llm self) (length log) p), log ++ [p])
  end.
Proof.
  unfold extract_adjusted_expenses, calculate_expenses, adjusted_from_reply.
  rewrite io_bind_run, io_lift_run.
  destruct (Ingest.parse_csv_to_expenses _ _) as [expenses|e]; [|done].
  rewrite !io_bind_run, invoke_llm_run. cbn zeta.
  destruct (complete _ _ _) as [r|e]; [|done].
  rewrite io_ret_run, io_bind_run, io_lift_run. simpl.
  destruct (eval _); reflexivity.
Qed.

(** A reply that contains [repr] of a dict, with no '{' before it and no
    '}' inside it, is read as that dict. *)
Lemma adjusted_reply_dict pre d post :
  "{"%char ∉ pre -> "}"%char ∉ PyLiteral.repr_items d -> dict_wf d ->
  adjusted_from_reply (Ok (pre ++ PyLiteral.repr_dict d ++ post))
  = CsvWriter.save_expenses_to_csv (ODict d).
Proof.
  intros Hpre Hitems Hwf. unfold adjusted_from_reply. cbn [pybind].
  unfold PyLiteral.repr_dict at 1. simpl. rewrite <- app_assoc. simpl.
  rewrite Extractor.extract_span by done.
  rewrite (eval_fragment _ _ (PyLiteral.eval_repr_dict d Hwf)). done.
Qed.

(** A reply without '{' extracts to the empty text or to "}", which
    [eval] rejects with a [SyntaxError]. *)
Lemma adjusted_no_brace reply :
  "{"%char ∉ reply -> exists msg, adjusted_from_reply (Ok reply) = Raise (SyntaxError msg).
Proof.
  intros Hn. unfold adjusted_from_reply. cbn [pybind].
  rewrite Extractor.extract_without_open by done. case_decide.
  - rewrite (eval_fragment _ _ (eq_refl : PyLiteral.py_eval ["}"%char] = _)). by eexists.
  - rewrite (eval_fragment _ _ (eq_refl : PyLiteral.py_eval [] = _)). by eexists.
Qed.

(** A reply whose first brace span is [{k: null}] (or [true], [false])
    makes [eval] raise [NameError]. *)
Lemma adjusted_json_word pre k w post :
  "{"%char ∉ pre -> "}"%char ∉ PyLiteral.repr_val k -> w ∈ PyLiteral.json_words ->
  adjusted_from_reply (Ok (pre ++ "{"%char :: PyLiteral.repr_val k ++ lit ": " ++ w ++
                           "}"%char :: post))
  = Raise (NameError (lit "name '" ++ w ++ lit "' is not defined")).
Proof.
  intros Hpre Hk Hw. unfold adjusted_from_reply. cbn [pybind].
  replace (PyLiteral.repr_val k ++ lit ": " ++ w ++ "}"%char :: post)
    with ((PyLiteral.repr_val k ++ lit ": " ++ w) ++ "}"%char :: post)
    by (by rewrite <- !app_assoc).
  rewrite Extractor.extract_span; [|done|].
  - rewrite <- !app_assoc. by rewrite (eval_fragment _ _ (PyLiteral.py_eval_json_word k w Hw)).
  - pose proof (PyLiteral.json_word_no_brace w Hw).
    rewrite !elem_of_app. intros [?|[Hc|?]]; [done|revert Hc; py_decide|done].
Qed.

(** A reply whose first brace span is a set display: [eval] gives a
    set, which has no [.items()]. *)
Lemma adjusted_set pre vs post :
  "{"%char ∉ pre -> "}"%char ∉ PyLiteral.repr_elems vs -> vs <> [] ->
  adjusted_from_reply (Ok (pre ++ "{"%char :: PyLiteral.repr_elems vs ++ "}"%char :: post))
  = Raise (AttributeError (lit "'set' object has no attribute 'items'")).
Proof.
  intros Hpre Hvs Hne. unfold adjusted_from_reply. cbn [pybind].
  rewrite Extractor.extract_span by done.
  by rewrite (eval_fragment _ _ (PyLiteral.py_eval_repr_set vs Hne)).
Qed.

(** ** Properties of the calculator *)

(** C2. When the model's reply contains a dict written as Python writes
    it (no '{' before it, no '}' inside its keys and values), the
    request returns exactly the CSV of that dict, after one call. *)
Theorem extract_adjusted_expenses_reply_dict self csv_file g excl log expenses pre d post :
  Ingest.parse_csv_to_expenses read_csv csv_file = Ok expenses ->
  complete (hub_llm self) (length log) (format_prompt (prompt self) expenses g excl)
    = Ok (pre ++ PyLiteral.repr_dict d ++ post) ->
  "{"%char ∉ pre -> "}"%char ∉ PyLiteral.repr_items d -> dict_wf d ->
  extract_adjusted_expenses self csv_file g excl log
  = (CsvWriter.save_expenses_to_csv (ODict d),
     log ++ [format_prompt (prompt self) expenses g excl]).
Proof.
  intros Hcsv Hreply Hpre Hitems Hwf.
  rewrite run_extract_adjusted, Hcsv. cbn zeta. rewrite Hreply.
  by rewrite adjusted_reply_dict.
Qed.

(** C18. The prompt asks for JSON, but the reply is read with [eval]: a
    reply whose first brace span is [{k: null}] (or [true], [false], as
    JSON writes them) fails with [NameError], after one call. *)
Theorem extract_adjusted_expenses_json_word self csv_file g excl log expenses pre k w post :
  Ingest.parse_csv_to_expenses read_csv csv_file = Ok expenses ->
  complete (hub_llm self) (length log) (format_prompt (prompt self) expenses g excl)
    = Ok (pre ++ "{"%char :: PyLiteral.repr_val k ++ lit ": " ++ w ++ "}"%char :: post) ->
  "{"%char ∉ pre -> "}"%char ∉ PyLiteral.repr_val k -> w ∈ PyLiteral.json_words ->
  extract_adjusted_expenses self csv_file g excl log
  = (Raise (NameError (lit "name '" ++ w ++ lit "' is not defined")),
     log ++ [format_prompt (prompt self) expenses g excl]).
Proof.
  intros Hcsv Hreply Hpre Hk Hw. rewrite run_extract_adjusted, Hcsv. cbn zeta.
  rewrite Hreply. by rewrite adjusted_json_word.
Qed.

(** The extractor cuts [str(d)] short at a '}' inside an item. *)
Lemma extract_repr_dict_cut pre d post :
  "{"%char ∉ pre -> "}"%char ∈ PyLiteral.repr_items d ->
  Extractor.extract_expenses_string (pre ++ PyLiteral.repr_dict d ++ post)
  <> PyLiteral.repr_dict d.
Proof.
  intros Hpre Hin.
  destruct (split_at_char "}"%char (PyLiteral.repr_items d)) as [[b' a']|] eqn:Hs;
    [|by apply split_at_char_None in Hs].
  apply split_at_char_Some in Hs as [Hs Hb'].
  unfold PyLiteral.repr_dict. rewrite Hs. simpl. rewrite <- !app_assoc. simpl.
  rewrite Extractor.extract_span by done. intros Heq.
  apply (f_equal length) in Heq.
  repeat (progress (simpl in Heq) || rewrite length_app in Heq). lia.
Qed.

(** C17. A category name (or a string amount) that contains '}' makes
    [calculate_expenses] return a cut-down text, even when the model
    replies with exactly the dict [str] wrote: the extractor takes the
    first '}' after '{' as the end. *)
Theorem calculate_expenses_brace_in_key self expenses g excl log pre d post :
  complete (hub_llm self) (length log) (format_prompt (prompt self) expenses g excl)
    = Ok (pre ++ PyLiteral.repr_dict d ++ post) ->
  "{"%char ∉ pre -> "}"%char ∈ PyLiteral.repr_items d ->
  fst (calculate_expenses self expenses g excl log) <> Ok (PyLiteral.repr_dict d).
Proof.
  intros Hc Hpre Hin. unfold calculate_expenses.
  rewrite io_bind_run, invoke_llm_run, Hc. intros [= Heq].
  by apply (extract_repr_dict_cut pre d post).
Qed.

(** C24. A reply whose first brace span is a set display (amounts
    without categories, [{860, 500}]) evaluates to a set, and the emitter
    fails with [AttributeError: 'set' object has no attribute 'items'],
    after one call. *)
Theorem extract_adjusted_expenses_set_reply self csv_file g excl log expenses pre vs post :
  Ingest.parse_csv_to_expenses read_csv csv_file = Ok expenses ->
  complete (hub_llm self) (length log) (format_prompt (prompt self) expenses g excl)
    = Ok (pre ++ "{"%char :: PyLiteral.repr_elems vs ++ "}"%char :: post) ->
  "{"%char ∉ pre -> "}"%char ∉ PyLiteral.repr_elems vs -> vs <> [] ->
  extract_adjusted_expenses self csv_file g excl log
  = (Raise (AttributeError (lit "'set' object has no attribute 'items'")),
     log ++ [format_prompt (prompt self) expenses g excl]).
Proof.
  intros Hcsv Hreply Hpre Hvs Hne. rewrite run_extract_adjusted, Hcsv. cbn zeta.
  rewrite Hreply. by rewrite adjusted_set.
Qed.

End WithServices.

(** C23. For a fixed excluded category, the prompt determines the
    expense dict and the savings goal: two calls that send the same prompt
    were given the same column sums and the same goal, so the model is
    told exactly what was parsed. *)
Theorem format_prompt_determines e1 e2 g1 g2 x :
  format_prompt prompt_template e1 g1 x = format_prompt prompt_template e2 g2 x ->
  e1 = e2 /\ g1 = g2.
Proof.
  unfold format_prompt, prompt_template. rewrite !bind_cons. cbn beta iota.
  rewrite <- !app_assoc. intros H. repeat apply app_inv_head in H.
  apply PyLiteral.repr_dict_prefix_unique in H as [-> H]. split; [done|].
  repeat apply app_inv_head in H. change (lit "%") with ["%"%char] in H. cbn [app] in H.
  by apply (str_of_int_prefix_unique "%"%char) in H as [-> _].
Qed.

End Calculator.
