(* ===== verification/App.v ===== *)
(** * App: the Flask endpoint [/calculate_expenses] (src/app.py)

    At start-up the module reads [HUGGINGFACEHUB_API_TOKEN] and
    [MODEL_NAME] from the environment and builds one [ExpenseCalculator]
    ([startup]).  The handler [calculate_expenses] checks that a
    [csv_file] was uploaded (400 "CSV file not provided"), reads the
    [savings_goal] field with [type=int] and the [excluded_categories]
    field, answers 400 "Invalid input" when the goal is missing or not an
    integer (a numeral of more than 4300 digits included: [int] raises)
    or the category is missing or empty, and otherwise runs
    [extract_adjusted_expenses] inside [try]: the CSV file as an
    attachment on success, 500 with [str(e)] on any exception.  Requests
    are MultiDicts: [get] returns the first value of a key. *)

From S2P Require Import Prelude PyCore PyDict Extract CsvWriter Ingest PyLiteral Service Calculator.
Local Open Scope Z_scope.

Module App.

(** A multipart request: its file parts and its form fields, in order. *)
Record request := Request {
  files : list (pystr * pystr);
  form : list (pystr * pystr)
}.

(** What the handler returns: [send_file(...)] or [jsonify({...}), status]. *)
Inductive response : Type :=
| FileResponse (data : CsvWriter.bytesio) (mimetype download_name : pystr)
    (as_attachment : bool) (status : nat)
| JsonResponse (error : pystr) (status : nat).

(** The status code of a response. *)
Definition status (r : response) : nat :=
  match r with FileResponse _ _ _ _ s | JsonResponse _ s => s end.

(** [MultiDict.get(key)]. *)
Fixpoint md_get (md : list (pystr * pystr)) (k : pystr) : option pystr :=
  match md with
  | [] => None
  | (k', v) :: md' => if decide (k = k') then Some v else md_get md' k
  end.

(** [form.get(key, type=int)]: [None] when the key is absent or [int]
    raises [ValueError]. *)
Definition form_get_int (md : list (pystr * pystr)) (k : pystr) : option Z :=
  md_get md k ≫= py_int.

(** The process environment read at start-up. *)
Record environ := Environ {
  HUGGINGFACEHUB_API_TOKEN : option pystr;
  MODEL_NAME : option pystr
}.

(** Module level of app.py: [os.getenv] twice, then the calculator. *)
Definition startup (env : environ) : Calculator.expense_calculator :=
  let huggingfacehub_api_token := HUGGINGFACEHUB_API_TOKEN env in
  let model_name := MODEL_NAME env in
  Calculator.init model_name huggingfacehub_api_token.


Section Handler.
Context `{CompletionService} `{PandasReader} `{PythonEval}.

(** The view function of [@app.route('/calculate_expenses')]. *)
Definition calculate_expenses (expense_calculator : Calculator.expense_calculator)
    (req : request) : io response :=
  match md_get (files req) (lit "csv_file") with
  | None => mret (JsonResponse (lit "CSV file not provided") 400)
  | Some csv_file =>
      let savings_goal := form_get_int (form req) (lit "savings_goal") in
      let excluded_categories := md_get (form req) (lit "excluded_categories") in
      match savings_goal, excluded_categories with
      | Some g, Some (c :: cs) =>
          io_try (Calculator.extract_adjusted_expenses expense_calculator csv_file g (c :: cs))
            (fun csv_output =>
               FileResponse csv_output (lit "text/csv") (lit "adjusted_expenses.csv") true 200)
            (fun e => JsonResponse (exc_str e) 500)
      | _, _ => mret (JsonResponse (lit "Invalid input") 400)
      end
  end.

(** A request that passes validation runs the calculator inside [try]. *)
Lemma run_valid ec req log csv_file g excl :
  md_get (files req) (lit "csv_file") = Some csv_file ->
  form_get_int (form req) (lit "savings_goal") = Some g ->
  md_get (form req) (lit "excluded_categories") = Some excl -> excl <> [] ->
  calculate_expenses ec req log =
    match Calculator.extract_adjusted_expenses ec csv_file g excl log with
    | (Ok out, log') =>
        (Ok (FileResponse out (lit "text/csv") (lit "adjusted_expenses.csv") true 200), log')
    | (Raise e, log') => (Ok (JsonResponse (exc_str e) 500), log')
    end.
Proof.
  intros Hf Hg He Hne. unfold calculate_expenses. rewrite Hf, Hg, He.
  destruct excl as [|c cs]; [done|]. apply io_try_run.
Qed.

(** ** Properties of the endpoint *)

(** C12. Without a [csv_file] part the handler answers 400 "CSV file
    not provided" and sends nothing to the completion service. *)
Theorem calculate_expenses_no_file ec req log :
  md_get (files req) (lit "csv_file") = None ->
  calculate_expenses ec req log = (Ok (JsonResponse (lit "CSV file not provided") 400), log).
Proof. intros Hf. unfold calculate_expenses. by rewrite Hf. Qed.

(** C11. With a file but a savings goal that is missing or not an
    integer, or an excluded category that is missing or empty, the
    handler answers 400 "Invalid input" and sends nothing. *)
Theorem calculate_expenses_invalid_input ec req log csv_file :
  md_get (files req) (lit "csv_file") = Some csv_file ->
  (form_get_int (form req) (lit "savings_goal") = None \/
   md_get (form req) (lit "excluded_categories") = None \/
   md_get (form req) (lit "excluded_categories") = Some []) ->
  calculate_expenses ec req log = (Ok (JsonResponse (lit "Invalid input") 400), log).
Proof.
  intros Hf Hinv. unfold calculate_expenses. rewrite Hf. cbv zeta.
  destruct Hinv as [-> | [-> | ->]]; [done|..];
    by destruct (form_get_int (form req) (lit "savings_goal")).
Qed.

(** C13. When the completion call fails, the handler answers 500 with
    the exception's message, after sending exactly that one prompt; no
    retry is made. *)
Theorem calculate_expenses_upstream_failure ec req log csv_file g excl expenses e :
  md_get (files req) (lit "csv_file") = Some csv_file ->
  form_get_int (form req) (lit "savings_goal") = Some g ->
  md_get (form req) (lit "excluded_categories") = Some excl -> excl <> [] ->
  Ingest.parse_csv_to_expenses read_csv csv_file = Ok expenses ->
  complete (Calculator.hub_llm ec) (length log)
    (Calculator.format_prompt (Calculator.prompt ec) expenses g excl) = Raise e ->
  calculate_expenses ec req log
  = (Ok (JsonResponse (exc_str e) 500),
     log ++ [Calculator.format_prompt (Calculator.prompt ec) expenses g excl]).
Proof.
  intros Hf Hg He Hne Hcsv Hllm. rewrite (run_valid ec req log csv_file g excl) by done.
  rewrite Calculator.run_extract_adjusted, Hcsv. cbv zeta. by rewrite Hllm.
Qed.


(** C14. A reply without '{' (the model answered in prose) is a
    malformed output: the handler answers 500 with the message of the
    [SyntaxError] that [eval] raises, after the one prompt. *)
Theorem calculate_expenses_malformed_reply ec req log csv_file g excl expenses reply :
  md_get (files req) (lit "csv_file") = Some csv_file ->
  form_get_int (form req) (lit "savings_goal") = Some g ->
  md_get (form req) (lit "excluded_categories") = Some excl -> excl <> [] ->
  Ingest.parse_csv_to_expenses read_csv csv_file = Ok expenses ->
  complete (Calculator.hub_llm ec) (length log)
    (Calculator.format_prompt (Calculator.prompt ec) expenses g excl) = Ok reply ->
  "{"%char ∉ reply ->
  exists msg, calculate_expenses ec req log
  = (Ok (JsonResponse (exc_str (SyntaxError msg)) 500),
     log ++ [Calculator.format_prompt (Calculator.prompt ec) expenses g excl]).
Proof.
  intros Hf Hg He Hne Hcsv Hreply Hn. rewrite (run_valid ec req log csv_file g excl) by done.
  rewrite Calculator.run_extract_adjusted, Hcsv. cbv zeta. rewrite Hreply.
  destruct (Calculator.adjusted_no_brace reply Hn) as [msg ->]. by eexists.
Qed.

End Handler.

End App.
