(* ===== verification/Scenario.v ===== *)
(** * Scenario: concrete runs of the service

    Instances of the three interfaces for concrete runs: a completion
    service that gives a scripted reply (or raises), the table
    model of [read_csv], and the [eval] fragment (any text outside it is
    answered with a [SyntaxError] here, which only these runs use).  With
    them, on the request of the spec's section 8 and variants of it: the
    witnesses of the theorems of [Calculator] and [App]. *)

From S2P Require Import Prelude PyCore PyDict Extract CsvWriter Ingest PyLiteral Service Calculator App.
Local Open Scope Z_scope.

Module Scenario.

Definition replying (reply : pyres pystr) : CompletionService :=
  {| complete := fun _ _ _ => reply |}.

Definition table_reader_fn (t : pystr) : pyres Ingest.dataframe :=
  match Ingest.read_table t with
  | Some r => r
  | None => Raise (ValueError (lit "outside the modelled tables"))
  end.

Lemma table_reader_law t r : Ingest.read_table t = Some r -> table_reader_fn t = r.
Proof. intros Ht. unfold table_reader_fn. by rewrite Ht. Qed.

Definition table_reader : PandasReader :=
  {| read_csv := table_reader_fn; read_csv_table := table_reader_law |}.

Definition fragment_eval_fn (s : pystr) : pyres pyobj :=
  match PyLiteral.py_eval s with
  | Some r => r
  | None => Raise (SyntaxError (lit "outside the modelled fragment"))
  end.

Lemma fragment_eval_law s r : PyLiteral.py_eval s = Some r -> fragment_eval_fn s = r.
Proof. intros Hs. unfold fragment_eval_fn. by rewrite Hs. Qed.

Definition fragment_eval : PythonEval :=
  {| eval := fragment_eval_fn; eval_fragment := fragment_eval_law |}.

(** ** The spec's scenario *)

Definition spec_env : App.environ :=
  App.Environ (Some (lit "hf_token")) (Some (lit "mistralai/Mistral-7B-Instruct-v0.2")).

Definition spec_csv : pystr :=
  lit "Rent,Food" ++ ["010"%char] ++ lit "1000,400" ++ ["010"%char] ++
  lit "200,100" ++ ["010"%char].

Definition spec_request : App.request :=
  App.Request [(lit "csv_file", spec_csv)]
              [(lit "savings_goal", lit "20"); (lit "excluded_categories", lit "Food")].

Definition spec_expenses : pydict :=
  [(PyStr (lit "Rent"), PyInt 1200); (PyStr (lit "Food"), PyInt 500)].

Definition spec_adjusted : pydict :=
  [(PyStr (lit "Rent"), PyInt 860); (PyStr (lit "Food"), PyInt 500)].

(** A reply of a model that did the arithmetic right, with prose around
    the mapping. *)
Definition spec_reply : pystr :=
  lit "Total: 1700. Savings (20%): 340. Adjusted: " ++ PyLiteral.repr_dict spec_adjusted ++
  lit " Food is unchanged.".

(** ** Witnesses *)

Lemma reply_dict_witness :
  @Calculator.extract_adjusted_expenses (replying (Ok spec_reply)) table_reader fragment_eval
    (App.startup spec_env) spec_csv 20 (lit "Food") []
  = (CsvWriter.save_expenses_to_csv (ODict spec_adjusted),
     [Calculator.format_prompt Calculator.prompt_template spec_expenses 20 (lit "Food")]).
Proof.
  refine (@Calculator.extract_adjusted_expenses_reply_dict (replying (Ok spec_reply))
            table_reader fragment_eval (App.startup spec_env) spec_csv 20 (lit "Food") []
            spec_expenses (lit "Total: 1700. Savings (20%): 340. Adjusted: ") spec_adjusted
            (lit " Food is unchanged.") _ _ _ _ _);
    [vm_compute; reflexivity|reflexivity|py_decide|py_decide|py_decide].
Defined.

Definition brace_key : pydict := [(PyStr (lit "Rent}"), PyInt 860)].

Definition brace_reply : pystr := lit "Here: " ++ PyLiteral.repr_dict brace_key.

Lemma brace_in_key_witness :
  fst (@Calculator.calculate_expenses (replying (Ok brace_reply)) (App.startup spec_env)
         [(PyStr (lit "Rent}"), PyInt 1000)] 20 (lit "Food") [])
  <> Ok (PyLiteral.repr_dict brace_key).
Proof.
  refine (@Calculator.calculate_expenses_brace_in_key (replying (Ok brace_reply))
            (App.startup spec_env) [(PyStr (lit "Rent}"), PyInt 1000)] 20 (lit "Food") []
            (lit "Here: ") brace_key [] _ _ _);
    [unfold brace_reply; rewrite app_nil_r; reflexivity|py_decide|py_decide].
Defined.

Lemma no_file_witness :
  @App.calculate_expenses (replying (Ok spec_reply)) table_reader fragment_eval
    (App.startup spec_env) (App.Request [] (App.form spec_request)) []
  = (Ok (App.JsonResponse (lit "CSV file not provided") 400), []).
Proof.
  refine (@App.calculate_expenses_no_file (replying (Ok spec_reply)) table_reader
            fragment_eval _ _ [] _); reflexivity.
Defined.

Lemma invalid_input_witness :
  @App.calculate_expenses (replying (Ok spec_reply)) table_reader fragment_eval
    (App.startup spec_env)
    (App.Request [(lit "csv_file", spec_csv)]
       [(lit "savings_goal", lit "twenty"); (lit "excluded_categories", lit "Food")]) []
  = (Ok (App.JsonResponse (lit "Invalid input") 400), []).
Proof.
  refine (@App.calculate_expenses_invalid_input (replying (Ok spec_reply)) table_reader
            fragment_eval _ _ [] spec_csv _ _); [reflexivity|left; vm_compute; reflexivity].
Defined.

Definition rate_limited : pyexc := ServiceError (lit "429 Too Many Requests").

Lemma upstream_failure_witness :
  @App.calculate_expenses (replying (Raise rate_limited)) table_reader fragment_eval
    (App.startup spec_env) spec_request []
  = (Ok (App.JsonResponse (exc_str rate_limited) 500),
     [Calculator.format_prompt Calculator.prompt_template spec_expenses 20 (lit "Food")]).
Proof.
  refine (@App.calculate_expenses_upstream_failure (replying (Raise rate_limited))
            table_reader fragment_eval _ _ [] spec_csv 20 (lit "Food") spec_expenses
            rate_limited _ _ _ _ _ _);
    [reflexivity|vm_compute; reflexivity|reflexivity|discriminate|vm_compute; reflexivity|
     reflexivity].
Defined.



(** A reply in JSON, as the prompt asks, with [null] for an amount. *)
Definition json_reply : pystr :=
  lit "Sure: " ++ "{"%char :: PyLiteral.repr_val (PyStr (lit "Rent")) ++ lit ": " ++
  lit "null" ++ "}"%char :: lit " ok".

Lemma json_word_witness :
  @Calculator.extract_adjusted_expenses (replying (Ok json_reply)) table_reader fragment_eval
    (App.startup spec_env) spec_csv 20 (lit "Food") []
  = (Raise (NameError (lit "name 'null' is not defined")),
     [Calculator.format_prompt Calculator.prompt_template spec_expenses 20 (lit "Food")]).
Proof.
  refine (@Calculator.extract_adjusted_expenses_json_word (replying (Ok json_reply))
            table_reader fragment_eval (App.startup spec_env) spec_csv 20 (lit "Food") []
            spec_expenses (lit "Sure: ") (PyStr (lit "Rent")) (lit "null") (lit " ok")
            _ _ _ _ _);
    [vm_compute; reflexivity|reflexivity|py_decide|py_decide|py_decide].
Defined.

Lemma malformed_reply_witness :
  exists msg,
  @App.calculate_expenses (replying (Ok (lit "I cannot help with that."))) table_reader
    fragment_eval (App.startup spec_env) spec_request []
  = (Ok (App.JsonResponse (exc_str (SyntaxError msg)) 500),
     [Calculator.format_prompt Calculator.prompt_template spec_expenses 20 (lit "Food")]).
Proof.
  refine (@App.calculate_expenses_malformed_reply
            (replying (Ok (lit "I cannot help with that."))) table_reader fragment_eval
            _ _ [] spec_csv 20 (lit "Food") spec_expenses (lit "I cannot help with that.")
            _ _ _ _ _ _ _);
    [reflexivity|vm_compute; reflexivity|reflexivity|discriminate|vm_compute; reflexivity|
     reflexivity|py_decide].
Defined.

Lemma prompt_determines_witness :
  spec_expenses = spec_expenses /\ 20 = 20.
Proof.
  refine (Calculator.format_prompt_determines spec_expenses spec_expenses 20 20 (lit "Food") _).
  reflexivity.
Defined.

(** A reply that lists the adjusted amounts without their categories. *)
Definition set_reply : pystr :=
  lit "Adjusted: " ++ "{"%char :: PyLiteral.repr_elems [PyInt 860; PyInt 500] ++ "}"%char :: [].

Lemma set_reply_witness :
  @Calculator.extract_adjusted_expenses (replying (Ok set_reply)) table_reader fragment_eval
    (App.startup spec_env) spec_csv 20 (lit "Food") []
  = (Raise (AttributeError (lit "'set' object has no attribute 'items'")),
     [Calculator.format_prompt Calculator.prompt_template spec_expenses 20 (lit "Food")]).
Proof.
  refine (@Calculator.extract_adjusted_expenses_set_reply (replying (Ok set_reply))
            table_reader fragment_eval (App.startup spec_env) spec_csv 20 (lit "Food") []
            spec_expenses (lit "Adjusted: ") [PyInt 860; PyInt 500] [] _ _ _ _ _);
    [vm_compute; reflexivity|reflexivity|py_decide|py_decide|discriminate].
Defined.

End Scenario.
