(* ===== verification/Conformance.v ===== *)
(** * Conformance: the model against CPython on sample inputs

    Each example below states what the model computes on a concrete
    input, and the right-hand side is what CPython 3.11 (with its [csv]
    module and the [str.format] that [PromptTemplate] uses) prints on
    the same input: the extractor's [find]/[find]/slice, [repr] of
    strings and of floats, [int] on form fields, [csv.writer.writerow],
    [eval] of dict and set displays (float literals, equal keys and
    messages included), [pd.read_csv] with [sum] and [to_dict] (from
    pandas 2), and the prompt of the spec's
    scenario.  They are checked by evaluation; they are the tests that
    tie the definitions to the interpreter the code runs on. *)

From S2P Require Import Prelude Binary64 PyCore PyDict Extract CsvWriter Ingest PyLiteral Service Calculator.
Local Open Scope Z_scope.

Module Conformance.

(** [extract_expenses_string] on prose around the dict. *)
Example conf_extract_1 :
  Extractor.extract_expenses_string (lit "Sure! {'Rent': 860} Done.") = (lit "{'Rent': 860}").
Proof. vm_compute. reflexivity. Qed.

(** [extract_expenses_string] on two dicts: the first one. *)
Example conf_extract_2 :
  Extractor.extract_expenses_string (lit "{'a': 1} and {'b': 2}") = (lit "{'a': 1}").
Proof. vm_compute. reflexivity. Qed.

(** [extract_expenses_string] on a nested dict is cut at the inner '}'. *)
Example conf_extract_3 :
  Extractor.extract_expenses_string (lit "{'a': {'b': 1}}") = (lit "{'a': {'b': 1}").
Proof. vm_compute. reflexivity. Qed.

(** [extract_expenses_string] on no '{' but a final '}'. *)
Example conf_extract_4 :
  Extractor.extract_expenses_string (lit "no dict :}") = (lit "}").
Proof. vm_compute. reflexivity. Qed.

(** [extract_expenses_string] on '}' before '{' and no '}' after it. *)
Example conf_extract_5 :
  Extractor.extract_expenses_string (lit "}{") = [].
Proof. vm_compute. reflexivity. Qed.

(** [extract_expenses_string] on unclosed. *)
Example conf_extract_6 :
  Extractor.extract_expenses_string (lit "{'a': 1") = [].
Proof. vm_compute. reflexivity. Qed.

(** [repr] of a string: plain. *)
Example conf_repr_1 :
  PyLiteral.repr_str (lit "Rent") = (lit "'Rent'").
Proof. vm_compute. reflexivity. Qed.

(** [repr] of a string: a single quote switches to double quotes. *)
Example conf_repr_2 :
  PyLiteral.repr_str (lit "Kid's") = (["034"%char] ++ lit "Kid's" ++ ["034"%char]).
Proof. vm_compute. reflexivity. Qed.

(** [repr] of a string: double quotes only. *)
Example conf_repr_3 :
  PyLiteral.repr_str (lit "say " ++ ["034"%char] ++ lit "hi" ++ ["034"%char]) = (lit "'say " ++ ["034"%char] ++ lit "hi" ++ ["034"%char] ++ lit "'").
Proof. vm_compute. reflexivity. Qed.

(** [repr] of a string: both quotes: single quotes, escaped. *)
Example conf_repr_4 :
  PyLiteral.repr_str (lit "it's " ++ ["034"%char] ++ lit "x" ++ ["034"%char]) = (lit "'it\'s " ++ ["034"%char] ++ lit "x" ++ ["034"%char] ++ lit "'").
Proof. vm_compute. reflexivity. Qed.

(** [repr] of a string: backslash. *)
Example conf_repr_5 :
  PyLiteral.repr_str (lit "a\b") = (lit "'a\\b'").
Proof. vm_compute. reflexivity. Qed.

(** [repr] of a string: tab, LF, CR. *)
Example conf_repr_6 :
  PyLiteral.repr_str (["009"%char] ++ ["010"%char] ++ ["013"%char]) = (lit "'\t\n\r'").
Proof. vm_compute. reflexivity. Qed.

(** [repr] of a string: NUL and DEL. *)
Example conf_repr_7 :
  PyLiteral.repr_str (["000"%char] ++ ["127"%char]) = (lit "'\x00\x7f'").
Proof. vm_compute. reflexivity. Qed.

(** [repr] of a string: NBSP and soft hyphen are escaped. *)
Example conf_repr_8 :
  PyLiteral.repr_str (["160"%char] ++ ["173"%char]) = (lit "'\xa0\xad'").
Proof. vm_compute. reflexivity. Qed.

(** [repr] of a string: e-acute is printable. *)
Example conf_repr_9 :
  PyLiteral.repr_str (lit "caf" ++ ["233"%char]) = (lit "'caf" ++ ["233"%char] ++ lit "'").
Proof. vm_compute. reflexivity. Qed.

(** [int] on a form field: surrounding spaces. *)
Example conf_int_1 :
  py_int (lit " 20 ") = Some 20.
Proof. vm_compute. reflexivity. Qed.

(** [int] on a form field: underscore between digits. *)
Example conf_int_2 :
  py_int (lit "1_000") = Some 1000.
Proof. vm_compute. reflexivity. Qed.

(** [int] on a form field: double underscore. *)
Example conf_int_3 :
  py_int (lit "1__0") = None.
Proof. vm_compute. reflexivity. Qed.

(** [int] on a form field: leading zeros. *)
Example conf_int_4 :
  py_int (lit "007") = Some 7.
Proof. vm_compute. reflexivity. Qed.

(** [int] on a form field: explicit plus. *)
Example conf_int_5 :
  py_int (lit "+7") = Some 7.
Proof. vm_compute. reflexivity. Qed.

(** [int] on a form field: space after the sign. *)
Example conf_int_6 :
  py_int (lit "- 5") = None.
Proof. vm_compute. reflexivity. Qed.

(** [int] on a form field: a decimal point. *)
Example conf_int_7 :
  py_int (lit "12.5") = None.
Proof. vm_compute. reflexivity. Qed.

(** [int] on a form field: NBSP is skipped. *)
Example conf_int_8 :
  py_int (["160"%char] ++ lit "20") = Some 20.
Proof. vm_compute. reflexivity. Qed.

(** [int] on a form field: 0x1c is not skipped. *)
Example conf_int_9 :
  py_int (["028"%char] ++ lit "20") = None.
Proof. vm_compute. reflexivity. Qed.

(** [int] on a form field: empty. *)
Example conf_int_10 :
  py_int [] = None.
Proof. vm_compute. reflexivity. Qed.

(** [writerow] with plain. *)
Example conf_writerow_1 :
  CsvWriter.writerow [(lit "Rent"); (lit "860")] = (lit "Rent,860" ++ ["013"%char] ++ ["010"%char]).
Proof. vm_compute. reflexivity. Qed.

(** [writerow] with a comma. *)
Example conf_writerow_2 :
  CsvWriter.writerow [(lit "Rent, Food"); (lit "1")] = (["034"%char] ++ lit "Rent, Food" ++ ["034"%char] ++ lit ",1" ++ ["013"%char] ++ ["010"%char]).
Proof. vm_compute. reflexivity. Qed.

(** [writerow] with a double quote. *)
Example conf_writerow_3 :
  CsvWriter.writerow [(lit "5" ++ ["034"%char] ++ lit " screen"); (lit "1")] = (["034"%char] ++ lit "5" ++ ["034"%char] ++ ["034"%char] ++ lit " screen" ++ ["034"%char] ++ lit ",1" ++ ["013"%char] ++ ["010"%char]).
Proof. vm_compute. reflexivity. Qed.

(** [writerow] with a line break. *)
Example conf_writerow_4 :
  CsvWriter.writerow [(lit "a" ++ ["010"%char] ++ lit "b"); (lit "1")] = (["034"%char] ++ lit "a" ++ ["010"%char] ++ lit "b" ++ ["034"%char] ++ lit ",1" ++ ["013"%char] ++ ["010"%char]).
Proof. vm_compute. reflexivity. Qed.

(** [writerow] with the single empty field. *)
Example conf_writerow_5 :
  CsvWriter.writerow [[]] = (["034"%char] ++ ["034"%char] ++ ["013"%char] ++ ["010"%char]).
Proof. vm_compute. reflexivity. Qed.

(** [writerow] with two empty fields. *)
Example conf_writerow_6 :
  CsvWriter.writerow [[]; []] = (lit "," ++ ["013"%char] ++ ["010"%char]).
Proof. vm_compute. reflexivity. Qed.

(** [writerow] with spaces are kept. *)
Example conf_writerow_7 :
  CsvWriter.writerow [(lit " x "); (lit "1")] = (lit " x ,1" ++ ["013"%char] ++ ["010"%char]).
Proof. vm_compute. reflexivity. Qed.

(** [eval]: the expected reply. *)
Example conf_eval_1 :
  PyLiteral.py_eval (lit "{'Rent': 860, 'Food': 500}") = Some (Ok (ODict [(PyStr (lit "Rent"), PyInt 860); (PyStr (lit "Food"), PyInt 500)])).
Proof. vm_compute. reflexivity. Qed.

(** [eval]: JSON-style keys. *)
Example conf_eval_2 :
  PyLiteral.py_eval (lit "{" ++ ["034"%char] ++ lit "Rent" ++ ["034"%char] ++ lit ": 860}") = Some (Ok (ODict [(PyStr (lit "Rent"), PyInt 860)])).
Proof. vm_compute. reflexivity. Qed.

(** [eval]: a repeated key: last value, first position. *)
Example conf_eval_3 :
  PyLiteral.py_eval (lit "{'a': 1, 'a': 2, 'b': 3}") = Some (Ok (ODict [(PyStr (lit "a"), PyInt 2); (PyStr (lit "b"), PyInt 3)])).
Proof. vm_compute. reflexivity. Qed.

(** [eval]: spaces and a trailing comma. *)
Example conf_eval_4 :
  PyLiteral.py_eval (lit "{ 'a' :1 ,}") = Some (Ok (ODict [(PyStr (lit "a"), PyInt 1)])).
Proof. vm_compute. reflexivity. Qed.

(** [eval]: signs. *)
Example conf_eval_5 :
  PyLiteral.py_eval (lit "{'a': -5, 'b': +3}") = Some (Ok (ODict [(PyStr (lit "a"), PyInt (-5)); (PyStr (lit "b"), PyInt 3)])).
Proof. vm_compute. reflexivity. Qed.

(** [eval]: JSON null. *)
Example conf_eval_6 :
  PyLiteral.py_eval (lit "{'a': null}") = Some (Raise (NameError (lit "name 'null' is not defined"))).
Proof. vm_compute. reflexivity. Qed.

(** [eval]: the empty extraction. *)
Example conf_eval_7 :
  PyLiteral.py_eval [] = Some (Raise (SyntaxError (lit "invalid syntax (<string>, line 0)"))).
Proof. vm_compute. reflexivity. Qed.

(** [eval]: a lone closing brace. *)
Example conf_eval_8 :
  PyLiteral.py_eval (lit "}") = Some (Raise (SyntaxError (lit "unmatched '}' (<string>, line 1)"))).
Proof. vm_compute. reflexivity. Qed.

(** [eval]: a set display of one amount. *)
Example conf_eval_set_1 :
  PyLiteral.py_eval (lit "{860}") = Some (Ok (OSet [PyInt 860])).
Proof. vm_compute. reflexivity. Qed.

(** [eval]: a repeated element is kept once. *)
Example conf_eval_set_2 :
  PyLiteral.py_eval (lit "{500, 500}") = Some (Ok (OSet [PyInt 500])).
Proof. vm_compute. reflexivity. Qed.

(** [repr] of floats: CPython's shortest round-tripping digits, with
    positional notation for exponents in [-4, 16) and scientific outside. *)
Example conf_float_repr_1 :
  map (fun me => repr_float <$> mk_f64 false me.1 me.2)
    [(7564552038168658, -43); (7205759403792794, -56); (4503599627370496, -52);
     (5629499534213120, -51); (7378697629483821, -66); (5902958103587057, -69);
     (5000000000000000, 1); (4768371582031250, 21); (7716049313271605, 4)]
  = Some <$> [lit "859.99"; lit "0.1"; lit "1.0"; lit "2.5"; lit "0.0001"; lit "1e-05";
             lit "1e+16"; lit "1e+22"; lit "1.2345678901234568e+17"].
Proof. vm_compute. reflexivity. Qed.

(** [repr] of the signed zeros and of the least subnormal. *)
Example conf_float_repr_2 :
  [repr_float (f64_zero false); repr_float (f64_zero true); repr_float (F64 true 1 (-1074) eq_refl)]
  = [lit "0.0"; lit "-0.0"; lit "-5e-324"].
Proof. vm_compute. reflexivity. Qed.

(** [eval] of float amounts: [859.99] is the double CPython reads. *)
Example conf_eval_float_1 :
  PyLiteral.py_eval (lit "{'Rent': 859.99, 'Food': 1E3}")
  = Some (Ok (ODict [(PyStr (lit "Rent"), PyFloat (F64 false 7564552038168658 (-43) eq_refl)); (PyStr (lit "Food"), PyFloat (F64 false 8796093022208000 (-43) eq_refl))])).
Proof. vm_compute. reflexivity. Qed.

(** [eval] of a dict whose keys [1] and [1.0] are equal in Python: one
    entry, at the first key's position, with the last value. *)
Example conf_eval_float_2 :
  PyLiteral.py_eval (lit "{'a': 1_000.5e-1, 1: 2, 1.0: 3}")
  = Some (Ok (ODict [(PyStr (lit "a"), PyFloat (F64 false 7040392854975283 (-46) eq_refl)); (PyInt 1, PyInt 3)])).
Proof. vm_compute. reflexivity. Qed.

(** [writerow] of a float amount: [str] is [repr]. *)
Example conf_writerow_float :
  CsvWriter.expense_row (PyStr (lit "Rent"), PyFloat (F64 false 7564552038168658 (-43) eq_refl)) = lit "Rent,859.99" ++ [CsvWriter.CR; CsvWriter.LF].
Proof. vm_compute. reflexivity. Qed.

(** [pd.read_csv(...).sum(axis=0).to_dict()] on the spec's file. *)
Example conf_read_csv_1 :
  Ingest.parse_csv_to_expenses IngestWitness.spec_reader
    (lit "Rent,Food" ++ [CsvWriter.LF] ++ lit "1000,400" ++ [CsvWriter.LF] ++ lit "200,100")
  = Ok [(PyStr (lit "Rent"), PyInt 1200); (PyStr (lit "Food"), PyInt 500)].
Proof. vm_compute. reflexivity. Qed.

(** A quoted label with a comma, CR LF line ends and a blank line. *)
Example conf_read_csv_2 :
  Ingest.parse_csv_to_expenses IngestWitness.spec_reader
    ([CsvWriter.DQ] ++ lit "Rent, Home" ++ [CsvWriter.DQ] ++ lit ",Food" ++ [CsvWriter.CR; CsvWriter.LF]
     ++ [CsvWriter.CR; CsvWriter.LF] ++ lit "1000,400" ++ [CsvWriter.CR; CsvWriter.LF])
  = Ok [(PyStr (lit "Rent, Home"), PyInt 1000); (PyStr (lit "Food"), PyInt 400)].
Proof. vm_compute. reflexivity. Qed.

(** The service's own output read back: an object column concatenates. *)
Example conf_read_csv_3 :
  Ingest.parse_csv_to_expenses IngestWitness.spec_reader
    (lit "Category,Amount" ++ [CsvWriter.CR; CsvWriter.LF] ++ lit "Rent,860"
     ++ [CsvWriter.CR; CsvWriter.LF] ++ lit "Food,500" ++ [CsvWriter.CR; CsvWriter.LF])
  = Ok [(PyStr (lit "Category"), PyStr (lit "RentFood")); (PyStr (lit "Amount"), PyInt 1360)].
Proof. vm_compute. reflexivity. Qed.

(** An empty upload: pandas' [EmptyDataError]. *)
Example conf_read_csv_4 :
  Ingest.read_table [] = Some (Raise (EmptyDataError (lit "No columns to parse from file"))).
Proof. vm_compute. reflexivity. Qed.

(** The prompt of the spec's scenario, as [PromptTemplate.format] writes it. *)
Example conf_prompt :
  Calculator.format_prompt Calculator.prompt_template
    [(PyStr (lit "Rent"), PyInt 1200); (PyStr (lit "Food"), PyInt 500)] 20 (lit "Food") =
    [] ++ ["010"%char] ++
    (lit "            Create a savings plan based on monthly expenses where the user wants to save a specified percentage of their total expenses, excluding Food from adjustment but including it in the total expense calculation.") ++ ["010"%char] ++
    [] ++ ["010"%char] ++
    (lit "            Given:") ++ ["010"%char] ++
    [] ++ ["010"%char] ++
    (lit "            Monthly expenses: {'Rent': 1200, 'Food': 500}") ++ ["010"%char] ++
    (lit "            Savings goal: 20%") ++ ["010"%char] ++
    (lit "            Calculate:") ++ ["010"%char] ++
    [] ++ ["010"%char] ++
    (lit "            The total amount the user should save per month.") ++ ["010"%char] ++
    (lit "            Adjust the expenses proportionally, excluding Food, to meet the savings goal.") ++ ["010"%char] ++
    (lit "            Provide the updated expenses in JSON format after adjustment.") ++ ["010"%char] ++
    [] ++ ["010"%char] ++
    (lit "            Example:") ++ ["010"%char] ++
    (lit "            If expenses are:") ++ ["010"%char] ++
    (lit "            {'Rent': 1200, 'Food': 500}") ++ ["010"%char] ++
    (lit "            And the savings goal is 20%, the adjusted expenses should reflect proportional reductions in the expenses categories while Food remain unchanged in the JSON format.") ++ ["010"%char] ++
    [] ++ ["010"%char] ++
    (lit "            The updated expenses as follows:") ++ ["010"%char] ++
    (lit "            ").
Proof. vm_compute. reflexivity. Qed.

End Conformance.
